(** * lammps-reaper: the validation pipeline and the generation loop

    A shallow embedding of the Python sources under [lammps_reaper]
    ([validation/l0_placeholders.py], [validation/l1_syntax.py],
    [validation/l2_engine.py], [validation/l3_physics.py],
    [validation/file_utils.py], [validation/__init__.py], [generator.py],
    [provider.py], [discovery.py])
    together with the properties of the specification that concern them, and
    further properties of the code.

    Conventions of the embedding.
    - A Python [str] is a [string]; a character is a code point below 256
      (Latin-1), classified as Python classifies it.
    - A Python [float] is a binary64 value of [spec_float].
    - A Python [int] is a [Z]; line numbers and counts are [nat].
    - A [set] is a duplicate-free list in insertion order; the order in which
      Python iterates over it is a parameter.
    - The engine subprocess, the language model, the API client, the clock,
      the order of a directory listing, whether a path is a symbolic link and
      the reading of JSON text are oracles. *)

From Stdlib Require Import ZArith Lia Bool Ascii String List.
From Stdlib Require Import Floats.SpecFloat.
From Stdlib Require Import Numbers.DecimalString Numbers.DecimalNat.
From Stdlib Require Import Sorting.Sorted.
From stdpp Require Import gmap strings list.

Local Open Scope Z_scope.
Local Open Scope nat_scope.

(** ** Python string primitives *)

Module Py.

Definition ord (c : ascii) : N := N_of_ascii c.

Definition between (lo hi : N) (c : ascii) : bool :=
  ((lo <=? ord c) && (ord c <=? hi))%N.

(** [str.isspace] on one code point below 256. *)
Definition isspace (c : ascii) : bool :=
  between 9 13 c || between 28 32 c || (ord c =? 133)%N || (ord c =? 160)%N.

Definition isdigit (c : ascii) : bool := between 48 57 c.
Definition isupper_az (c : ascii) : bool := between 65 90 c.
Definition islower_az (c : ascii) : bool := between 97 122 c.

(** [str.isalnum] on one code point below 256: letters, decimal digits and
    the Latin-1 characters with a numeric value. *)
Definition isalnum (c : ascii) : bool :=
  isdigit c || isupper_az c || islower_az c
  || (ord c =? 170)%N || between 178 179 c || (ord c =? 181)%N
  || between 185 186 c || between 188 190 c
  || between 192 214 c || between 216 246 c || between 248 255 c.

(** [str.lower] on one code point below 256. *)
Definition lower_chr (c : ascii) : ascii :=
  if isupper_az c || (between 192 222 c && negb (ord c =? 215)%N)
  then ascii_of_N (ord c + 32) else c.

(** [str.upper] restricted to a-z (used on pattern-type names only). *)
Definition upper_chr (c : ascii) : ascii :=
  if islower_az c then ascii_of_N (ord c - 32) else c.

Fixpoint map_chr (f : ascii -> ascii) (s : string) : string :=
  match s with
  | EmptyString => EmptyString
  | String c r => String (f c) (map_chr f r)
  end.

Definition lower (s : string) : string := map_chr lower_chr s.
Definition upper (s : string) : string := map_chr upper_chr s.

Definition len (s : string) : nat := String.length s.

Definition is_empty (s : string) : bool :=
  match s with EmptyString => true | _ => false end.

(** [s[:n]] *)
Fixpoint take (n : nat) (s : string) : string :=
  match n, s with
  | S n', String c r => String c (take n' r)
  | _, _ => EmptyString
  end.

(** [s[n:]] *)
Fixpoint drop (n : nat) (s : string) : string :=
  match n, s with
  | S n', String _ r => drop n' r
  | _, _ => s
  end.

(** [s.startswith(p)] *)
Fixpoint startswith (p s : string) : bool :=
  match p, s with
  | EmptyString, _ => true
  | String a p', String b s' => Ascii.eqb a b && startswith p' s'
  | String _ _, EmptyString => false
  end.

(** [sub in s] *)
Fixpoint contains (sub s : string) : bool :=
  startswith sub s ||
  match s with
  | EmptyString => false
  | String _ r => contains sub r
  end.

(** [s.endswith(p)] *)
Definition endswith (p s : string) : bool :=
  (len p <=? len s) && String.eqb (drop (len s - len p) s) p.

(** [s.count(c)] for a one-character [c]. *)
Fixpoint count (c : ascii) (s : string) : nat :=
  match s with
  | EmptyString => 0
  | String d r => (if Ascii.eqb d c then 1 else 0) + count c r
  end.

Fixpoint lstrip (s : string) : string :=
  match s with
  | String c r => if isspace c then lstrip r else s
  | EmptyString => EmptyString
  end.

Fixpoint rstrip (s : string) : string :=
  match s with
  | EmptyString => EmptyString
  | String c r =>
      match rstrip r with
      | EmptyString => if isspace c then EmptyString else String c EmptyString
      | r' => String c r'
      end
  end.

(** [s.strip()] *)
Definition strip (s : string) : string := rstrip (lstrip s).

(** [s.split(sep)] for a one-character separator: never empty. *)
Fixpoint split_on (sep : ascii) (s : string) : list string :=
  match s with
  | EmptyString => [EmptyString]
  | String c r =>
      if Ascii.eqb c sep then EmptyString :: split_on sep r
      else match split_on sep r with
           | h :: t => String c h :: t
           | [] => [String c EmptyString]
           end
  end.

(** [s.split()]: the maximal runs of non-space characters. *)
Fixpoint split (s : string) : list string :=
  match s with
  | EmptyString => []
  | String c r =>
      if isspace c then split r
      else match r with
           | EmptyString => [String c EmptyString]
           | String c' _ =>
               if isspace c' then String c EmptyString :: split r
               else match split r with
                    | h :: t => String c h :: t
                    | [] => [String c EmptyString]
                    end
           end
  end.

(** [sep.join(l)] *)
Definition join (sep : string) (l : list string) : string := String.concat sep l.

(** [str(n)] for an [int]. *)
Definition str_of_Z (z : Z) : string := NilEmpty.string_of_int (Z.to_int z).
Definition str_of_nat (n : nat) : string := NilEmpty.string_of_uint (Nat.to_uint n).

(** [enumerate(l, start)] *)
Fixpoint enumerate {A : Type} (start : nat) (l : list A) : list (nat * A) :=
  match l with
  | [] => []
  | x :: r => (start, x) :: enumerate (S start) r
  end.

(** [s.replace(a, b)] for a one-character [a]. *)
Fixpoint replace_chr (a : ascii) (b : string) (s : string) : string :=
  match s with
  | EmptyString => EmptyString
  | String c r =>
      if Ascii.eqb c a then String.append b (replace_chr a b r)
      else String c (replace_chr a b r)
  end.

(** [sorted(l)] on strings: insertion sort by code point order. *)
Fixpoint insert_sorted (x : string) (l : list string) : list string :=
  match l with
  | [] => [x]
  | y :: r => if String.leb x y then x :: l else y :: insert_sorted x r
  end.

Definition sorted (l : list string) : list string :=
  fold_right insert_sorted [] l.

End Py.

(** ** Regular expressions

    The patterns of the sources use literals, character classes, greedy and
    lazy repetition of one class, sequence, alternation, capturing groups,
    [\b] and [$]. [rmatch] is a backtracking matcher in continuation-passing
    style: alternatives are tried in Python's priority order, so the first
    success is the match Python reports. *)

Module Re.

Inductive regex : Type :=
| Lit (s : string)                                   (* literal text *)
| Cls (p : ascii -> bool)                            (* one character of a class *)
| Rep (p : ascii -> bool) (lo : nat) (greedy : bool) (* class{lo,} or class{lo,}? *)
| Seq (r1 r2 : regex)
| Alt (r1 r2 : regex)
| Grp (r : regex)                                    (* capturing group *)
| WordB                                              (* \b *)
| Eos.                                               (* $ *)

(** A match: the text matched, the captured groups in order, what follows. *)
Record mobj := { group0 : string; groups : list string; after : string }.

Definition is_word (c : ascii) : bool := Py.isalnum c || Ascii.eqb c "_".
Definition is_word_opt (o : option ascii) : bool :=
  match o with Some c => is_word c | None => false end.
Definition head_chr (s : string) : option ascii :=
  match s with String c _ => Some c | EmptyString => None end.

(** Classes of the sources. *)
Definition space (c : ascii) : bool := Py.isspace c.          (* \s *)
Definition nonspace (c : ascii) : bool := negb (Py.isspace c). (* \S *)
Definition digit (c : ascii) : bool := Py.isdigit c.           (* \d *)
Definition word (c : ascii) : bool := is_word c.               (* \w *)
Definition dot (c : ascii) : bool := negb (Ascii.eqb c "010"). (* . *)
Definition name_start (c : ascii) : bool :=                    (* [A-Z_] *)
  Py.isupper_az c || Ascii.eqb c "_".
Definition name_char (c : ascii) : bool :=                     (* [A-Z0-9_] *)
  Py.isupper_az c || Py.isdigit c || Ascii.eqb c "_".
Definition number_char (c : ascii) : bool :=                   (* [\d.eE+-] *)
  Py.isdigit c || Ascii.eqb c "." || Ascii.eqb c "e" || Ascii.eqb c "E"
  || Ascii.eqb c "+" || Ascii.eqb c "-".

Section Matcher.
Variable ignorecase : bool.
Context {R : Type}.

Definition chr_eq (a b : ascii) : bool :=
  if ignorecase then Ascii.eqb (Py.lower_chr a) (Py.lower_chr b)
  else Ascii.eqb a b.

Fixpoint match_lit (lit : string) (prev : option ascii) (s : string)
  : option (option ascii * string) :=
  match lit, s with
  | EmptyString, _ => Some (prev, s)
  | String a lit', String b s' =>
      if chr_eq a b then match_lit lit' (Some b) s' else None
  | String _ _, EmptyString => None
  end.

(** Greedy [p{lo,}]: take as many as possible, give back on failure. *)
Fixpoint rep_greedy (p : ascii -> bool) (k : option ascii -> string -> option R)
  (lo : nat) (prev : option ascii) (s : string) : option R :=
  match s with
  | String c r =>
      if p c then
        match rep_greedy p k (Nat.pred lo) (Some c) r with
        | Some x => Some x
        | None => if Nat.eqb lo 0 then k prev s else None
        end
      else if Nat.eqb lo 0 then k prev s else None
  | EmptyString => if Nat.eqb lo 0 then k prev s else None
  end.

(** Lazy [p{lo,}?]: take as few as possible, extend on failure. *)
Fixpoint rep_lazy (p : ascii -> bool) (k : option ascii -> string -> option R)
  (lo : nat) (prev : option ascii) (s : string) : option R :=
  let more :=
    match s with
    | String c r => if p c then rep_lazy p k (Nat.pred lo) (Some c) r else None
    | EmptyString => None
    end in
  if Nat.eqb lo 0 then
    match k prev s with
    | Some x => Some x
    | None => more
    end
  else more.

Fixpoint rmatch (r : regex) (prev : option ascii) (s : string) (gs : list string)
  (k : option ascii -> string -> list string -> option R) : option R :=
  match r with
  | Lit l =>
      match match_lit l prev s with
      | Some (prev', s') => k prev' s' gs
      | None => None
      end
  | Cls p =>
      match s with
      | String c s' => if p c then k (Some c) s' gs else None
      | EmptyString => None
      end
  | Rep p lo greedy =>
      (if greedy then rep_greedy else rep_lazy) p (fun pv s' => k pv s' gs) lo prev s
  | Seq r1 r2 =>
      rmatch r1 prev s gs (fun pv s' gs' => rmatch r2 pv s' gs' k)
  | Alt r1 r2 =>
      match rmatch r1 prev s gs k with
      | Some x => Some x
      | None => rmatch r2 prev s gs k
      end
  | Grp r1 =>
      rmatch r1 prev s gs
        (fun pv s' gs' => k pv s' (gs' ++ [Py.take (Py.len s - Py.len s') s]))
  | WordB =>
      if xorb (is_word_opt prev) (is_word_opt (head_chr s)) then k prev s gs else None
  | Eos =>
      match s with
      | EmptyString | String "010" EmptyString => k prev s gs
      | _ => None
      end
  end.
End Matcher.

(** The match starting exactly here, if any. *)
Definition match_here (ic : bool) (r : regex) (prev : option ascii) (s : string)
  : option mobj :=
  rmatch ic r prev s []
    (fun _ s' gs =>
       Some {| group0 := Py.take (Py.len s - Py.len s') s; groups := gs; after := s' |}).

(** [re.match(r, s)] *)
Definition re_match (ic : bool) (r : regex) (s : string) : option mobj :=
  match_here ic r None s.

(** [re.search(r, s)]: the leftmost match. *)
Fixpoint search_from (ic : bool) (r : regex) (prev : option ascii) (s : string)
  : option mobj :=
  match match_here ic r prev s with
  | Some m => Some m
  | None =>
      match s with
      | String c s' => search_from ic r (Some c) s'
      | EmptyString => None
      end
  end.

Definition re_search (ic : bool) (r : regex) (s : string) : option mobj :=
  search_from ic r None s.

(** [re.finditer(r, s)] for patterns that match no empty text: leftmost
    matches, each search resuming where the previous match ended ([skip]
    counts the characters of the current match still to pass over). *)
Fixpoint finditer_from (ic : bool) (r : regex) (prev : option ascii) (skip : nat)
  (s : string) : list mobj :=
  match s with
  | EmptyString => []
  | String c s' =>
      match skip with
      | S k => finditer_from ic r (Some c) k s'
      | O =>
          match match_here ic r prev s with
          | Some m => m :: finditer_from ic r (Some c) (Py.len (group0 m) - 1) s'
          | None => finditer_from ic r (Some c) 0 s'
          end
      end
  end.

Definition re_finditer (ic : bool) (r : regex) (s : string) : list mobj :=
  finditer_from ic r None 0 s.

Definition group (n : nat) (m : mobj) : string :=
  match n with
  | O => group0 m
  | S i => nth i (groups m) EmptyString
  end.

End Re.

(** ** Python floats: binary64 *)

Module PyFloat.

Definition float : Type := spec_float.
Definition prec : Z := 53%Z.
Definition emax : Z := 1024%Z.

Definition isnan (x : float) : bool :=
  match x with S754_nan => true | _ => false end.
Definition isinf (x : float) : bool :=
  match x with S754_infinity _ => true | _ => false end.

Definition ltb (x y : float) : bool := SFltb x y.            (* x < y *)
Definition gtb (x y : float) : bool := SFltb y x.            (* x > y *)
Definition eqb (x y : float) : bool := SFeqb x y.            (* x == y *)
Definition neb (x y : float) : bool := negb (SFeqb x y).     (* x != y *)
Definition abs (x : float) : float := SFabs x.
Definition sub (x y : float) : float := SFsub prec emax x y.
Definition mul (x y : float) : float := SFmul prec emax x y.
Definition div (x y : float) : float := SFdiv prec emax x y. (* y is never zero at the call sites *)

Definition of_Z (z : Z) : float := binary_normalize prec emax z 0 false.

(** The value of the decimal [(-1)^neg * m * 10^e10], correctly rounded. *)
Definition of_decimal (neg : bool) (m : Z) (e10 : Z) : float :=
  match m with
  | Zpos p =>
      if (0 <=? e10)%Z
      then binary_normalize prec emax ((if neg then Zneg p else Zpos p) * 10 ^ e10) 0 false
      else match (10 ^ (- e10))%Z with
           | Zpos d => SFdiv prec emax (S754_finite neg p 0) (S754_finite false d 0)
           | _ => S754_nan
           end
  | _ => S754_zero neg
  end.

(** Underscores may only stand between two digits. *)
Fixpoint strip_underscores (prev : ascii) (s : string) : option string :=
  match s with
  | EmptyString => if Ascii.eqb prev "_" then None else Some EmptyString
  | String c r =>
      if Ascii.eqb c "_" then
        if Py.isdigit prev then strip_underscores c r else None
      else if Ascii.eqb prev "_" && negb (Py.isdigit c) then None
      else option_map (String c) (strip_underscores c r)
  end.

Definition digit_val (c : ascii) : Z := (Z.of_N (Py.ord c) - 48)%Z.

(** The longest prefix of digits: its value on top of [acc], its length, the rest. *)
Fixpoint span_digits (s : string) (acc : Z) (n : nat) : Z * nat * string :=
  match s with
  | String c r =>
      if Py.isdigit c then span_digits r (acc * 10 + digit_val c)%Z (S n)
      else (acc, n, s)
  | EmptyString => (acc, n, s)
  end.

Definition take_sign (s : string) : bool * string :=
  match s with
  | String "-" r => (true, r)
  | String "+" r => (false, r)
  | _ => (false, s)
  end.

(** digits [. digits] [(e|E) [sign] digits], at least one mantissa digit. *)
Definition parse_decimal (s : string) : option (Z * Z) :=
  let '(ip, ni, r1) := span_digits s 0%Z 0 in
  let '(m, nf, r2) :=
    match r1 with
    | String "." r => span_digits r ip 0
    | _ => (ip, 0, r1)
    end in
  if Nat.eqb (ni + nf) 0 then None
  else match r2 with
       | EmptyString => Some (m, (- Z.of_nat nf)%Z)
       | String c r3 =>
           if Ascii.eqb c "e" || Ascii.eqb c "E" then
             let '(eneg, r4) := take_sign r3 in
             let '(ev, ne, r5) := span_digits r4 0%Z 0 in
             if Nat.eqb ne 0 then None
             else if Py.is_empty r5
                  then Some (m, ((if eneg then - ev else ev) - Z.of_nat nf)%Z)
                  else None
           else None
       end.

(** [float(s)] for a string; [None] is [ValueError]. *)
Definition of_string (s : string) : option float :=
  match strip_underscores "000" (Py.strip s) with
  | None => None
  | Some t =>
      let '(neg, body) := take_sign t in
      let low := Py.lower body in
      if String.eqb low "inf" || String.eqb low "infinity" then Some (S754_infinity neg)
      else if String.eqb low "nan" then Some S754_nan
      else match parse_decimal body with
           | Some (m, e10) => Some (of_decimal neg m e10)
           | None => None
           end
  end.

(** A float literal of the sources, read as Python reads it. *)
Definition lit (s : string) : float :=
  match of_string s with Some x => x | None => S754_nan end.

(** [int(x)]: truncation; [None] is the exception raised on NaN or infinity. *)
Definition to_int (x : float) : option Z :=
  match x with
  | S754_zero _ => Some 0%Z
  | S754_finite s m e =>
      let a := match e with
               | Zneg k => Z.shiftr (Zpos m) (Zpos k)
               | _ => Z.shiftl (Zpos m) e
               end in
      Some (if s then (- a)%Z else a)
  | _ => None
  end.

End PyFloat.

(** ** schemas.py *)

Module L0Result.
Record t := mk {
  passed : bool;
  placeholders_found : list string;
  unresolved_count : nat;
  details : list string }.
End L0Result.

Module L1Result.
Record t := mk {
  passed : bool;
  syntax_errors : list string;
  physics_warnings : list string;
  line_numbers : list nat;
  details : list string }.
End L1Result.

Module L2Result.
Record t := mk {
  passed : bool;
  engine_output : string;
  return_code : Z;
  execution_time : PyFloat.float;
  details : list string }.
End L2Result.

Module ThermoData.
Record t := mk {
  step : Z;
  temp : option PyFloat.float;
  press : option PyFloat.float;
  pe : option PyFloat.float;
  ke : option PyFloat.float;
  etotal : option PyFloat.float }.
(** [ThermoData()] *)
Definition default : t := mk 0%Z None None None None None.
End ThermoData.

Module L3Result.
Record t := mk {
  passed : bool;
  engine_output : string;
  return_code : Z;
  execution_time : PyFloat.float;
  steps_run : Z;
  thermo_data : list ThermoData.t;
  thermo_warnings : list string;
  details : list string }.
End L3Result.

Module ValidationResult.
Record t := mk {
  overall_passed : bool;
  l0 : L0Result.t;
  l1 : L1Result.t;
  l2 : L2Result.t;
  l3 : L3Result.t;
  issues : list string }.
End ValidationResult.

Module GenerationAttempt.
Record t := mk {
  attempt_number : nat;
  deck_content : string;
  validation_passed : bool;
  errors : list string;
  fixes_applied : list string }.
End GenerationAttempt.

(** ** validation/l0_placeholders.py *)

Definition nl : ascii := "010"%char.   (* the newline character *)
Definition dq : ascii := "034"%char.   (* the double quote character *)

Module L0.
Import Re.

(** The pattern [\{\{(NAME)\}\}], where NAME is [[A-Z_][A-Z0-9_]*]. *)
Definition re_double_brace : regex :=
  Seq (Lit "{{") (Seq (Grp (Seq (Cls name_start) (Rep name_char 0 true))) (Lit "}}")).

(** The pattern [<(NAME)>], where NAME is [[A-Z_][A-Z0-9_]*]. *)
Definition re_angle_bracket : regex :=
  Seq (Lit "<") (Seq (Grp (Seq (Cls name_start) (Rep name_char 0 true))) (Lit ">")).

(** The pattern [\bKEYWORD:\s*(.+?)(?:\n|$)]. *)
Definition re_marker (keyword : string) : regex :=
  Seq WordB (Seq (Lit (keyword +:+ ":")) (Seq (Rep space 0 true)
    (Seq (Grp (Rep dot 1 false)) (Alt (Lit (String nl EmptyString)) Eos)))).

Definition PLACEHOLDER_PATTERNS : list (regex * string) :=
  [ (re_double_brace, "double_brace");
    (re_angle_bracket, "angle_bracket");
    (re_marker "TODO", "todo");
    (re_marker "FIXME", "fixme");
    (re_marker "XXX", "xxx") ].

(** [x in (a, b, ...)] on strings. *)
Definition str_in (x : string) (l : list string) : bool := existsb (String.eqb x) l.

(** The source also computes [is_comment] for each line and never uses it. *)
Definition _find_placeholders (content : string) : list (string * string * nat) :=
  flat_map (fun '(line_num, line) =>
    flat_map (fun '(pattern, pattern_type) =>
      let matches :=
        if str_in pattern_type ["todo"; "fixme"; "xxx"]
        then re_finditer true pattern line
        else re_finditer false pattern line in
      map (fun m => (group0 m, pattern_type, line_num)) matches)
    PLACEHOLDER_PATTERNS)
  (Py.enumerate 1 (Py.split_on nl content)).

Definition validate_l0 (content : string) : L0Result.t :=
  let placeholders := _find_placeholders content in
  let template_placeholders :=
    List.filter (fun p => str_in (snd (fst p)) ["double_brace"; "angle_bracket"]) placeholders in
  let markers :=
    List.filter (fun p => str_in (snd (fst p)) ["todo"; "fixme"; "xxx"]) placeholders in
  let details1 :=
    map (fun '(placeholder_text, pattern_type, line_num) =>
           "Line " +:+ Py.str_of_nat line_num +:+ ": Unresolved placeholder " +:+ placeholder_text)
        template_placeholders in
  let details2 :=
    map (fun '(marker_text, pattern_type, line_num) =>
           "Line " +:+ Py.str_of_nat line_num +:+ ": " +:+ Py.upper pattern_type
           +:+ " marker found: " +:+ marker_text)
        markers in
  let passed := Nat.eqb (length template_placeholders) 0 in
  L0Result.mk passed
    (map (fun p => fst (fst p)) template_placeholders ++ map (fun p => fst (fst p)) markers)
    (length template_placeholders)
    (details1 ++ details2).

End L0.

(** ** validation/l1_syntax.py *)

Module L1.
Import Re.
Import PyFloat.

Definition TIMESTEP_RANGES : gmap string (float * float) :=
  list_to_map
    [ ("lj", (lit "0.0001", lit "0.01"));
      ("real", (lit "0.1", lit "10.0"));
      ("metal", (lit "0.0001", lit "0.01"));
      ("si", (lit "1e-18", lit "1e-14"));
      ("cgs", (lit "1e-18", lit "1e-14"));
      ("electron", (lit "0.0001", lit "0.01"));
      ("micro", (lit "0.1", lit "100.0"));
      ("nano", (lit "0.0001", lit "1.0")) ].

Definition TEMPERATURE_RANGES : gmap string (float * float) :=
  list_to_map
    [ ("lj", (lit "0.01", lit "10.0"));
      ("real", (lit "1.0", lit "10000.0"));
      ("metal", (lit "1.0", lit "10000.0"));
      ("si", (lit "1.0", lit "10000.0"));
      ("cgs", (lit "1.0", lit "10000.0"));
      ("electron", (lit "1.0", lit "10000.0"));
      ("micro", (lit "1.0", lit "10000.0"));
      ("nano", (lit "1.0", lit "10000.0")) ].

(** In iteration (insertion) order. *)
Definition REQUIRED_COMMANDS : list (string * string) :=
  [ ("units", "No 'units' command found - required for defining unit system");
    ("atom_style", "No 'atom_style' command found - required for defining atom properties") ].

Definition STRUCTURE_COMMANDS : list string :=
  ["read_data"; "read_restart"; "create_box"; "create_atoms"].

Definition VALID_UNITS : list string :=
  ["lj"; "real"; "metal"; "si"; "cgs"; "electron"; "micro"; "nano"].

Definition VALID_ATOM_STYLES : list string :=
  [ "atomic"; "angle"; "bond"; "charge"; "dipole"; "dpd"; "edpd"; "mdpd"; "tdpd";
    "electron"; "ellipsoid"; "full"; "line"; "meso"; "molecular"; "peri"; "smd";
    "sphere"; "spin"; "template"; "tri"; "wavepacket"; "hybrid" ].

Definition str_in (x : string) (l : list string) : bool := existsb (String.eqb x) l.

Definition _parse_command (line : string) : option (string * list string) :=
  let line := Py.strip (hd EmptyString (Py.split_on "#" line)) in
  if Py.is_empty line then None
  else match Py.split line with
       | [] => None
       | p0 :: rest => Some (Py.lower p0, rest)
       end.

Definition _check_required_commands (commands_found : gset string)
  : list (string * string) :=
  flat_map (fun '(cmd, message) =>
    if bool_decide (cmd ∈ commands_found) then [] else [("missing_required", message)])
    REQUIRED_COMMANDS.

Definition _check_structure_commands (commands_found : gset string)
  : list (string * string) :=
  let has_structure :=
    existsb (fun cmd => bool_decide (cmd ∈ commands_found)) STRUCTURE_COMMANDS in
  if has_structure then []
  else [("missing_structure",
         "No structure command found - need one of: "
         +:+ Py.join ", " (Py.sorted STRUCTURE_COMMANDS))].

Definition _check_pair_definitions (commands_found : gset string)
  : list (string * string) :=
  let has_pair_style := bool_decide ("pair_style" ∈ commands_found) in
  let has_pair_coeff := bool_decide ("pair_coeff" ∈ commands_found) in
  if has_pair_style && negb has_pair_coeff then
    [("missing_pair_coeff", "pair_style defined but no pair_coeff found")]
  else if has_pair_coeff && negb has_pair_style then
    [("missing_pair_style", "pair_coeff defined but no pair_style found")]
  else [].

Definition _validate_units_command (args : list string) : option string :=
  match args with
  | [] => Some "units command requires a unit system argument"
  | a0 :: _ =>
      let unit_system := Py.lower a0 in
      if negb (str_in unit_system VALID_UNITS) then
        Some ("Unknown unit system '" +:+ unit_system +:+ "' - valid options: "
              +:+ Py.join ", " (Py.sorted VALID_UNITS))
      else None
  end.

Definition _validate_atom_style_command (args : list string) : option string :=
  match args with
  | [] => Some "atom_style command requires a style argument"
  | a0 :: _ =>
      let style := Py.lower a0 in
      if negb (str_in style VALID_ATOM_STYLES) then
        Some ("Unknown atom style '" +:+ style
              +:+ "' - check LAMMPS documentation for valid styles")
      else None
  end.

(** The checks of one line that is neither blank nor a full-line comment,
    on the stripped line as a whole. *)
Definition line_syntax_errors (stripped : string) : list string :=
  let single_quotes := Py.count "'" stripped in
  let double_quotes := Py.count dq stripped in
  let open_parens := Py.count "(" stripped in
  let close_parens := Py.count ")" stripped in
  let open_brackets := Py.count "[" stripped in
  let close_brackets := Py.count "]" stripped in
  let open_braces := Py.count "{" stripped in
  let close_braces := Py.count "}" stripped in
  (if negb (Nat.eqb (single_quotes mod 2) 0) then ["Unbalanced single quotes"] else [])
  ++ (if negb (Nat.eqb (double_quotes mod 2) 0) then ["Unbalanced double quotes"] else [])
  ++ (if negb (Nat.eqb open_parens close_parens) then ["Unbalanced parentheses"] else [])
  ++ (if negb (Nat.eqb open_brackets close_brackets) then ["Unbalanced brackets"] else [])
  ++ (if negb (Nat.eqb open_braces close_braces) then ["Unbalanced braces"] else []).

(** The loop body ends by parsing the stripped line and comparing the command
    with KNOWN_COMMANDS; that branch is [pass] and reports nothing. *)
Definition _check_common_syntax_errors (content : string) : list (nat * string) :=
  flat_map (fun '(line_num, line) =>
    let stripped := Py.strip line in
    if Py.is_empty stripped || Py.startswith "#" stripped then []
    else map (fun e => (line_num, e)) (line_syntax_errors stripped))
  (Py.enumerate 1 (Py.split_on nl content)).

(** The pattern [timestep\s+([\d.eE+-]+)]. *)
Definition re_timestep : regex :=
  Seq (Lit "timestep") (Seq (Rep space 1 true) (Grp (Rep number_char 1 true))).

(** The pattern [\b(nvt|npt|langevin|temp/berendsen)\b]. *)
Definition re_thermostat : regex :=
  Seq WordB (Seq (Grp (Alt (Lit "nvt") (Alt (Lit "npt") (Alt (Lit "langevin")
    (Lit "temp/berendsen"))))) WordB).

(** The pattern [temp\s+([\d.eE+-]+)\s+([\d.eE+-]+)]. *)
Definition re_temp_pair : regex :=
  Seq (Lit "temp") (Seq (Rep space 1 true) (Seq (Grp (Rep number_char 1 true))
    (Seq (Rep space 1 true) (Grp (Rep number_char 1 true))))).

(** The pattern [velocity\s+\S+\s+create\s+([\d.eE+-]+)]. *)
Definition re_velocity : regex :=
  Seq (Lit "velocity") (Seq (Rep space 1 true) (Seq (Rep nonspace 1 true)
    (Seq (Rep space 1 true) (Seq (Lit "create") (Seq (Rep space 1 true)
      (Grp (Rep number_char 1 true))))))).

(** The first non-comment line that matches decides. *)
Fixpoint parse_timestep_lines (lines : list string) : option float :=
  match lines with
  | [] => None
  | line :: rest =>
      let stripped := Py.strip line in
      if Py.startswith "#" stripped then parse_timestep_lines rest
      else match re_match true re_timestep stripped with
           | Some m => of_string (group 1 m)
           | None => parse_timestep_lines rest
           end
  end.

Definition _parse_timestep (content : string) : option float :=
  parse_timestep_lines (Py.split_on nl content).

Definition line_temperatures (line_num : nat) (stripped : string)
  : list (float * nat * string) :=
  (match re_search true re_thermostat stripped with
   | Some _ =>
       match re_search true re_temp_pair stripped with
       | Some temp_match =>
           match of_string (group 1 temp_match), of_string (group 2 temp_match) with
           | Some t_start, Some t_end =>
               [ (t_start, line_num, "fix temperature start");
                 (t_end, line_num, "fix temperature end") ]
           | _, _ => []
           end
       | None => []
       end
   | None => []
   end)
  ++
  (if Py.startswith "velocity" (Py.lower stripped) then
     match re_search true re_velocity stripped with
     | Some vel_match =>
         match of_string (group 1 vel_match) with
         | Some temp => [(temp, line_num, "velocity create")]
         | None => []
         end
     | None => []
     end
   else []).

Definition _parse_temperatures (content : string) : list (float * nat * string) :=
  flat_map (fun '(line_num, line) =>
    let stripped := Py.strip line in
    if Py.startswith "#" stripped then [] else line_temperatures line_num stripped)
  (Py.enumerate 1 (Py.split_on nl content)).

(** The commands seen and, for each, the argument list stored for it. *)
Definition collect_commands (lines : list string)
  : gset string * gmap string (list string) :=
  fold_left (fun '(commands_found, command_args) line =>
    match _parse_command line with
    | Some (cmd, args) => ({[cmd]} ∪ commands_found, <[cmd := args]> command_args)
    | None => (commands_found, command_args)
    end) lines (∅, ∅).

(** The unit system the physics checks run with. *)
Definition active_units (command_args : gmap string (list string)) : string :=
  match command_args !! "units" with
  | Some (a0 :: _) => Py.lower a0
  | _ => "lj"
  end.

Section Formatting.
(** [format_float spec x] is Python's [format(x, spec)]. *)
Variable format_float : string -> float -> string.

Definition _check_timestep_physics (timestep : float) (units : string) : list string :=
  match TIMESTEP_RANGES !! units with
  | None => []
  | Some (min_ts, max_ts) =>
      if ltb timestep min_ts then
        [ "Timestep " +:+ format_float "" timestep +:+ " is very small for '" +:+ units
          +:+ "' units (recommended: " +:+ format_float "" min_ts +:+ " - "
          +:+ format_float "" max_ts +:+ "). This may cause slow simulations." ]
      else if gtb timestep max_ts then
        [ "Timestep " +:+ format_float "" timestep +:+ " is very large for '" +:+ units
          +:+ "' units (recommended: " +:+ format_float "" min_ts +:+ " - "
          +:+ format_float "" max_ts +:+ "). This may cause instability." ]
      else []
  end.

Definition temperature_warning (min_temp max_temp : float)
  (t : float * nat * string) : list string :=
  let '(temp, line_num, context) := t in
  if ltb temp (of_Z 0) then
    [ "Line " +:+ Py.str_of_nat line_num +:+ ": Negative temperature "
      +:+ format_float "" temp +:+ " in " +:+ context +:+ ". "
      +:+ "Temperature must be positive." ]
  else if ltb temp min_temp then
    [ "Line " +:+ Py.str_of_nat line_num +:+ ": Very low temperature "
      +:+ format_float "" temp +:+ " in " +:+ context +:+ " "
      +:+ "(typical range: " +:+ format_float "" min_temp +:+ " - "
      +:+ format_float "" max_temp +:+ ")." ]
  else if gtb temp max_temp then
    [ "Line " +:+ Py.str_of_nat line_num +:+ ": Very high temperature "
      +:+ format_float "" temp +:+ " in " +:+ context +:+ " "
      +:+ "(typical range: " +:+ format_float "" min_temp +:+ " - "
      +:+ format_float "" max_temp +:+ ")." ]
  else [].

Definition _check_temperature_physics (temperatures : list (float * nat * string))
  (units : string) : list string :=
  match TEMPERATURE_RANGES !! units with
  | None => []
  | Some (min_temp, max_temp) =>
      flat_map (temperature_warning min_temp max_temp) temperatures
  end.

Definition opt_list (o : option string) : list string :=
  match o with Some e => [e] | None => [] end.

Definition validate_l1 (content : string) : L1Result.t :=
  let lines := Py.split_on nl content in
  let '(commands_found, command_args) := collect_commands lines in
  let required := map snd (_check_required_commands commands_found) in
  let structure := map snd (_check_structure_commands commands_found) in
  let pair := map snd (_check_pair_definitions commands_found) in
  let units_error :=
    match command_args !! "units" with
    | Some args => opt_list (_validate_units_command args)
    | None => []
    end in
  let atom_style_error :=
    match command_args !! "atom_style" with
    | Some args => opt_list (_validate_atom_style_command args)
    | None => []
    end in
  let common := _check_common_syntax_errors content in
  let syntax_errors :=
    required ++ structure ++ units_error ++ atom_style_error
    ++ map (fun '(line_num, error) => "Line " +:+ Py.str_of_nat line_num +:+ ": " +:+ error)
         common in
  let line_numbers := map fst common in
  let units := active_units command_args in
  let timestep := _parse_timestep content in
  let ts_warnings :=
    match timestep with
    | Some ts => _check_timestep_physics ts units
    | None => []
    end in
  let temperatures := _parse_temperatures content in
  let temp_warnings :=
    match temperatures with
    | [] => []
    | _ => _check_temperature_physics temperatures units
    end in
  let physics_warnings := ts_warnings ++ temp_warnings in
  let details :=
    map (fun m => "Error: " +:+ m) required
    ++ map (fun m => "Error: " +:+ m) structure
    ++ map (fun m => "Warning: " +:+ m) pair
    ++ map (fun m => "Error: " +:+ m) units_error
    ++ map (fun m => "Error: " +:+ m) atom_style_error
    ++ map (fun '(line_num, error) =>
              "Syntax error at line " +:+ Py.str_of_nat line_num +:+ ": " +:+ error) common
    ++ match timestep with
       | Some _ => map (fun w => "Physics warning: " +:+ w) ts_warnings
       | None => ["No timestep command found, using LAMMPS default"]
       end
    ++ map (fun w => "Physics warning: " +:+ w) temp_warnings in
  let critical_physics :=
    List.filter (fun w => Py.contains "Negative temperature" w) physics_warnings in
  let passed := Nat.eqb (length syntax_errors) 0 && Nat.eqb (length critical_physics) 0 in
  L1Result.mk passed syntax_errors physics_warnings line_numbers details.

End Formatting.
End L1.

(** ** The environment of the engine checks

    What [find_lammps_binary] and the engine invocation read from outside the
    program. [run binary deck context_files timeout] stands for the body of
    the [try] block up to the end of [subprocess.run]: materialising the
    working directory, starting the engine, waiting for it. *)

Inductive run_outcome : Type :=
| Completed (returncode : Z) (stdout stderr : string) (execution_time : PyFloat.float)
| TimeoutExpired
| Raised (message : string).

Record world := mk_world {
  is_file : string -> bool;                 (* p.exists() and p.is_file() *)
  environ_LAMMPS_BINARY : option string;    (* os.environ.get("LAMMPS_BINARY") *)
  home : string;                            (* Path.home() *)
  run : string -> string -> list string -> PyFloat.float -> run_outcome }.

(** ** validation/l2_engine.py *)

Module L2.
Import PyFloat.

Definition LAMMPS_PATHS (w : world) : list string :=
  [ "/home/sf2/Workspace/main/39-GPUTests/1-GPUTests/md-lammps/install/bin/lmp";
    "/usr/local/bin/lmp";
    "/usr/bin/lmp";
    "/usr/local/bin/lmp_serial";
    "/usr/bin/lmp_serial";
    "/usr/local/bin/lmp_mpi";
    "/usr/bin/lmp_mpi";
    "/opt/lammps/bin/lmp";
    home w +:+ "/lammps/build/lmp";
    home w +:+ "/lammps/src/lmp_serial" ].

Definition find_lammps_binary (w : world) (user_path : option string) : option string :=
  match (match user_path with
         | Some p => if is_file w p then Some p else None
         | None => None
         end) with
  | Some p => Some p
  | None =>
      match (match environ_LAMMPS_BINARY w with
             | Some env_path =>
                 if negb (Py.is_empty env_path) && is_file w env_path
                 then Some env_path else None
             | None => None
             end) with
      | Some p => Some p
      | None => find (is_file w) (LAMMPS_PATHS w)
      end
  end.

(** None of the three lookups of [find_lammps_binary] finds a file. *)
Definition engine_absent (w : world) (user_path : option string) : bool :=
  match user_path with Some p => negb (is_file w p) | None => true end
  && match environ_LAMMPS_BINARY w with
     | Some env_path => Py.is_empty env_path || negb (is_file w env_path)
     | None => true
     end
  && forallb (fun p => negb (is_file w p)) (LAMMPS_PATHS w).

(** One line of the deck rewritten; the flag tells whether it was a [run]. *)
Definition zero_step_line (line : string) : string * bool :=
  let stripped := Py.strip line in
  if Py.is_empty stripped || Py.startswith "#" stripped then (line, false)
  else match Py.split stripped with
       | [] => (line, false)
       | p0 :: _ =>
           let cmd := Py.lower p0 in
           if String.eqb cmd "run" then ("run 0", true)
           else if String.eqb cmd "minimize" then ("minimize 0 0 0 0", false)
           else (line, false)
       end.

Definition _create_zero_step_deck (content : string) : string :=
  let rewritten := map zero_step_line (Py.split_on nl content) in
  let modified_lines := map fst rewritten in
  let run_found := existsb snd rewritten in
  Py.join (String nl EmptyString)
    (if run_found then modified_lines else modified_lines ++ ["run 0"]).

Definition error_patterns : list string :=
  ["ERROR:"; "ERROR on proc"; "Illegal"; "Unknown"; "Cannot"; "Invalid"; "Missing"; "Expected"].

Definition warning_patterns : list string := ["WARNING:"; "Warning:"].

(** The messages one output line contributes, for the given error patterns. *)
Definition line_issues (errors : list string) (line : string) : list string :=
  let stripped := Py.strip line in
  if Py.is_empty stripped then []
  else (if existsb (fun pattern => Py.contains pattern stripped) errors
        then ["LAMMPS Error: " +:+ stripped] else [])
       ++ (if existsb (fun pattern => Py.contains pattern stripped) warning_patterns
           then ["LAMMPS Warning: " +:+ stripped] else []).

Definition parse_output_with (errors : list string) (output : string) (return_code : Z)
  : list string :=
  let issues := flat_map (line_issues errors) (Py.split_on nl output) in
  if negb (return_code =? 0)%Z && negb (existsb (Py.contains "Error") issues)
  then issues ++ ["LAMMPS exited with return code " +:+ Py.str_of_Z return_code]
  else issues.

Definition _parse_lammps_output (output : string) (return_code : Z) : list string :=
  parse_output_with error_patterns output return_code.

Section Formatting.
Variable format_float : string -> float -> string.

Definition validate_l2 (w : world) (content : string) (lammps_binary : option string)
  (timeout : float) (context_files : list string) : L2Result.t :=
  match find_lammps_binary w lammps_binary with
  | None =>
      L2Result.mk true "" (-1)%Z (lit "0.0")
        ["LAMMPS binary not found - L2 validation skipped"]
  | Some binary =>
      let modified_content := _create_zero_step_deck content in
      match run w binary modified_content context_files timeout with
      | Completed returncode stdout stderr execution_time =>
          let output := stdout +:+ String nl EmptyString +:+ stderr in
          let issues := _parse_lammps_output output returncode in
          let passed :=
            (returncode =? 0)%Z && negb (existsb (Py.contains "Error") issues) in
          L2Result.mk passed (Py.take 5000 output) returncode execution_time
            (match issues with [] => ["LAMMPS validation passed"] | _ => issues end)
      | TimeoutExpired =>
          L2Result.mk false "" (-1)%Z timeout
            ["LAMMPS execution timed out after " +:+ format_float "" timeout +:+ " seconds"]
      | Raised e =>
          L2Result.mk false "" (-1)%Z (lit "0.0") ["Error running LAMMPS: " +:+ e]
      end
  end.

End Formatting.
End L2.

(** ** validation/l3_physics.py *)

Module L3.
Import Re.
Import PyFloat.

Definition MINIMAL_STEPS : Z := 20%Z.
Definition THERMO_FREQUENCY : Z := 5%Z.
Definition MAX_REASONABLE_TEMP : float := lit "1e6".
Definition MAX_REASONABLE_ENERGY : float := lit "1e12".
Definition MAX_TEMP_RATIO : float := lit "10.0".

Inductive line_kind := KeepLine | RunLine | ThermoLine.

Definition minimal_step_line (steps : Z) (line : string) : string * line_kind :=
  let stripped := Py.strip line in
  if Py.is_empty stripped || Py.startswith "#" stripped then (line, KeepLine)
  else match Py.split stripped with
       | [] => (line, KeepLine)
       | p0 :: _ =>
           let cmd := Py.lower p0 in
           if String.eqb cmd "run" then ("run " +:+ Py.str_of_Z steps, RunLine)
           else if String.eqb cmd "minimize" then
             ("minimize 1e-4 1e-6 " +:+ Py.str_of_Z steps +:+ " "
              +:+ Py.str_of_Z (steps * 10), KeepLine)
           else if String.eqb cmd "thermo" then
             ("thermo " +:+ Py.str_of_Z THERMO_FREQUENCY, ThermoLine)
           else (line, KeepLine)
       end.

(** The index of the first line that starts with [run] or [fix], else the length. *)
Fixpoint insert_index (modified_lines : list string) : nat :=
  match modified_lines with
  | [] => 0
  | line :: rest =>
      let low := Py.lower (Py.strip line) in
      if Py.startswith "run" low || Py.startswith "fix" low then 0
      else S (insert_index rest)
  end.

Definition _create_minimal_step_deck (content : string) (steps : Z) : string :=
  let rewritten := map (minimal_step_line steps) (Py.split_on nl content) in
  let modified_lines := map fst rewritten in
  let run_found :=
    existsb (fun r => match snd r with RunLine => true | _ => false end) rewritten in
  let thermo_found :=
    existsb (fun r => match snd r with ThermoLine => true | _ => false end) rewritten in
  let modified_lines :=
    if thermo_found then modified_lines
    else
      let insert_idx := insert_index modified_lines in
      firstn insert_idx modified_lines
      ++ [ "thermo_style custom step temp press pe ke etotal";
           "thermo " +:+ Py.str_of_Z THERMO_FREQUENCY ]
      ++ skipn insert_idx modified_lines in
  Py.join (String nl EmptyString)
    (if run_found then modified_lines
     else modified_lines ++ ["run " +:+ Py.str_of_Z steps]).

(** The pattern [^\s*Step\s+]. *)
Definition header_pattern : regex :=
  Seq (Rep space 0 true) (Seq (Lit "Step") (Rep space 1 true)).

(** The pattern [^\s*(\d+)\s+([-\d.eE+]+)]. *)
Definition data_pattern : regex :=
  Seq (Rep space 0 true) (Seq (Grp (Rep digit 1 true)) (Seq (Rep space 1 true)
    (Grp (Rep number_char 1 true)))).

(** What [int(val)] raises on an infinity; the handler of the data line does
    not catch it. *)
Definition overflow_message : string := "cannot convert float infinity to integer".

Inductive row_result :=
| Row (data : ThermoData.t)
| RowSkipped                 (* ValueError: the line contributes nothing *)
| RowOverflow.               (* OverflowError: leaves [_parse_thermo_output] *)

(** The loop over the columns of one data line. *)
Fixpoint fill_row (columns parts : list string) (data : ThermoData.t) : row_result :=
  match columns, parts with
  | col :: columns', val_str :: parts' =>
      match of_string val_str with
      | None => fill_row columns' parts' data
      | Some val =>
          let set f := fill_row columns' parts' (f data) in
          if String.eqb col "step" then
            match to_int val with
            | Some n => set (fun d => ThermoData.mk n (ThermoData.temp d) (ThermoData.press d)
                                        (ThermoData.pe d) (ThermoData.ke d) (ThermoData.etotal d))
            | None => if isnan val then RowSkipped else RowOverflow
            end
          else if String.eqb col "temp" then
            set (fun d => ThermoData.mk (ThermoData.step d) (Some val) (ThermoData.press d)
                            (ThermoData.pe d) (ThermoData.ke d) (ThermoData.etotal d))
          else if String.eqb col "press" then
            set (fun d => ThermoData.mk (ThermoData.step d) (ThermoData.temp d) (Some val)
                            (ThermoData.pe d) (ThermoData.ke d) (ThermoData.etotal d))
          else if String.eqb col "pe" || String.eqb col "poteng" then
            set (fun d => ThermoData.mk (ThermoData.step d) (ThermoData.temp d) (ThermoData.press d)
                            (Some val) (ThermoData.ke d) (ThermoData.etotal d))
          else if String.eqb col "ke" || String.eqb col "kineng" then
            set (fun d => ThermoData.mk (ThermoData.step d) (ThermoData.temp d) (ThermoData.press d)
                            (ThermoData.pe d) (Some val) (ThermoData.etotal d))
          else if String.eqb col "etotal" || String.eqb col "toteng" then
            set (fun d => ThermoData.mk (ThermoData.step d) (ThermoData.temp d) (ThermoData.press d)
                            (ThermoData.pe d) (ThermoData.ke d) (Some val))
          else fill_row columns' parts' data
      end
  | _, _ => Row data
  end.

Fixpoint parse_thermo_lines (lines : list string) (header_found : bool)
  (columns : list string) (thermo_data : list ThermoData.t)
  : option (list ThermoData.t) :=
  match lines with
  | [] => Some thermo_data
  | line :: rest =>
      let stripped := Py.strip line in
      let stop_or_go td :=
        if Py.contains "Loop time" stripped then Some td
        else parse_thermo_lines rest header_found columns td in
      match re_match true header_pattern stripped with
      | Some _ => parse_thermo_lines rest true (Py.split (Py.lower stripped)) thermo_data
      | None =>
          match (if header_found then re_match false data_pattern stripped else None) with
          | Some _ =>
              let parts := Py.split stripped in
              if 2 <=? length parts then
                match fill_row columns parts ThermoData.default with
                | Row data => stop_or_go (thermo_data ++ [data])
                | RowSkipped => parse_thermo_lines rest header_found columns thermo_data
                | RowOverflow => None
                end
              else stop_or_go thermo_data
          | None => stop_or_go thermo_data
          end
      end
  end.

(** [None]: the call raised OverflowError. *)
Definition _parse_thermo_output (output : string) : option (list ThermoData.t) :=
  parse_thermo_lines (Py.split_on nl output) false [] [].

Definition error_patterns : list string :=
  [ "ERROR:"; "ERROR on proc"; "Illegal"; "Unknown"; "Cannot"; "Invalid"; "Missing";
    "Expected"; "Lost atoms"; "Atom lost"; "Out of range"; "Bond atom"; "Shake" ].

Definition _parse_lammps_output (output : string) (return_code : Z) : list string :=
  L2.parse_output_with error_patterns output return_code.

(** The pattern [Dangerous builds\s*=\s*(\d+)]. *)
Definition re_dangerous : regex :=
  Seq (Lit "Dangerous builds") (Seq (Rep space 0 true) (Seq (Lit "=")
    (Seq (Rep space 0 true) (Grp (Rep digit 1 true))))).

(** [int(s)] on a string of decimal digits. *)
Definition int_of_digits (s : string) : Z := fst (fst (span_digits s 0%Z 0)).

Section Formatting.
Variable format_float : string -> float -> string.

(** The checks of one data point: whether it fails, and its messages. *)
Definition check_sample (data : ThermoData.t) : bool * list string :=
  let step := Py.str_of_Z (ThermoData.step data) in
  let '(bad_temp, w_temp) :=
    match ThermoData.temp data with
    | Some temp =>
        if isnan temp || isinf temp then
          (true, ["Step " +:+ step +:+ ": Temperature is NaN/Inf - simulation exploded"])
        else if ltb temp (of_Z 0) then
          (true, ["Step " +:+ step +:+ ": Negative temperature (" +:+ format_float "" temp
                  +:+ ") - unphysical"])
        else if gtb temp MAX_REASONABLE_TEMP then
          (true, ["Step " +:+ step +:+ ": Temperature " +:+ format_float ".2e" temp
                  +:+ " exceeds " +:+ format_float ".0e" MAX_REASONABLE_TEMP
                  +:+ " - explosion"])
        else (false, [])
    | None => (false, [])
    end in
  let '(bad_etotal, w_etotal) :=
    match ThermoData.etotal data with
    | Some etotal =>
        if isnan etotal || isinf etotal then
          (true, ["Step " +:+ step +:+ ": Total energy is NaN/Inf - simulation exploded"])
        else if gtb (abs etotal) MAX_REASONABLE_ENERGY then
          (true, ["Step " +:+ step +:+ ": Total energy " +:+ format_float ".2e" etotal
                  +:+ " exceeds threshold - possible explosion"])
        else (false, [])
    | None => (false, [])
    end in
  let '(bad_pe, w_pe) :=
    match ThermoData.pe data with
    | Some pe =>
        if isnan pe || isinf pe then
          (true, ["Step " +:+ step +:+ ": Potential energy is NaN/Inf - simulation exploded"])
        else (false, [])
    | None => (false, [])
    end in
  let '(bad_press, w_press) :=
    match ThermoData.press data with
    | Some press =>
        if isnan press || isinf press then
          (true, ["Step " +:+ step +:+ ": Pressure is NaN/Inf - simulation exploded"])
        else (false, [])
    | None => (false, [])
    end in
  (bad_temp || bad_etotal || bad_pe || bad_press, w_temp ++ w_etotal ++ w_pe ++ w_press).

(** The warning of the temperature-drift check, if it fires. *)
Definition temperature_drift (thermo_data : list ThermoData.t) : list string :=
  if 2 <=? length thermo_data then
    match ThermoData.temp (hd ThermoData.default thermo_data),
          ThermoData.temp (List.last thermo_data ThermoData.default) with
    | Some first_temp, Some last_temp =>
        if gtb first_temp (of_Z 0) then
          let temp_ratio := div last_temp first_temp in
          if gtb temp_ratio MAX_TEMP_RATIO then
            [ "Temperature increased " +:+ format_float ".1f" temp_ratio +:+ "x ("
              +:+ format_float ".1f" first_temp +:+ " â†’ " +:+ format_float ".1f" last_temp
              +:+ ") - " +:+ "possible instability" ]
          else []
        else []
    | _, _ => []
    end
  else [].

(** The warning of the energy-conservation check, if it fires. *)
Definition energy_drift_warning (thermo_data : list ThermoData.t) : list string :=
  if 2 <=? length thermo_data then
    match ThermoData.etotal (hd ThermoData.default thermo_data),
          ThermoData.etotal (List.last thermo_data ThermoData.default) with
    | Some first_e, Some last_e =>
        if neb first_e (of_Z 0) then
          let energy_drift := div (abs (sub last_e first_e)) (abs first_e) in
          if gtb energy_drift (lit "0.1") then
            [ "Energy drift of " +:+ format_float ".1f" (mul energy_drift (of_Z 100))
              +:+ "% detected - may indicate instability" ]
          else []
        else []
    | _, _ => []
    end
  else [].

Definition _check_thermo_sanity (thermo_data : list ThermoData.t) : bool * list string :=
  match thermo_data with
  | [] => (true, ["No thermodynamic data found in output"])
  | _ =>
      let '(passed, warnings) :=
        fold_left (fun '(passed, warnings) data =>
                     let '(bad, ws) := check_sample data in
                     (passed && negb bad, warnings ++ ws))
                  thermo_data (true, []) in
      let warnings := warnings ++ temperature_drift thermo_data in
      let warnings := warnings ++ energy_drift_warning thermo_data in
      let warnings :=
        match passed, warnings with
        | true, [] => ["Thermodynamic sanity checks passed"]
        | _, _ => warnings
        end in
      (passed, warnings)
  end.

Definition validate_l3 (w : world) (content : string) (lammps_binary : option string)
  (steps : Z) (timeout : float) (context_files : list string) : L3Result.t :=
  match L2.find_lammps_binary w lammps_binary with
  | None =>
      L3Result.mk true "" (-1)%Z (lit "0.0") 0%Z []
        ["LAMMPS binary not found - L3 validation skipped"]
        ["LAMMPS binary not found - L3 validation skipped"]
  | Some binary =>
      let modified_content := _create_minimal_step_deck content steps in
      let failed e :=
        L3Result.mk false "" (-1)%Z (lit "0.0") 0%Z []
          ["Error running LAMMPS: " +:+ e] ["Error running LAMMPS: " +:+ e] in
      match run w binary modified_content context_files timeout with
      | Completed returncode stdout stderr execution_time =>
          let output := stdout +:+ String nl EmptyString +:+ stderr in
          let issues := _parse_lammps_output output returncode in
          match _parse_thermo_output output with
          | None => failed overflow_message
          | Some thermo_data =>
              let '(thermo_passed, thermo_warnings) := _check_thermo_sanity thermo_data in
              let completed_ok :=
                (returncode =? 0)%Z || Py.contains "Total wall time" output
                || Py.contains "Loop time" output in
              let has_explosion :=
                existsb (fun pattern => Py.contains pattern output)
                  ["Lost atoms"; "Atom lost"; "Out of range"] in
              let has_explosion :=
                match re_search false re_dangerous output with
                | Some dangerous_match =>
                    if (0 <? int_of_digits (group 1 dangerous_match))%Z then true
                    else has_explosion
                | None => has_explosion
                end in
              let passed := completed_ok && negb has_explosion && thermo_passed in
              let details :=
                issues
                ++ (if completed_ok && negb has_explosion
                    then ["LAMMPS execution completed (" +:+ Py.str_of_Z steps +:+ " steps)"]
                    else [])
                ++ (if has_explosion
                    then ["Simulation explosion detected in LAMMPS output"] else [])
                ++ (match thermo_data with
                    | [] => []
                    | _ => ["Parsed " +:+ Py.str_of_nat (length thermo_data)
                            +:+ " thermo data points"]
                    end) in
              L3Result.mk passed (Py.take 5000 output) returncode execution_time steps
                thermo_data thermo_warnings details
          end
      | TimeoutExpired =>
          L3Result.mk false "" (-1)%Z timeout 0%Z []
            ["Execution timed out after " +:+ format_float "" timeout +:+ " seconds"]
            ["LAMMPS execution timed out after " +:+ format_float "" timeout +:+ " seconds"]
      | Raised e => failed e
      end
  end.

End Formatting.
End L3.

(** ** validation/file_utils.py

    Paths follow [pathlib.PurePosixPath]. The file system is a finite map from
    canonical absolute paths (component lists) to nodes; it has no
    permissions, and the process is alone on it. Symbolic links are no
    entries of it: a path reaches the entry it resolves to, and that the path
    given to [shutil.rmtree] is itself a link is told by an oracle. *)

Module FS.

Record Path := mkPath { root : string; parts : list string }.

#[global] Instance Path_eq_dec : EqDecision Path.
Proof. solve_decision. Defined.

(** [Path(s)] *)
Definition path_of_string (s : string) : Path :=
  let r := if Py.startswith "//" s && negb (Py.startswith "///" s) then "//"
           else if Py.startswith "/" s then "/" else "" in
  mkPath r (List.filter (fun c => negb (Py.is_empty c) && negb (String.eqb c "."))
                   (Py.split_on "/" s)).

(** [str(p)] *)
Definition str_of_path (p : Path) : string :=
  match root p, parts p with
  | EmptyString, [] => "."
  | r, ps => r +:+ Py.join "/" ps
  end.

Definition is_absolute (p : Path) : bool := negb (Py.is_empty (root p)).

(** [a / b] *)
Definition joinpath (a b : Path) : Path :=
  if is_absolute b then b else mkPath (root a) (parts a ++ parts b).

(** [p.name] *)
Definition name (p : Path) : string := List.last (parts p) EmptyString.

(** [p.parent] *)
Definition parent (p : Path) : Path := mkPath (root p) (removelast (parts p)).

Inductive node := File (content : string) | Dir.

Record state := mkState {
  files : gmap (list string) node;
  cwd : list string }.

Inductive errno := ENOENT | ENOTDIR | EEXIST | EISDIR | ESAMEFILE.

(** The root directory always exists. *)
Definition lookup_node (f : gmap (list string) node) (k : list string) : option node :=
  match k with
  | [] => Some Dir
  | _ => f !! k
  end.

(** Path resolution: every component is taken from an existing directory;
    the last one may name something that does not exist yet. *)
Fixpoint walk (f : gmap (list string) node) (cur : list string) (comps : list string)
  : errno + list string :=
  match comps with
  | [] => inr cur
  | c :: rest =>
      match lookup_node f cur with
      | Some Dir => walk f (if String.eqb c ".." then removelast cur else cur ++ [c]) rest
      | Some (File _) => inl ENOTDIR
      | None => inl ENOENT
      end
  end.

Definition resolve (st : state) (p : Path) : errno + list string :=
  walk (files st) (if is_absolute p then [] else cwd st) (parts p).

Definition stat (st : state) (p : Path) : option node :=
  match resolve st p with
  | inr k => lookup_node (files st) k
  | inl _ => None
  end.

(** [p.exists()], [p.is_file()], [p.is_dir()] *)
Definition exists_ (st : state) (p : Path) : bool :=
  match stat st p with Some _ => true | None => false end.
Definition is_file (st : state) (p : Path) : bool :=
  match stat st p with Some (File _) => true | _ => false end.
Definition is_dir (st : state) (p : Path) : bool :=
  match stat st p with Some Dir => true | _ => false end.

(** Commands on the file system: the state afterwards, and a value or the
    error raised. The state is kept when an error is raised. *)
Definition M (A : Type) : Type := state -> state * (errno + A).

Definition ret {A : Type} (a : A) : M A := fun st => (st, inr a).
Definition raise {A : Type} (e : errno) : M A := fun st => (st, inl e).
Definition bind {A B : Type} (m : M A) (k : A -> M B) : M B :=
  fun st =>
    match m st with
    | (st', inr a) => k a st'
    | (st', inl e) => (st', inl e)
    end.
Definition get {A : Type} (f : state -> A) : M A := fun st => (st, inr (f st)).

Notation "'do' x <- m ; k" := (bind m (fun x => k))
  (at level 10, x name, m at level 100, k at level 200).

(** [for x in l: body x] *)
Fixpoint for_each {A : Type} (l : list A) (body : A -> M unit) : M unit :=
  match l with
  | [] => ret tt
  | x :: rest => do _ <- body x; for_each rest body
  end.

(** [os.mkdir(p)] *)
Definition os_mkdir (p : Path) : M unit :=
  fun st =>
    match parts p with
    | [] => (st, inl EEXIST)
    | _ =>
        match resolve st p with
        | inl e => (st, inl e)
        | inr k =>
            match lookup_node (files st) k with
            | Some _ => (st, inl EEXIST)
            | None => (mkState (<[k := Dir]> (files st)) (cwd st), inr tt)
            end
        end
    end.

(** [p.mkdir(parents=True, exist_ok=True)], as pathlib implements it; [n]
    bounds the climb to the parents by the number of components of [p]. *)
Fixpoint mkdir_parents (n : nat) (p : Path) : M unit :=
  fun st =>
    match os_mkdir p st with
    | (st', inr tt) => (st', inr tt)
    | (_, inl ENOENT) =>
        match n with
        | O => (st, inl ENOENT)
        | S n' =>
            match mkdir_parents n' (parent p) st with
            | (st1, inr tt) =>
                match os_mkdir p st1 with
                | (st2, inr tt) => (st2, inr tt)
                | (_, inl e) => if is_dir st1 p then (st1, inr tt) else (st1, inl e)
                end
            | (st1, inl e) => (st1, inl e)
            end
        end
    | (_, inl e) => if is_dir st p then (st, inr tt) else (st, inl e)
    end.

Definition mkdir (p : Path) : M unit := mkdir_parents (length (parts p)) p.

(** [p.write_text(content)] *)
Definition write_text (p : Path) (content : string) : M unit :=
  fun st =>
    match resolve st p with
    | inl e => (st, inl e)
    | inr k =>
        match lookup_node (files st) k with
        | Some Dir => (st, inl EISDIR)
        | _ => (mkState (<[k := File content]> (files st)) (cwd st), inr tt)
        end
    end.

(** [os.path.samefile] as [shutil] uses it: false when either is missing. *)
Definition samefile (st : state) (a b : Path) : bool :=
  match resolve st a, resolve st b with
  | inr ka, inr kb =>
      match lookup_node (files st) ka, lookup_node (files st) kb with
      | Some _, Some _ => bool_decide (ka = kb)
      | _, _ => false
      end
  | _, _ => false
  end.

(** [shutil.copy2(src, dst)], contents only. *)
Definition copy2 (src dst : Path) : M unit :=
  fun st =>
    let dst := if is_dir st dst then joinpath dst (path_of_string (name src)) else dst in
    if samefile st src dst then (st, inl ESAMEFILE)
    else match resolve st src with
         | inl e => (st, inl e)
         | inr k =>
             match lookup_node (files st) k with
             | None => (st, inl ENOENT)
             | Some Dir => (st, inl EISDIR)
             | Some (File content) => write_text dst content st
             end
         end.

Definition LAMMPS_FILE_EXTENSIONS : list string :=
  [ ".data"; ".dat"; ".restart"; ".rst"; ".lammps"; ".in"; ".inp"; ".eam"; ".fs";
    ".alloy"; ".tersoff"; ".sw"; ".meam"; ".comb"; ".comb3"; ".reax"; ".ffield";
    ".txt"; ".table" ].

Definition str_in (x : string) (l : list string) : bool := existsb (String.eqb x) l.

(** [s.add(x)] on a set kept as a duplicate-free list. *)
Definition set_add {A : Type} `{EqDecision A} (x : A) (s : list A) : list A :=
  if bool_decide (x ∈ s) then s else s ++ [x].

Definition has_extension (part : string) : bool :=
  existsb (fun ext => Py.endswith ext part) LAMMPS_FILE_EXTENSIONS.

(** The references one [pair_coeff] token contributes. *)
Definition pair_coeff_reference (part : string) : list string :=
  if str_in part ["*"; "NULL"] then []
  else match PyFloat.of_string part with
       | Some _ => []
       | None =>
           if has_extension part then [part]
           else if Py.contains "/" part || Py.contains "." part then
             if negb (Py.startswith "-" part) then [part] else []
           else []
       end.

(** The references one line contributes, in order. *)
Definition line_references (line : string) : list string :=
  let stripped := Py.strip line in
  if Py.is_empty stripped || Py.startswith "#" stripped then []
  else
    let stripped :=
      if Py.contains "#" stripped
      then Py.strip (hd EmptyString (Py.split_on "#" stripped)) else stripped in
    match Py.split stripped with
    | [] => []
    | p0 :: args =>
        let cmd := Py.lower p0 in
        if String.eqb cmd "read_data" && (1 <? length (p0 :: args)) then firstn 1 args
        else if String.eqb cmd "read_restart" && (1 <? length (p0 :: args)) then firstn 1 args
        else if String.eqb cmd "include" && (1 <? length (p0 :: args)) then firstn 1 args
        else if String.eqb cmd "read_dump" && (1 <? length (p0 :: args)) then firstn 1 args
        else if String.eqb cmd "molecule" && (2 <? length (p0 :: args))
             then firstn 1 (skipn 1 args)
        else if String.eqb cmd "pair_coeff" then flat_map pair_coeff_reference args
        else if str_in cmd ["bond_coeff"; "angle_coeff"; "dihedral_coeff"]
             then List.filter has_extension args
        else []
    end.

Definition parse_file_references (content : string) : list string :=
  fold_left (fun refs r => set_add r refs)
    (flat_map line_references (Py.split_on nl content)) [].

Section Iteration.
(** The order in which Python iterates over a set of strings and over a set
    of paths (it depends on the hashes). *)
Variable iter_strs : list string -> list string.
Variable iter_paths : list Path -> list Path.

(** [search_dirs] is [None] when the argument is left out. *)
Definition find_file_in_context (st : state) (filename : string)
  (context_files : list Path) (search_dirs : option (list Path)) : option Path :=
  let filename_path := path_of_string filename in
  let filename_name := name filename_path in
  match find (fun cf =>
                (String.eqb (name cf) filename_name
                 || Py.endswith filename (str_of_path cf))
                && exists_ st cf) context_files with
  | Some cf => Some cf
  | None =>
      let dirs_to_search :=
        fold_left (fun dirs cf => if exists_ st cf then set_add (parent cf) dirs else dirs)
          context_files [] in
      let dirs_to_search :=
        match search_dirs with
        | Some (d :: ds) =>                       (* if search_dirs: update *)
            fold_left (fun dirs search_dir => set_add search_dir dirs) (d :: ds)
              dirs_to_search
        | _ => dirs_to_search
        end in
      let candidates :=
        flat_map (fun search_dir =>
                    [ joinpath search_dir filename_path;
                      joinpath search_dir (path_of_string filename_name) ])
          (iter_paths dirs_to_search) in
      find (exists_ st) candidates
  end.

(** The body of the loop over the referenced files. *)
Definition copy_referenced (context_files : list Path) (working_dir : Path)
  (ref_file : string) : M unit :=
  do source <- get (fun st => find_file_in_context st ref_file context_files None);
  match source with
  | None => ret tt
  | Some source_path =>
      do present <- get (fun st => exists_ st source_path);
      if present : bool then
        let ref_path := path_of_string ref_file in
        let dest_name := if is_absolute ref_path then name ref_path else ref_file in
        let dest_path := joinpath working_dir (path_of_string dest_name) in
        do _ <- mkdir (parent dest_path);
        if bool_decide (source_path <> dest_path) then copy2 source_path dest_path
        else ret tt
      else ret tt
  end.

(** The body of the loop over the context files. *)
Definition copy_context_file (working_dir : Path) (cf : Path) : M unit :=
  do ok <- get (fun st => exists_ st cf && is_file st cf);
  if ok : bool then
    let dest_path := joinpath working_dir (path_of_string (name cf)) in
    do present <- get (fun st => exists_ st dest_path);
    if negb present then copy2 cf dest_path else ret tt
  else ret tt.

(** The call up to the end of the loop over the referenced files. The test
    [ref_file in copied_files] of the source never holds, the elements of a
    set being distinct. *)
Definition materialize_referenced (deck_content : string) (context_files : list Path)
  (working_dir : Path) (deck_filename : string) : M unit :=
  do _ <- mkdir working_dir;
  do _ <- write_text (joinpath working_dir (path_of_string deck_filename)) deck_content;
  for_each (iter_strs (parse_file_references deck_content))
    (copy_referenced context_files working_dir).

(** The loop over the context files. *)
Definition copy_unreferenced (context_files : list Path) (working_dir : Path) : M unit :=
  for_each context_files (copy_context_file working_dir).

Definition setup_working_directory (deck_content : string) (context_files : list Path)
  (working_dir : Path) (deck_filename : string) : M Path :=
  do _ <- materialize_referenced deck_content context_files working_dir deck_filename;
  do _ <- copy_unreferenced context_files working_dir;
  ret (joinpath working_dir (path_of_string deck_filename)).

End Iteration.
End FS.

(** ** validation/__init__.py *)

Module Validation.

Section Formatting.
Variable format_float : string -> PyFloat.float -> string.

(** [context_files] is the empty list for [None]. *)
Definition validate_deck (w : world) (content : string) (lammps_binary : option string)
  (context_files : list string) : ValidationResult.t :=
  let l0_result := L0.validate_l0 content in
  let issues0 :=
    if negb (L0Result.passed l0_result) then
      ["L0: " +:+ Py.str_of_nat (L0Result.unresolved_count l0_result)
       +:+ " unresolved placeholder(s) found"]
    else [] in
  let l1_result := L1.validate_l1 format_float content in
  let issues1 :=
    if negb (L1Result.passed l1_result) then
      let error_count := length (L1Result.syntax_errors l1_result) in
      let physics_count :=
        length (List.filter (fun w => Py.contains "Negative" w)
                       (L1Result.physics_warnings l1_result)) in
      ["L1: " +:+ Py.str_of_nat error_count +:+ " syntax error(s), "
       +:+ Py.str_of_nat physics_count +:+ " critical physics error(s)"]
    else [] in
  let l2_result :=
    L2.validate_l2 format_float w content lammps_binary (PyFloat.lit "30.0") context_files in
  let issues2 :=
    if negb (L2Result.passed l2_result) then ["L2: LAMMPS engine acceptance failed"]
    else [] in
  let l3_result :=
    L3.validate_l3 format_float w content lammps_binary L3.MINIMAL_STEPS
      (PyFloat.lit "60.0") context_files in
  let issues3 :=
    if negb (L3Result.passed l3_result) then ["L3: LAMMPS minimal execution failed"]
    else [] in
  let overall_passed :=
    L0Result.passed l0_result && L1Result.passed l1_result
    && L2Result.passed l2_result && L3Result.passed l3_result in
  ValidationResult.mk overall_passed l0_result l1_result l2_result l3_result
    (issues0 ++ issues1 ++ issues2 ++ issues3).

End Formatting.
End Validation.

(** ** generator.py *)

Module Generator.

Inductive AssumptionCategory :=
| FORCE_FIELD | UNITS | PARAMETERS | TOPOLOGY | SIMULATION | OUTPUT | OTHER.

Record Assumption := mkAssumption {
  category : AssumptionCategory;
  description : string;
  assumed_value : string;
  reasoning : string;
  confidence : string }.

Record ReaperInput := mkInput {
  intent : string;
  files : list string;
  output_path : option string;
  lammps_binary : option string;
  max_retries : Z;
  enable_iterative_fixing : bool }.

Record ReaperOutput := mkOutput {
  success : bool;
  deck_content : string;
  out_path : option string;                       (* the field output_path *)
  validation : option ValidationResult.t;
  errors : list string;
  warnings : list string;
  assumptions : list Assumption;
  attempts : list GenerationAttempt.t;
  total_attempts : nat }.

Definition nls : string := String nl EmptyString.
Definition dqs : string := String dq EmptyString.

(** [FIX_PROMPT_TEMPLATE.format(errors=errors, lammps_output=lammps_output)] *)
Definition fix_prompt (errors lammps_output : string) : string :=
  Py.join nls
    [ "The previous LAMMPS script failed validation with these errors:";
      "";
      errors;
      "";
      "LAMMPS output:";
      lammps_output;
      "";
      "Please fix the script to address these errors. Common fixes:";
      "- If " +:+ dqs +:+ "Unknown bond/angle/dihedral/improper style" +:+ dqs
        +:+ ": Add the style declaration BEFORE read_data";
      "- If " +:+ dqs +:+ "Cannot open file" +:+ dqs
        +:+ ": Check the filename matches the provided data file";
      "- If pair_coeff errors: Ensure pair_style is set and coefficients match atom types";
      "- If kspace errors: Use pppm 1.0e-5 for charged systems";
      "";
      "Output your response in the same format:";
      "1. JSON assumptions block (update if you changed assumptions)";
      "2. Fixed LAMMPS script starting with " +:+ dqs +:+ "# LAMMPS INPUT SCRIPT" +:+ dqs;
      "" ].

(** [file_context] is [None] or a string; the empty string counts as absent. *)
Definition build_prompt (intent : string) (file_context : option string) : string :=
  Py.join nls
    ((match file_context with
      | Some fc => if Py.is_empty fc then [] else [fc; ""]
      | None => []
      end)
     ++ [ "=== SIMULATION REQUEST ===";
          intent;
          "";
          "=== OUTPUT INSTRUCTIONS ===";
          "1. First output a JSON block with your assumptions";
          "2. Then output the LAMMPS script starting with '# LAMMPS INPUT SCRIPT'";
          "Remember: Declare ALL required styles BEFORE read_data!" ]).

Definition _create_stub_validation : ValidationResult.t :=
  ValidationResult.mk true
    (L0Result.mk true [] 0 ["Validation not run"])
    (L1Result.mk true [] [] [] ["Validation not run"])
    (L2Result.mk true "" 0%Z (PyFloat.lit "0.0") ["Validation not run"])
    (L3Result.mk true "" 0%Z (PyFloat.lit "0.0") 0%Z [] [] ["Validation not run"])
    ["Full validation not available"].

Definition _format_validation_errors (validation : ValidationResult.t) : string :=
  let l0 := ValidationResult.l0 validation in
  let l1 := ValidationResult.l1 validation in
  let l2 := ValidationResult.l2 validation in
  let l3 := ValidationResult.l3 validation in
  Py.join nls
    ((if negb (L0Result.passed l0)
      then ["L0 (Placeholders): " +:+ Py.join ", " (L0Result.details l0)] else [])
     ++ (if negb (L1Result.passed l1) then
           (match L1Result.syntax_errors l1 with
            | [] => []
            | errs => ["L1 (Syntax): " +:+ Py.join ", " errs]
            end)
           ++ (match L1Result.physics_warnings l1 with
               | [] => []
               | ws => ["L1 (Physics): " +:+ Py.join ", " ws]
               end)
         else [])
     ++ (if negb (L2Result.passed l2)
         then ["L2 (Engine): " +:+ Py.join ", " (L2Result.details l2)] else [])
     ++ (if negb (L3Result.passed l3)
         then ["L3 (Execution): " +:+ Py.join ", " (L3Result.details l3)] else [])).

(** What the loop carries from one iteration to the next. [prompts_sent]
    records the calls to the language model, one per iteration entered. *)
Record loop_state := mkLoop {
  ls_errors : list string;
  ls_warnings : list string;
  ls_assumptions : list Assumption;
  ls_attempts : list GenerationAttempt.t;
  ls_deck_content : string;
  ls_validation : option ValidationResult.t;
  ls_current_prompt : string;
  ls_prompts_sent : list string }.

(** [attempts[-1].fixes_applied.append(note)] *)
Definition note_fix (note : string) (attempts : list GenerationAttempt.t)
  : list GenerationAttempt.t :=
  match rev attempts with
  | [] => []
  | a :: before =>
      rev before
      ++ [GenerationAttempt.mk (GenerationAttempt.attempt_number a)
            (GenerationAttempt.deck_content a) (GenerationAttempt.validation_passed a)
            (GenerationAttempt.errors a) (GenerationAttempt.fixes_applied a ++ [note])]
  end.

(** What a call to the language model gives: its text, or the message of the
    exception it raised. *)
Inductive llm_reply := Reply (text : string) | ApiError (message : string).

Section Collaborators.
Variable format_float : string -> PyFloat.float -> string.
(** [build_file_context(files)[0]]: it reads the files. *)
Variable build_file_context : list string -> string.
(** [AnthropicProvider()]: [Some e] when the constructor raises. *)
Variable provider_error : option string.
(** [provider.create_message] with the fixed system prompt, by attempt number
    and prompt. *)
Variable create_message : nat -> string -> llm_reply.
(** [parse_llm_response]; the loop only looks at whether the script is empty. *)
Variable parse_llm_response : string -> string * list Assumption.
(** Whether [from . import validate_deck] succeeds. *)
Variable validation_importable : bool.
(** The machine at each attempt. *)
Variable world_at : nat -> world.
(** Creating the parent directories and writing the file: [Some e] when it raises. *)
Variable write_output : string -> string -> option string.

Inductive control := Continue | Break.

(** The validation step of an attempt: the result, and whether the stub
    stood in for a validation module that could not be imported. *)
Definition run_validation (inp : ReaperInput) (attempt_num : nat) (deck_content : string)
  : ValidationResult.t :=
  if validation_importable
  then Validation.validate_deck format_float (world_at attempt_num) deck_content
         (lammps_binary inp) (files inp)
  else _create_stub_validation.

(** One iteration of the loop, numbered [attempt_num]. *)
Definition attempt (inp : ReaperInput) (max_attempts : Z) (attempt_num : nat)
  (s : loop_state) : loop_state * control :=
  let sent := ls_prompts_sent s ++ [ls_current_prompt s] in
  match create_message attempt_num (ls_current_prompt s) with
  | ApiError e =>
      (mkLoop (ls_errors s ++ ["LLM API error on attempt " +:+ Py.str_of_nat attempt_num
                                +:+ ": " +:+ e])
              (ls_warnings s) (ls_assumptions s) (ls_attempts s) (ls_deck_content s)
              (ls_validation s) (ls_current_prompt s) sent, Break)
  | Reply response =>
      let '(deck_content, assumptions) := parse_llm_response response in
      let all_assumptions := ls_assumptions s ++ assumptions in
      if Py.is_empty deck_content then
        (mkLoop (ls_errors s ++ ["Attempt " +:+ Py.str_of_nat attempt_num
                                  +:+ ": LLM returned empty response"])
                (ls_warnings s) all_assumptions (ls_attempts s) deck_content
                (ls_validation s) (ls_current_prompt s) sent, Continue)
      else
        let validation := run_validation inp attempt_num deck_content in
        let warnings :=
          if validation_importable then ls_warnings s
          else ls_warnings s ++ ["Validation module not available"] in
        let overall_passed := ValidationResult.overall_passed validation in
        let attempt_errors :=
          if negb overall_passed then ValidationResult.issues validation else [] in
        let attempts :=
          ls_attempts s
          ++ [GenerationAttempt.mk attempt_num deck_content overall_passed attempt_errors []] in
        let stop :=
          (mkLoop (ls_errors s) warnings all_assumptions attempts deck_content
                  (Some validation) (ls_current_prompt s) sent, Break) in
        if overall_passed then stop
        else if negb (enable_iterative_fixing inp) || (max_attempts <=? Z.of_nat attempt_num)%Z
        then stop
        else
          let error_text := _format_validation_errors validation in
          let lammps_output :=
            if negb (L2Result.passed (ValidationResult.l2 validation))
            then Py.take 2000 (L2Result.engine_output (ValidationResult.l2 validation))
            else if negb (L3Result.passed (ValidationResult.l3 validation))
            then Py.take 2000 (L3Result.engine_output (ValidationResult.l3 validation))
            else "" in
          let current_prompt :=
            fix_prompt error_text
              (if Py.is_empty lammps_output then "No LAMMPS output available"
               else lammps_output) in
          (mkLoop (ls_errors s) warnings all_assumptions
                  (note_fix ("Attempting fix for: " +:+ Py.take 200 error_text) attempts)
                  deck_content (Some validation) current_prompt sent, Continue)
  end.

(** [for attempt_num in nums: ...] with [break] and [continue]. *)
Fixpoint loop (inp : ReaperInput) (max_attempts : Z) (nums : list nat) (s : loop_state)
  : loop_state :=
  match nums with
  | [] => s
  | attempt_num :: rest =>
      match attempt inp max_attempts attempt_num s with
      | (s', Break) => s'
      | (s', Continue) => loop inp max_attempts rest s'
      end
  end.

Definition max_attempts_of (inp : ReaperInput) : Z :=
  if enable_iterative_fixing inp then (max_retries inp + 1)%Z else 1%Z.

(** The warnings and the prompt the loop starts with. *)
Definition initial_state (inp : ReaperInput) : loop_state :=
  let file_context :=
    match files inp with
    | [] => None
    | fs => Some (build_file_context fs)
    end in
  let warnings :=
    match file_context with
    | Some fc => if Py.is_empty fc then ["Some input files could not be read"] else []
    | None => []
    end in
  mkLoop [] warnings [] [] "" None (build_prompt (intent inp) file_context) [].

(** The state when the loop is left: [range(1, max_attempts + 1)]. *)
Definition run_loop (inp : ReaperInput) : loop_state :=
  loop inp (max_attempts_of inp) (seq 1 (Z.to_nat (max_attempts_of inp)))
    (initial_state inp).

Definition generate_deck (inp : ReaperInput) : ReaperOutput :=
  match provider_error with
  | Some e =>
      mkOutput false "" None None ["Failed to initialize provider: " +:+ e]
        (ls_warnings (initial_state inp)) [] [] 1
  | None =>
      let s := run_loop inp in
      let deck_content := ls_deck_content s in
      let written :=
        match output_path inp with
        | Some p => if negb (Py.is_empty deck_content)
                    then Some (p, write_output p deck_content) else None
        | None => None
        end in
      let output_path :=
        match written with Some (p, None) => Some p | _ => None end in
      let errors :=
        match written with
        | Some (_, Some e) => ls_errors s ++ ["Failed to write output file: " +:+ e]
        | _ => ls_errors s
        end in
      let success :=
        match ls_validation s with
        | Some validation => ValidationResult.overall_passed validation
        | None => false
        end in
      let success :=
        match errors with
        | _ :: _ => if Py.is_empty deck_content then false else success
        | [] => success
        end in
      mkOutput success deck_content output_path (ls_validation s) errors
        (ls_warnings s) (ls_assumptions s) (ls_attempts s) (length (ls_attempts s))
  end.

End Collaborators.
End Generator.

(** ** provider.py

    [AnthropicProvider.create_message]. The call to the API client is an
    oracle: what the call number [attempt] (from 0) gives for the arguments
    of [create_message]. What the method does besides returning is recorded
    as a trace of API calls and sleeps. *)

Module Provider.

Import PyFloat.

Inductive api_outcome : Type :=
| Text (text : string)               (* response.content[0].text *)
| RateLimitError (message : string)
| APIStatusError (message : string)
| OtherException (message : string). (* raised by the call, caught by no handler *)

Inductive event : Type :=
| Called (attempt : nat)
| Slept (delay : float).

Definition MAX_RETRIES : nat := 3.

Definition BASE_DELAY : float := lit "1.0".

(** [self.BASE_DELAY * (2**attempt)] *)
Definition backoff (attempt : nat) : float := mul BASE_DELAY (of_Z (2 ^ Z.of_nat attempt)).

Section Client.

Variable api : string -> string -> Z -> nat -> api_outcome.

(** The body of the handlers: remember the exception, sleep unless this was
    the last attempt, go on. *)
Definition after_failure (attempt : nat) (trace : list event) : list event :=
  if attempt <? MAX_RETRIES - 1 then trace ++ [Slept (backoff attempt)] else trace.

(** [for attempt in attempts: ...], then [raise last_exception]; the result
    is the text returned or the message of the exception raised. *)
Fixpoint retry (system_prompt user_message : string) (max_tokens : Z) (attempts : list nat)
  (last_exception : option string) (trace : list event) : list event * (string + string) :=
  match attempts with
  | [] =>
      (trace, inl (match last_exception with
                   | Some e => e
                   | None => "exceptions must derive from BaseException"
                   end))
  | attempt :: rest =>
      let trace := trace ++ [Called attempt] in
      match api system_prompt user_message max_tokens attempt with
      | Text text => (trace, inr text)
      | RateLimitError e =>
          retry system_prompt user_message max_tokens rest (Some e) (after_failure attempt trace)
      | APIStatusError e =>
          retry system_prompt user_message max_tokens rest (Some e) (after_failure attempt trace)
      | OtherException e => (trace, inl e)
      end
  end.

Definition create_message (system_prompt user_message : string) (max_tokens : Z)
  : list event * (string + string) :=
  retry system_prompt user_message max_tokens (seq 0 MAX_RETRIES) None [].

End Client.

End Provider.

(** ** discovery.py *)

Module Discovery.

Definition DATA_EXTENSIONS : list string := [".data"; ".dat"].

Definition INPUT_EXTENSIONS : list string := [".in"; ".lmp"; ".lammps"; ".inp"].

Definition POTENTIAL_EXTENSIONS : list string :=
  [ ".eam"; ".fs"; ".alloy"; ".tersoff"; ".sw"; ".meam"; ".library"; ".reax"; ".ffield";
    ".comb"; ".comb3"; ".table"; ".txt" ].

Definition RESTART_EXTENSIONS : list string := [".restart"; ".rst"].

Definition str_in (x : string) (l : list string) : bool := existsb (String.eqb x) l.

(** [s.rfind(c)] for a one-character [c]; [None] is -1. *)
Fixpoint rfind (c : ascii) (s : string) : option nat :=
  match s with
  | EmptyString => None
  | String d r =>
      match rfind c r with
      | Some i => Some (S i)
      | None => if Ascii.eqb d c then Some 0 else None
      end
  end.

(** [p.suffix] *)
Definition suffix (p : FS.Path) : string :=
  let name := FS.name p in
  match rfind "." name with
  | Some i => if (0 <? i) && (i <? Py.len name - 1) then Py.drop i name else ""
  | None => ""
  end.

Definition classify_file (path : FS.Path) : string :=
  let suffix := Py.lower (suffix path) in
  let name_lower := Py.lower (FS.name path) in
  if Py.contains ".eam." name_lower then "potential"
  else if str_in suffix DATA_EXTENSIONS then "data"
  else if str_in suffix INPUT_EXTENSIONS then "input"
  else if str_in suffix POTENTIAL_EXTENSIONS then "potential"
  else if str_in suffix RESTART_EXTENSIONS then "restart"
  else "other".

End Discovery.

(** ** discovery.py: the output file name *)

Module OutputName.

Import FS.

(** The [while] loop: [fuel] bounds the number of names tried. *)
Fixpoint search (fuel : nat) (st : state) (directory : Path) (prefix : string)
  (counter : nat) (output_path : Path) : option Path :=
  if exists_ st output_path then
    match fuel with
    | O => None
    | S fuel' =>
        search fuel' st directory prefix (S counter)
          (joinpath directory
             (path_of_string (prefix +:+ "_" +:+ Py.str_of_nat counter +:+ ".in")))
    end
  else Some output_path.

(** The loop ends before it has tried more names than the file system has
    entries, plus two. *)
Definition generate_output_filename (st : state) (directory : Path) (prefix : string)
  : option Path :=
  let base_name := prefix +:+ ".in" in
  search (S (size (files st))) st directory prefix 1
    (joinpath directory (path_of_string base_name)).

End OutputName.

(** ** validation/file_utils.py: cleaning up *)

Module Cleanup.

Import FS.

(** [k] is [dir] or lies below it. *)
Fixpoint below (dir k : list string) : bool :=
  match dir, k with
  | [], _ => true
  | d :: dir', c :: k' => String.eqb d c && below dir' k'
  | _ :: _, [] => false
  end.

(** The name of [key] in the directory [dir], when [key] is an entry of it. *)
Fixpoint child_of (dir key : list string) : option string :=
  match dir, key with
  | [], [name] => Some name
  | d :: dir', c :: key' => if String.eqb d c then child_of dir' key' else None
  | _, _ => None
  end.

(** [key] lies below [dir] and is not [dir] itself. *)
Definition strictly_below (dir key : list string) : bool :=
  below dir key && negb (bool_decide (key = dir)).

(** [try: m  except OSError: pass] *)
Definition attempt {E : Type} (m : state -> state * (E + unit)) : M unit :=
  fun st => (fst (m st), inr tt).

(** [p.unlink()] *)
Definition unlink (p : Path) : M unit :=
  fun st =>
    match resolve st p with
    | inl e => (st, inl e)
    | inr k =>
        match lookup_node (files st) k with
        | Some (File _) => (mkState (delete k (files st)) (cwd st), inr tt)
        | Some Dir => (st, inl EISDIR)
        | None => (st, inl ENOENT)
        end
    end.

(** The [OSError] that [shutil.rmtree] raises; the caller does not look at
    which one it is. *)
Inductive oserror : Type := OSError.

(** Resolving [comps] from [cur] steps by name into the content of the
    directory at [k]. Once that content is removed such a step finds nothing;
    a step by [..] still finds the parent. *)
Fixpoint enters (k cur comps : list string) : bool :=
  match comps with
  | [] => false
  | c :: rest =>
      if String.eqb c ".." then enters k (removelast cur) rest
      else strictly_below k (cur ++ [c]) || enters k (cur ++ [c]) rest
  end.

Section Scan.

(** The order in which [os.scandir] lists the names of a directory. *)
Variable scandir_order : list string -> list string.

(** What [os.lstat] says of a path: it is a symbolic link. The entries of
    the file system are files and directories, as the other calls see them
    through a link. *)
Variable islink : state -> Path -> bool.

(** [shutil.rmtree(p)]. A symbolic link, a file and a missing path are
    refused. The content of a directory is removed; then [os.rmdir(p)]
    resolves the path again: it fails on a path without components ([.] and
    [/]), on a path that ends with [..], and on a path that steps by name
    through the content just removed, and the directory stays, empty. *)
Definition rmtree (p : Path) : state -> state * (oserror + unit) :=
  fun st =>
    match resolve st p with
    | inl _ => (st, inl OSError)
    | inr k =>
        match lookup_node (files st) k with
        | Some Dir =>
            if islink st p then (st, inl OSError)
            else
              let emptied := filter (fun kv => strictly_below k (fst kv) = false) (files st) in
              match parts p with
              | [] => (mkState emptied (cwd st), inl OSError)
              | _ :: _ =>
                  if String.eqb (List.last (parts p) EmptyString) ".."
                     || enters k (if is_absolute p then [] else cwd st) (parts p)
                  then (mkState emptied (cwd st), inl OSError)
                  else (mkState (delete k emptied) (cwd st), inr tt)
              end
        | Some (File _) => (st, inl OSError)
        | None => (st, inl OSError)
        end
    end.

(** The names [os.scandir] lists for the directory at [k]. *)
Definition listdir (st : state) (k : list string) : list string :=
  scandir_order
    (List.filter (fun name => negb (String.eqb name ".") && negb (String.eqb name ".."))
       (omap (fun kv => child_of k (fst kv)) (map_to_list (files st)))).

(** [p.glob(pattern)] for a pattern of one component: the entries of the
    directory whose names match, listed when the iteration starts. *)
Definition glob (st : state) (p : Path) (matches : string -> bool) : list Path :=
  if is_dir st p then
    match resolve st p with
    | inr k => map (fun name => mkPath (root p) (parts p ++ [name]))
                 (List.filter matches (listdir st k))
    | inl _ => []
    end
  else [].

(** [for f in working_dir.glob(pattern): try: f.unlink() except OSError: pass] *)
Definition remove_matching (working_dir : Path) (matches : string -> bool) : M unit :=
  do found <- get (fun st => glob st working_dir matches);
  for_each found (fun f => attempt (unlink f)).

(** The patterns [*.lammps] and [input.*] as [fnmatch] reads them. *)
Definition matches_lammps (name : string) : bool := Py.endswith ".lammps" name.

Definition matches_input (name : string) : bool := Py.startswith "input." name.

Definition cleanup_working_directory (working_dir : Path) (keep_outputs : bool) : M unit :=
  do present <- get (fun st => exists_ st working_dir);
  if negb present then ret tt
  else if keep_outputs then
    do _ <- remove_matching working_dir matches_lammps;
    remove_matching working_dir matches_input
  else attempt (rmtree working_dir).

End Scan.

End Cleanup.

(** ** generator.py: reading the answer of the model *)

Module Response.

Import Re.

Definition cr : ascii := "013"%char.   (* the carriage return *)

(** [r?], greedy. *)
Definition opt (r : regex) : regex := Alt r (Lit "").

(** [.] under [re.DOTALL]. *)
Definition any (c : ascii) : bool := true.

(** The pattern [^```(?:lammps|LAMMPS|lmp|LMP|in|sh)?\s*\n?], without its anchor. *)
Definition re_open_fence : regex :=
  Seq (Lit "```")
    (Seq (opt (Alt (Lit "lammps") (Alt (Lit "LAMMPS") (Alt (Lit "lmp") (Alt (Lit "LMP")
                (Alt (Lit "in") (Lit "sh")))))))
       (Seq (Rep space 0 true) (opt (Lit (String nl EmptyString))))).

(** The pattern [\n?```\s*$]. *)
Definition re_close_fence : regex :=
  Seq (opt (Lit (String nl EmptyString))) (Seq (Lit "```") (Seq (Rep space 0 true) Eos)).

(** The pattern [```json\s*\n?(.*?)\n?```] under [re.DOTALL]. *)
Definition re_json_block : regex :=
  Seq (Lit "```json") (Seq (Rep space 0 true) (Seq (opt (Lit (String nl EmptyString)))
    (Seq (Grp (Rep any 0 false)) (Seq (opt (Lit (String nl EmptyString))) (Lit "```"))))).

(** The pattern [^```\w*\s*\n?], without its anchor. *)
Definition re_any_open_fence : regex :=
  Seq (Lit "```") (Seq (Rep word 0 true) (Seq (Rep space 0 true)
    (opt (Lit (String nl EmptyString))))).

(** [re.sub(r, "", s)] for a pattern anchored at the start by [^]: only a
    match at the very beginning is removed. *)
Definition sub_at_start (r : regex) (s : string) : string :=
  match re_match false r s with
  | Some m => after m
  | None => s
  end.

(** [re.sub(r, "", s)] for a pattern that matches no empty text: the leftmost
    matches are removed, each search resuming where the previous match ended
    ([skip] counts the characters of the current match still to pass over). *)
Fixpoint sub_from (r : regex) (prev : option ascii) (skip : nat) (s : string) : string :=
  match s with
  | EmptyString => EmptyString
  | String c s' =>
      match skip with
      | S k => sub_from r (Some c) k s'
      | O =>
          match match_here false r prev s with
          | Some m => sub_from r (Some c) (Py.len (group0 m) - 1) s'
          | None => String c (sub_from r (Some c) 0 s')
          end
      end
  end.

Definition sub_all (r : regex) (s : string) : string := sub_from r None 0 s.

(** [s.replace("\r\n", "\n")] *)
Fixpoint replace_crlf (s : string) : string :=
  match s with
  | EmptyString => EmptyString
  | String c r =>
      match r with
      | String c' r' =>
          if Ascii.eqb c cr && Ascii.eqb c' nl then String nl (replace_crlf r')
          else String c (replace_crlf r)
      | EmptyString => String c EmptyString
      end
  end.

Definition clean_llm_output (response : string) : string :=
  let content := Py.strip response in
  let content := sub_at_start re_open_fence content in
  let content := sub_all re_close_fence content in
  let content :=
    Py.replace_chr cr (String nl EmptyString) (replace_crlf content) in
  Py.strip content.

(** [s[s.find(sub):]] when [sub in s]. *)
Fixpoint from_first (sub s : string) : option string :=
  if Py.startswith sub s then Some s
  else match s with
       | EmptyString => None
       | String _ r => from_first sub r
       end.

Definition script_marker : string := "# LAMMPS INPUT SCRIPT".

Section Json.

(** The [try] block that reads the assumptions off the JSON text of the
    block: the assumptions it appends ([[]] when [json.loads] fails or there
    is no key "assumptions"), or [None] when it raises an exception that its
    handler does not catch. *)
Variable read_assumptions : string -> option (list Generator.Assumption).

(** [None]: an exception leaves the function. *)
Definition parse_llm_response (response : string)
  : option (string * list Generator.Assumption) :=
  let json_match := re_search false re_json_block response in
  let assumptions :=
    match json_match with
    | Some m => read_assumptions (group 1 m)
    | None => Some []
    end in
  match assumptions with
  | None => None
  | Some assumptions =>
      let deck_content :=
        match from_first script_marker response with
        | Some tail => Py.strip tail
        | None =>
            match json_match with
            | Some m =>
                let after_json := Py.strip (after m) in
                let after_json := sub_at_start re_any_open_fence after_json in
                let after_json := sub_all re_close_fence after_json in
                Py.strip after_json
            | None => clean_llm_output response
            end
        end in
      Some (clean_llm_output deck_content, assumptions)
  end.

End Json.

End Response.

(** ** generator.py: the kind of a context file *)

Module FileContext.

Definition data_keywords : list string := ["atoms"; "atom types"; "bonds"; "masses"; "xlo xhi"].

Definition input_keywords : list string := ["units"; "atom_style"; "pair_style"; "read_data"].

(** [any(kw in text for kw in keywords)] *)
Definition any_in (keywords : list string) (text : string) : bool :=
  existsb (fun kw => Py.contains kw text) keywords.

(** ["\n".join(content.split("\n")[:20]).lower()] *)
Definition first_lines (content : string) : string :=
  Py.lower (Py.join (String nl EmptyString) (firstn 20 (Py.split_on nl content))).

Definition detect_file_type (path : FS.Path) (content : string) : string :=
  let suffix := Py.lower (Discovery.suffix path) in
  let name := Py.lower (FS.name path) in
  if Discovery.str_in suffix [".data"; ".dat"] then "data_file"
  else if Discovery.str_in suffix [".in"; ".lmp"; ".lammps"; ".inp"] then "input_file"
  else if Discovery.str_in suffix [".eam"; ".eam.fs"; ".eam.alloy"] then "eam_potential"
  else if String.eqb suffix ".tersoff" then "tersoff_potential"
  else if String.eqb suffix ".sw" then "sw_potential"
  else if Discovery.str_in suffix [".meam"; ".library"] then "meam_potential"
  else if String.eqb suffix ".reax" then "reax_potential"
  else if String.eqb suffix ".sh" then "shell_script"
  else if Py.contains "potential" name || Py.contains "pot" name then "potential_file"
  else if Py.contains "param" name then "parameter_file"
  else
    let first_lines := first_lines content in
    if any_in data_keywords first_lines then "data_file"
    else if any_in input_keywords first_lines then "input_file"
    else if Py.contains "nrho" first_lines && Py.contains "drho" first_lines
    then "eam_potential"
    else "unknown".

End FileContext.

(** * Notions used by the statements *)

Definition deck_of (lines : list string) : string := Py.join (String nl EmptyString) lines.

(** A stand-in for Python's float formatting in examples. *)
Definition fmt_demo (spec : string) (x : PyFloat.float) : string := "<float>".

(** ** Placeholders *)

Fixpoint all_chr (p : ascii -> bool) (s : string) : bool :=
  match s with
  | EmptyString => true
  | String c r => p c && all_chr p r
  end.

(** NAME: one of A-Z or _, then any number of A-Z, 0-9 or _. *)
Definition is_name (s : string) : bool :=
  match s with
  | String c r => Re.name_start c && all_chr Re.name_char r
  | EmptyString => false
  end.

(** A template token: [{{NAME}}] or [<NAME>]. *)
Definition is_template_token (t : string) : Prop :=
  exists name, is_name name = true /\
               (t = "{{" +:+ name +:+ "}}" \/ t = "<" +:+ name +:+ ">").

(** The text contains a template token. *)
Definition contains_template_token (content : string) : Prop :=
  exists pre t post, is_template_token t /\ content = pre +:+ t +:+ post.

(** The blocking hits, line by line: the matches of the two template patterns. *)
Definition blocking_hits (content : string) : list string :=
  flat_map (fun line =>
              map Re.group0 (Re.re_finditer false L0.re_double_brace line)
              ++ map Re.group0 (Re.re_finditer false L0.re_angle_bracket line))
    (Py.split_on nl content).

(** The informational hits, line by line: the matches of the three marker patterns. *)
Definition marker_hits (content : string) : list string :=
  flat_map (fun line =>
              map Re.group0 (Re.re_finditer true (L0.re_marker "TODO") line)
              ++ map Re.group0 (Re.re_finditer true (L0.re_marker "FIXME") line)
              ++ map Re.group0 (Re.re_finditer true (L0.re_marker "XXX") line))
    (Py.split_on nl content).


(** The last character of [s], or [prev] when [s] is empty. *)
Fixpoint last_chr (prev : option ascii) (s : string) : option ascii :=
  match s with
  | EmptyString => prev
  | String c r => last_chr (Some c) r
  end.

(** The text ends with a word character: a letter, a digit or [_]. *)
Definition ends_in_word (s : string) : bool := Re.is_word_opt (last_chr None s).

(** [TODO:], [FIXME:] or [XXX:], in any letter case. *)
Definition is_marker_head (t : string) : bool :=
  String.eqb (Py.lower t) "todo:" || String.eqb (Py.lower t) "fixme:"
  || String.eqb (Py.lower t) "xxx:".

(** A marker: a head followed by at least one character, none a newline. *)
Definition is_marker_text (h : string) : Prop :=
  exists t rest, is_marker_head t = true /\ rest <> "" /\ Py.count nl rest = 0 /\
                 h = t +:+ rest.

(** The pattern [open(NAME)close]. *)
Definition re_token (opening closing : string) : Re.regex :=
  Re.Seq (Re.Lit opening)
    (Re.Seq (Re.Grp (Re.Seq (Re.Cls Re.name_start) (Re.Rep Re.name_char 0 true)))
       (Re.Lit closing)).


Definition is_template (p : string * string * nat) : bool :=
  L0.str_in (snd (fst p)) ["double_brace"; "angle_bracket"].
Definition is_marker (p : string * string * nat) : bool :=
  L0.str_in (snd (fst p)) ["todo"; "fixme"; "xxx"].

Definition line_placeholders (line_num : nat) (line : string) : list (string * string * nat) :=
  flat_map (fun '(pattern, pattern_type) =>
      let matches :=
        if L0.str_in pattern_type ["todo"; "fixme"; "xxx"]
        then Re.re_finditer true pattern line
        else Re.re_finditer false pattern line in
      map (fun m => (Re.group0 m, pattern_type, line_num)) matches)
    L0.PLACEHOLDER_PATTERNS.


(** ** Syntax and physics *)

(** The substring test that makes a physics warning critical. *)
Definition critical (w : string) : bool := Py.contains "Negative temperature" w.

(** The unit system the physics checks of [validate_l1] run with. *)
Definition units_of (content : string) : string :=
  L1.active_units (snd (L1.collect_commands (Py.split_on nl content))).

Definition deck_unknown_units : string :=
  deck_of ["units foo"; "atom_style atomic"; "create_box 1 box";
           "velocity all create -100.0 87287"].


Definition deck_negative_velocity : string :=
  deck_of ["units lj"; "atom_style atomic"; "create_box 1 box";
           "velocity all create -100.0 87287"].


(** The argument list of the first line that parses as the command [cmd]. *)
Fixpoint first_seen_args (cmd : string) (lines : list string) : option (list string) :=
  match lines with
  | [] => None
  | line :: rest =>
      match L1._parse_command line with
      | Some (c, args) => if String.eqb c cmd then Some args else first_seen_args cmd rest
      | None => first_seen_args cmd rest
      end
  end.

(** The argument list of the last line that parses as the command [cmd]. *)
Fixpoint last_seen_args (cmd : string) (lines : list string) : option (list string) :=
  match lines with
  | [] => None
  | line :: rest =>
      match last_seen_args cmd rest with
      | Some args => Some args
      | None =>
          match L1._parse_command line with
          | Some (c, args) => if String.eqb c cmd then Some args else None
          | None => None
          end
      end
  end.

(** The argument list [validate_l1] keeps for [cmd]. *)
Definition stored_args (content : string) (cmd : string) : option (list string) :=
  snd (L1.collect_commands (Py.split_on nl content)) !! cmd.


Definition deck_units_twice : string :=
  deck_of ["units lj"; "units bogus"; "atom_style atomic"; "create_box 1 box"].
Definition deck_units_switch : string :=
  deck_of ["units real"; "units lj"; "atom_style atomic"; "create_box 1 box"; "timestep 1.0"].

(** A line the per-line checks skip: blank, or a full-line comment. *)
Definition skipped_line (line : string) : bool :=
  Py.is_empty (Py.strip line) || Py.startswith "#" (Py.strip line).

(** The text of a line before its first [#]. *)
Definition before_comment (line : string) : string :=
  hd EmptyString (Py.split_on "#" line).


(** ** Thermodynamic sanity *)

Definition nan_or_inf (x : PyFloat.float) : bool := PyFloat.isnan x || PyFloat.isinf x.

(** A data point with a NaN/Inf temperature, total energy, potential energy or
    pressure, a negative temperature, a temperature above 1e6, or a total
    energy above 1e12 in absolute value. *)
Definition sample_fails (d : ThermoData.t) : bool :=
  match ThermoData.temp d with
  | Some t => nan_or_inf t || PyFloat.ltb t (PyFloat.of_Z 0)
              || PyFloat.gtb t (PyFloat.lit "1e6")
  | None => false
  end
  || match ThermoData.etotal d with
     | Some e => nan_or_inf e || PyFloat.gtb (PyFloat.abs e) (PyFloat.lit "1e12")
     | None => false
     end
  || match ThermoData.pe d with Some x => nan_or_inf x | None => false end
  || match ThermoData.press d with Some x => nan_or_inf x | None => false end.

(** The last temperature is more than ten times the first, positive, one. *)
Definition temperature_ratio_exceeded (data : list ThermoData.t) : bool :=
  (2 <=? length data)
  && match ThermoData.temp (hd ThermoData.default data),
           ThermoData.temp (List.last data ThermoData.default) with
     | Some first_temp, Some last_temp =>
         PyFloat.gtb first_temp (PyFloat.of_Z 0)
         && PyFloat.gtb (PyFloat.div last_temp first_temp) (PyFloat.lit "10.0")
     | _, _ => false
     end.

(** The total energy drifted by more than 10% of its first, non-zero, value. *)
Definition energy_drift_exceeded (data : list ThermoData.t) : bool :=
  (2 <=? length data)
  && match ThermoData.etotal (hd ThermoData.default data),
           ThermoData.etotal (List.last data ThermoData.default) with
     | Some first_e, Some last_e =>
         PyFloat.neb first_e (PyFloat.of_Z 0)
         && PyFloat.gtb (PyFloat.div (PyFloat.abs (PyFloat.sub last_e first_e))
                                     (PyFloat.abs first_e)) (PyFloat.lit "0.1")
     | _, _ => false
     end.

Definition sample (step : Z) (temp etotal : string) : ThermoData.t :=
  ThermoData.mk step (PyFloat.of_string temp) None None None (PyFloat.of_string etotal).


(** ** Engine lookup *)

Definition empty_world : world :=
  mk_world (fun _ => false) None "/home/user" (fun _ _ _ _ => TimeoutExpired).


(** ** Working directory *)

(** Every entry of [st] is still there, unchanged, in [st']. *)
Definition preserved (st st' : FS.state) : Prop :=
  forall k n, FS.files st !! k = Some n -> FS.files st' !! k = Some n.

(** A working directory that already holds a deck and a data file, and a
    context directory with another version of the data file. *)
Definition disk_with_old_files : FS.state :=
  FS.mkState
    (list_to_map
       [ (["work"], FS.Dir);
         (["work"; "input.lammps"], FS.File "old deck");
         (["work"; "system.data"], FS.File "old data");
         (["work"; "notes.txt"], FS.File "old notes");
         (["ctx"], FS.Dir);
         (["ctx"; "system.data"], FS.File "new data");
         (["ctx"; "notes.txt"], FS.File "new notes") ])
    [].

(** The same disk, seen from inside the working directory. *)
Definition disk_inside_work : FS.state :=
  FS.mkState (FS.files disk_with_old_files) ["work"].

Definition deck_reading_data : string := deck_of ["units real"; "read_data system.data"].


(** ** Orchestrator *)

Definition count_prefix (pfx : string) (l : list string) : nat :=
  length (List.filter (fun s => Py.startswith pfx s) l).

Definition one_if_failed (passed : bool) : nat := if passed then 0 else 1.



(** ** Generation loop *)

(** The last validation, if any, is the one the last attempt records. *)
Definition last_attempt_agrees (s : Generator.loop_state) : Prop :=
  match Generator.ls_validation s with
  | None => Generator.ls_attempts s = []
  | Some v =>
      exists a, last (Generator.ls_attempts s) = Some a /\
                GenerationAttempt.validation_passed a = ValidationResult.overall_passed v
  end.

(** Collaborators for the examples: a model that answers with a fixed script,
    a parser that takes the whole answer as the script, a machine without an
    engine, a disk that refuses the output file. *)
Definition deck_valid : string :=
  deck_of ["units lj"; "atom_style atomic"; "create_box 1 box"; "run 10"].
Definition deck_with_placeholder : string := deck_of ["units lj"; "timestep {{TS}}"].
Definition llm_answering (script : string) (attempt_num : nat) (prompt : string)
  : Generator.llm_reply := Generator.Reply script.
Definition parse_whole (response : string) : string * list Generator.Assumption :=
  (response, []).
Definition no_context (files : list string) : string := EmptyString.
Definition disk_full (path content : string) : option string := Some "disk full".

Definition input_default : Generator.ReaperInput :=
  Generator.mkInput "melt argon" [] (Some "out.in") None 3%Z true.
Definition input_no_fix : Generator.ReaperInput :=
  Generator.mkInput "melt argon" [] None None 3%Z false.
Definition input_negative_retries : Generator.ReaperInput :=
  Generator.mkInput "melt argon" [] None None (-2)%Z true.

(** ** The decks handed to the engine *)

Definition nls : string := String nl EmptyString.

(** The command of a line: the first word, lower-cased, of a line that is
    neither blank nor a full-line comment. *)
Definition command_of (line : string) : option string :=
  let stripped := Py.strip line in
  if Py.is_empty stripped || Py.startswith "#" stripped then None
  else match Py.split stripped with
       | [] => None
       | p0 :: _ => Some (Py.lower p0)
       end.

(** The lines of the zero-step deck. *)
Definition zero_step_lines (content : string) : list string :=
  let rewritten := map L2.zero_step_line (Py.split_on nl content) in
  if existsb snd rewritten then map fst rewritten else map fst rewritten ++ ["run 0"].

(** A line whose command is neither [run] nor [minimize]. *)
Definition not_run_or_minimize (line : string) : bool :=
  match command_of line with
  | Some cmd => negb (String.eqb cmd "run") && negb (String.eqb cmd "minimize")
  | None => true
  end.

(** A word: not empty, without white space. *)
Definition is_word (w : string) : bool :=
  negb (Py.is_empty w) && all_chr (fun c => negb (Py.isspace c)) w.

Definition run_line (steps : Z) : string := "run " +:+ Py.str_of_Z steps.

Definition minimize_line (steps : Z) : string :=
  "minimize 1e-4 1e-6 " +:+ Py.str_of_Z steps +:+ " " +:+ Py.str_of_Z (steps * 10).

Definition thermo_line : string := "thermo 5".

Definition thermo_style_line : string := "thermo_style custom step temp press pe ke etotal".

Definition is_run_kind (r : string * L3.line_kind) : bool :=
  match snd r with L3.RunLine => true | _ => false end.

Definition is_thermo_kind (r : string * L3.line_kind) : bool :=
  match snd r with L3.ThermoLine => true | _ => false end.

(** The lines of the minimal-step deck. *)
Definition minimal_step_lines (content : string) (steps : Z) : list string :=
  let rewritten := map (L3.minimal_step_line steps) (Py.split_on nl content) in
  let modified_lines := map fst rewritten in
  let modified_lines :=
    if existsb is_thermo_kind rewritten then modified_lines
    else
      let insert_idx := L3.insert_index modified_lines in
      firstn insert_idx modified_lines ++ [thermo_style_line; thermo_line]
      ++ skipn insert_idx modified_lines in
  if existsb is_run_kind rewritten then modified_lines
  else modified_lines ++ [run_line steps].

(** A line the rewriting leaves alone, the added [thermo_style] line apart. *)
Definition untouched (line : string) : bool :=
  match command_of line with
  | Some cmd => negb (String.eqb cmd "run") && negb (String.eqb cmd "minimize")
                && negb (String.eqb cmd "thermo")
  | None => true
  end
  && negb (String.eqb line thermo_style_line).

(** ** The verdict of the engine check *)

Definition mentions_any (patterns : list string) (s : string) : bool :=
  existsb (fun pattern => Py.contains pattern s) patterns.

(** An output line that makes the engine check fail: it holds an error
    pattern, or it holds a warning pattern and the text "Error". *)
Definition failing_line (line : string) : bool :=
  let stripped := Py.strip line in
  mentions_any L2.error_patterns stripped
  || (mentions_any L2.warning_patterns stripped && Py.contains "Error" stripped).

(** ** Commands and file references *)

Definition no_hash (s : string) : bool := Nat.eqb (Py.count "#" s) 0.

(** The deck has a line with the command [cmd]. *)
Definition has_command (content cmd : string) : Prop :=
  exists line args, In line (Py.split_on nl content) /\ L1._parse_command line = Some (cmd, args).

(** The references of a command with its arguments. *)
Definition command_references (cmd : string) (args : list string) : list string :=
  if FS.str_in cmd ["read_data"; "read_restart"; "include"; "read_dump"] then firstn 1 args
  else if String.eqb cmd "molecule" then firstn 1 (skipn 1 args)
  else if String.eqb cmd "pair_coeff" then flat_map FS.pair_coeff_reference args
  else if FS.str_in cmd ["bond_coeff"; "angle_coeff"; "dihedral_coeff"]
       then List.filter FS.has_extension args
  else [].

(** ** Setting up and cleaning the working directory *)

Definition same_kind (a b : FS.node) : bool :=
  match a, b with
  | FS.File _, FS.File _ | FS.Dir, FS.Dir => true
  | _, _ => false
  end.

(** Every entry of [st] is still there in [st'], a file as a file and a
    directory as a directory, and the current directory is the same. *)
Definition kinds_kept (st st' : FS.state) : Prop :=
  FS.cwd st' = FS.cwd st /\
  forall k n, FS.files st !! k = Some n ->
    exists n', FS.files st' !! k = Some n' /\ same_kind n n' = true.

(** A context file that answers a request for [filename]: it has its name,
    or its path ends with [filename]. *)
Definition answers (filename : string) (cf : FS.Path) : bool :=
  String.eqb (FS.name cf) (FS.name (FS.path_of_string filename))
  || Py.endswith filename (FS.str_of_path cf).

(** A directory that [find_file_in_context] searches: the parent of a context
    file that exists, or one of the search directories given. *)
Definition searched_dir (st : FS.state) (context_files : list FS.Path)
  (search_dirs : option (list FS.Path)) (d : FS.Path) : Prop :=
  (exists cf, In cf context_files /\ FS.exists_ st cf = true /\ d = FS.parent cf) \/
  (exists dirs, search_dirs = Some dirs /\ In d dirs).

(** The two paths tried in a directory. *)
Definition candidates_in (filename : string) (d : FS.Path) : list FS.Path :=
  [ FS.joinpath d (FS.path_of_string filename);
    FS.joinpath d (FS.path_of_string (FS.name (FS.path_of_string filename))) ].

(** The entry a path names from the current directory [cwd], whatever
    exists: a component steps into it, [..] steps back. *)
Definition key_of (cwd : list string) (p : FS.Path) : list string :=
  fold_left (fun cur c => if String.eqb c ".." then removelast cur else cur ++ [c])
    (FS.parts p) (if FS.is_absolute p then [] else cwd).

(** Where the copy of a referenced file goes. *)
Definition referenced_destination (working_dir : FS.Path) (ref_file : string) : FS.Path :=
  FS.joinpath working_dir
    (FS.path_of_string
       (if FS.is_absolute (FS.path_of_string ref_file)
        then FS.name (FS.path_of_string ref_file) else ref_file)).

(** The paths among which a file asked for is looked up: the context files,
    and the two paths tried in the parent of each. *)
Definition lookup_candidates (context_files : list FS.Path) (filename : string)
  : list FS.Path :=
  context_files
  ++ flat_map (fun cf => candidates_in filename (FS.parent cf)) context_files.

(** The entries that [setup_working_directory] may replace: the deck file,
    the destination of a referenced file, and, when that destination is a
    directory, the entry in it that has the name of the file copied. *)
Definition may_be_replaced (cwd : list string) (deck_content : string)
  (context_files : list FS.Path) (working_dir : FS.Path) (deck_filename : string)
  (key : list string) : Prop :=
  key = key_of cwd (FS.joinpath working_dir (FS.path_of_string deck_filename)) \/
  exists ref_file,
    In ref_file (FS.parse_file_references deck_content) /\
    (key = key_of cwd (referenced_destination working_dir ref_file) \/
     exists source,
       In source (lookup_candidates context_files ref_file) /\
       key = key_of cwd (FS.joinpath (referenced_destination working_dir ref_file)
                           (FS.path_of_string (FS.name source)))).

(** From [st] to [st'] the current directory is the same and every entry
    outside [W] is still there, unchanged. *)
Definition unchanged_outside (W : list string -> Prop) (st st' : FS.state) : Prop :=
  FS.cwd st' = FS.cwd st /\
  forall key n, FS.files st !! key = Some n -> ~ W key -> FS.files st' !! key = Some n.

(** A command that, started in the directory [cwd0], leaves every entry
    outside [W] alone. *)
Definition confined_to {A : Type} (W : list string -> Prop) (cwd0 : list string)
  (m : FS.M A) : Prop :=
  forall st, FS.cwd st = cwd0 -> unchanged_outside W st (fst (m st)).

Section CleanupNotions.
Import FS.

Definition is_file_node (o : option node) : bool :=
  match o with Some (File _) => true | _ => false end.

Definition real_name (name : string) : bool :=
  negb (String.eqb name ".") && negb (String.eqb name "..").

(** The directories of [st] are directories of [st'], with the same current
    directory. *)
Definition dirs_kept (st st' : state) : Prop :=
  cwd st' = cwd st /\ forall key, files st !! key = Some Dir -> files st' !! key = Some Dir.

(** Removing the files among the entries [names] of the directory at [k]. *)
Definition remove_files (k : list string) (names : list string)
  (f : gmap (list string) node) : gmap (list string) node :=
  fold_left (fun f name => if is_file_node (f !! (k ++ [name])) then delete (k ++ [name]) f else f)
    names f.

(** The entry at [key] is one that cleaning up with [keep_outputs] removes from
    the directory at [k]: a file of the directory named [*.lammps] or
    [input.*]. *)
Definition removed_when_keeping (k : list string) (f : gmap (list string) node)
  (key : list string) : bool :=
  match Cleanup.child_of k key with
  | Some name =>
      real_name name && (Cleanup.matches_lammps name || Cleanup.matches_input name)
      && is_file_node (f !! key)
  | None => false
  end.

(** What [os.rmdir] finds when [shutil.rmtree] calls it at the end. *)
Definition rmdir_refused (st : state) (p : Path) (k : list string) : bool :=
  match parts p with
  | [] => true
  | _ :: _ => String.eqb (name p) ".."
              || Cleanup.enters k (if is_absolute p then [] else cwd st) (parts p)
  end.

Definition present (o : option node) : bool :=
  match o with Some _ => true | None => false end.

(** The entries left by the two passes of cleaning up with [keep_outputs]
    in the directory at [k], for a directory listing in the order [order]. *)
Definition files_after_keeping (order : list string -> list string)
  (st : state) (k : list string) : gmap (list string) node :=
  let names1 := List.filter Cleanup.matches_lammps (Cleanup.listdir order st k) in
  let st1 := mkState (remove_files k names1 (files st)) (cwd st) in
  let names2 := List.filter Cleanup.matches_input (Cleanup.listdir order st1 k) in
  remove_files k names2 (files st1).

End CleanupNotions.

(** A file name that is one path component, and not [..]. *)
Definition plain_name (name : string) : Prop :=
  FS.path_of_string name = FS.mkPath "" [name] /\ name <> "..".

(** ** The record of the generation loop *)

(** An attempt that was followed by a request for a fix. *)
Definition fix_requested (a : GenerationAttempt.t) : Prop :=
  GenerationAttempt.validation_passed a = false /\
  length (GenerationAttempt.fixes_applied a) = 1.

(** An attempt as the loop records it. *)
Definition well_recorded (a : GenerationAttempt.t) : Prop :=
  Py.is_empty (GenerationAttempt.deck_content a) = false /\
  (GenerationAttempt.validation_passed a = true ->
     GenerationAttempt.errors a = [] /\ GenerationAttempt.fixes_applied a = []) /\
  (GenerationAttempt.validation_passed a = false -> GenerationAttempt.errors a <> []) /\
  length (GenerationAttempt.fixes_applied a) <= 1.

Section LoopNotions.
Import Generator.
Variable fmt : string -> PyFloat.float -> string.
Variable create_message : nat -> string -> llm_reply.
Variable parse_llm_response : string -> string * list Assumption.
Variable validation_importable : bool.
Variable world_at : nat -> world.

(** The state between two iterations: every recorded attempt failed and was
    followed by a request for a fix; the last validation, if any, failed. *)
Definition between_iterations (inp : ReaperInput) (next : nat) (s : loop_state) : Prop :=
  Forall (fun a => fix_requested a /\ well_recorded a /\
                   1 <= GenerationAttempt.attempt_number a < next) (ls_attempts s) /\
  StronglySorted lt (map GenerationAttempt.attempt_number (ls_attempts s)) /\
  (forall v, ls_validation s = Some v -> ValidationResult.overall_passed v = false).

(** The state when the loop is left. *)
Definition when_left (inp : ReaperInput) (hi : nat) (s : loop_state) : Prop :=
  Forall well_recorded (ls_attempts s) /\
  Forall (fun a => 1 <= GenerationAttempt.attempt_number a <= hi) (ls_attempts s) /\
  Forall fix_requested (removelast (ls_attempts s)) /\
  StronglySorted lt (map GenerationAttempt.attempt_number (ls_attempts s)) /\
  (forall v, ls_validation s = Some v -> ValidationResult.overall_passed v = true ->
     exists a, last (ls_attempts s) = Some a /\
               GenerationAttempt.deck_content a = ls_deck_content s /\
               GenerationAttempt.validation_passed a = true /\
               v = run_validation fmt validation_importable world_at inp (GenerationAttempt.attempt_number a)
                     (ls_deck_content s)).

(** The validation the loop carries is the validation of the script of the
    last attempt recorded; the script carried is that script, or empty after
    an answer without a script. *)
Definition validation_of_last (inp : ReaperInput) (s : loop_state) : Prop :=
  forall v, ls_validation s = Some v ->
    exists a, last (ls_attempts s) = Some a /\
      v = run_validation fmt validation_importable world_at inp
            (GenerationAttempt.attempt_number a) (GenerationAttempt.deck_content a) /\
      GenerationAttempt.validation_passed a = ValidationResult.overall_passed v /\
      Py.is_empty (GenerationAttempt.deck_content a) = false /\
      (ls_deck_content s = GenerationAttempt.deck_content a \/
       Py.is_empty (ls_deck_content s) = true).

(** The calls made so far: each one left an attempt or an error. *)
Definition accounted (s : loop_state) : Prop :=
  length (ls_prompts_sent s) = length (ls_attempts s) + length (ls_errors s).

(** A model whose every answer parses to an empty script. *)
Definition always_empty : Prop :=
  forall n prompt, exists response,
    create_message n prompt = Reply response /\
    Py.is_empty (fst (parse_llm_response response)) = true.

End LoopNotions.

(** ** Thermo output *)

(** A line the thermo parser takes as the column header. *)
Definition is_thermo_header (line : string) : bool :=
  match Re.re_match true L3.header_pattern (Py.strip line) with
  | Some _ => true
  | None => false
  end.

(** ** The provider *)

(** The calls of a trace and its sleeps, in order. *)
Definition calls_of (trace : list Provider.event) : list nat :=
  flat_map (fun ev => match ev with Provider.Called n => [n] | _ => [] end) trace.

Definition sleeps_of (trace : list Provider.event) : list PyFloat.float :=
  flat_map (fun ev => match ev with Provider.Slept d => [d] | _ => [] end) trace.

(** The call raised an error the method retries on. *)
Definition retried (o : Provider.api_outcome) : bool :=
  match o with
  | Provider.RateLimitError _ | Provider.APIStatusError _ => true
  | _ => false
  end.

(** ** Discovery *)

(** A file name [stem ++ ext]: a path whose last component it is. *)
Definition named (p : FS.Path) (stem ext : string) : Prop := FS.name p = stem +:+ ext.

(** The names tried, in order: [prefix.in], [prefix_1.in], [prefix_2.in], ... *)
Definition candidate_name (prefix : string) (n : nat) : string :=
  match n with
  | O => prefix +:+ ".in"
  | S _ => prefix +:+ "_" +:+ Py.str_of_nat n +:+ ".in"
  end.

Definition candidate (directory : FS.Path) (prefix : string) (n : nat) : FS.Path :=
  FS.joinpath directory (FS.path_of_string (candidate_name prefix n)).

Section OutputNameNotions.
Import FS.

(** The part of a candidate name after the prefix. *)
Definition tail_of (n : nat) : string :=
  match n with
  | O => ".in"
  | S _ => "_" +:+ Py.str_of_nat n +:+ ".in"
  end.

Definition keep_part (c : string) : bool := negb (Py.is_empty c) && negb (String.eqb c ".").

(** Where the candidates live: the directory that holds them, if there is one. *)
Definition holder (st : state) (p : Path) : option (list string) :=
  match walk (files st) (if is_absolute p then [] else cwd st) (removelast (parts p)) with
  | inr cur => match lookup_node (files st) cur with Some Dir => Some cur | _ => None end
  | inl _ => None
  end.

End OutputNameNotions.

(** The kinds that [detect_file_type] reads off a single extension. *)
Definition kind_of_extension : list (string * string) :=
  [ (".data", "data_file"); (".dat", "data_file");
    (".in", "input_file"); (".lmp", "input_file"); (".lammps", "input_file");
    (".inp", "input_file");
    (".eam", "eam_potential"); (".tersoff", "tersoff_potential"); (".sw", "sw_potential");
    (".meam", "meam_potential"); (".library", "meam_potential"); (".reax", "reax_potential");
    (".sh", "shell_script") ].

(** ** The answer of the model *)

Definition bq : ascii := "`"%char.

(** Line endings as [clean_llm_output] rewrites them. *)
Definition unix_newlines (s : string) : string :=
  Py.replace_chr Response.cr nls (Response.replace_crlf s).

(** The language tags that an opening fence may carry. *)
Definition fence_tags : list string := ["lammps"; "LAMMPS"; "lmp"; "LMP"; "in"; "sh"].

Definition fenced (tag body : string) : string :=
  "```" +:+ tag +:+ nls +:+ body +:+ nls +:+ "```".

Definition head_is (c : ascii) (s : string) : bool :=
  match s with String d _ => Ascii.eqb d c | EmptyString => false end.

Fixpoint end_chr (prev : option ascii) (l : string) : option ascii :=
  match l with
  | EmptyString => prev
  | String c l' => end_chr (Some c) l'
  end.

(** The part of a response from the marker on, or all of it. *)
Definition script_part (response : string) : string :=
  match Response.from_first Response.script_marker response with
  | Some tail => tail
  | None => response
  end.

(** * Properties *)

#[local] Arguments String.append !_ _ / : simpl nomatch.

(** ** Strings and lists *)

Lemma append_assoc (a b c : string) : (a +:+ b) +:+ c = a +:+ (b +:+ c).
Proof. induction a as [|x a IH]; simpl; [reflexivity|]. now rewrite IH. Qed.

Lemma append_nil_r (a : string) : a +:+ "" = a.
Proof. induction a as [|x a IH]; simpl; [reflexivity|]. now rewrite IH. Qed.

Lemma len_append (a b : string) : Py.len (a +:+ b) = Py.len a + Py.len b.
Proof. unfold Py.len. induction a as [|x a IH]; simpl; [reflexivity|]. now rewrite IH. Qed.

Lemma take_append (a b : string) : Py.take (Py.len a) (a +:+ b) = a.
Proof. unfold Py.len. induction a as [|x a IH]; simpl; [now destruct b|]. now rewrite IH. Qed.

Lemma count_app (c : ascii) (a b : string) :
  Py.count c (a +:+ b) = Py.count c a + Py.count c b.
Proof. induction a as [|d a IH]; simpl; [reflexivity|]. rewrite IH. lia. Qed.

Lemma startswith_count (c : ascii) (p s : string) :
  Py.startswith (String c p) s = true -> (1 <= Py.count c s)%nat.
Proof.
  destruct s as [|d s]; simpl; [discriminate|].
  intros H. apply andb_prop in H as [H _].
  rewrite Ascii.eqb_sym in H. rewrite H. lia.
Qed.

Lemma contains_count (c : ascii) (p s : string) :
  Py.contains (String c p) s = true -> (1 <= Py.count c s)%nat.
Proof.
  induction s as [|d s IH].
  - simpl. discriminate.
  - intros H. change (Py.startswith (String c p) (String d s) || Py.contains (String c p) s = true) in H.
    apply orb_prop in H as [H|H].
    + now apply startswith_count in H.
    + simpl. specialize (IH H). lia.
Qed.

Lemma no_char_not_contained (c : ascii) (p s : string) :
  Py.count c s = 0 -> Py.contains (String c p) s = false.
Proof.
  intros H. destruct (Py.contains (String c p) s) eqn:E; [|reflexivity].
  apply contains_count in E. lia.
Qed.

Lemma startswith_app_r (sub s post : string) :
  Py.startswith sub s = true -> Py.startswith sub (s +:+ post) = true.
Proof.
  revert s. induction sub as [|c sub IH]; intros s; simpl; [reflexivity|].
  destruct s as [|d s]; [discriminate|]. simpl.
  intros H. apply andb_prop in H as [H1 H2]. now rewrite H1, IH.
Qed.

Lemma contains_cons (sub : string) (c : ascii) (s : string) :
  Py.contains sub (String c s) = Py.startswith sub (String c s) || Py.contains sub s.
Proof. reflexivity. Qed.

Lemma contains_app_r (sub s post : string) :
  Py.contains sub s = true -> Py.contains sub (s +:+ post) = true.
Proof.
  induction s as [|c s IH].
  - intros H. assert (E : Py.startswith sub "" = true) by (now destruct sub).
    destruct sub; [|discriminate]. now destruct post.
  - rewrite contains_cons. intros H. apply orb_prop in H as [H|H].
    + change (String c s +:+ post) with (String c (s +:+ post)). rewrite contains_cons.
      change (String c (s +:+ post)) with (String c s +:+ post).
      now rewrite (startswith_app_r _ _ _ H).
    + change (String c s +:+ post) with (String c (s +:+ post)). rewrite contains_cons.
      rewrite (IH H). apply orb_true_r.
Qed.

Lemma contains_app_l (sub pre s : string) :
  Py.contains sub s = true -> Py.contains sub (pre +:+ s) = true.
Proof.
  intros H. induction pre as [|c pre IH]; [exact H|].
  change (String c pre +:+ s) with (String c (pre +:+ s)). rewrite contains_cons.
  rewrite IH. apply orb_true_r.
Qed.

Lemma count_cons (c d : ascii) (s : string) :
  Py.count c (String d s) = ((if Ascii.eqb d c then 1 else 0) + Py.count c s)%nat.
Proof. reflexivity. Qed.

Lemma count_uint (c : ascii) (d : Decimal.uint) :
  Py.isdigit c = false -> Py.count c (NilEmpty.string_of_uint d) = 0.
Proof.
  intros Hc. induction d; cbn [NilEmpty.string_of_uint]; try reflexivity;
    rewrite count_cons, IHd;
    match goal with |- context [Ascii.eqb ?x c] =>
      destruct (Ascii.eqb x c) eqn:E; [apply Ascii.eqb_eq in E; subst; discriminate|reflexivity] end.
Qed.

Lemma count_str_of_nat (n : nat) : Py.count "N" (Py.str_of_nat n) = 0.
Proof. apply count_uint. reflexivity. Qed.

Lemma in_enumerate {A} (l : list A) (k n : nat) (x : A) :
  In (n, x) (Py.enumerate k l) <-> (k <= n)%nat /\ nth_error l (n - k) = Some x.
Proof.
  revert k. induction l as [|a l IH]; intros k; simpl.
  - split; [tauto|]. intros [_ H]. destruct (n - k)%nat; discriminate.
  - rewrite IH. split.
    + intros [H | [H1 H2]].
      * inversion H; subst. rewrite Nat.sub_diag. split; [lia|reflexivity].
      * split; [lia|]. replace (n - k)%nat with (S (n - S k)) by lia. exact H2.
    + intros [H1 H2]. destruct (n - k)%nat as [|m] eqn:Hm.
      * left. inversion H2; subst. f_equal. lia.
      * right. split; [lia|]. replace (n - S k)%nat with m by lia. exact H2.
Qed.

Lemma length_zero_nil {A} (l : list A) : Nat.eqb (length l) 0 = true <-> l = [].
Proof. destruct l; simpl; split; congruence. Qed.

Lemma filter_nil_iff {A} (f : A -> bool) (l : list A) :
  List.filter f l = [] <-> forall x, In x l -> f x = false.
Proof.
  induction l as [|a l IH]; simpl.
  - split; [intros _ x []|reflexivity].
  - destruct (f a) eqn:E.
    + split; [discriminate|]. intros H. specialize (H a (or_introl eq_refl)). congruence.
    + rewrite IH. split.
      * intros H x [<-|Hx]; auto.
      * intros H x Hx. apply H. now right.
Qed.

Lemma find_is_none {A} (f : A -> bool) (l : list A) :
  forallb (fun x => negb (f x)) l = true -> find f l = None.
Proof.
  induction l as [|a l IH]; intros H; [reflexivity|].
  simpl in *. apply andb_prop in H as [Ha Hl].
  apply negb_true_iff in Ha. rewrite Ha. now apply IH.
Qed.

Lemma split_on_nonempty (sep : ascii) (s : string) : Py.split_on sep s <> [].
Proof.
  induction s as [|c s IH]; simpl; [discriminate|].
  destruct (Ascii.eqb c sep); [discriminate|].
  destruct (Py.split_on sep s); [contradiction|discriminate].
Qed.

Lemma first_line_is_prefix (sep : ascii) (s h : string) (t : list string) :
  Py.split_on sep s = h :: t -> exists b, s = h +:+ b.
Proof.
  revert h t. induction s as [|d s IH]; intros h t E; simpl in E.
  - inversion E. exists "". reflexivity.
  - destruct (Ascii.eqb d sep).
    + inversion E. exists (String d s). reflexivity.
    + destruct (Py.split_on sep s) as [|h' t'] eqn:E'.
      * inversion E. exists s. reflexivity.
      * inversion E; subst. destruct (IH h' t eq_refl) as (b & ->).
        exists b. reflexivity.
Qed.

(** Every line of a text is a piece of it. *)
Lemma line_is_substring (sep : ascii) (s line : string) :
  In line (Py.split_on sep s) -> exists a b, s = a +:+ line +:+ b.
Proof.
  revert line. induction s as [|c s IH]; intros line; simpl.
  - intros [<-|[]]. exists "", "". reflexivity.
  - destruct (Ascii.eqb c sep) eqn:Ec.
    + intros [<-|H].
      * exists "", (String c s). reflexivity.
      * destruct (IH _ H) as (a & b & ->). exists (String c a), b. reflexivity.
    + destruct (Py.split_on sep s) as [|h t] eqn:Es.
      * intros [<-|[]]. exists "", s. reflexivity.
      * intros [<-|H].
        -- destruct (first_line_is_prefix _ _ _ _ Es) as (b & ->).
           exists "", b. reflexivity.
        -- destruct (IH line (or_intror H)) as (a & b & ->).
           exists (String c a), b. reflexivity.
Qed.

(** A piece of text without the separator lies within one line. *)
Lemma substring_in_line (sep : ascii) (pre t post : string) :
  Py.count sep t = 0 ->
  exists line a b, In line (Py.split_on sep (pre +:+ t +:+ post)) /\ line = a +:+ t +:+ b.
Proof.
  intros Ht. induction pre as [|c pre IH].
  - change ("" +:+ t +:+ post) with (t +:+ post).
    assert (H : exists h tl b, Py.split_on sep (t +:+ post) = h :: tl /\ h = t +:+ b).
    { induction t as [|d t IHt].
      - simpl. pose proof (split_on_nonempty sep post).
        destruct (Py.split_on sep post) as [|h tl] eqn:E; [contradiction|].
        exists h, tl, h. split; reflexivity.
      - simpl in Ht. destruct (Ascii.eqb d sep) eqn:Ed; [discriminate|].
        destruct (IHt Ht) as (h & tl & b & E & ->).
        simpl. rewrite Ed, E. exists (String d (t +:+ b)), tl, b. split; reflexivity. }
    destruct H as (h & tl & b & E & ->). rewrite E.
    exists (t +:+ b), "", b. split; [now left|reflexivity].
  - destruct IH as (line & a & b & Hin & ->).
    change (String c pre +:+ t +:+ post) with (String c (pre +:+ t +:+ post)). simpl.
    destruct (Ascii.eqb c sep).
    + exists (a +:+ t +:+ b), a, b. split; [now right|reflexivity].
    + destruct (Py.split_on sep (pre +:+ t +:+ post)) as [|h tl]; [destruct Hin|].
      destruct Hin as [->|Hin].
      * exists (String c (a +:+ t +:+ b)), (String c a), b. split; [now left|reflexivity].
      * exists (a +:+ t +:+ b), a, b. split; [now right|reflexivity].
Qed.

(** ** The matcher on the token patterns *)

Lemma match_lit_intro (l : string) (prev : option ascii) (s : string) :
  exists pv, Re.match_lit false l prev (l +:+ s) = Some (pv, s).
Proof.
  revert prev. induction l as [|c l IH]; intros prev; simpl.
  - eexists. now destruct s.
  - unfold Re.chr_eq. rewrite Ascii.eqb_refl. apply IH.
Qed.

Lemma match_lit_inv (l : string) (prev pv : option ascii) (s s' : string) :
  Re.match_lit false l prev s = Some (pv, s') -> s = l +:+ s'.
Proof.
  revert prev s. induction l as [|c l IH]; intros prev s; simpl.
  - destruct s; intros H; inversion H; reflexivity.
  - destruct s as [|d s]; [discriminate|].
    unfold Re.chr_eq. destruct (Ascii.eqb c d) eqn:E; [|discriminate].
    apply Ascii.eqb_eq in E. subst d. intros H. now rewrite (IH _ _ H).
Qed.

Section Greedy.
Context {R : Type}.
Variable p : ascii -> bool.
Variable K : option ascii -> string -> option R.

Lemma rep_greedy_inv (s : string) (prev : option ascii) (x : R) :
  Re.rep_greedy p K 0 prev s = Some x ->
  exists run tail pv, s = run +:+ tail /\ all_chr p run = true /\ K pv tail = Some x.
Proof.
  revert prev. induction s as [|c s IH]; intros prev; simpl.
  - intros H. exists "", "", prev. auto.
  - destruct (p c) eqn:Hc.
    + destruct (Re.rep_greedy p K 0 (Some c) s) as [y|] eqn:E.
      * intros H. inversion H; subst y.
        destruct (IH _ E) as (run & tail & pv & -> & Hrun & Hk).
        exists (String c run), tail, pv. simpl. rewrite Hc, Hrun. auto.
      * intros H. exists "", (String c s), prev. auto.
    + intros H. exists "", (String c s), prev. auto.
Qed.

Lemma rep_greedy_intro (run tail : string) (prev : option ascii) :
  all_chr p run = true -> (forall pv, exists x, K pv tail = Some x) ->
  exists x, Re.rep_greedy p K 0 prev (run +:+ tail) = Some x.
Proof.
  intros Hrun Hk. revert prev Hrun. induction run as [|c run IH]; intros prev Hrun.
  - change ("" +:+ tail) with tail. destruct tail as [|c s]; simpl; [apply Hk|].
    destruct (p c); [|apply Hk].
    destruct (Re.rep_greedy p K 0 (Some c) s); [eauto|apply Hk].
  - simpl in Hrun. apply andb_prop in Hrun as [Hc Hrun].
    change (String c run +:+ tail) with (String c (run +:+ tail)). simpl. rewrite Hc.
    destruct (IH (Some c) Hrun) as (x & ->). eauto.
Qed.
End Greedy.

Lemma token_match_intro (opening closing name rest : string) (prev : option ascii) :
  is_name name = true ->
  exists m, Re.match_here false (re_token opening closing) prev
              (opening +:+ name +:+ closing +:+ rest) = Some m.
Proof.
  intros Hn. destruct name as [|c name]; [discriminate|].
  simpl in Hn. apply andb_prop in Hn as [Hc Hn].
  unfold Re.match_here, re_token. cbn [Re.rmatch].
  destruct (match_lit_intro opening prev (String c name +:+ closing +:+ rest)) as (pv & ->).
  change (String c name +:+ closing +:+ rest) with (String c (name +:+ closing +:+ rest)).
  cbn iota beta. rewrite Hc.
  apply rep_greedy_intro; [exact Hn|].
  intros pv'. destruct (match_lit_intro closing pv' rest) as (pv'' & ->). eauto.
Qed.

Lemma token_match_inv (opening closing s : string) (prev : option ascii) (m : Re.mobj) :
  Re.match_here false (re_token opening closing) prev s = Some m ->
  exists name rest,
    is_name name = true /\ s = opening +:+ name +:+ closing +:+ rest /\
    Re.group0 m = opening +:+ name +:+ closing.
Proof.
  unfold Re.match_here, re_token. cbn [Re.rmatch].
  destruct (Re.match_lit false opening prev s) as [[pv s1]|] eqn:E1; [|discriminate].
  apply match_lit_inv in E1. subst s.
  destruct s1 as [|c s2]; [discriminate|].
  destruct (Re.name_start c) eqn:Hc; [|discriminate].
  intros H. apply rep_greedy_inv in H as (run & tail & pv' & -> & Hrun & Hk).
  destruct (Re.match_lit false closing pv' tail) as [[pv'' rest]|] eqn:E2; [|discriminate].
  apply match_lit_inv in E2. subst tail. inversion Hk; subst m. clear Hk.
  exists (String c run), rest. split; [simpl; now rewrite Hc, Hrun|]. split; [reflexivity|].
  cbn [Re.group0].
  replace (opening +:+ String c (run +:+ closing +:+ rest))
    with ((opening +:+ String c run +:+ closing) +:+ rest).
  2:{ rewrite !append_assoc. reflexivity. }
  rewrite len_append.
  replace (Py.len (opening +:+ String c run +:+ closing) + Py.len rest - Py.len rest)
    with (Py.len (opening +:+ String c run +:+ closing)) by lia.
  apply take_append.
Qed.

Lemma finditer_inv (ic : bool) (r : Re.regex) (s : string) (prev : option ascii) (skip : nat)
  (m : Re.mobj) :
  In m (Re.finditer_from ic r prev skip s) ->
  exists a b pv, s = a +:+ b /\ Re.match_here ic r pv b = Some m.
Proof.
  revert prev skip. induction s as [|c s IH]; intros prev skip; simpl; [intros []|].
  destruct skip as [|k].
  - destruct (Re.match_here ic r prev (String c s)) as [m'|] eqn:E.
    + intros [<-|H].
      * exists "", (String c s), prev. auto.
      * destruct (IH _ _ H) as (a & b & pv & -> & Hm). exists (String c a), b, pv. auto.
    + intros H. destruct (IH _ _ H) as (a & b & pv & -> & Hm). exists (String c a), b, pv. auto.
  - intros H. destruct (IH _ _ H) as (a & b & pv & -> & Hm). exists (String c a), b, pv. auto.
Qed.

Lemma finditer_intro (ic : bool) (r : Re.regex) (a b : string) (prev : option ascii) :
  b <> "" -> (forall pv, exists m, Re.match_here ic r pv b = Some m) ->
  Re.finditer_from ic r prev 0 (a +:+ b) <> [].
Proof.
  intros Hb Hm. revert prev. induction a as [|c a IH]; intros prev.
  - change ("" +:+ b) with b. destruct b as [|c b]; [contradiction|].
    simpl. destruct (Hm prev) as (m & ->). discriminate.
  - change (String c a +:+ b) with (String c (a +:+ b)). simpl.
    destruct (Re.match_here ic r prev (String c (a +:+ b))); [discriminate|]. apply IH.
Qed.

(** ** L0: placeholders *)

Lemma filter_tagged (f : string * string * nat -> bool) (tag : string) (n : nat)
  (ms : list Re.mobj) (b : bool) :
  (forall t, f (t, tag, n) = b) ->
  List.filter f (map (fun m => (Re.group0 m, tag, n)) ms)
  = if b then map (fun m => (Re.group0 m, tag, n)) ms else [].
Proof.
  intros H. induction ms as [|m ms IH]; simpl; [now destruct b|].
  rewrite H, IH. now destruct b.
Qed.

Lemma line_templates (n : nat) (line : string) :
  map (fun p => fst (fst p)) (List.filter is_template (line_placeholders n line))
  = map Re.group0 (Re.re_finditer false L0.re_double_brace line)
    ++ map Re.group0 (Re.re_finditer false L0.re_angle_bracket line).
Proof.
  unfold line_placeholders, L0.PLACEHOLDER_PATTERNS.
  cbn -[Re.re_finditer L0.re_double_brace L0.re_angle_bracket L0.re_marker].
  rewrite !List.filter_app.
  rewrite (filter_tagged is_template "double_brace" n _ true) by reflexivity.
  rewrite (filter_tagged is_template "angle_bracket" n _ true) by reflexivity.
  rewrite (filter_tagged is_template "todo" n _ false) by reflexivity.
  rewrite (filter_tagged is_template "fixme" n _ false) by reflexivity.
  rewrite (filter_tagged is_template "xxx" n _ false) by reflexivity.
  cbn [app List.filter]. rewrite app_nil_r, map_app, !map_map. reflexivity.
Qed.

Lemma line_markers (n : nat) (line : string) :
  map (fun p => fst (fst p)) (List.filter is_marker (line_placeholders n line))
  = map Re.group0 (Re.re_finditer true (L0.re_marker "TODO") line)
    ++ map Re.group0 (Re.re_finditer true (L0.re_marker "FIXME") line)
    ++ map Re.group0 (Re.re_finditer true (L0.re_marker "XXX") line).
Proof.
  unfold line_placeholders, L0.PLACEHOLDER_PATTERNS.
  cbn -[Re.re_finditer L0.re_double_brace L0.re_angle_bracket L0.re_marker].
  rewrite !List.filter_app.
  rewrite (filter_tagged is_marker "double_brace" n _ false) by reflexivity.
  rewrite (filter_tagged is_marker "angle_bracket" n _ false) by reflexivity.
  rewrite (filter_tagged is_marker "todo" n _ true) by reflexivity.
  rewrite (filter_tagged is_marker "fixme" n _ true) by reflexivity.
  rewrite (filter_tagged is_marker "xxx" n _ true) by reflexivity.
  cbn [app List.filter]. rewrite app_nil_r, !map_app, !map_map. reflexivity.
Qed.

Lemma placeholders_by_line (f : string * string * nat -> bool)
  (g : string -> list string) (lines : list string) (k : nat) :
  (forall n line,
     map (fun p => fst (fst p)) (List.filter f (line_placeholders n line)) = g line) ->
  map (fun p => fst (fst p))
    (List.filter f (flat_map (fun '(n, line) => line_placeholders n line)
                      (Py.enumerate k lines)))
  = flat_map g lines.
Proof.
  intros H. revert k. induction lines as [|line lines IH]; intros k; simpl; [reflexivity|].
  now rewrite List.filter_app, map_app, H, IH.
Qed.

Lemma validate_l0_fields (content : string) :
  let r := L0.validate_l0 content in
  L0Result.placeholders_found r = blocking_hits content ++ marker_hits content /\
  L0Result.unresolved_count r = length (blocking_hits content) /\
  L0Result.passed r = Nat.eqb (L0Result.unresolved_count r) 0.
Proof.
  unfold L0.validate_l0, L0._find_placeholders.
  cbn [L0Result.placeholders_found L0Result.unresolved_count L0Result.passed].
  fold is_template. fold is_marker.
  change (fun '(line_num, line) => flat_map _ L0.PLACEHOLDER_PATTERNS)
    with (fun '(n, line) => line_placeholders n line).
  rewrite (placeholders_by_line is_template _ _ 1 line_templates).
  rewrite (placeholders_by_line is_marker _ _ 1 line_markers).
  split; [reflexivity|]. split; [|reflexivity].
  unfold blocking_hits.
  rewrite <- (placeholders_by_line is_template _ _ 1 line_templates).
  now rewrite length_map.
Qed.

Lemma name_has_no_newline (name : string) : is_name name = true -> Py.count nl name = 0.
Proof.
  assert (Hc : forall c, Re.name_char c = true -> Ascii.eqb c nl = false).
  { intros c Hc. destruct (Ascii.eqb c nl) eqn:E; [|reflexivity].
    apply Ascii.eqb_eq in E. subst c. discriminate Hc. }
  assert (Hs : forall c, Re.name_start c = true -> Ascii.eqb c nl = false).
  { intros c Hc'. destruct (Ascii.eqb c nl) eqn:E; [|reflexivity].
    apply Ascii.eqb_eq in E. subst c. discriminate Hc'. }
  destruct name as [|c name]; [discriminate|]. simpl.
  intros H. apply andb_prop in H as [H1 H2]. rewrite (Hs c H1). simpl.
  induction name as [|d name IH]; [reflexivity|].
  simpl in H2. apply andb_prop in H2 as [H2 H3]. simpl. rewrite (Hc d H2). simpl. auto.
Qed.

Lemma token_has_no_newline (t : string) : is_template_token t -> Py.count nl t = 0.
Proof.
  intros (name & Hn & [-> | ->]); rewrite !count_app, (name_has_no_newline _ Hn); reflexivity.
Qed.

Lemma token_matches (t rest : string) :
  is_template_token t ->
  (forall pv, exists m, Re.match_here false L0.re_double_brace pv (t +:+ rest) = Some m) \/
  (forall pv, exists m, Re.match_here false L0.re_angle_bracket pv (t +:+ rest) = Some m).
Proof.
  intros (name & Hn & [-> | ->]); [left|right]; intros pv; rewrite !append_assoc.
  - exact (token_match_intro "{{" "}}" name rest pv Hn).
  - exact (token_match_intro "<" ">" name rest pv Hn).
Qed.

Lemma token_nonempty (t rest : string) : is_template_token t -> t +:+ rest <> "".
Proof. intros (name & _ & [-> | ->]); discriminate. Qed.

Lemma token_is_hit (content : string) :
  contains_template_token content -> blocking_hits content <> [].
Proof.
  intros (pre & t & post & Ht & ->).
  destruct (substring_in_line nl pre t post (token_has_no_newline t Ht))
    as (line & a & b & Hin & Hline).
  intros Hnil. unfold blocking_hits in Hnil.
  assert (Hl : map Re.group0 (Re.re_finditer false L0.re_double_brace line)
               ++ map Re.group0 (Re.re_finditer false L0.re_angle_bracket line) = []).
  { destruct (map _ _ ++ map _ _) as [|x l] eqn:E; [reflexivity|].
    assert (Hx : In x (flat_map (fun line =>
                   map Re.group0 (Re.re_finditer false L0.re_double_brace line)
                   ++ map Re.group0 (Re.re_finditer false L0.re_angle_bracket line))
                   (Py.split_on nl (pre +:+ t +:+ post)))).
    { apply in_flat_map. exists line. split; [exact Hin|]. rewrite E. now left. }
    rewrite Hnil in Hx. destruct Hx. }
  apply app_eq_nil in Hl as [H1 H2].
  apply map_eq_nil in H1. apply map_eq_nil in H2.
  subst line. unfold Re.re_finditer in H1, H2.
  destruct (token_matches t b Ht) as [Hm|Hm].
  - exact (finditer_intro false _ a (t +:+ b) None (token_nonempty t b Ht) Hm H1).
  - exact (finditer_intro false _ a (t +:+ b) None (token_nonempty t b Ht) Hm H2).
Qed.

Lemma hit_is_token (content h : string) :
  In h (blocking_hits content) ->
  is_template_token h /\ exists pre post, content = pre +:+ h +:+ post.
Proof.
  unfold blocking_hits. rewrite in_flat_map. intros (line & Hline & Hh).
  destruct (line_is_substring nl content line Hline) as (a' & b' & ->).
  assert (Hm : exists m opening closing,
             (opening = "{{" /\ closing = "}}" \/ opening = "<" /\ closing = ">") /\
             Re.group0 m = h /\
             In m (Re.re_finditer false (re_token opening closing) line)).
  { apply in_app_or in Hh as [Hh|Hh]; apply in_map_iff in Hh as (m & Hg & Hin).
    - exists m, "{{", "}}". auto.
    - exists m, "<", ">". auto. }
  destruct Hm as (m & opening & closing & Hoc & Hg & Hin).
  apply finditer_inv in Hin as (a & b & pv & -> & Hmatch).
  apply token_match_inv in Hmatch as (name & rest & Hn & -> & Hg0).
  rewrite <- Hg, Hg0. clear Hg Hg0 Hh Hline. split.
  - exists name. split; [exact Hn|]. destruct Hoc as [[-> ->]|[-> ->]]; auto.
  - exists (a' +:+ a), (rest +:+ b'). rewrite !append_assoc. reflexivity.
Qed.

(** The two-line deck of scenario A. *)
Lemma scenario_A :
  L0.validate_l0 ("units lj" +:+ String nl "timestep {{TS}}") =
    L0Result.mk false ["{{TS}}"] 1 ["Line 2: Unresolved placeholder {{TS}}"].
Proof. vm_compute. reflexivity. Qed.

(** ** L1: syntax and physics *)

Lemma known_units_have_ranges (u : string) :
  L1.str_in u L1.VALID_UNITS = true ->
  exists r, L1.TEMPERATURE_RANGES !! u = Some r.
Proof.
  unfold L1.str_in, L1.VALID_UNITS. cbn [existsb].
  rewrite !orb_true_iff.
  intros H. repeat destruct H as [H|H]; try discriminate;
    apply String.eqb_eq in H; subst u; vm_compute; eauto.
Qed.

Lemma ranged_units_no_N (table : list (string * (PyFloat.float * PyFloat.float)))
  (u : string) (r : PyFloat.float * PyFloat.float) :
  (list_to_map table : gmap string _) !! u = Some r ->
  forallb (fun e => Nat.eqb (Py.count "N" (fst e)) 0) table = true ->
  Py.count "N" u = 0.
Proof.
  intros H Hall. apply elem_of_list_to_map_2 in H. apply list_elem_of_In in H.
  rewrite forallb_forall in Hall. specialize (Hall _ H). now apply Nat.eqb_eq in Hall.
Qed.

Lemma parsed_context (content : string) (t : PyFloat.float) (n : nat) (ctx : string) :
  In (t, n, ctx) (L1._parse_temperatures content) -> Py.count "N" ctx = 0.
Proof.
  unfold L1._parse_temperatures. rewrite in_flat_map.
  intros ([k line] & _ & H).
  destruct (Py.startswith "#" (Py.strip line)); [destruct H|].
  unfold L1.line_temperatures in H. apply in_app_or in H as [H|H].
  - destruct (Re.re_search true L1.re_thermostat _); [|destruct H].
    destruct (Re.re_search true L1.re_temp_pair _); [|destruct H].
    destruct (PyFloat.of_string _); [|destruct H].
    destruct (PyFloat.of_string _); [|destruct H].
    destruct H as [H|[H|[]]]; inversion H; reflexivity.
  - destruct (Py.startswith "velocity" _); [|destruct H].
    destruct (Re.re_search true L1.re_velocity _); [|destruct H].
    destruct (PyFloat.of_string _); [|destruct H].
    destruct H as [H|[]]; inversion H; reflexivity.
Qed.

Section L1Pass.
Variable fmt : string -> PyFloat.float -> string.

Lemma negative_temperature_is_critical (mn mx t : PyFloat.float) (n : nat) (ctx : string) :
  PyFloat.ltb t (PyFloat.of_Z 0) = true ->
  exists w, L1.temperature_warning fmt mn mx (t, n, ctx) = [w] /\ critical w = true.
Proof.
  intros H. unfold L1.temperature_warning. rewrite H. eexists. split; [reflexivity|].
  unfold critical.
  apply contains_app_l, contains_app_l, contains_app_r. reflexivity.
Qed.

Hypothesis fmt_no_N : forall spec x, Py.count "N" (fmt spec x) = 0.

Ltac no_capital_N :=
  unfold critical; apply no_char_not_contained;
  repeat rewrite count_app; rewrite ?fmt_no_N, ?count_str_of_nat;
  repeat match goal with H : Py.count _ _ = 0 |- _ => rewrite H end;
  reflexivity.

Lemma timestep_warnings_not_critical (ts : PyFloat.float) (u w : string) :
  In w (L1._check_timestep_physics fmt ts u) -> critical w = false.
Proof.
  unfold L1._check_timestep_physics.
  destruct (L1.TIMESTEP_RANGES !! u) as [[mn mx]|] eqn:E; [|intros []].
  assert (Hu : Py.count "N" u = 0).
  { eapply ranged_units_no_N; [exact E|reflexivity]. }
  destruct (PyFloat.ltb ts mn); [|destruct (PyFloat.gtb ts mx)].
  - intros [<-|[]]. no_capital_N.
  - intros [<-|[]]. no_capital_N.
  - intros [].
Qed.

Lemma temperature_warning_not_critical (mn mx t : PyFloat.float) (n : nat) (ctx w : string) :
  PyFloat.ltb t (PyFloat.of_Z 0) = false -> Py.count "N" ctx = 0 ->
  In w (L1.temperature_warning fmt mn mx (t, n, ctx)) -> critical w = false.
Proof.
  intros Ht Hctx. unfold L1.temperature_warning. rewrite Ht.
  destruct (PyFloat.ltb t mn); [|destruct (PyFloat.gtb t mx)].
  - intros [<-|[]]. no_capital_N.
  - intros [<-|[]]. no_capital_N.
  - intros [].
Qed.
End L1Pass.


Section L1Verdict.
Variable fmt : string -> PyFloat.float -> string.

(** The fields of the result, in terms of the commands collected. *)
Lemma validate_l1_fields (content : string) :
  let found := fst (L1.collect_commands (Py.split_on nl content)) in
  let args := snd (L1.collect_commands (Py.split_on nl content)) in
  let r := L1.validate_l1 fmt content in
  L1Result.syntax_errors r =
    map snd (L1._check_required_commands found)
    ++ map snd (L1._check_structure_commands found)
    ++ match args !! "units" with
       | Some a => L1.opt_list (L1._validate_units_command a)
       | None => []
       end
    ++ match args !! "atom_style" with
       | Some a => L1.opt_list (L1._validate_atom_style_command a)
       | None => []
       end
    ++ map (fun '(line_num, error) => "Line " +:+ Py.str_of_nat line_num +:+ ": " +:+ error)
         (L1._check_common_syntax_errors content) /\
  L1Result.physics_warnings r =
    match L1._parse_timestep content with
    | Some ts => L1._check_timestep_physics fmt ts (L1.active_units args)
    | None => []
    end
    ++ match L1._parse_temperatures content with
       | [] => []
       | _ => L1._check_temperature_physics fmt (L1._parse_temperatures content)
                (L1.active_units args)
       end /\
  L1Result.passed r =
    Nat.eqb (length (L1Result.syntax_errors r)) 0
    && Nat.eqb (length (List.filter critical (L1Result.physics_warnings r))) 0.
Proof.
  unfold L1.validate_l1.
  destruct (L1.collect_commands (Py.split_on nl content)) as [found args].
  cbn [fst snd L1Result.syntax_errors L1Result.physics_warnings L1Result.passed].
  repeat split.
Qed.

Lemma passed_iff (content : string) :
  let r := L1.validate_l1 fmt content in
  L1Result.passed r = true <->
  L1Result.syntax_errors r = [] /\
  forall w, In w (L1Result.physics_warnings r) -> critical w = false.
Proof.
  intros r. destruct (validate_l1_fields content) as (_ & _ & Hp). fold r in Hp.
  rewrite Hp, andb_true_iff, !length_zero_nil, filter_nil_iff. reflexivity.
Qed.

Lemma unknown_units_is_an_error (content : string) :
  L1.TEMPERATURE_RANGES !! units_of content = None ->
  L1Result.syntax_errors (L1.validate_l1 fmt content) <> [].
Proof.
  intros Hnone. destruct (validate_l1_fields content) as (Hs & _ & _).
  rewrite Hs. unfold units_of, L1.active_units in Hnone.
  destruct (snd (L1.collect_commands (Py.split_on nl content)) !! "units") as [[|a0 rest]|];
    try (vm_compute in Hnone; discriminate).
  unfold L1._validate_units_command.
  destruct (L1.str_in (Py.lower a0) L1.VALID_UNITS) eqn:E.
  - apply known_units_have_ranges in E as [r E]. congruence.
  - cbn [negb L1.opt_list]. intros H.
    apply app_eq_nil in H as [_ H]. apply app_eq_nil in H as [_ H].
    apply app_eq_nil in H as [H _]. discriminate H.
Qed.

Lemma negative_temperature_warned (content : string) (t : PyFloat.float) (n : nat)
  (ctx : string) (rng : PyFloat.float * PyFloat.float) :
  In (t, n, ctx) (L1._parse_temperatures content) ->
  PyFloat.ltb t (PyFloat.of_Z 0) = true ->
  L1.TEMPERATURE_RANGES !! units_of content = Some rng ->
  exists w, In w (L1Result.physics_warnings (L1.validate_l1 fmt content)) /\ critical w = true.
Proof.
  destruct rng as [mn mx].
  intros Hin Hneg Hr. destruct (validate_l1_fields content) as (_ & Hw & _).
  rewrite Hw. fold (units_of content).
  destruct (negative_temperature_is_critical fmt mn mx t n ctx Hneg) as (w & Hw1 & Hc).
  exists w. split; [|exact Hc]. apply in_or_app. right.
  destruct (L1._parse_temperatures content) as [|p l] eqn:E; [destruct Hin|].
  unfold L1._check_temperature_physics. rewrite Hr.
  apply in_flat_map. exists (t, n, ctx). split; [exact Hin|].
  rewrite Hw1. now left.
Qed.

(** C6, amended. [validate_l1] passes exactly when there is no syntax error
    and no physics warning contains "Negative temperature". A parsed negative
    temperature always makes the result fail, and it produces a critical
    warning whenever the active unit system is one of the eight known ones
    (an unknown unit system silences the temperature check and is itself a
    syntax error). When float formatting yields no capital N and no parsed
    temperature is negative, no physics warning is critical, so timestep and
    out-of-range temperature warnings never block passing. *)
Theorem l1_pass_condition (content : string) :
  let r := L1.validate_l1 fmt content in
  (L1Result.passed r = true <->
   L1Result.syntax_errors r = [] /\
   forall w, In w (L1Result.physics_warnings r) -> critical w = false) /\
  (forall t n ctx,
     In (t, n, ctx) (L1._parse_temperatures content) ->
     PyFloat.ltb t (PyFloat.of_Z 0) = true ->
     L1Result.passed r = false /\
     (L1.str_in (units_of content) L1.VALID_UNITS = true ->
      exists w, In w (L1Result.physics_warnings r) /\ critical w = true)) /\
  ((forall spec x, Py.count "N" (fmt spec x) = 0) ->
   (forall t n ctx,
      In (t, n, ctx) (L1._parse_temperatures content) ->
      PyFloat.ltb t (PyFloat.of_Z 0) = false) ->
   (forall w, In w (L1Result.physics_warnings r) -> critical w = false) /\
   (L1Result.passed r = true <-> L1Result.syntax_errors r = [])).
Proof.
  intros r. subst r. split; [apply passed_iff|]. split.
  - intros t n ctx Hin Hneg. split.
    + apply not_true_iff_false. intros Hp. apply passed_iff in Hp as [Hs Hw].
      destruct (L1.TEMPERATURE_RANGES !! units_of content) as [rng|] eqn:E.
      * destruct (negative_temperature_warned content t n ctx rng Hin Hneg E) as (w & Hi & Hc).
        rewrite (Hw w Hi) in Hc. discriminate.
      * now apply (unknown_units_is_an_error content E).
    + intros Hk. apply known_units_have_ranges in Hk as [rng E].
      exact (negative_temperature_warned content t n ctx rng Hin Hneg E).
  - intros Hfmt Hnn.
    assert (Hw : forall w, In w (L1Result.physics_warnings (L1.validate_l1 fmt content)) ->
                           critical w = false).
    { destruct (validate_l1_fields content) as (_ & Hw & _). rewrite Hw.
      intros w Hin. apply in_app_or in Hin as [Hin|Hin].
      - destruct (L1._parse_timestep content); [|destruct Hin].
        exact (timestep_warnings_not_critical fmt Hfmt _ _ _ Hin).
      - destruct (L1._parse_temperatures content) as [|p l] eqn:E; [destruct Hin|].
        unfold L1._check_temperature_physics in Hin.
        destruct (L1.TEMPERATURE_RANGES !! _) as [[mn mx]|]; [|destruct Hin].
        apply in_flat_map in Hin as ([[t n] ctx] & Hin & Hw').
        apply (temperature_warning_not_critical fmt Hfmt mn mx t n ctx w); auto.
        + exact (Hnn t n ctx Hin).
        + apply (parsed_context content t n ctx). rewrite E. exact Hin. }
    split; [exact Hw|].
    rewrite passed_iff. tauto.
Qed.
End L1Verdict.

(** C6 as stated fails on a deck with an unknown unit system: the negative
    temperature of its velocity command is parsed, and no physics warning is
    produced at all. *)
Lemma negative_temperature_without_critical_warning :
  L1._parse_temperatures deck_unknown_units =
    [(PyFloat.lit "-100.0", 4, "velocity create")] /\
  PyFloat.ltb (PyFloat.lit "-100.0") (PyFloat.of_Z 0) = true /\
  L1Result.physics_warnings (L1.validate_l1 fmt_demo deck_unknown_units) = [] /\
  L1Result.syntax_errors (L1.validate_l1 fmt_demo deck_unknown_units) =
    ["Unknown unit system 'foo' - valid options: cgs, electron, lj, metal, micro, nano, real, si"].
Proof. vm_compute. repeat split. Qed.

(** Scenario B: a negative velocity temperature in an LJ deck. *)
Lemma l1_pass_condition_witness :
  L1Result.passed (L1.validate_l1 fmt_demo deck_negative_velocity) = false /\
  exists w, In w (L1Result.physics_warnings (L1.validate_l1 fmt_demo deck_negative_velocity))
            /\ critical w = true.
Proof.
  pose proof (proj1 (proj2 (l1_pass_condition fmt_demo deck_negative_velocity))
                (PyFloat.lit "-100.0") 4 "velocity create") as H.
  destruct H as [Hp Hw]; [vm_compute; now left|vm_compute; reflexivity|].
  split; [exact Hp|]. apply Hw. vm_compute. reflexivity.
Defined.

Lemma collect_commands_lookup (lines : list string) (s : gset string)
  (m : gmap string (list string)) (cmd : string) :
  snd (fold_left (fun '(commands_found, command_args) line =>
         match L1._parse_command line with
         | Some (c, args) => ({[c]} ∪ commands_found, <[c := args]> command_args)
         | None => (commands_found, command_args)
         end) lines (s, m)) !! cmd
  = match last_seen_args cmd lines with
    | Some args => Some args
    | None => m !! cmd
    end.
Proof.
  revert s m. induction lines as [|line lines IH]; intros s m; simpl; [reflexivity|].
  destruct (L1._parse_command line) as [[c args]|].
  - rewrite IH. destruct (last_seen_args cmd lines); [reflexivity|].
    destruct (String.eqb c cmd) eqn:E.
    + apply String.eqb_eq in E. subst. apply lookup_insert_eq.
    + apply String.eqb_neq in E. now apply lookup_insert_ne.
  - rewrite IH. now destruct (last_seen_args cmd lines).
Qed.

Lemma stored_is_last_seen (content cmd : string) :
  stored_args content cmd = last_seen_args cmd (Py.split_on nl content).
Proof.
  unfold stored_args, L1.collect_commands. rewrite collect_commands_lookup.
  now destruct (last_seen_args cmd _).
Qed.

Section L1Args.
Variable fmt : string -> PyFloat.float -> string.

(** C9, amended. For every command, the argument list [validate_l1] keeps
    is that of the last line with this command. The units and atom-style
    checks run on the last-seen argument lists, and the unit system of the
    physics checks is the first argument of the last [units] line, lower-cased
    ([lj] when there is none). *)
Theorem l1_validates_last_seen_arguments (content : string) :
  let lines := Py.split_on nl content in
  let found := fst (L1.collect_commands lines) in
  let units :=
    match last_seen_args "units" lines with
    | Some (a0 :: _) => Py.lower a0
    | _ => "lj"
    end in
  let r := L1.validate_l1 fmt content in
  (forall cmd, stored_args content cmd = last_seen_args cmd lines) /\
  L1Result.syntax_errors r =
    map snd (L1._check_required_commands found)
    ++ map snd (L1._check_structure_commands found)
    ++ match last_seen_args "units" lines with
       | Some args => L1.opt_list (L1._validate_units_command args)
       | None => []
       end
    ++ match last_seen_args "atom_style" lines with
       | Some args => L1.opt_list (L1._validate_atom_style_command args)
       | None => []
       end
    ++ map (fun '(line_num, error) => "Line " +:+ Py.str_of_nat line_num +:+ ": " +:+ error)
         (L1._check_common_syntax_errors content) /\
  L1Result.physics_warnings r =
    match L1._parse_timestep content with
    | Some ts => L1._check_timestep_physics fmt ts units
    | None => []
    end
    ++ match L1._parse_temperatures content with
       | [] => []
       | _ => L1._check_temperature_physics fmt (L1._parse_temperatures content) units
       end.
Proof.
  intros lines found units r. subst lines found units r.
  split; [intros cmd; apply stored_is_last_seen|].
  pose proof (stored_is_last_seen content "units") as Hu.
  pose proof (stored_is_last_seen content "atom_style") as Ha.
  unfold stored_args in Hu, Ha. unfold L1.validate_l1, L1.active_units.
  destruct (L1.collect_commands (Py.split_on nl content)) as [found args].
  simpl in Hu, Ha. simpl. rewrite Hu, Ha. split; reflexivity.
Qed.
End L1Args.

(** C9 as stated fails on decks with two [units] lines: the first-seen
    argument is valid (or in range) and the result reports the second. *)
Lemma l1_does_not_keep_first_seen_arguments :
  first_seen_args "units" (Py.split_on nl deck_units_twice) = Some ["lj"] /\
  stored_args deck_units_twice "units" = Some ["bogus"] /\
  L1._validate_units_command ["lj"] = None /\
  L1Result.syntax_errors (L1.validate_l1 fmt_demo deck_units_twice) =
    ["Unknown unit system 'bogus' - valid options: cgs, electron, lj, metal, micro, nano, real, si"] /\
  first_seen_args "units" (Py.split_on nl deck_units_switch) = Some ["real"] /\
  L1._check_timestep_physics fmt_demo (PyFloat.lit "1.0") "real" = [] /\
  L1Result.physics_warnings (L1.validate_l1 fmt_demo deck_units_switch) =
    ["Timestep <float> is very large for 'lj' units (recommended: <float> - <float>). This may cause instability."].
Proof. vm_compute. repeat split. Qed.

Lemma common_errors_spec (content : string) (n : nat) (msg : string) :
  In (n, msg) (L1._check_common_syntax_errors content) <->
  exists line,
    (1 <= n)%nat /\ nth_error (Py.split_on nl content) (n - 1) = Some line /\
    skipped_line line = false /\
    In msg (L1.line_syntax_errors (Py.strip line)).
Proof.
  unfold L1._check_common_syntax_errors. rewrite in_flat_map. split.
  - intros ([k line] & Hin & Hmsg). apply in_enumerate in Hin as [Hk Hnth].
    unfold skipped_line.
    destruct (Py.is_empty (Py.strip line) || Py.startswith "#" (Py.strip line)) eqn:E;
      [destruct Hmsg|].
    apply in_map_iff in Hmsg as (e & He & Hin). inversion He; subst.
    exists line. repeat split; auto.
  - intros (line & Hn & Hnth & Hskip & Hin).
    exists (n, line). split; [apply in_enumerate; auto|].
    unfold skipped_line in Hskip. rewrite Hskip. apply in_map_iff. eauto.
Qed.

Lemma in_if_singleton (b : bool) (x y : string) (rest : list string) :
  In x ((if b then [y] else []) ++ rest) <-> (b = true /\ x = y) \/ In x rest.
Proof.
  destruct b; simpl; split; intros H; intuition (auto; discriminate).
Qed.

Lemma line_syntax_errors_spec (stripped msg : string) :
  In msg (L1.line_syntax_errors stripped) <->
  (msg = "Unbalanced single quotes" /\ Nat.odd (Py.count "'"%char stripped) = true) \/
  (msg = "Unbalanced double quotes" /\ Nat.odd (Py.count dq stripped) = true) \/
  (msg = "Unbalanced parentheses" /\ Py.count "("%char stripped <> Py.count ")"%char stripped) \/
  (msg = "Unbalanced brackets" /\ Py.count "["%char stripped <> Py.count "]"%char stripped) \/
  (msg = "Unbalanced braces" /\ Py.count "{"%char stripped <> Py.count "}"%char stripped).
Proof.
  unfold L1.line_syntax_errors.
  rewrite !in_if_singleton.
  assert (E : forall (b : bool) (y : string), In msg (if b then [y] else []) <-> b = true /\ msg = y).
  { intros [] y; simpl; intuition (auto; discriminate). }
  rewrite E, !negb_true_iff, !Nat.eqb_neq.
  assert (O : forall k : nat, (k mod 2)%nat <> 0%nat <-> Nat.odd k = true).
  { intros k. rewrite <- Nat.bit0_mod, Nat.bit0_odd. destruct (Nat.odd k); simpl; split; congruence. }
  rewrite !O. tauto.
Qed.

Section CommonSyntax.
Variable fmt : string -> PyFloat.float -> string.

(** C10. The per-line checks of L1 report an error for line [n] exactly
    when that line is neither blank nor a full-line comment and the count over
    the whole stripped line, inline comment included, is odd (quotes) or
    differs between opening and closing (parentheses, brackets, braces). Blank
    lines and full-line comments are never reported. The line
    [units lj # don't], whose only quote is in its comment, gets an
    unbalanced-single-quotes error and L1 fails. *)
Theorem quote_checks_count_the_whole_line (content : string) :
  (forall n msg,
     In (n, msg) (L1._check_common_syntax_errors content) <->
     exists line,
       (1 <= n)%nat /\ nth_error (Py.split_on nl content) (n - 1) = Some line /\
       skipped_line line = false /\
       ((msg = "Unbalanced single quotes" /\ Nat.odd (Py.count "'"%char (Py.strip line)) = true) \/
        (msg = "Unbalanced double quotes" /\ Nat.odd (Py.count dq (Py.strip line)) = true) \/
        (msg = "Unbalanced parentheses" /\
         Py.count "("%char (Py.strip line) <> Py.count ")"%char (Py.strip line)) \/
        (msg = "Unbalanced brackets" /\
         Py.count "["%char (Py.strip line) <> Py.count "]"%char (Py.strip line)) \/
        (msg = "Unbalanced braces" /\
         Py.count "{"%char (Py.strip line) <> Py.count "}"%char (Py.strip line)))) /\
  (forall n msg line,
     nth_error (Py.split_on nl content) (n - 1) = Some line ->
     skipped_line line = true ->
     ~ In (n, msg) (L1._check_common_syntax_errors content)) /\
  (let line := "units lj # don't" in
   let r := L1.validate_l1 fmt line in
   Py.count "'"%char (before_comment line) = 0 /\
   Py.count "'"%char line = 1 /\
   L1._check_common_syntax_errors line = [(1, "Unbalanced single quotes")] /\
   In "Line 1: Unbalanced single quotes" (L1Result.syntax_errors r) /\
   L1Result.line_numbers r = [1] /\
   L1Result.passed r = false).
Proof.
  split; [|split].
  - intros n msg. rewrite common_errors_spec.
    split; intros (line & H1 & H2 & H3 & H4); exists line; repeat split; auto;
      now apply line_syntax_errors_spec.
  - intros n msg line Hnth Hskip Hin.
    apply common_errors_spec in Hin as (line' & _ & Hnth' & Hskip' & _).
    congruence.
  - vm_compute. repeat split. right. right. now left.
Qed.
End CommonSyntax.

(** ** L3: thermodynamic sanity *)

Section ThermoSanity.
Variable fmt : string -> PyFloat.float -> string.

Lemma check_sample_flag (d : ThermoData.t) :
  fst (L3.check_sample fmt d) = sample_fails d.
Proof.
  unfold L3.check_sample, sample_fails, nan_or_inf.
  change L3.MAX_REASONABLE_TEMP with (PyFloat.lit "1e6").
  change L3.MAX_REASONABLE_ENERGY with (PyFloat.lit "1e12").
  destruct (ThermoData.temp d) as [t|], (ThermoData.etotal d) as [e|],
    (ThermoData.pe d) as [p|], (ThermoData.press d) as [q|];
    repeat match goal with
      | |- context [if ?b then _ else _] => destruct b eqn:?
      end; simpl in *; try reflexivity; try congruence;
    repeat match goal with H : _ || _ = _ |- _ => rewrite H end; 
    repeat match goal with H : ?x = _ |- context [?x] => rewrite H end; simpl; try reflexivity.
Qed.

Lemma fold_samples (data : list ThermoData.t) (passed : bool) (warnings : list string) :
  fold_left (fun '(passed, warnings) data =>
               let '(bad, ws) := L3.check_sample fmt data in
               (passed && negb bad, warnings ++ ws)) data (passed, warnings)
  = (passed && forallb (fun d => negb (sample_fails d)) data,
     warnings ++ flat_map (fun d => snd (L3.check_sample fmt d)) data).
Proof.
  revert passed warnings. induction data as [|d data IH]; intros passed warnings; simpl.
  - now rewrite andb_true_r, app_nil_r.
  - pose proof (check_sample_flag d) as Hd.
    destruct (L3.check_sample fmt d) as [bad ws]. simpl in Hd. subst bad.
    rewrite IH. simpl. now rewrite andb_assoc, app_assoc.
Qed.

Lemma sanity_unfold (d : ThermoData.t) (data : list ThermoData.t) :
  exists ws,
    L3._check_thermo_sanity fmt (d :: data) =
      (forallb (fun d => negb (sample_fails d)) (d :: data), ws) /\
    forall w, In w (flat_map (fun d => snd (L3.check_sample fmt d)) (d :: data)
                    ++ L3.temperature_drift fmt (d :: data)
                    ++ L3.energy_drift_warning fmt (d :: data)) -> In w ws.
Proof.
  unfold L3._check_thermo_sanity. rewrite fold_samples.
  rewrite andb_true_l, app_nil_l.
  set (p := forallb _ _). set (ws := flat_map _ _).
  set (td := L3.temperature_drift fmt (d :: data)).
  set (ed := L3.energy_drift_warning fmt (d :: data)).
  assert (Hall : forall w, In w (ws ++ td ++ ed) -> In w ((ws ++ td) ++ ed)).
  { intros w. rewrite !in_app_iff. tauto. }
  destruct p.
  - destruct ((ws ++ td) ++ ed) eqn:Hws.
    + eexists. split; [reflexivity|]. intros w Hw. destruct (Hall w Hw).
    + eexists. split; [reflexivity|]. exact Hall.
  - eexists. split; [reflexivity|]. exact Hall.
Qed.

Lemma temperature_drift_fires (data : list ThermoData.t) :
  temperature_ratio_exceeded data = true ->
  exists w, L3.temperature_drift fmt data = [w] /\ Py.startswith "Temperature increased" w = true.
Proof.
  unfold temperature_ratio_exceeded, L3.temperature_drift.
  change L3.MAX_TEMP_RATIO with (PyFloat.lit "10.0").
  intros H. apply andb_prop in H as [H2 H]. rewrite H2.
  destruct (ThermoData.temp (hd _ data)) as [ft|]; [|discriminate].
  destruct (ThermoData.temp (List.last data _)) as [lt|]; [|discriminate].
  apply andb_prop in H as [Ha Hb]. rewrite Ha, Hb. eexists. split; reflexivity.
Qed.

Lemma energy_drift_fires (data : list ThermoData.t) :
  energy_drift_exceeded data = true ->
  exists w, L3.energy_drift_warning fmt data = [w] /\ Py.startswith "Energy drift of" w = true.
Proof.
  unfold energy_drift_exceeded, L3.energy_drift_warning.
  intros H. apply andb_prop in H as [H2 H]. rewrite H2.
  destruct (ThermoData.etotal (hd _ data)) as [ft|]; [|discriminate].
  destruct (ThermoData.etotal (List.last data _)) as [lt|]; [|discriminate].
  apply andb_prop in H as [Ha Hb]. rewrite Ha, Hb. eexists. split; reflexivity.
Qed.

Lemma ratio_needs_data (data : list ThermoData.t) :
  temperature_ratio_exceeded data = true \/ energy_drift_exceeded data = true ->
  exists d rest, data = d :: rest.
Proof.
  destruct data as [|d rest]; [|eauto].
  intros [H|H]; discriminate.
Qed.

(** C7. [_check_thermo_sanity] fails exactly when some data point has a
    NaN/Inf temperature, total energy, potential energy or pressure, a
    negative temperature, a temperature above 1e6 or a total energy above 1e12
    in absolute value. The verdict is a function of the data points alone: a
    temperature ratio above 10 or an energy drift above 10% adds a warning and
    nothing else. The empty series passes with an advisory warning. *)
Theorem thermo_sanity_verdict (thermo_data : list ThermoData.t) :
  let r := L3._check_thermo_sanity fmt thermo_data in
  (fst r = false <-> exists d, In d thermo_data /\ sample_fails d = true) /\
  fst r = forallb (fun d => negb (sample_fails d)) thermo_data /\
  (temperature_ratio_exceeded thermo_data = true ->
   exists w, In w (snd r) /\ Py.startswith "Temperature increased" w = true) /\
  (energy_drift_exceeded thermo_data = true ->
   exists w, In w (snd r) /\ Py.startswith "Energy drift of" w = true) /\
  L3._check_thermo_sanity fmt [] = (true, ["No thermodynamic data found in output"]).
Proof.
  intros r. subst r.
  assert (Hflag : fst (L3._check_thermo_sanity fmt thermo_data)
                  = forallb (fun d => negb (sample_fails d)) thermo_data).
  { destruct thermo_data as [|d data]; [reflexivity|].
    destruct (sanity_unfold d data) as (ws & -> & _). reflexivity. }
  split; [|split; [exact Hflag|split; [|split; [|reflexivity]]]].
  - rewrite Hflag. split.
    + intros H. apply not_true_iff_false in H.
      rewrite forallb_forall in H.
      destruct (existsb sample_fails thermo_data) eqn:He.
      * apply existsb_exists in He. exact He.
      * exfalso. apply H. intros d Hd. apply negb_true_iff.
        destruct (sample_fails d) eqn:Hs; [|reflexivity].
        assert (existsb sample_fails thermo_data = true) by (apply existsb_exists; eauto).
        congruence.
    + intros (d & Hd & Hs). apply not_true_iff_false. intros H.
      rewrite forallb_forall in H. specialize (H d Hd). rewrite Hs in H. discriminate.
  - intros H. destruct (ratio_needs_data thermo_data (or_introl H)) as (d & rest & ->).
    destruct (sanity_unfold d rest) as (ws & -> & Hin).
    destruct (temperature_drift_fires _ H) as (w & Hw & Hpre).
    exists w. split; [|exact Hpre]. apply Hin. rewrite Hw.
    apply in_or_app. right. now left.
  - intros H. destruct (ratio_needs_data thermo_data (or_intror H)) as (d & rest & ->).
    destruct (sanity_unfold d rest) as (ws & -> & Hin).
    destruct (energy_drift_fires _ H) as (w & Hw & Hpre).
    exists w. split; [|exact Hpre]. apply Hin. rewrite Hw.
    apply in_or_app. right. apply in_or_app. right. now left.
Qed.
End ThermoSanity.

(** A series whose temperature rises twentyfold: it passes, with a warning. *)
Lemma thermo_sanity_verdict_witness :
  let data := [sample 0 "1.0" "-5.0"; sample 5 "20.0" "-5.1"] in
  fst (L3._check_thermo_sanity fmt_demo data) = true /\
  exists w, In w (snd (L3._check_thermo_sanity fmt_demo data)) /\
            Py.startswith "Temperature increased" w = true.
Proof.
  split; [vm_compute; reflexivity|].
  apply (proj1 (proj2 (proj2 (thermo_sanity_verdict fmt_demo
           [sample 0 "1.0" "-5.0"; sample 5 "20.0" "-5.1"])))).
  vm_compute. reflexivity.
Defined.


(** ** L2 and L3 without an engine *)

Lemma engine_absent_not_found (w : world) (user_path : option string) :
  L2.engine_absent w user_path = true -> L2.find_lammps_binary w user_path = None.
Proof.
  unfold L2.engine_absent, L2.find_lammps_binary. intros H.
  apply andb_prop in H as [H Hp]. apply andb_prop in H as [Hu He].
  rewrite (find_is_none _ _ Hp).
  destruct user_path as [p|].
  - apply negb_true_iff in Hu. rewrite Hu.
    destruct (environ_LAMMPS_BINARY w) as [e|]; [|reflexivity].
    destruct (Py.is_empty e); [reflexivity|]. simpl in He.
    apply negb_true_iff in He. now rewrite He.
  - destruct (environ_LAMMPS_BINARY w) as [e|]; [|reflexivity].
    destruct (Py.is_empty e); [reflexivity|]. simpl in He.
    apply negb_true_iff in He. now rewrite He.
Qed.

(** C4. When the user path, the environment variable and the fixed path list
    all fail to name a file, no binary is found, and [validate_l2] and
    [validate_l3] both pass with the detail that validation was skipped; the
    L3 result has run no step and holds no thermo data. *)
Theorem no_engine_skips_l2_l3 (fmt : string -> PyFloat.float -> string) (w : world)
  (content : string) (lammps_binary : option string) (timeout2 timeout3 : PyFloat.float)
  (steps : Z) (context_files : list string) :
  L2.engine_absent w lammps_binary = true ->
  let r2 := L2.validate_l2 fmt w content lammps_binary timeout2 context_files in
  let r3 := L3.validate_l3 fmt w content lammps_binary steps timeout3 context_files in
  L2.find_lammps_binary w lammps_binary = None /\
  L2Result.passed r2 = true /\
  L2Result.details r2 = ["LAMMPS binary not found - L2 validation skipped"] /\
  L3Result.passed r3 = true /\
  L3Result.details r3 = ["LAMMPS binary not found - L3 validation skipped"] /\
  L3Result.steps_run r3 = 0%Z /\
  L3Result.thermo_data r3 = [] /\
  forallb (Py.contains "validation skipped") (L2Result.details r2 ++ L3Result.details r3) = true.
Proof.
  intros H r2 r3. subst r2 r3. unfold L2.validate_l2, L3.validate_l3.
  rewrite (engine_absent_not_found _ _ H). repeat split.
Qed.

(** Scenario D: a machine without any engine. *)
Lemma no_engine_skips_l2_l3_witness :
  L2.engine_absent empty_world (Some "/nonexistent/lmp") = true /\
  L2Result.passed (L2.validate_l2 (fun _ _ => "30.0") empty_world "units lj"
                     (Some "/nonexistent/lmp") (PyFloat.lit "30.0") []) = true.
Proof.
  split; [reflexivity|].
  exact (proj1 (proj2 (no_engine_skips_l2_l3 (fun _ _ => "30.0") empty_world "units lj"
                  (Some "/nonexistent/lmp") (PyFloat.lit "30.0") (PyFloat.lit "60.0")
                  20%Z [] eq_refl))).
Defined.

(** ** The working directory *)

Section WorkingDirectory.
Import FS.

Lemma preserved_refl (st : state) : preserved st st.
Proof. intros k n H. exact H. Qed.

Lemma preserved_trans (a b c : state) : preserved a b -> preserved b c -> preserved a c.
Proof. intros H1 H2 k n H. apply H2, H1, H. Qed.

Lemma lookup_node_none (f : gmap (list string) node) (k : list string) :
  lookup_node f k = None -> f !! k = None.
Proof. destruct k; [discriminate|]. simpl. auto. Qed.

Lemma insert_absent_preserved (st : state) (k : list string) (n : node) :
  lookup_node (files st) k = None ->
  preserved st (mkState (<[k := n]> (files st)) (cwd st)).
Proof.
  intros Hk k' n' H. simpl. apply lookup_node_none in Hk.
  destruct (decide (k = k')) as [->|Hne]; [congruence|].
  now rewrite lookup_insert_ne.
Qed.

Lemma os_mkdir_preserved (p : Path) (st : state) : preserved st (fst (os_mkdir p st)).
Proof.
  unfold os_mkdir. destruct (parts p); [apply preserved_refl|].
  destruct (resolve st p) as [e|k]; [apply preserved_refl|].
  destruct (lookup_node (files st) k) eqn:E; [apply preserved_refl|].
  now apply insert_absent_preserved.
Qed.

Lemma mkdir_parents_preserved (n : nat) (p : Path) (st : state) :
  preserved st (fst (mkdir_parents n p st)).
Proof.
  revert p st. induction n as [|n IH]; intros p st; simpl.
  - pose proof (os_mkdir_preserved p st) as H.
    destruct (os_mkdir p st) as [st' [e|[]]]; [|exact H].
    destruct e; try destruct (is_dir st p); apply preserved_refl.
  - pose proof (os_mkdir_preserved p st) as H.
    destruct (os_mkdir p st) as [st' [e|[]]]; [|exact H].
    assert (Hother : preserved st (fst (if is_dir st p then (st, inr tt) else (st, @inl errno unit e)))).
    { destruct (is_dir st p); apply preserved_refl. }
    destruct e; try exact Hother. clear Hother.
    pose proof (IH (parent p) st) as H1.
    destruct (mkdir_parents n (parent p) st) as [st1 [e1|[]]]; [exact H1|].
    pose proof (os_mkdir_preserved p st1) as H2.
    destruct (os_mkdir p st1) as [st2 [e2|[]]].
    + destruct (is_dir st1 p); exact H1.
    + eapply preserved_trans; eassumption.
Qed.

Lemma mkdir_preserved (p : Path) (st : state) : preserved st (fst (mkdir p st)).
Proof. apply mkdir_parents_preserved. Qed.

Lemma write_new_preserved (p : Path) (content : string) (st : state) :
  exists_ st p = false -> preserved st (fst (write_text p content st)).
Proof.
  unfold exists_, stat, write_text. destruct (resolve st p) as [e|k]; [intros _; apply preserved_refl|].
  destruct (lookup_node (files st) k) as [n|] eqn:E; [discriminate|].
  intros _. now apply insert_absent_preserved.
Qed.

Lemma copy2_new_preserved (src dst : Path) (st : state) :
  exists_ st dst = false -> preserved st (fst (copy2 src dst st)).
Proof.
  intros Hd. unfold copy2.
  assert (Hdir : is_dir st dst = false).
  { unfold is_dir. unfold exists_ in Hd. now destruct (stat st dst). }
  rewrite Hdir. destruct (samefile st src dst); [apply preserved_refl|].
  destruct (resolve st src) as [e|k]; [apply preserved_refl|].
  destruct (lookup_node (files st) k) as [[c|]|]; try apply preserved_refl.
  now apply write_new_preserved.
Qed.

Lemma copy_context_file_preserved (working_dir cf : Path) (st : state) :
  preserved st (fst (copy_context_file working_dir cf st)).
Proof.
  unfold copy_context_file, bind, get. 
  destruct (exists_ st cf && is_file st cf); [|apply preserved_refl].
  destruct (exists_ st (joinpath working_dir (path_of_string (name cf)))) eqn:E;
    [apply preserved_refl|].
  simpl. now apply copy2_new_preserved.
Qed.

Lemma for_each_preserved {A} (body : A -> M unit) (l : list A) (st : state) :
  (forall x st, preserved st (fst (body x st))) ->
  preserved st (fst (for_each l body st)).
Proof.
  intros Hb. revert st. induction l as [|x l IH]; intros st; simpl; [apply preserved_refl|].
  unfold bind. pose proof (Hb x st) as H.
  destruct (body x st) as [st' [e|[]]]; [exact H|].
  eapply preserved_trans; [exact H|apply IH].
Qed.

Lemma copy_unreferenced_preserved (context_files : list Path) (working_dir : Path)
  (st : state) :
  preserved st (fst (copy_unreferenced context_files working_dir st)).
Proof.
  apply for_each_preserved. intros cf st'. apply copy_context_file_preserved.
Qed.

(** Resolution does not see a file written at its own target. *)
Lemma walk_after_write (f : gmap (list string) node) (k : list string) (content : string)
  (comps cur : list string) :
  walk f cur comps = inr k -> lookup_node f k <> Some Dir ->
  walk (<[k := File content]> f) cur comps = inr k.
Proof.
  intros Hw Hk. revert cur Hw. induction comps as [|c comps IH]; intros cur; simpl; [auto|].
  destruct (lookup_node f cur) as [[x|]|] eqn:E; try discriminate.
  intros Hw.
  assert (Hcur : lookup_node (<[k := File content]> f) cur = Some Dir).
  { destruct cur as [|c0 cur0]; [reflexivity|].
    simpl in *. destruct (decide (k = c0 :: cur0)) as [->|Hne].
    - exfalso. apply Hk. exact E.
    - now rewrite lookup_insert_ne. }
  rewrite Hcur. now apply IH.
Qed.

Lemma write_text_then_stat (p : Path) (content : string) (st st' : state) :
  write_text p content st = (st', inr tt) -> stat st' p = Some (File content).
Proof.
  unfold write_text, stat, resolve.
  destruct (walk (files st) _ (parts p)) as [e|k] eqn:Hw; [discriminate|].
  destruct (lookup_node (files st) k) as [[c|]|] eqn:E; try discriminate;
    intros H; inversion H; subst st'; simpl;
    rewrite (walk_after_write _ _ content _ _ Hw) by (rewrite E; discriminate);
    (destruct k as [|k0 k']; [discriminate E || (simpl in E; discriminate) |simpl; apply lookup_insert_eq]).
Qed.


(** C8 as stated fails: of three files present in the working directory
    before the call, the deck file is replaced by the deck write and the
    referenced data file by the copy of the referenced file; only the
    unreferenced one is kept. *)
Lemma existing_files_are_overwritten :
  let st' :=
    fst (setup_working_directory (fun l => l) (fun l => l) deck_reading_data
           [path_of_string "/ctx/system.data"; path_of_string "/ctx/notes.txt"]
           (path_of_string "/work") "input.lammps" disk_with_old_files) in
  files disk_with_old_files !! ["work"; "input.lammps"] = Some (File "old deck") /\
  files st' !! ["work"; "input.lammps"] = Some (File deck_reading_data) /\
  files disk_with_old_files !! ["work"; "system.data"] = Some (File "old data") /\
  files st' !! ["work"; "system.data"] = Some (File "new data") /\
  files st' !! ["work"; "notes.txt"] = Some (File "old notes").
Proof. vm_compute. repeat split. Qed.
End WorkingDirectory.

(** ** The orchestrator *)

Section Orchestrator.
Variable fmt : string -> PyFloat.float -> string.

(** C1. The result of [validate_deck] holds the outcome of each of the four
    levels on the same content, whatever the flags of the other levels;
    [overall_passed] is the conjunction of the four flags; the issues list has
    one line for each failed level and none for a passed one. *)
Theorem validate_deck_runs_all_levels (w : world) (content : string)
  (lammps_binary : option string) (context_files : list string) :
  let r := Validation.validate_deck fmt w content lammps_binary context_files in
  let p0 := L0Result.passed (ValidationResult.l0 r) in
  let p1 := L1Result.passed (ValidationResult.l1 r) in
  let p2 := L2Result.passed (ValidationResult.l2 r) in
  let p3 := L3Result.passed (ValidationResult.l3 r) in
  ValidationResult.l0 r = L0.validate_l0 content /\
  ValidationResult.l1 r = L1.validate_l1 fmt content /\
  ValidationResult.l2 r =
    L2.validate_l2 fmt w content lammps_binary (PyFloat.lit "30.0") context_files /\
  ValidationResult.l3 r =
    L3.validate_l3 fmt w content lammps_binary L3.MINIMAL_STEPS (PyFloat.lit "60.0")
      context_files /\
  ValidationResult.overall_passed r = p0 && p1 && p2 && p3 /\
  count_prefix "L0:" (ValidationResult.issues r) = one_if_failed p0 /\
  count_prefix "L1:" (ValidationResult.issues r) = one_if_failed p1 /\
  count_prefix "L2:" (ValidationResult.issues r) = one_if_failed p2 /\
  count_prefix "L3:" (ValidationResult.issues r) = one_if_failed p3 /\
  length (ValidationResult.issues r) =
    one_if_failed p0 + one_if_failed p1 + one_if_failed p2 + one_if_failed p3.
Proof.
  intros r p0 p1 p2 p3. subst r p0 p1 p2 p3.
  unfold Validation.validate_deck. cbn [ValidationResult.l0 ValidationResult.l1 ValidationResult.l2 ValidationResult.l3 ValidationResult.overall_passed ValidationResult.issues].
  repeat (split; [reflexivity|]).
  generalize (L0Result.unresolved_count (L0.validate_l0 content)) as n0.
  generalize (length (L1Result.syntax_errors (L1.validate_l1 fmt content))) as n1.
  generalize (length (List.filter (fun w0 => Py.contains "Negative" w0) (L1Result.physics_warnings (L1.validate_l1 fmt content)))) as n2.
  destruct (L0Result.passed _), (L1Result.passed _), (L2Result.passed _), (L3Result.passed _);
    intros; unfold count_prefix; simpl; repeat split; reflexivity.
Qed.
End Orchestrator.

(** ** The generation loop *)

Section GenerationLoop.
Import Generator.
Variable fmt : string -> PyFloat.float -> string.
Variable build_file_context : list string -> string.
Variable provider_error : option string.
Variable create_message : nat -> string -> llm_reply.
Variable parse_llm_response : string -> string * list Assumption.
Variable validation_importable : bool.
Variable world_at : nat -> world.

Abbreviation attempt' := (attempt fmt create_message parse_llm_response validation_importable world_at).
Abbreviation loop' := (loop fmt create_message parse_llm_response validation_importable world_at).
Abbreviation run_loop' := (run_loop fmt build_file_context create_message parse_llm_response validation_importable world_at).
Abbreviation run_validation' := (run_validation fmt validation_importable world_at).
Abbreviation generate' := (generate_deck fmt build_file_context provider_error create_message parse_llm_response validation_importable world_at).

Lemma note_fix_last (note : string) (l : list GenerationAttempt.t) (a : GenerationAttempt.t) :
  exists a', last (note_fix note (l ++ [a])) = Some a' /\
             GenerationAttempt.validation_passed a' = GenerationAttempt.validation_passed a /\
             length (note_fix note (l ++ [a])) = length (l ++ [a]).
Proof.
  unfold note_fix. rewrite rev_app_distr. simpl. rewrite rev_involutive.
  eexists. rewrite last_snoc. split; [reflexivity|]. split; [reflexivity|].
  now rewrite !length_app.
Qed.

Lemma attempt_cases (inp : ReaperInput) (m : Z) (n : nat) (s : loop_state) :
  let '(s', c) := attempt' inp m n s in
  ls_prompts_sent s' = ls_prompts_sent s ++ [ls_current_prompt s] /\
  (length (ls_attempts s') <= S (length (ls_attempts s)))%nat /\
  (last_attempt_agrees s -> last_attempt_agrees s') /\
  (c = Break -> ls_current_prompt s' = ls_current_prompt s) /\
  (enable_iterative_fixing inp = false -> ls_current_prompt s' = ls_current_prompt s).
Proof.
  unfold attempt. destruct (create_message n (ls_current_prompt s)) as [response|e].
  2:{ simpl. repeat split; auto. }
  destruct (parse_llm_response response) as [deck asm].
  destruct (Py.is_empty deck).
  { simpl. repeat split; auto. }
  set (v := run_validation' inp n deck).
  destruct (ValidationResult.overall_passed v) eqn:Hv.
  { simpl. rewrite length_app. simpl. repeat split; auto; try lia.
    intros _. unfold last_attempt_agrees. simpl. eexists. rewrite last_snoc. split; [reflexivity|]. simpl. now rewrite Hv. }
  destruct (negb (enable_iterative_fixing inp) || (m <=? Z.of_nat n)%Z) eqn:Hstop.
  { simpl. rewrite length_app. simpl. repeat split; auto; try lia.
    intros _. unfold last_attempt_agrees. simpl. eexists. rewrite last_snoc. split; [reflexivity|]. simpl. now rewrite Hv. }
  simpl.
  match goal with |- context [note_fix ?nt (?l ++ [?a])] =>
    destruct (note_fix_last nt l a) as (a' & Hl & Hp & Hlen) end.
  rewrite Hlen, length_app. simpl. repeat split; auto; try lia; try discriminate.
  - intros _. unfold last_attempt_agrees. simpl. exists a'. split; [exact Hl|]. rewrite Hp. simpl. now rewrite Hv.
  - intros He. rewrite He in Hstop. discriminate.
Qed.

Lemma loop_bounds (inp : ReaperInput) (m : Z) (nums : list nat) (s : loop_state) :
  (length (ls_prompts_sent (loop' inp m nums s))
     <= length (ls_prompts_sent s) + length nums)%nat /\
  (length (ls_attempts (loop' inp m nums s)) + length (ls_prompts_sent s)
     <= length (ls_attempts s) + length (ls_prompts_sent (loop' inp m nums s)))%nat /\
  (last_attempt_agrees s -> last_attempt_agrees (loop' inp m nums s)).
Proof.
  revert s. induction nums as [|n nums IH]; intros s; simpl.
  - repeat split; auto; lia.
  - pose proof (attempt_cases inp m n s) as H.
    destruct (attempt' inp m n s) as [s' c].
    destruct H as (Hp & Ha & Hi & _).
    destruct c.
    + destruct (IH s') as (IH1 & IH2 & IH3).
      rewrite Hp, length_app in IH1, IH2. simpl in *. repeat split; auto; lia.
    + rewrite Hp, length_app. simpl. repeat split; auto; lia.
Qed.

Lemma initial_agrees (inp : ReaperInput) :
  last_attempt_agrees (initial_state build_file_context inp).
Proof. reflexivity. Qed.

(** C3, amended. The loop enters at most [max(0, max_attempts)] iterations
    (one call to the model each) and records at most one attempt per
    iteration, where [max_attempts] is [max_retries + 1] with iterative fixing
    and [1] without. Without iterative fixing, when the first script fails
    validation, exactly one attempt is recorded, one prompt was sent, and the
    prompt is still the initial one: no fix prompt was built. *)
Theorem generation_loop_bounded (inp : ReaperInput) :
  let s := run_loop' inp in
  (length (ls_prompts_sent s) <= Z.to_nat (max_attempts_of inp))%nat /\
  (length (ls_attempts s) <= length (ls_prompts_sent s))%nat /\
  (max_attempts_of inp =
     if enable_iterative_fixing inp then (max_retries inp + 1)%Z else 1%Z) /\
  (enable_iterative_fixing inp = false ->
   forall response deck asm,
     create_message 1 (ls_current_prompt (initial_state build_file_context inp)) = Reply response ->
     parse_llm_response response = (deck, asm) ->
     Py.is_empty deck = false ->
     ValidationResult.overall_passed (run_validation' inp 1 deck) = false ->
     ls_attempts s =
       [GenerationAttempt.mk 1 deck false
          (ValidationResult.issues (run_validation' inp 1 deck)) []] /\
     ls_prompts_sent s = [ls_current_prompt (initial_state build_file_context inp)] /\
     ls_current_prompt s = ls_current_prompt (initial_state build_file_context inp)).
Proof.
  intros s. subst s. unfold run_loop.
  destruct (loop_bounds inp (max_attempts_of inp) (seq 1 (Z.to_nat (max_attempts_of inp)))
              (initial_state build_file_context inp)) as (H1 & H2 & _).
  rewrite length_seq in H1. simpl in H1, H2.
  split; [exact H1|]. split; [lia|]. split; [reflexivity|].
  intros He response deck asm Hm Hp Hd Hv.
  unfold max_attempts_of. rewrite He. simpl.
  unfold attempt. rewrite Hm, Hp, Hd, Hv, He. simpl. repeat split.
Qed.


Lemma run_loop_agrees (inp : ReaperInput) : last_attempt_agrees (run_loop' inp).
Proof.
  unfold run_loop. apply loop_bounds. apply initial_agrees.
Qed.

End GenerationLoop.


(** Scenario E: fixing disabled, first script with a placeholder. *)
Lemma generation_loop_bounded_witness :
  let s :=
    Generator.run_loop fmt_demo no_context (llm_answering deck_with_placeholder) parse_whole
      true (fun _ => empty_world) input_no_fix in
  length (Generator.ls_attempts s) = 1 /\ length (Generator.ls_prompts_sent s) = 1 /\
  Generator.ls_current_prompt s =
    Generator.ls_current_prompt (Generator.initial_state no_context input_no_fix).
Proof.
  destruct (proj2 (proj2 (proj2
              (generation_loop_bounded fmt_demo no_context
                 (llm_answering deck_with_placeholder) parse_whole true
                 (fun _ => empty_world) input_no_fix)))
              eq_refl deck_with_placeholder deck_with_placeholder [] eq_refl eq_refl eq_refl)
    as (Ha & Hp & Hc).
  - vm_compute. reflexivity.
  - cbv zeta. rewrite Ha, Hp, Hc. repeat split.
Defined.

(** C3 as stated, at a negative retry count: no iteration runs, and the bound
    [max_attempts] is below zero. *)
Lemma negative_retries_break_the_bound :
  let s :=
    Generator.run_loop fmt_demo no_context (llm_answering deck_valid) parse_whole
      true (fun _ => empty_world) input_negative_retries in
  Generator.max_attempts_of input_negative_retries = (-1)%Z /\
  length (Generator.ls_prompts_sent s) = 0 /\
  ~ (Z.of_nat (length (Generator.ls_prompts_sent s))
       <= Generator.max_attempts_of input_negative_retries)%Z.
Proof.
  split; [reflexivity|]. split; [reflexivity|].
  change (~ (0 <= -1)%Z). lia.
Qed.

(** * Further properties of the code *)

(** ** Lines *)

Lemma split_on_no_sep (sep : ascii) (s line : string) :
  In line (Py.split_on sep s) -> Py.count sep line = 0.
Proof.
  revert line. induction s as [|c s IH]; intros line; simpl.
  - intros [<-|[]]. reflexivity.
  - destruct (Ascii.eqb c sep) eqn:Ec.
    + intros [<-|H]; [reflexivity|auto].
    + pose proof (split_on_nonempty sep s) as Hne.
      destruct (Py.split_on sep s) as [|h t]; [contradiction|].
      intros [<-|H].
      * simpl. rewrite Ec. simpl. apply IH. now left.
      * apply IH. now right.
Qed.

Lemma split_on_single (sep : ascii) (s : string) :
  Py.count sep s = 0 -> Py.split_on sep s = [s].
Proof.
  induction s as [|c s IH]; simpl; [reflexivity|].
  destruct (Ascii.eqb c sep); [discriminate|]. simpl. intros H. now rewrite IH.
Qed.

Lemma split_on_app (sep : ascii) (a b : string) :
  Py.count sep a = 0 ->
  Py.split_on sep (a +:+ String sep b) = a :: Py.split_on sep b.
Proof.
  induction a as [|c a IH]; simpl.
  - rewrite Ascii.eqb_refl. reflexivity.
  - destruct (Ascii.eqb c sep); [discriminate|]. simpl. intros H. now rewrite IH.
Qed.

Lemma split_on_join (sep : ascii) (l : list string) :
  l <> [] -> (forall x, In x l -> Py.count sep x = 0) ->
  Py.split_on sep (Py.join (String sep EmptyString) l) = l.
Proof.
  induction l as [|x l IH]; [congruence|]. intros _ H.
  destruct l as [|y l].
  - simpl. apply split_on_single. apply H. now left.
  - change (Py.join (String sep "") (x :: y :: l))
      with (x +:+ String sep "" +:+ Py.join (String sep "") (y :: l)).
    change (String sep "" +:+ Py.join (String sep "") (y :: l))
      with (String sep (Py.join (String sep "") (y :: l))).
    rewrite split_on_app by (apply H; now left).
    f_equal. apply IH; [discriminate|]. intros z Hz. apply H. now right.
Qed.

Lemma join_split_on (sep : ascii) (s : string) :
  Py.join (String sep EmptyString) (Py.split_on sep s) = s.
Proof.
  induction s as [|c s IH]; [reflexivity|]. simpl.
  pose proof (split_on_nonempty sep s) as Hne.
  destruct (Ascii.eqb c sep) eqn:Ec.
  - apply Ascii.eqb_eq in Ec. subst c.
    destruct (Py.split_on sep s) as [|h t]; [contradiction|].
    change (Py.join (String sep "") ("" :: h :: t))
      with (String sep (Py.join (String sep "") (h :: t))).
    now rewrite IH.
  - destruct (Py.split_on sep s) as [|h t]; [contradiction|].
    destruct t as [|h' t].
    + simpl in *. now rewrite IH.
    + change (Py.join (String sep "") (String c h :: h' :: t))
        with (String c (Py.join (String sep "") (h :: h' :: t))).
      now rewrite IH.
Qed.

(** ** L0: the markers *)

Lemma lower_chr_nl (c : ascii) :
  Ascii.eqb c nl = false -> Ascii.eqb (Py.lower_chr nl) (Py.lower_chr c) = false.
Proof.
  destruct c as [b0 b1 b2 b3 b4 b5 b6 b7].
  destruct b0, b1, b2, b3, b4, b5, b6, b7; intros H; try discriminate H; reflexivity.
Qed.

Lemma lower_chr_word (c : ascii) :
  Re.is_word (Py.lower_chr c) = true -> Re.is_word c = true.
Proof.
  destruct c as [b0 b1 b2 b3 b4 b5 b6 b7].
  destruct b0, b1, b2, b3, b4, b5, b6, b7; intros H; try discriminate H; reflexivity.
Qed.

Lemma newline_on_line (prev : option ascii) (s : string) :
  Py.count nl s = 0 -> Re.match_lit true (String nl EmptyString) prev s = None.
Proof.
  destruct s as [|c r]; [reflexivity|]. cbn [Py.count Re.match_lit].
  destruct (Ascii.eqb c nl) eqn:E; [discriminate|]. intros _.
  unfold Re.chr_eq. now rewrite (lower_chr_nl c E).
Qed.

(** On a line [$] holds at the end only. *)
Lemma eos_on_line (s : string) :
  Py.count nl s = 0 ->
  s = "" \/
  forall (A : Type) (a b : A),
    match s with
    | EmptyString | String "010" EmptyString => a
    | _ => b
    end = b.
Proof.
  destruct s as [|c r]; [now left|]. intros H. right.
  destruct c as [b0 b1 b2 b3 b4 b5 b6 b7].
  destruct b0, b1, b2, b3, b4, b5, b6, b7; try discriminate H; reflexivity.
Qed.

Lemma count_tail (c : ascii) (r : string) :
  Py.count nl (String c r) = 0 -> Re.dot c = true /\ Py.count nl r = 0.
Proof.
  cbn [Py.count]. unfold Re.dot, nl. destruct (Ascii.eqb c "010"); [discriminate|].
  intros H. split; [reflexivity|exact H].
Qed.

Section LazyToTheEnd.
Context {R : Type}.
Variable K : option ascii -> string -> option R.

Lemma lazy_to_end_inv (Q : R -> Prop) :
  (forall pv t x, Py.count nl t = 0 -> K pv t = Some x -> t = "" /\ Q x) ->
  forall s lo prev x,
    Py.count nl s = 0 -> Re.rep_lazy Re.dot K lo prev s = Some x ->
    Q x /\ lo <= Py.len s.
Proof.
  intros HK. induction s as [|c r IH]; intros lo prev x Hs; cbn [Re.rep_lazy].
  - destruct lo as [|lo]; cbn [Nat.eqb]; [|discriminate].
    destruct (K prev "") as [y|] eqn:E; [|discriminate].
    intros [= <-]. split; [exact (proj2 (HK _ _ _ Hs E))|reflexivity].
  - destruct (count_tail c r Hs) as [Hc Hr]. rewrite Hc.
    assert (Hmore : Re.rep_lazy Re.dot K (Nat.pred lo) (Some c) r = Some x ->
                    Q x /\ lo <= Py.len (String c r)).
    { intros H. destruct (IH _ _ _ Hr H) as [HQ Hl]. split; [exact HQ|].
      cbn [Py.len String.length] in *. unfold Py.len in Hl. lia. }
    destruct lo as [|lo]; cbn [Nat.eqb]; [|exact Hmore].
    destruct (K prev (String c r)) as [y|] eqn:E; [|exact Hmore].
    destruct (HK _ _ _ Hs E) as [Habs _]. discriminate Habs.
Qed.

Lemma lazy_to_end_intro :
  (forall pv, exists x, K pv "" = Some x) ->
  forall s lo prev,
    Py.count nl s = 0 -> lo <= Py.len s ->
    exists x, Re.rep_lazy Re.dot K lo prev s = Some x.
Proof.
  intros HK. induction s as [|c r IH]; intros lo prev Hs Hlo; cbn [Re.rep_lazy].
  - cbn [Py.len String.length] in Hlo. unfold Py.len in Hlo. cbn in Hlo.
    assert (lo = 0) as -> by lia. cbn [Nat.eqb].
    destruct (HK prev) as (x & ->). eauto.
  - destruct (count_tail c r Hs) as [Hc Hr]. rewrite Hc.
    assert (Hmore : exists x, Re.rep_lazy Re.dot K (Nat.pred lo) (Some c) r = Some x).
    { apply IH; [exact Hr|]. unfold Py.len in *. cbn [String.length] in Hlo. lia. }
    destruct lo as [|lo]; cbn [Nat.eqb]; [|exact Hmore].
    destruct (K prev (String c r)); [eauto|exact Hmore].
Qed.

Lemma greedy_then_intro (p : ascii -> bool) (s : string) (prev : option ascii) :
  (forall pv, exists x, K pv s = Some x) ->
  exists x, Re.rep_greedy p K 0 prev s = Some x.
Proof.
  intros HK. destruct s as [|c r]; cbn [Re.rep_greedy Nat.eqb]; [apply HK|].
  destruct (p c); [|apply HK].
  destruct (Re.rep_greedy p K (Nat.pred 0) (Some c) r); [eauto|apply HK].
Qed.
End LazyToTheEnd.

Lemma match_lit_ci_inv (l : string) (prev pv : option ascii) (s s' : string) :
  Re.match_lit true l prev s = Some (pv, s') ->
  exists t, s = t +:+ s' /\ Py.lower t = Py.lower l.
Proof.
  revert prev s. induction l as [|c l IH]; intros prev s; cbn [Re.match_lit].
  - destruct s; intros [= <- <-]; exists ""; split; reflexivity.
  - destruct s as [|d s]; [discriminate|].
    unfold Re.chr_eq. destruct (Ascii.eqb_spec (Py.lower_chr c) (Py.lower_chr d)) as [E|_];
      [|discriminate].
    intros H. destruct (IH _ _ H) as (t & -> & Ht).
    exists (String d t). split; [reflexivity|].
    unfold Py.lower in *. cbn [Py.map_chr]. now rewrite Ht, E.
Qed.

Lemma match_lit_ci_intro (l t : string) (prev : option ascii) (s' : string) :
  Py.lower t = Py.lower l ->
  exists pv, Re.match_lit true l prev (t +:+ s') = Some (pv, s').
Proof.
  revert prev t. induction l as [|c l IH]; intros prev t.
  - destruct t; [|discriminate]. intros _. exists prev. cbn. now destruct s'.
  - destruct t as [|d t]; [discriminate|]. unfold Py.lower. cbn [Py.map_chr].
    intros [= Hd Ht]. change (String d t +:+ s') with (String d (t +:+ s')).
    cbn [Re.match_lit]. unfold Re.chr_eq. rewrite Hd, Ascii.eqb_refl. now apply IH.
Qed.

Lemma take_all (s : string) : Py.take (Py.len s - Py.len "") s = s.
Proof.
  replace (Py.len s - Py.len "") with (Py.len s) by (unfold Py.len; simpl; lia).
  rewrite <- (append_nil_r s) at 2. apply take_append.
Qed.

Lemma count_suffix (a b : string) : Py.count nl (a +:+ b) = 0 -> Py.count nl b = 0.
Proof. rewrite count_app. lia. Qed.

(** On a line the marker pattern matches from a word boundary, through the
    keyword and its colon in any letter case, to the end of the line, and
    needs one character after the colon. *)
Lemma marker_match_inv (keyword : string) (prev : option ascii) (s : string) (m : Re.mobj) :
  Py.count nl s = 0 ->
  Re.match_here true (L0.re_marker keyword) prev s = Some m ->
  xorb (Re.is_word_opt prev) (Re.is_word_opt (Re.head_chr s)) = true /\
  Re.group0 m = s /\
  exists t rest, s = t +:+ rest /\ Py.lower t = Py.lower (keyword +:+ ":") /\ rest <> "".
Proof.
  intros Hs. unfold Re.match_here, L0.re_marker. cbn [Re.rmatch].
  destruct (xorb _ _); [|discriminate].
  destruct (Re.match_lit true (keyword +:+ ":") prev s) as [[pv s1]|] eqn:E1; [|discriminate].
  apply match_lit_ci_inv in E1 as (t & -> & Ht).
  intros H. apply rep_greedy_inv in H as (run & tail & pv' & -> & _ & H).
  assert (Htail : Py.count nl tail = 0) by (apply count_suffix in Hs; now apply count_suffix in Hs).
  apply (lazy_to_end_inv _ (fun x => Re.group0 x = t +:+ run +:+ tail)) in H;
    [|clear H|exact Htail].
  - destruct H as [Hg Hlen]. split; [reflexivity|]. split; [exact Hg|].
    exists t, (run +:+ tail). split; [reflexivity|]. split; [exact Ht|].
    intros Hnil. destruct run; [|discriminate]. cbn in Hnil. subst tail.
    unfold Py.len in Hlen. cbn in Hlen. lia.
  - intros pv0 t0 x Ht0. rewrite (newline_on_line pv0 t0 Ht0).
    destruct (eos_on_line t0 Ht0) as [->|E]; [|rewrite E; discriminate].
    intros [= <-]. split; [reflexivity|]. cbn [Re.group0]. apply take_all.
Qed.

Lemma marker_match_intro (keyword : string) (prev : option ascii) (t rest : string) :
  xorb (Re.is_word_opt prev) (Re.is_word_opt (Re.head_chr (t +:+ rest))) = true ->
  Py.lower t = Py.lower (keyword +:+ ":") -> rest <> "" -> Py.count nl rest = 0 ->
  exists m, Re.match_here true (L0.re_marker keyword) prev (t +:+ rest) = Some m.
Proof.
  intros Hb Ht Hne Hrest. unfold Re.match_here, L0.re_marker. cbn [Re.rmatch]. rewrite Hb.
  destruct (match_lit_ci_intro (keyword +:+ ":") t prev rest Ht) as (pv & ->).
  apply greedy_then_intro. intros pv0.
  apply lazy_to_end_intro; [|exact Hrest|].
  - intros pv1. cbn [Re.match_lit]. eauto.
  - destruct rest; [contradiction|]. unfold Py.len. cbn. lia.
Qed.

Lemma finditer_inv_at (ic : bool) (r : Re.regex) (s : string) (prev : option ascii)
  (skip : nat) (m : Re.mobj) :
  In m (Re.finditer_from ic r prev skip s) ->
  exists a b, s = a +:+ b /\ Re.match_here ic r (last_chr prev a) b = Some m.
Proof.
  revert prev skip. induction s as [|c s IH]; intros prev skip; cbn [Re.finditer_from];
    [intros []|].
  assert (Hrec : forall k, In m (Re.finditer_from ic r (Some c) k s) ->
            exists a b, String c s = a +:+ b /\ Re.match_here ic r (last_chr prev a) b = Some m).
  { intros k H. destruct (IH _ _ H) as (a & b & -> & Hm). exists (String c a), b. auto. }
  destruct skip as [|k]; [|apply Hrec].
  destruct (Re.match_here ic r prev (String c s)) as [m'|] eqn:E; [|apply Hrec].
  intros [<-|H]; [|exact (Hrec _ H)]. exists "", (String c s). auto.
Qed.

Lemma finditer_first (ic : bool) (r : Re.regex) (a b : string) (prev : option ascii) :
  b <> "" -> (exists m, Re.match_here ic r (last_chr prev a) b = Some m) ->
  exists m a' b',
    In m (Re.finditer_from ic r prev 0 (a +:+ b)) /\
    a +:+ b = a' +:+ b' /\ Py.len a' <= Py.len a /\
    Re.match_here ic r (last_chr prev a') b' = Some m.
Proof.
  intros Hb. revert prev. induction a as [|c a IH]; intros prev Hm.
  - destruct Hm as (m & Hm). exists m, "", b. cbn [last_chr] in *.
    change ("" +:+ b) with b. destruct b as [|c b]; [contradiction|].
    cbn [Re.finditer_from]. rewrite Hm. split; [now left|]. auto.
  - change (String c a +:+ b) with (String c (a +:+ b)). cbn [Re.finditer_from].
    destruct (Re.match_here ic r prev (String c (a +:+ b))) as [m|] eqn:E.
    + exists m, "", (String c (a +:+ b)). split; [now left|]. split; [reflexivity|].
      split; [unfold Py.len; cbn; lia|exact E].
    + destruct (IH (Some c) Hm) as (m & a' & b' & Hin & Heq & Hlen & Hm').
      exists m, (String c a'), b'. split; [exact Hin|].
      split; [cbn; now rewrite Heq|]. split; [unfold Py.len in *; cbn; lia|exact Hm'].
Qed.

Lemma marker_head_cases (t : string) :
  is_marker_head t = true <->
  Py.lower t = Py.lower ("TODO" +:+ ":") \/ Py.lower t = Py.lower ("FIXME" +:+ ":")
  \/ Py.lower t = Py.lower ("XXX" +:+ ":").
Proof.
  unfold is_marker_head. rewrite !orb_true_iff, !String.eqb_eq.
  change (Py.lower ("TODO" +:+ ":")) with "todo:".
  change (Py.lower ("FIXME" +:+ ":")) with "fixme:".
  change (Py.lower ("XXX" +:+ ":")) with "xxx:". tauto.
Qed.

Lemma marker_head_word (t rest : string) :
  is_marker_head t = true -> Re.is_word_opt (Re.head_chr (t +:+ rest)) = true.
Proof.
  intros H. apply marker_head_cases in H.
  destruct t as [|c t]; [destruct H as [H|[H|H]]; discriminate H|].
  cbn [String.append Re.head_chr Re.is_word_opt]. apply lower_chr_word.
  unfold Py.lower in H. cbn [Py.map_chr] in H.
  destruct H as [H|[H|H]]; injection H as -> _; reflexivity.
Qed.

(** The hits of one marker pattern on one line. *)
Lemma marker_hit_inv (keyword line h : string) :
  Py.lower (keyword +:+ ":") = Py.lower ("TODO" +:+ ":")
  \/ Py.lower (keyword +:+ ":") = Py.lower ("FIXME" +:+ ":")
  \/ Py.lower (keyword +:+ ":") = Py.lower ("XXX" +:+ ":") ->
  Py.count nl line = 0 ->
  In h (map Re.group0 (Re.re_finditer true (L0.re_marker keyword) line)) ->
  is_marker_text h /\ exists pre, line = pre +:+ h /\ ends_in_word pre = false.
Proof.
  intros Hk Hline Hin. apply in_map_iff in Hin as (m & <- & Hin).
  apply finditer_inv_at in Hin as (a & b & -> & Hm).
  pose proof (count_suffix _ _ Hline) as Hb.
  apply (marker_match_inv keyword _ b m Hb) in Hm as (Hx & -> & t & rest & -> & Ht & Hne).
  assert (Hhead : is_marker_head t = true).
  { apply marker_head_cases. rewrite Ht. exact Hk. }
  split.
  - exists t, rest. split; [exact Hhead|]. split; [exact Hne|]. split; [|reflexivity].
    exact (count_suffix _ _ Hb).
  - exists a. split; [reflexivity|]. unfold ends_in_word.
    rewrite (marker_head_word t rest Hhead) in Hx.
    destruct (Re.is_word_opt (last_chr None a)); [discriminate Hx|reflexivity].
Qed.

Lemma marker_hit_intro (keyword pre t rest : string) :
  Py.lower t = Py.lower (keyword +:+ ":") -> is_marker_head t = true ->
  rest <> "" -> Py.count nl (pre +:+ t +:+ rest) = 0 -> ends_in_word pre = false ->
  exists pre' h,
    pre +:+ t +:+ rest = pre' +:+ h /\ Py.len pre' <= Py.len pre /\
    In h (map Re.group0 (Re.re_finditer true (L0.re_marker keyword) (pre +:+ t +:+ rest))).
Proof.
  intros Ht Hhead Hne Hline Hpre.
  pose proof (count_suffix _ _ Hline) as Hb. pose proof (count_suffix _ _ Hb) as Hrest.
  destruct (finditer_first true (L0.re_marker keyword) pre (t +:+ rest) None)
    as (m & a' & b' & Hin & Heq & Hlen & Hm).
  { destruct t; [discriminate Hhead|discriminate]. }
  { apply marker_match_intro; auto. rewrite (marker_head_word t rest Hhead).
    unfold ends_in_word in Hpre. now rewrite Hpre. }
  assert (Hb' : Py.count nl b' = 0).
  { rewrite Heq in Hline. exact (count_suffix _ _ Hline). }
  apply (marker_match_inv keyword _ b' m Hb') in Hm as (_ & Hg & _).
  exists a', b'. split; [exact Heq|]. split; [exact Hlen|].
  apply in_map_iff. exists m. split; [exact Hg|exact Hin].
Qed.

Lemma marker_hits_inv (content h : string) :
  In h (marker_hits content) ->
  is_marker_text h /\
  exists line pre, In line (Py.split_on nl content) /\ line = pre +:+ h /\
                   ends_in_word pre = false.
Proof.
  unfold marker_hits. rewrite in_flat_map. intros (line & Hline & Hh).
  pose proof (split_on_no_sep nl content line Hline) as Hno.
  assert (H : is_marker_text h /\ exists pre, line = pre +:+ h /\ ends_in_word pre = false).
  { apply in_app_or in Hh as [Hh|Hh]; [|apply in_app_or in Hh as [Hh|Hh]].
    - apply (marker_hit_inv "TODO" line h); auto.
    - apply (marker_hit_inv "FIXME" line h); auto.
    - apply (marker_hit_inv "XXX" line h); auto. }
  destruct H as (Hm & pre & Hl & Hp). split; [exact Hm|]. exists line, pre. auto.
Qed.

Lemma marker_hits_intro (content line pre t rest : string) :
  In line (Py.split_on nl content) -> line = pre +:+ t +:+ rest ->
  is_marker_head t = true -> rest <> "" -> ends_in_word pre = false ->
  exists pre' h, line = pre' +:+ h /\ Py.len pre' <= Py.len pre /\
                 In h (marker_hits content).
Proof.
  intros Hline -> Hhead Hne Hpre.
  pose proof (split_on_no_sep nl content _ Hline) as Hno.
  assert (H : exists keyword, In keyword ["TODO"; "FIXME"; "XXX"] /\
                Py.lower t = Py.lower (keyword +:+ ":")).
  { apply marker_head_cases in Hhead as [H|[H|H]];
      [exists "TODO"|exists "FIXME"|exists "XXX"]; cbn [In]; auto. }
  destruct H as (keyword & Hk & Ht).
  destruct (marker_hit_intro keyword pre t rest Ht Hhead Hne Hno Hpre)
    as (pre' & h & Heq & Hlen & Hin).
  exists pre', h. split; [exact Heq|]. split; [exact Hlen|].
  unfold marker_hits. apply in_flat_map. exists (pre +:+ t +:+ rest). split; [exact Hline|].
  cbn [In] in Hk. destruct Hk as [<-|[<-|[<-|[]]]].
  - apply in_or_app. now left.
  - apply in_or_app. right. apply in_or_app. now left.
  - apply in_or_app. right. apply in_or_app. now right.
Qed.

(** C5. [validate_l0] counts the blocking hits, the matches of the two
    template patterns: [unresolved_count] is their number, [passed] says that
    this number is zero, and [placeholders_found] lists the blocking hits
    followed by the marker hits. Every blocking hit is a token [{{NAME}}] or
    [<NAME>]. A text that contains such a token fails with a count of at least
    one; a text that contains none, whatever TODO:, FIXME: or XXX: markers it
    has, passes. Every marker hit is a marker: [TODO:], [FIXME:] or [XXX:] in
    any letter case with at least one character after it, starting where
    no word character precedes it and running to the end of its line. A line
    that holds such a marker gives a marker hit that starts no later than it
    and ends the line, and that hit is listed in [placeholders_found]. *)
Theorem l0_blocks_on_template_tokens (content : string) :
  let r := L0.validate_l0 content in
  L0Result.unresolved_count r = length (blocking_hits content) /\
  L0Result.passed r = Nat.eqb (L0Result.unresolved_count r) 0 /\
  L0Result.placeholders_found r = blocking_hits content ++ marker_hits content /\
  (forall h, In h (blocking_hits content) -> is_template_token h) /\
  (contains_template_token content ->
   L0Result.passed r = false /\ (1 <= L0Result.unresolved_count r)%nat) /\
  (~ contains_template_token content ->
   L0Result.passed r = true /\ L0Result.unresolved_count r = 0) /\
  (forall h, In h (marker_hits content) ->
     is_marker_text h /\
     exists line pre, In line (Py.split_on nl content) /\ line = pre +:+ h /\
                      ends_in_word pre = false) /\
  (forall line pre t rest,
     In line (Py.split_on nl content) -> line = pre +:+ t +:+ rest ->
     is_marker_head t = true -> rest <> "" -> ends_in_word pre = false ->
     exists pre' h,
       line = pre' +:+ h /\ Py.len pre' <= Py.len pre /\ is_marker_text h /\
       In h (marker_hits content) /\ In h (L0Result.placeholders_found r)).
Proof.
  intros r. destruct (validate_l0_fields content) as (Hf & Hc & Hp). fold r in Hf, Hc, Hp.
  split; [exact Hc|]. split; [exact Hp|]. split; [exact Hf|].
  split; [intros h Hh; exact (proj1 (hit_is_token content h Hh))|].
  split; [|split; [|split]].
  - intros Ht. apply token_is_hit in Ht. rewrite Hp, Hc.
    destruct (blocking_hits content); [contradiction|]. simpl. split; [reflexivity|lia].
  - intros Hno. rewrite Hp, Hc.
    destruct (blocking_hits content) as [|h l] eqn:E; [split; reflexivity|].
    exfalso. apply Hno.
    destruct (hit_is_token content h) as (Ht & pre & post & Hc').
    { rewrite E. now left. }
    exists pre, h, post. auto.
  - apply marker_hits_inv.
  - intros line pre t rest Hline Heq Hhead Hne Hpre.
    destruct (marker_hits_intro content line pre t rest Hline Heq Hhead Hne Hpre)
      as (pre' & h & Hl & Hlen & Hin).
    exists pre', h. split; [exact Hl|]. split; [exact Hlen|].
    split; [exact (proj1 (marker_hits_inv content h Hin))|]. split; [exact Hin|].
    rewrite Hf. apply in_or_app. now right.
Qed.

(** A deck whose only remark is a marker in a comment: the marker is listed
    and the deck passes. *)
Lemma l0_blocks_on_template_tokens_witness :
  let r := L0.validate_l0 ("units lj" +:+ String nl "# todo: set the timestep") in
  L0Result.passed r = true /\
  exists h, In h (L0Result.placeholders_found r) /\ is_marker_text h.
Proof.
  cbv zeta.
  pose proof (l0_blocks_on_template_tokens
                ("units lj" +:+ String nl "# todo: set the timestep")) as H.
  cbv zeta in H. destruct H as (_ & _ & _ & _ & _ & _ & _ & H).
  destruct (H "# todo: set the timestep" "# " "todo:" " set the timestep")
    as (pre' & h & _ & _ & Hm & _ & Hin).
  - vm_compute. auto.
  - reflexivity.
  - reflexivity.
  - discriminate.
  - reflexivity.
  - split; [vm_compute; reflexivity|]. exists h. split; [exact Hin|exact Hm].
Defined.

(** ** The zero-step deck *)

Lemma zero_step_line_spec (line : string) :
  L2.zero_step_line line =
    match command_of line with
    | Some cmd =>
        if String.eqb cmd "run" then ("run 0", true)
        else if String.eqb cmd "minimize" then ("minimize 0 0 0 0", false)
        else (line, false)
    | None => (line, false)
    end.
Proof.
  unfold L2.zero_step_line, command_of.
  destruct (Py.is_empty (Py.strip line) || Py.startswith "#" (Py.strip line)); [reflexivity|].
  destruct (Py.split (Py.strip line)); reflexivity.
Qed.

Lemma zero_step_line_idem (line : string) :
  L2.zero_step_line (fst (L2.zero_step_line line)) = L2.zero_step_line line.
Proof.
  pose proof (zero_step_line_spec line) as H.
  destruct (command_of line) as [cmd|] eqn:E.
  - destruct (String.eqb cmd "run") eqn:E1; [rewrite H; reflexivity|].
    destruct (String.eqb cmd "minimize") eqn:E2; rewrite H; [reflexivity|].
    cbn [fst]. rewrite zero_step_line_spec, E, E1, E2. reflexivity.
  - rewrite H. cbn [fst]. rewrite zero_step_line_spec, E. reflexivity.
Qed.

Lemma zero_step_line_no_nl (line : string) :
  Py.count nl line = 0 -> Py.count nl (fst (L2.zero_step_line line)) = 0.
Proof.
  intros H. rewrite zero_step_line_spec.
  destruct (command_of line) as [cmd|]; [|exact H].
  destruct (String.eqb cmd "run"); [reflexivity|].
  destruct (String.eqb cmd "minimize"); [reflexivity|exact H].
Qed.

Lemma zero_step_run_iff (line : string) :
  snd (L2.zero_step_line line) = true <-> command_of line = Some "run".
Proof.
  rewrite zero_step_line_spec.
  destruct (command_of line) as [cmd|]; [|split; discriminate].
  destruct (String.eqb cmd "run") eqn:E1.
  - apply String.eqb_eq in E1. subst. split; reflexivity.
  - destruct (String.eqb cmd "minimize"); simpl; split; try discriminate;
      intros [= ->]; discriminate.
Qed.

Lemma zero_step_lines_of (content : string) :
  Py.split_on nl (L2._create_zero_step_deck content) = zero_step_lines content.
Proof.
  unfold L2._create_zero_step_deck, zero_step_lines.
  set (rw := map L2.zero_step_line (Py.split_on nl content)).
  assert (Hne : map fst rw <> []).
  { unfold rw. pose proof (split_on_nonempty nl content).
    destruct (Py.split_on nl content); [contradiction|discriminate]. }
  assert (Hnl : forall x, In x (map fst rw) -> Py.count nl x = 0).
  { intros x Hx. unfold rw in Hx. rewrite map_map in Hx. apply in_map_iff in Hx as (l & <- & Hl).
    apply zero_step_line_no_nl. eapply split_on_no_sep; eauto. }
  destruct (existsb snd rw).
  - apply split_on_join; assumption.
  - apply split_on_join.
    + destruct (map fst rw); discriminate.
    + intros x Hx. apply in_app_or in Hx as [Hx|[<-|[]]]; [auto|reflexivity].
Qed.

Lemma filter_map_keep {A} (f : A -> A) (p : A -> bool) (l : list A) :
  (forall x, p x = true -> f x = x) -> (forall x, p x = false -> p (f x) = false) ->
  List.filter p (map f l) = List.filter p l.
Proof.
  intros H1 H2. induction l as [|x l IH]; [reflexivity|]. simpl.
  destruct (p x) eqn:E.
  - rewrite (H1 x E), E, IH. reflexivity.
  - rewrite (H2 x E), IH. reflexivity.
Qed.

Lemma filter_app' {A} (p : A -> bool) (l1 l2 : list A) :
  List.filter p (l1 ++ l2) = List.filter p l1 ++ List.filter p l2.
Proof. induction l1 as [|x l IH]; simpl; [reflexivity|]. destruct (p x); simpl; now rewrite IH. Qed.

(** X1. The deck that [_create_zero_step_deck] returns has a line [run 0]; every
    line of it whose command is [run] is [run 0] and every line whose command
    is [minimize] is [minimize 0 0 0 0]; its other lines are those of the
    input, in order; it has as many lines as the input, or one more; and the
    function leaves its own result unchanged. *)
Theorem zero_step_deck_runs_nothing (content : string) :
  let deck := L2._create_zero_step_deck content in
  let lines := Py.split_on nl deck in
  In "run 0" lines /\
  (forall l, In l lines -> command_of l = Some "run" -> l = "run 0") /\
  (forall l, In l lines -> command_of l = Some "minimize" -> l = "minimize 0 0 0 0") /\
  List.filter not_run_or_minimize lines
    = List.filter not_run_or_minimize (Py.split_on nl content) /\
  (length (Py.split_on nl content) <= length lines <= S (length (Py.split_on nl content))) /\
  L2._create_zero_step_deck deck = deck.
Proof.
  intros deck lines. subst lines deck. rewrite zero_step_lines_of.
  unfold zero_step_lines.
  set (src := Py.split_on nl content).
  assert (Hrw : forall l, In l (map fst (map L2.zero_step_line src)) ->
                  exists l0, In l0 src /\ l = fst (L2.zero_step_line l0)).
  { intros l Hl. rewrite map_map in Hl. apply in_map_iff in Hl as (l0 & <- & H0). eauto. }
  assert (Hcmd : forall l0 c, command_of (fst (L2.zero_step_line l0)) = Some c ->
                   (c = "run" -> fst (L2.zero_step_line l0) = "run 0") /\
                   (c = "minimize" -> fst (L2.zero_step_line l0) = "minimize 0 0 0 0")).
  { intros l0 c. rewrite (zero_step_line_spec l0).
    destruct (command_of l0) as [cmd|] eqn:E.
    - destruct (String.eqb cmd "run") eqn:E1.
      { intros [= <-]. split; [reflexivity|discriminate]. }
      destruct (String.eqb cmd "minimize") eqn:E2.
      { intros [= <-]. split; [discriminate|reflexivity]. }
      cbn [fst]. rewrite E. intros [= <-]. split; intros ->; discriminate.
    - cbn [fst]. rewrite E. discriminate. }
  assert (Hex : existsb snd (map L2.zero_step_line src) = true ->
                In "run 0" (map fst (map L2.zero_step_line src))).
  { intros H. apply existsb_exists in H as (r & Hr & Hs).
    apply in_map_iff in Hr as (l0 & <- & H0).
    rewrite map_map. apply in_map_iff. exists l0. split; [|exact H0].
    rewrite zero_step_line_spec in Hs |- *.
    destruct (command_of l0) as [cmd|]; [|discriminate].
    destruct (String.eqb cmd "run"); [reflexivity|].
    destruct (String.eqb cmd "minimize"); discriminate. }
  assert (Hfilter : List.filter not_run_or_minimize (map fst (map L2.zero_step_line src))
                    = List.filter not_run_or_minimize src).
  { rewrite map_map. apply filter_map_keep.
    - intros x Hx. unfold not_run_or_minimize in Hx. rewrite zero_step_line_spec.
      destruct (command_of x) as [cmd|]; [|reflexivity].
      apply andb_prop in Hx as [H1 H2].
      apply negb_true_iff in H1, H2. now rewrite H1, H2.
    - intros x Hx. unfold not_run_or_minimize in Hx. rewrite zero_step_line_spec.
      destruct (command_of x) as [cmd|]; [|discriminate].
      destruct (String.eqb cmd "run"); [reflexivity|].
      destruct (String.eqb cmd "minimize"); [reflexivity|discriminate]. }
  destruct (existsb snd (map L2.zero_step_line src)) eqn:Erun.
  - split; [auto|]. split; [|split; [|split; [|split]]].
    + intros l Hl Hc. destruct (Hrw l Hl) as (l0 & _ & ->). now apply (Hcmd l0 "run").
    + intros l Hl Hc. destruct (Hrw l Hl) as (l0 & _ & ->). now apply (Hcmd l0 "minimize").
    + exact Hfilter.
    + rewrite !length_map. lia.
    + unfold L2._create_zero_step_deck at 1. rewrite zero_step_lines_of.
      unfold zero_step_lines. fold src. rewrite Erun.
      rewrite (map_map fst L2.zero_step_line), (map_map L2.zero_step_line).
      rewrite (map_ext _ _ (fun l => zero_step_line_idem l)).
      rewrite Erun. unfold L2._create_zero_step_deck. fold src. now rewrite Erun.
  - split; [apply in_or_app; right; now left|]. split; [|split; [|split; [|split]]].
    + intros l Hl Hc. apply in_app_or in Hl as [Hl|[<-|[]]]; [|reflexivity].
      destruct (Hrw l Hl) as (l0 & _ & ->). now apply (Hcmd l0 "run").
    + intros l Hl Hc. apply in_app_or in Hl as [Hl|[<-|[]]]; [|discriminate].
      destruct (Hrw l Hl) as (l0 & _ & ->). now apply (Hcmd l0 "minimize").
    + rewrite filter_app', Hfilter. simpl. apply app_nil_r.
    + rewrite length_app, !length_map. simpl. lia.
    + unfold L2._create_zero_step_deck at 1. rewrite zero_step_lines_of.
      unfold zero_step_lines. fold src. rewrite Erun.
      rewrite map_app, existsb_app.
      rewrite (map_map fst L2.zero_step_line), (map_map L2.zero_step_line).
      rewrite (map_ext _ _ (fun l => zero_step_line_idem l)).
      rewrite Erun. cbn [map existsb orb snd].
      replace (L2.zero_step_line "run 0") with ("run 0", true) by reflexivity.
      cbn [snd orb]. rewrite map_app. cbn [map fst].
      unfold L2._create_zero_step_deck. fold src. now rewrite Erun.
Qed.

(** ** Words *)

Lemma rstrip_head (c : ascii) (r : string) :
  Py.isspace c = false -> exists r', Py.rstrip (String c r) = String c r'.
Proof.
  intros H. simpl. destruct (Py.rstrip r); [rewrite H|]; eauto.
Qed.

Lemma rstrip_cons_inv (s : string) (d : ascii) (r : string) :
  Py.rstrip s = String d r -> exists x, s = String d x.
Proof.
  destruct s as [|c s]; simpl; [discriminate|].
  destruct (Py.rstrip s).
  - destruct (Py.isspace c); [discriminate|]. intros [= <- _]. eauto.
  - intros [= <- _]. eauto.
Qed.

Lemma split_lstrip (s : string) : Py.split (Py.lstrip s) = Py.split s.
Proof.
  induction s as [|c s IH]; [reflexivity|]. simpl.
  destruct (Py.isspace c) eqn:E; [exact IH|]. simpl. now rewrite E.
Qed.

Lemma split_rstrip (s : string) : Py.split (Py.rstrip s) = Py.split s.
Proof.
  induction s as [|c s IH]; [reflexivity|].
  cbn [Py.rstrip]. destruct (Py.rstrip s) as [|d r] eqn:Er.
  - change (Py.split "") with (@nil string) in IH.
    cbn [Py.split]. destruct (Py.isspace c) eqn:Ec.
    + exact IH.
    + cbn [Py.split]. rewrite Ec. destruct s as [|c' s']; [reflexivity|].
      rewrite <- IH. now destruct (Py.isspace c').
  - destruct (rstrip_cons_inv _ _ _ Er) as (x & ->).
    cbn [Py.split] in IH |- *. destruct (Py.isspace c); [exact IH|].
    destruct (Py.isspace d); now rewrite IH.
Qed.

Lemma split_strip (s : string) : Py.split (Py.strip s) = Py.split s.
Proof. unfold Py.strip. now rewrite split_rstrip, split_lstrip. Qed.

Lemma split_word_then (w : string) (c : ascii) (rest : string) :
  is_word w = true -> Py.isspace c = true ->
  Py.split (w +:+ String c rest) = w :: Py.split rest.
Proof.
  intros Hw Hc. unfold is_word in Hw. apply andb_prop in Hw as [Hne Hall].
  induction w as [|a w IH]; [discriminate|].
  simpl in Hall. apply andb_prop in Hall as [Ha Hall]. apply negb_true_iff in Ha.
  destruct w as [|b w].
  - simpl. now rewrite Ha, Hc.
  - change (String a (String b w) +:+ String c rest)
      with (String a (String b w +:+ String c rest)).
    specialize (IH eq_refl Hall).
    change (String b w +:+ String c rest) with (String b (w +:+ String c rest)) in *.
    cbn [Py.split]. rewrite Ha. simpl in Hall. apply andb_prop in Hall as [Hb _].
    apply negb_true_iff in Hb. rewrite Hb.
    cbn [Py.split] in IH. rewrite Hb in IH. rewrite IH. reflexivity.
Qed.

Lemma split_word (w : string) : is_word w = true -> Py.split w = [w].
Proof.
  intros Hw. unfold is_word in Hw. apply andb_prop in Hw as [Hne Hall].
  induction w as [|a w IH]; [discriminate|].
  simpl in Hall. apply andb_prop in Hall as [Ha Hall]. apply negb_true_iff in Ha.
  destruct w as [|b w].
  - simpl. now rewrite Ha.
  - specialize (IH eq_refl Hall). cbn [Py.split]. rewrite Ha.
    simpl in Hall. apply andb_prop in Hall as [Hb _]. apply negb_true_iff in Hb.
    rewrite Hb. cbn [Py.split] in IH. rewrite Hb in IH. rewrite IH. reflexivity.
Qed.

(** The command of a line that starts with a word. *)
Lemma command_of_word (w rest : string) :
  is_word w = true -> Py.startswith "#" w = false ->
  command_of (w +:+ String " " rest) = Some (Py.lower w).
Proof.
  intros Hw Hh. unfold command_of. rewrite split_strip.
  rewrite (split_word_then w " " rest Hw eq_refl).
  unfold is_word in Hw. destruct w as [|a w]; [simpl in Hw; discriminate|].
  simpl in Hw. apply andb_prop in Hw as [Ha _].
  apply negb_true_iff in Ha.
  unfold Py.strip.
  change (String a w +:+ String " " rest) with (String a (w +:+ String " " rest)).
  cbn [Py.lstrip]. rewrite Ha.
  destruct (rstrip_head a (w +:+ String " " rest) Ha) as (r' & ->).
  cbn [Py.startswith] in Hh. cbn [Py.is_empty Py.startswith orb].
  destruct (Ascii.eqb "#" a); [discriminate|]. reflexivity.
Qed.

Lemma count_str_of_Z (c : ascii) (z : Z) :
  Py.isdigit c = false -> Ascii.eqb "-" c = false -> Py.count c (Py.str_of_Z z) = 0.
Proof.
  intros Hd Hm. unfold Py.str_of_Z.
  destruct (Z.to_int z) as [d|d]; cbn [NilEmpty.string_of_int].
  - now apply count_uint.
  - rewrite count_cons, Hm. now apply count_uint.
Qed.

(** ** The minimal-step deck *)

Lemma minimal_step_line_spec (steps : Z) (line : string) :
  L3.minimal_step_line steps line =
    match command_of line with
    | Some cmd =>
        if String.eqb cmd "run" then (run_line steps, L3.RunLine)
        else if String.eqb cmd "minimize" then (minimize_line steps, L3.KeepLine)
        else if String.eqb cmd "thermo" then (thermo_line, L3.ThermoLine)
        else (line, L3.KeepLine)
    | None => (line, L3.KeepLine)
    end.
Proof.
  unfold L3.minimal_step_line, command_of.
  destruct (Py.is_empty (Py.strip line) || Py.startswith "#" (Py.strip line)); [reflexivity|].
  destruct (Py.split (Py.strip line)); reflexivity.
Qed.

Lemma command_of_run_line (steps : Z) : command_of (run_line steps) = Some "run".
Proof. exact (command_of_word "run" (Py.str_of_Z steps) eq_refl eq_refl). Qed.

Lemma command_of_minimize_line (steps : Z) :
  command_of (minimize_line steps) = Some "minimize".
Proof.
  exact (command_of_word "minimize"
           ("1e-4 1e-6 " +:+ Py.str_of_Z steps +:+ " " +:+ Py.str_of_Z (steps * 10))
           eq_refl eq_refl).
Qed.

Lemma minimal_step_line_idem (steps : Z) (line : string) :
  L3.minimal_step_line steps (fst (L3.minimal_step_line steps line))
  = L3.minimal_step_line steps line.
Proof.
  pose proof (minimal_step_line_spec steps line) as H.
  destruct (command_of line) as [cmd|] eqn:E.
  - destruct (String.eqb cmd "run") eqn:E1.
    { rewrite H. cbn [fst]. rewrite minimal_step_line_spec, command_of_run_line. reflexivity. }
    destruct (String.eqb cmd "minimize") eqn:E2.
    { rewrite H. cbn [fst]. rewrite minimal_step_line_spec, command_of_minimize_line.
      reflexivity. }
    destruct (String.eqb cmd "thermo") eqn:E3; rewrite H; [reflexivity|].
    cbn [fst]. rewrite minimal_step_line_spec, E, E1, E2, E3. reflexivity.
  - rewrite H. cbn [fst]. rewrite minimal_step_line_spec, E. reflexivity.
Qed.

Lemma run_line_no_nl (steps : Z) : Py.count nl (run_line steps) = 0.
Proof.
  unfold run_line. rewrite count_app, count_str_of_Z by reflexivity. reflexivity.
Qed.

Lemma minimize_line_no_nl (steps : Z) : Py.count nl (minimize_line steps) = 0.
Proof.
  unfold minimize_line. rewrite !count_app, !count_str_of_Z by reflexivity. reflexivity.
Qed.

Lemma minimal_step_line_no_nl (steps : Z) (line : string) :
  Py.count nl line = 0 -> Py.count nl (fst (L3.minimal_step_line steps line)) = 0.
Proof.
  intros H. rewrite minimal_step_line_spec.
  destruct (command_of line) as [cmd|]; [|exact H].
  destruct (String.eqb cmd "run"); [apply run_line_no_nl|].
  destruct (String.eqb cmd "minimize"); [apply minimize_line_no_nl|].
  destruct (String.eqb cmd "thermo"); [reflexivity|exact H].
Qed.

Lemma in_inserted {A} (i : nat) (l ins : list A) (x : A) :
  In x (firstn i l ++ ins ++ skipn i l) <-> In x l \/ In x ins.
Proof.
  rewrite <- (firstn_skipn i l) at 3. rewrite !in_app_iff. tauto.
Qed.

Lemma minimal_step_lines_of (content : string) (steps : Z) :
  Py.split_on nl (L3._create_minimal_step_deck content steps) = minimal_step_lines content steps.
Proof.
  unfold L3._create_minimal_step_deck, minimal_step_lines.
  set (rw := map (L3.minimal_step_line steps) (Py.split_on nl content)).
  change (existsb (fun r => match snd r with L3.RunLine => true | _ => false end) rw)
    with (existsb is_run_kind rw).
  change (existsb (fun r => match snd r with L3.ThermoLine => true | _ => false end) rw)
    with (existsb is_thermo_kind rw).
  change ("thermo " +:+ Py.str_of_Z L3.THERMO_FREQUENCY) with thermo_line.
  change ("thermo_style custom step temp press pe ke etotal"%string) with thermo_style_line.
  fold (run_line steps).
  assert (Hne : map fst rw <> []).
  { unfold rw. pose proof (split_on_nonempty nl content).
    destruct (Py.split_on nl content); [contradiction|discriminate]. }
  assert (Hnl : forall x, In x (map fst rw) -> Py.count nl x = 0).
  { intros x Hx. unfold rw in Hx. rewrite map_map in Hx. apply in_map_iff in Hx as (l & <- & Hl).
    apply minimal_step_line_no_nl. eapply split_on_no_sep; eauto. }
  set (M := if existsb is_thermo_kind rw then map fst rw
            else firstn (L3.insert_index (map fst rw)) (map fst rw)
                 ++ [thermo_style_line; thermo_line]
                 ++ skipn (L3.insert_index (map fst rw)) (map fst rw)).
  assert (HM : M <> [] /\ forall x, In x M -> Py.count nl x = 0).
  { subst M. destruct (existsb is_thermo_kind rw); [split; assumption|]. split.
    - intros H. apply (f_equal (@length string)) in H.
      rewrite !length_app in H. simpl in H. lia.
    - intros x Hx. apply in_inserted in Hx as [Hx|[<-|[<-|[]]]]; auto. }
  destruct HM as [HM1 HM2].
  destruct (existsb is_run_kind rw).
  - apply split_on_join; assumption.
  - apply split_on_join.
    + destruct M; [contradiction|discriminate].
    + intros x Hx. apply in_app_or in Hx as [Hx|[<-|[]]]; [auto|apply run_line_no_nl].
Qed.

Lemma run_kind_iff (steps : Z) (line : string) :
  is_run_kind (L3.minimal_step_line steps line) = true <-> command_of line = Some "run".
Proof.
  rewrite minimal_step_line_spec. unfold is_run_kind.
  destruct (command_of line) as [cmd|]; [|split; discriminate].
  destruct (String.eqb cmd "run") eqn:E1.
  - apply String.eqb_eq in E1. subst. split; reflexivity.
  - destruct (String.eqb cmd "minimize"); [|destruct (String.eqb cmd "thermo")];
      simpl; split; try discriminate; intros [= ->]; discriminate.
Qed.

Lemma thermo_kind_iff (steps : Z) (line : string) :
  is_thermo_kind (L3.minimal_step_line steps line) = true <-> command_of line = Some "thermo".
Proof.
  rewrite minimal_step_line_spec. unfold is_thermo_kind.
  destruct (command_of line) as [cmd|]; [|split; discriminate].
  destruct (String.eqb cmd "run") eqn:E1.
  { apply String.eqb_eq in E1. subst. split; discriminate. }
  destruct (String.eqb cmd "minimize") eqn:E2.
  { apply String.eqb_eq in E2. subst. split; discriminate. }
  destruct (String.eqb cmd "thermo") eqn:E3.
  - apply String.eqb_eq in E3. subst. split; reflexivity.
  - simpl. split; [discriminate|]. intros [= ->]. discriminate.
Qed.

(** What a rewritten line can be, by its command. *)
Lemma rewritten_command (steps : Z) (l0 : string) :
  let l := fst (L3.minimal_step_line steps l0) in
  (command_of l = Some "run" -> l = run_line steps) /\
  (command_of l = Some "thermo" -> l = thermo_line) /\
  (command_of l = Some "minimize" -> l = minimize_line steps).
Proof.
  cbv zeta. rewrite (minimal_step_line_spec steps l0).
  destruct (command_of l0) as [cmd|] eqn:E.
  - destruct (String.eqb cmd "run") eqn:E1.
    { cbn [fst]. rewrite command_of_run_line. repeat split; discriminate. }
    destruct (String.eqb cmd "minimize") eqn:E2.
    { cbn [fst]. rewrite command_of_minimize_line. repeat split; discriminate. }
    destruct (String.eqb cmd "thermo") eqn:E3.
    { cbn [fst]. repeat split; discriminate. }
    cbn [fst]. rewrite E. repeat split; intros [= ->]; discriminate.
  - cbn [fst]. rewrite E. repeat split; discriminate.
Qed.

Lemma filter_inserted {A} (p : A -> bool) (i : nat) (l ins : list A) :
  List.filter p ins = [] ->
  List.filter p (firstn i l ++ ins ++ skipn i l) = List.filter p l.
Proof.
  intros H. rewrite !filter_app', H. simpl. rewrite <- filter_app', firstn_skipn. reflexivity.
Qed.

(** X2. The deck that [_create_minimal_step_deck] returns has the line
    [run steps] and the line [thermo 5]; every line of it whose command is
    [run], [thermo] or [minimize] is the normalised one; the lines with
    another command, the added [thermo_style] line apart, are those of the
    input, in order; and the function leaves its own result unchanged. *)
Theorem minimal_step_deck_shape (content : string) (steps : Z) :
  let deck := L3._create_minimal_step_deck content steps in
  let lines := Py.split_on nl deck in
  In (run_line steps) lines /\
  In thermo_line lines /\
  (forall l, In l lines ->
     (command_of l = Some "run" -> l = run_line steps) /\
     (command_of l = Some "thermo" -> l = thermo_line) /\
     (command_of l = Some "minimize" -> l = minimize_line steps)) /\
  List.filter untouched lines = List.filter untouched (Py.split_on nl content) /\
  L3._create_minimal_step_deck deck steps = deck.
Proof.
  intros deck lines.
  assert (Hlines : lines = minimal_step_lines content steps) by apply minimal_step_lines_of.
  set (g := L3.minimal_step_line steps).
  set (src := Py.split_on nl content).
  set (rw := map g src).
  assert (HM0 : forall x, In x (map fst rw) -> exists l0, x = fst (g l0)).
  { intros x Hx. unfold rw in Hx. rewrite map_map in Hx.
    apply in_map_iff in Hx as (l0 & <- & _). eauto. }
  assert (Hin : forall x, In x lines ->
                  In x (map fst rw) \/ x = thermo_style_line \/ x = thermo_line
                  \/ x = run_line steps).
  { intros x. rewrite Hlines. unfold minimal_step_lines. fold src g rw. intros Hx.
    destruct (existsb is_run_kind rw); [|apply in_app_or in Hx as [Hx|[<-|[]]]; [|auto 6]];
      (destruct (existsb is_thermo_kind rw);
       [auto|apply in_inserted in Hx as [Hx|[<-|[<-|[]]]]; auto 6]). }
  assert (Hrun : In (run_line steps) lines).
  { rewrite Hlines. unfold minimal_step_lines. fold src g rw.
    destruct (existsb is_run_kind rw) eqn:Er; [|apply in_or_app; right; now left].
    apply existsb_exists in Er as (r & Hr & Hk).
    apply in_map_iff in Hr as (l0 & <- & H0).
    assert (Hf : In (run_line steps) (map fst rw)).
    { apply in_map_iff. exists (g l0). split; [|apply in_map; exact H0].
      apply run_kind_iff in Hk. unfold g. rewrite minimal_step_line_spec, Hk. reflexivity. }
    destruct (existsb is_thermo_kind rw); [exact Hf|]. apply in_inserted. now left. }
  assert (Hthermo : In thermo_line lines).
  { rewrite Hlines. unfold minimal_step_lines. fold src g rw.
    assert (Hm : In thermo_line
                   (if existsb is_thermo_kind rw then map fst rw
                    else firstn (L3.insert_index (map fst rw)) (map fst rw)
                         ++ [thermo_style_line; thermo_line]
                         ++ skipn (L3.insert_index (map fst rw)) (map fst rw))).
    { destruct (existsb is_thermo_kind rw) eqn:Et.
      - apply existsb_exists in Et as (r & Hr & Hk).
        apply in_map_iff in Hr as (l0 & <- & H0).
        apply in_map_iff. exists (g l0). split; [|apply in_map; exact H0].
        apply thermo_kind_iff in Hk. unfold g. rewrite minimal_step_line_spec, Hk. reflexivity.
      - apply in_inserted. right. right. now left. }
    destruct (existsb is_run_kind rw); [exact Hm|]. apply in_or_app. now left. }
  assert (Hfix : forall x, In x lines -> g x = (x, snd (g x))).
  { intros x Hx. destruct (Hin x Hx) as [H|[-> |[-> | ->]]].
    - destruct (HM0 x H) as (l0 & ->). unfold g. rewrite minimal_step_line_idem.
      now destruct (L3.minimal_step_line steps l0).
    - reflexivity.
    - reflexivity.
    - unfold g. rewrite minimal_step_line_spec, command_of_run_line. reflexivity. }
  split; [exact Hrun|]. split; [exact Hthermo|]. split; [|split].
  - intros l Hl. destruct (Hin l Hl) as [H|[-> |[-> | ->]]].
    + destruct (HM0 l H) as (l0 & ->). apply rewritten_command.
    + repeat split; discriminate.
    + repeat split; discriminate.
    + rewrite command_of_run_line. repeat split; discriminate.
  - rewrite Hlines. unfold minimal_step_lines. fold src g rw.
    assert (Hkeep : List.filter untouched (map fst rw) = List.filter untouched src).
    { unfold rw. rewrite map_map. apply filter_map_keep.
      - intros x Hx. unfold untouched in Hx. apply andb_prop in Hx as [Hx _].
        unfold g. rewrite minimal_step_line_spec.
        destruct (command_of x) as [cmd|]; [|reflexivity].
        apply andb_prop in Hx as [Hx H3]. apply andb_prop in Hx as [H1 H2].
        apply negb_true_iff in H1, H2, H3. now rewrite H1, H2, H3.
      - intros x Hx. unfold g. rewrite minimal_step_line_spec.
        unfold untouched in Hx |- *.
        destruct (command_of x) as [cmd|] eqn:E.
        + destruct (String.eqb cmd "run") eqn:E1.
          { cbn [fst]. now rewrite command_of_run_line. }
          destruct (String.eqb cmd "minimize") eqn:E2.
          { cbn [fst]. now rewrite command_of_minimize_line. }
          destruct (String.eqb cmd "thermo") eqn:E3; [reflexivity|].
          cbn [fst]. rewrite E, E1, E2, E3 in *. exact Hx.
        + cbn [fst]. rewrite E in *. exact Hx. }
    assert (Hrunline : untouched (run_line steps) = false).
    { unfold untouched. now rewrite command_of_run_line. }
    destruct (existsb is_thermo_kind rw), (existsb is_run_kind rw).
    + exact Hkeep.
    + rewrite filter_app', Hkeep. cbn [List.filter]. now rewrite Hrunline, app_nil_r.
    + now rewrite filter_inserted by reflexivity.
    + rewrite filter_app', filter_inserted, Hkeep by reflexivity.
      cbn [List.filter]. now rewrite Hrunline, app_nil_r.
  - assert (Hmap : map fst (map g lines) = lines).
    { rewrite map_map. rewrite <- (map_id lines) at 2. apply map_ext_in.
      intros x Hx. now rewrite (Hfix x Hx). }
    assert (Ht : existsb is_thermo_kind (map g lines) = true).
    { apply existsb_exists. exists (g thermo_line). split; [now apply in_map|reflexivity]. }
    assert (Hr : existsb is_run_kind (map g lines) = true).
    { apply existsb_exists. exists (g (run_line steps)). split; [now apply in_map|].
      apply run_kind_iff, command_of_run_line. }
    unfold L3._create_minimal_step_deck at 1. fold lines g.
    change (existsb (fun r => match snd r with L3.RunLine => true | _ => false end) (map g lines))
      with (existsb is_run_kind (map g lines)).
    change (existsb (fun r => match snd r with L3.ThermoLine => true | _ => false end)
              (map g lines))
      with (existsb is_thermo_kind (map g lines)).
    rewrite Ht, Hr, Hmap. apply join_split_on.
Qed.

(** ** The verdict of the engine check *)

Lemma existsb_flat_map {A B} (p : B -> bool) (f : A -> list B) (l : list A) :
  existsb p (flat_map f l) = existsb (fun x => existsb p (f x)) l.
Proof.
  induction l as [|x l IH]; [reflexivity|]. simpl. now rewrite existsb_app, IH.
Qed.

Lemma existsb_pointwise {A} (p q : A -> bool) (l : list A) :
  (forall x, p x = q x) -> existsb p l = existsb q l.
Proof. intros H. induction l as [|x l IH]; simpl; [reflexivity|]. now rewrite H, IH. Qed.

Lemma error_issue_has_Error (s : string) : Py.contains "Error" ("LAMMPS Error: " +:+ s) = true.
Proof. apply contains_app_r. reflexivity. Qed.

Lemma warning_issue_has_Error (s : string) :
  Py.contains "Error" ("LAMMPS Warning: " +:+ s) = Py.contains "Error" s.
Proof. reflexivity. Qed.

Lemma line_issues_fail (line : string) :
  existsb (Py.contains "Error") (L2.line_issues L2.error_patterns line) = failing_line line.
Proof.
  unfold L2.line_issues, failing_line. fold (mentions_any L2.error_patterns (Py.strip line)).
  fold (mentions_any L2.warning_patterns (Py.strip line)).
  destruct (Py.strip line) as [|c s] eqn:E; [reflexivity|].
  cbn [Py.is_empty]. rewrite existsb_app.
  destruct (mentions_any L2.error_patterns (String c s)).
  - cbn [existsb]. now rewrite error_issue_has_Error.
  - destruct (mentions_any L2.warning_patterns (String c s)); [|reflexivity].
    cbn [existsb orb andb]. rewrite warning_issue_has_Error. apply orb_false_r.
Qed.

Lemma parse_output_has_Error (output : string) (rc : Z) :
  existsb (Py.contains "Error") (L2._parse_lammps_output output rc)
  = existsb failing_line (Py.split_on nl output).
Proof.
  unfold L2._parse_lammps_output, L2.parse_output_with.
  set (base := flat_map (L2.line_issues L2.error_patterns) (Py.split_on nl output)).
  assert (Hb : existsb (Py.contains "Error") base = existsb failing_line (Py.split_on nl output)).
  { unfold base. rewrite existsb_flat_map. apply existsb_pointwise. intros l. apply line_issues_fail. }
  destruct (negb (rc =? 0)%Z && negb (existsb (Py.contains "Error") base)) eqn:E;
    [|exact Hb].
  rewrite existsb_app, Hb. cbn [existsb].
  replace (Py.contains "Error" ("LAMMPS exited with return code " +:+ Py.str_of_Z rc))
    with false; [now rewrite !orb_false_r|].
  symmetry. change ("LAMMPS exited with return code " +:+ Py.str_of_Z rc)
    with ("LAMMPS " +:+ "exited with return code " +:+ Py.str_of_Z rc).
  cbn -[Py.str_of_Z].
  apply no_char_not_contained. apply count_str_of_Z; reflexivity.
Qed.

(** X3. [validate_l2] passes exactly when no engine is found, or the engine run
    on the zero-step deck completes with return code 0 and no line of its
    output (stdout, a newline, stderr) holds an error pattern, or a warning
    pattern together with the text Error. Its details are never empty. *)
Theorem l2_verdict (fmt : string -> PyFloat.float -> string) (w : world) (content : string)
  (lammps_binary : option string) (timeout : PyFloat.float) (context_files : list string) :
  let r := L2.validate_l2 fmt w content lammps_binary timeout context_files in
  (L2Result.passed r = true <->
   L2.find_lammps_binary w lammps_binary = None \/
   exists binary out err t,
     L2.find_lammps_binary w lammps_binary = Some binary /\
     run w binary (L2._create_zero_step_deck content) context_files timeout
       = Completed 0 out err t /\
     forall line, In line (Py.split_on nl (out +:+ String nl EmptyString +:+ err)) ->
                  failing_line line = false) /\
  L2Result.details r <> [].
Proof.
  intros r. subst r. unfold L2.validate_l2.
  destruct (L2.find_lammps_binary w lammps_binary) as [binary|] eqn:Ef.
  2:{ split; [|discriminate]. split; [now left|reflexivity]. }
  destruct (run w binary (L2._create_zero_step_deck content) context_files timeout)
    as [rc out err t| |e] eqn:Er.
  - cbn [L2Result.passed L2Result.details]. rewrite parse_output_has_Error. split.
    + split.
      * intros H. apply andb_prop in H as [H1 H2]. apply Z.eqb_eq in H1. subst rc.
        right. exists binary, out, err, t. split; [reflexivity|]. split; [exact Er|].
        intros line Hl. apply negb_true_iff in H2.
        destruct (failing_line line) eqn:E; [|reflexivity].
        assert (existsb failing_line (Py.split_on nl (out +:+ String nl "" +:+ err)) = true)
          by (apply existsb_exists; eauto).
        congruence.
      * intros [H|(b & o & e & t' & Hb & Hr & Hl)]; [discriminate|].
        injection Hb as <-. rewrite Er in Hr. injection Hr as -> -> -> ->.
        rewrite Z.eqb_refl. cbn [andb].
        apply negb_true_iff.
        destruct (existsb failing_line (Py.split_on nl (o +:+ String nl "" +:+ e))) eqn:E;
          [|reflexivity].
        apply existsb_exists in E as (l & Hin & Hf). rewrite (Hl l Hin) in Hf. discriminate.
    + destruct (L2._parse_lammps_output (out +:+ String nl "" +:+ err) rc); discriminate.
  - split; [|discriminate]. cbn [L2Result.passed]. split; [discriminate|].
    intros [H|(b & o & e & t' & Hb & Hr & _)]; [discriminate|].
    injection Hb as <-. rewrite Er in Hr. discriminate.
  - split; [|discriminate]. cbn [L2Result.passed]. split; [discriminate|].
    intros [H|(b & o & e' & t' & Hb & Hr & _)]; [discriminate|].
    injection Hb as <-. rewrite Er in Hr. discriminate.
Qed.

(** ** The engine lookup *)

(** X4. What [find_lammps_binary] returns is a file, and it is the path given by
    the user, the value of LAMMPS_BINARY or one of the listed paths; a path
    given by the user that is a file is the result; and the result is [None]
    exactly when none of the three sources gives a file. *)
Theorem find_lammps_binary_sound (w : world) (user_path : option string) :
  (forall p, L2.find_lammps_binary w user_path = Some p ->
     is_file w p = true /\
     (user_path = Some p \/ environ_LAMMPS_BINARY w = Some p \/ In p (L2.LAMMPS_PATHS w))) /\
  (forall p, user_path = Some p -> is_file w p = true ->
     L2.find_lammps_binary w user_path = Some p) /\
  (L2.find_lammps_binary w user_path = None <-> L2.engine_absent w user_path = true).
Proof.
  unfold L2.find_lammps_binary, L2.engine_absent. split; [|split].
  - intros p. destruct user_path as [u|].
    + destruct (is_file w u) eqn:Eu; [intros [= <-]; auto|].
      destruct (environ_LAMMPS_BINARY w) as [e|].
      * destruct (negb (Py.is_empty e) && is_file w e) eqn:Ee.
        -- intros [= <-]. apply andb_prop in Ee as [_ Ee]. auto.
        -- intros H. apply find_some in H as [H1 H2]. auto.
      * intros H. apply find_some in H as [H1 H2]. auto.
    + destruct (environ_LAMMPS_BINARY w) as [e|].
      * destruct (negb (Py.is_empty e) && is_file w e) eqn:Ee.
        -- intros [= <-]. apply andb_prop in Ee as [_ Ee]. auto.
        -- intros H. apply find_some in H as [H1 H2]. auto.
      * intros H. apply find_some in H as [H1 H2]. auto.
  - intros p -> Hp. now rewrite Hp.
  - assert (Hfind : find (is_file w) (L2.LAMMPS_PATHS w) = None <->
                    forallb (fun p => negb (is_file w p)) (L2.LAMMPS_PATHS w) = true).
    { generalize (L2.LAMMPS_PATHS w). intros l. induction l as [|a l IH]; simpl.
      - tauto.
      - destruct (is_file w a); simpl; [split; discriminate|exact IH]. }
    destruct user_path as [u|].
    + destruct (is_file w u); [split; discriminate|]. cbn [negb andb].
      destruct (environ_LAMMPS_BINARY w) as [e|]; [|exact Hfind].
      destruct (Py.is_empty e); cbn [negb andb orb]; [exact Hfind|].
      destruct (is_file w e); [split; discriminate|exact Hfind].
    + cbn [andb]. destruct (environ_LAMMPS_BINARY w) as [e|]; [|exact Hfind].
      destruct (Py.is_empty e); cbn [negb andb orb]; [exact Hfind|].
      destruct (is_file w e); [split; discriminate|exact Hfind].
Qed.

(** ** Commands *)

Lemma all_ascii (P : ascii -> Prop) :
  (forall b0 b1 b2 b3 b4 b5 b6 b7 : bool, P (Ascii b0 b1 b2 b3 b4 b5 b6 b7)) -> forall c, P c.
Proof. intros H [b0 b1 b2 b3 b4 b5 b6 b7]. apply H. Qed.

Lemma lower_chr_isspace (c : ascii) : Py.isspace (Py.lower_chr c) = Py.isspace c.
Proof.
  revert c. apply all_ascii.
  intros [] [] [] [] [] [] [] []; vm_compute; reflexivity.
Qed.

Lemma lower_chr_idem (c : ascii) : Py.lower_chr (Py.lower_chr c) = Py.lower_chr c.
Proof.
  revert c. apply all_ascii.
  intros [] [] [] [] [] [] [] []; vm_compute; reflexivity.
Qed.

Lemma lower_chr_hash (c : ascii) : Ascii.eqb (Py.lower_chr c) "#" = Ascii.eqb c "#".
Proof.
  revert c. apply all_ascii.
  intros [] [] [] [] [] [] [] []; vm_compute; reflexivity.
Qed.

Lemma lower_idem (s : string) : Py.lower (Py.lower s) = Py.lower s.
Proof.
  unfold Py.lower. induction s as [|c s IH]; simpl; [reflexivity|].
  now rewrite lower_chr_idem, IH.
Qed.

Lemma lower_is_word (s : string) : is_word (Py.lower s) = is_word s.
Proof.
  unfold is_word, Py.lower. destruct s as [|c s]; [reflexivity|].
  cbn [Py.map_chr Py.is_empty negb andb]. 
  revert c. induction s as [|d s IH]; intros c; simpl.
  - now rewrite lower_chr_isspace.
  - rewrite lower_chr_isspace. f_equal. apply IH.
Qed.

Lemma lower_count_hash (s : string) : Py.count "#" (Py.lower s) = Py.count "#" s.
Proof.
  unfold Py.lower. induction s as [|c s IH]; simpl; [reflexivity|].
  now rewrite lower_chr_hash, IH.
Qed.

(** The words of a text are words. *)
Lemma split_words (s t : string) : In t (Py.split s) -> is_word t = true.
Proof.
  revert t. induction s as [|c s IH]; intros t; simpl; [intros []|].
  destruct (Py.isspace c) eqn:Ec; [apply IH|].
  destruct s as [|c' s'].
  - intros [<-|[]]. unfold is_word. simpl. now rewrite Ec.
  - destruct (Py.isspace c') eqn:Ec'.
    + intros [<-|H]; [unfold is_word; simpl; now rewrite Ec|now apply IH].
    + destruct (Py.split (String c' s')) as [|h tl] eqn:Es.
      * intros [<-|[]]. unfold is_word. simpl. now rewrite Ec.
      * intros [<-|H]; [|apply IH; now right].
        assert (Hh : is_word h = true) by (apply IH; now left).
        unfold is_word in *. simpl. rewrite Ec. simpl.
        apply andb_prop in Hh as [_ Hh]. exact Hh.
Qed.

Lemma split_count (c : ascii) (s t : string) :
  Py.count c s = 0 -> In t (Py.split s) -> Py.count c t = 0.
Proof.
  revert t. induction s as [|d s IH]; intros t Hc; simpl; [intros []|].
  simpl in Hc. destruct (Ascii.eqb d c) eqn:Ed; [discriminate|]. simpl in Hc.
  destruct (Py.isspace d); [now apply IH|].
  assert (H1 : Py.count c (String d "") = 0) by (simpl; now rewrite Ed).
  destruct s as [|d' s'].
  - intros [<-|[]]. exact H1.
  - destruct (Py.isspace d').
    + intros [<-|H]; [exact H1|now apply IH].
    + destruct (Py.split (String d' s')) as [|h tl] eqn:Es.
      * intros [<-|[]]. exact H1.
      * intros [<-|H]; [|apply IH; [exact Hc|now right]].
        simpl. rewrite Ed. simpl. apply IH; [exact Hc|now left].
Qed.

Lemma before_comment_no_hash (line : string) : Py.count "#" (before_comment line) = 0.
Proof.
  unfold before_comment. pose proof (split_on_nonempty "#" line) as Hne.
  destruct (Py.split_on "#" line) as [|h t] eqn:E; [contradiction|].
  apply (split_on_no_sep "#" line). rewrite E. now left.
Qed.

Lemma strip_empty_split (s : string) : Py.is_empty (Py.strip s) = true -> Py.split s = [].
Proof.
  intros H. rewrite <- split_strip. destruct (Py.strip s); [reflexivity|discriminate].
Qed.

Lemma parse_command_words (line : string) :
  L1._parse_command line =
    match Py.split (before_comment line) with
    | [] => None
    | p0 :: args => Some (Py.lower p0, args)
    end.
Proof.
  unfold L1._parse_command. fold (before_comment line).
  destruct (Py.is_empty (Py.strip (before_comment line))) eqn:E.
  - now rewrite (strip_empty_split _ E).
  - now rewrite split_strip.
Qed.

Lemma parsed_words (line cmd : string) (args : list string) :
  L1._parse_command line = Some (cmd, args) ->
  is_word cmd = true /\ no_hash cmd = true /\ Py.lower cmd = cmd /\
  forallb is_word args = true /\ forallb no_hash args = true.
Proof.
  rewrite parse_command_words.
  destruct (Py.split (before_comment line)) as [|p0 rest] eqn:E; [discriminate|].
  intros [= <- <-].
  assert (Hw : forall t, In t (p0 :: rest) -> is_word t = true).
  { intros t Ht. apply (split_words (before_comment line)). now rewrite E. }
  assert (Hh : forall t, In t (p0 :: rest) -> no_hash t = true).
  { intros t Ht. unfold no_hash. apply Nat.eqb_eq.
    apply (split_count "#" (before_comment line)).
    - apply before_comment_no_hash.
    - now rewrite E. }
  split; [rewrite lower_is_word; apply Hw; now left|].
  split; [unfold no_hash; rewrite lower_count_hash; apply (Hh p0); now left|].
  split; [apply lower_idem|].
  split; apply forallb_forall; intros t Ht; [apply Hw|apply Hh]; now right.
Qed.

(** X5. [_parse_command] reads the words of the line before its first [#]: no
    word gives [None], otherwise the first word lower-cased with the other
    words. The command it returns is a word in lower case, and neither it nor
    an argument holds white space or a [#]. *)
Theorem parse_command_normal_form (line : string) :
  L1._parse_command line =
    match Py.split (before_comment line) with
    | [] => None
    | p0 :: args => Some (Py.lower p0, args)
    end /\
  forall cmd args, L1._parse_command line = Some (cmd, args) ->
    is_word cmd = true /\ no_hash cmd = true /\ Py.lower cmd = cmd /\
    forallb is_word args = true /\ forallb no_hash args = true.
Proof.
  split; [apply parse_command_words|]. intros cmd args. apply parsed_words.
Qed.

(** ** What a deck needs to pass L1 *)

Lemma collect_commands_found (lines : list string) (s : gset string)
  (m : gmap string (list string)) (cmd : string) :
  cmd ∈ fst (fold_left (fun '(commands_found, command_args) line =>
         match L1._parse_command line with
         | Some (c, args) => ({[c]} ∪ commands_found, <[c := args]> command_args)
         | None => (commands_found, command_args)
         end) lines (s, m))
  <-> cmd ∈ s \/ exists line args, In line lines /\ L1._parse_command line = Some (cmd, args).
Proof.
  revert s m. induction lines as [|line lines IH]; intros s m; simpl.
  - split; [auto|]. intros [H|(l & a & [] & _)]. exact H.
  - destruct (L1._parse_command line) as [[c args]|] eqn:E; rewrite IH.
    + split.
      * intros [H|(l & a & Hl & Hp)].
        -- apply elem_of_union in H as [H|H]; [|auto].
           apply elem_of_singleton in H. subst. right. exists line, args. auto.
        -- right. exists l, a. auto.
      * intros [H|(l & a & [<-|Hl] & Hp)].
        -- left. apply elem_of_union. auto.
        -- rewrite E in Hp. injection Hp as -> _. left. apply elem_of_union. left.
           now apply elem_of_singleton.
        -- right. exists l, a. auto.
    + split.
      * intros [H|(l & a & Hl & Hp)]; [auto|]. right. exists l, a. auto.
      * intros [H|(l & a & [<-|Hl] & Hp)]; [auto|congruence|]. right. exists l, a. auto.
Qed.

Lemma found_iff (content cmd : string) :
  cmd ∈ fst (L1.collect_commands (Py.split_on nl content)) <-> has_command content cmd.
Proof.
  unfold L1.collect_commands, has_command. rewrite collect_commands_found.
  split; [intros [H|H]; [|exact H]|auto]. apply elem_of_empty in H. destruct H.
Qed.

Lemma last_seen_some (cmd : string) (lines : list string) :
  (exists line args, In line lines /\ L1._parse_command line = Some (cmd, args)) ->
  exists args, last_seen_args cmd lines = Some args.
Proof.
  induction lines as [|l lines IH]; intros (line & args & Hin & Hp); [destruct Hin|].
  simpl. destruct (last_seen_args cmd lines) as [a|] eqn:E; [eauto|].
  destruct Hin as [<-|Hin].
  - rewrite Hp. rewrite String.eqb_refl. eauto.
  - destruct IH as (a & Ha); [eauto|discriminate].
Qed.

Lemma required_ok (found : gset string) :
  L1._check_required_commands found = [] <-> "units" ∈ found /\ "atom_style" ∈ found.
Proof.
  unfold L1._check_required_commands, L1.REQUIRED_COMMANDS. cbn [flat_map].
  destruct (bool_decide ("units" ∈ found)) eqn:E1; [apply bool_decide_eq_true in E1|
    apply bool_decide_eq_false in E1];
  (destruct (bool_decide ("atom_style" ∈ found)) eqn:E2; [apply bool_decide_eq_true in E2|
    apply bool_decide_eq_false in E2]); simpl; split; try discriminate; tauto.
Qed.

Lemma structure_ok (found : gset string) :
  L1._check_structure_commands found = [] <->
  exists cmd, In cmd L1.STRUCTURE_COMMANDS /\ cmd ∈ found.
Proof.
  unfold L1._check_structure_commands.
  destruct (existsb (fun cmd => bool_decide (cmd ∈ found)) L1.STRUCTURE_COMMANDS) eqn:E.
  - split; [intros _|reflexivity]. apply existsb_exists in E as (c & Hc & Hb).
    apply bool_decide_eq_true in Hb. eauto.
  - split; [discriminate|]. intros (c & Hc & Hf).
    assert (existsb (fun cmd => bool_decide (cmd ∈ found)) L1.STRUCTURE_COMMANDS = true).
    { apply existsb_exists. exists c. split; [exact Hc|]. now apply bool_decide_eq_true. }
    congruence.
Qed.

Lemma units_ok (args : list string) :
  L1._validate_units_command args = None <->
  exists a0 rest, args = a0 :: rest /\ L1.str_in (Py.lower a0) L1.VALID_UNITS = true.
Proof.
  unfold L1._validate_units_command. destruct args as [|a0 rest].
  - split; [discriminate|]. intros (a & r & H & _). discriminate.
  - destruct (L1.str_in (Py.lower a0) L1.VALID_UNITS) eqn:E; cbn [negb].
    + split; [eauto|reflexivity].
    + split; [discriminate|]. intros (a & r & [= <- <-] & H). congruence.
Qed.

Lemma atom_style_ok (args : list string) :
  L1._validate_atom_style_command args = None <->
  exists a0 rest, args = a0 :: rest /\ L1.str_in (Py.lower a0) L1.VALID_ATOM_STYLES = true.
Proof.
  unfold L1._validate_atom_style_command. destruct args as [|a0 rest].
  - split; [discriminate|]. intros (a & r & H & _). discriminate.
  - destruct (L1.str_in (Py.lower a0) L1.VALID_ATOM_STYLES) eqn:E; cbn [negb].
    + split; [eauto|reflexivity].
    + split; [discriminate|]. intros (a & r & [= <- <-] & H). congruence.
Qed.

Lemma map_nil_iff {A B} (f : A -> B) (l : list A) : map f l = [] <-> l = [].
Proof. destruct l; simpl; split; congruence. Qed.

Lemma opt_list_nil (o : option string) : L1.opt_list o = [] <-> o = None.
Proof. destruct o; simpl; split; congruence. Qed.

Section L1Needs.

Variable fmt : string -> PyFloat.float -> string.

(** X6. [validate_l1] passes exactly when the last [units] line names a known unit
    system, the last [atom_style] line names a known atom style, the deck has
    one of the structure commands, the line checks report nothing, and no
    physics warning is critical. *)
Theorem l1_passes_iff_deck_complete (content : string) :
  let lines := Py.split_on nl content in
  let r := L1.validate_l1 fmt content in
  L1Result.passed r = true <->
  (exists a0 rest, last_seen_args "units" lines = Some (a0 :: rest) /\
                   L1.str_in (Py.lower a0) L1.VALID_UNITS = true) /\
  (exists a0 rest, last_seen_args "atom_style" lines = Some (a0 :: rest) /\
                   L1.str_in (Py.lower a0) L1.VALID_ATOM_STYLES = true) /\
  (exists cmd, In cmd L1.STRUCTURE_COMMANDS /\ has_command content cmd) /\
  L1._check_common_syntax_errors content = [] /\
  (forall w, In w (L1Result.physics_warnings r) -> critical w = false).
Proof.
  intros lines r. subst r lines. rewrite passed_iff.
  destruct (validate_l1_fields fmt content) as (Hs & _ & _). cbv zeta in Hs. rewrite Hs.
  pose proof (stored_is_last_seen content "units") as Hu.
  pose proof (stored_is_last_seen content "atom_style") as Ha.
  unfold stored_args in Hu, Ha. rewrite Hu, Ha.
  rewrite !app_nil, !map_nil_iff, required_ok, structure_ok, !found_iff.
  assert (Hfound : forall c, c ∈ fst (L1.collect_commands (Py.split_on nl content))
                             <-> has_command content c) by (intros c; apply found_iff).
  set (lines := Py.split_on nl content) in *.
  split.
  - intros [[[Hq1 Hq2] [Hst [Hun [Hat Hc]]]] Hw].
    destruct (last_seen_some "units" lines Hq1) as (au & Eu).
    destruct (last_seen_some "atom_style" lines Hq2) as (aa & Ea).
    rewrite Eu in Hun. rewrite Ea in Hat.
    apply opt_list_nil, units_ok in Hun as (a0 & rest & -> & Hv).
    apply opt_list_nil, atom_style_ok in Hat as (b0 & rest' & -> & Hv').
    split; [eauto|]. split; [eauto|]. split; [|split; assumption].
    destruct Hst as (c & Hc1 & Hc2). exists c. split; [exact Hc1|]. now apply Hfound.
  - intros ((a0 & rest & Eu & Hv) & (b0 & rest' & Ea & Hv') & (c & Hc1 & Hc2) & Hc & Hw).
    split; [|exact Hw].
    assert (Hls : forall cmd args, last_seen_args cmd lines = Some args -> has_command content cmd).
    { intros cmd args. unfold has_command. fold lines. clear.
      induction lines as [|l ls IH]; [discriminate|]. simpl.
      destruct (last_seen_args cmd ls) as [a|].
      - intros H. destruct (IH H) as (line & a' & Hin & Hp). exists line, a'. auto.
      - destruct (L1._parse_command l) as [[c' a']|] eqn:E; [|discriminate].
        destruct (String.eqb c' cmd) eqn:Ec; [|discriminate].
        apply String.eqb_eq in Ec. subst. intros _. exists l, a'. auto. }
    split; [split; eauto|]. split.
    { exists c. split; [exact Hc1|]. now apply Hfound. }
    rewrite Eu, Ea. split; [apply opt_list_nil, units_ok; eauto|].
    split; [apply opt_list_nil, atom_style_ok; eauto|exact Hc].
Qed.

End L1Needs.

(** ** File references *)

Lemma set_add_in {A} `{EqDecision A} (x y : A) (s : list A) :
  In y (FS.set_add x s) <-> y = x \/ In y s.
Proof.
  unfold FS.set_add. destruct (bool_decide (x ∈ s)) eqn:E.
  - apply bool_decide_eq_true in E. apply list_elem_of_In in E.
    split; [auto|]. intros [->|H]; assumption.
  - rewrite in_app_iff. simpl. split; intros H; intuition auto.
Qed.

Lemma set_add_nodup {A} `{EqDecision A} (x : A) (s : list A) :
  List.NoDup s -> List.NoDup (FS.set_add x s).
Proof.
  intros Hs. unfold FS.set_add. destruct (bool_decide (x ∈ s)) eqn:E; [exact Hs|].
  apply bool_decide_eq_false in E. rewrite list_elem_of_In in E.
  induction s as [|a s IH]; simpl.
  - constructor; [intros []|constructor].
  - inversion Hs; subst. constructor.
    + rewrite in_app_iff. simpl. intros [H|[->|[]]]; [auto|]. apply E. now left.
    + apply IH; [assumption|]. intros H. apply E. now right.
Qed.

Lemma fold_set_add {A} `{EqDecision A} (l s : list A) :
  List.NoDup s ->
  List.NoDup (fold_left (fun refs r => FS.set_add r refs) l s) /\
  forall y, In y (fold_left (fun refs r => FS.set_add r refs) l s) <-> In y l \/ In y s.
Proof.
  revert s. induction l as [|x l IH]; intros s Hs; simpl.
  - split; [exact Hs|]. intros y. tauto.
  - destruct (IH (FS.set_add x s) (set_add_nodup x s Hs)) as [H1 H2].
    split; [exact H1|]. intros y. rewrite H2, set_add_in. split; intros H; intuition auto.
Qed.

Lemma isspace_not_hash (c : ascii) : Py.isspace c = true -> Ascii.eqb c "#" = false.
Proof. intros H. destruct (Ascii.eqb_spec c "#") as [->|]; [discriminate|reflexivity]. Qed.

Lemma before_comment_cons (c : ascii) (r : string) :
  before_comment (String c r) = if Ascii.eqb c "#" then "" else String c (before_comment r).
Proof.
  unfold before_comment. simpl. destruct (Ascii.eqb c "#"); [reflexivity|].
  pose proof (split_on_nonempty "#" r).
  destruct (Py.split_on "#" r); [contradiction|reflexivity].
Qed.

Lemma split_cons_congr (c : ascii) (x y : string) :
  Re.head_chr x = Re.head_chr y -> Py.split x = Py.split y ->
  Py.split (String c x) = Py.split (String c y).
Proof.
  intros Hh Hs. cbn [Py.split]. destruct (Py.isspace c); [exact Hs|].
  destruct x as [|a x], y as [|b y]; try discriminate; [reflexivity|].
  injection Hh as <-. destruct (Py.isspace a); now rewrite Hs.
Qed.

Lemma split_cons_blank (c : ascii) (x : string) :
  Py.isspace c = false -> Py.split x = [] -> Py.split (String c x) = [String c ""].
Proof.
  intros Hc Hx. cbn [Py.split]. rewrite Hc. destruct x as [|a x]; [reflexivity|].
  destruct (Py.isspace a); now rewrite Hx.
Qed.

Lemma head_before_comment (d : ascii) (z : string) :
  Re.head_chr (before_comment (String d z)) = if Ascii.eqb d "#" then None else Some d.
Proof. rewrite before_comment_cons. now destruct (Ascii.eqb d "#"). Qed.

Lemma words_before_comment_lstrip (s : string) :
  Py.split (before_comment (Py.lstrip s)) = Py.split (before_comment s).
Proof.
  induction s as [|c s IH]; [reflexivity|]. cbn [Py.lstrip].
  destruct (Py.isspace c) eqn:Ec; [|reflexivity].
  rewrite IH, (before_comment_cons c s), (isspace_not_hash c Ec). cbn [Py.split].
  now rewrite Ec.
Qed.

Lemma words_before_comment_rstrip (s : string) :
  Py.split (before_comment (Py.rstrip s)) = Py.split (before_comment s).
Proof.
  induction s as [|c s IH]; [reflexivity|].
  cbn [Py.rstrip]. rewrite (before_comment_cons c s).
  destruct (Ascii.eqb c "#") eqn:Eh.
  - apply Ascii.eqb_eq in Eh. subst c.
    destruct (Py.rstrip s); reflexivity.
  - destruct (Py.rstrip s) as [|d r] eqn:Er.
    + change (Py.split (before_comment "")) with (@nil string) in IH.
      destruct (Py.isspace c) eqn:Ec.
      * cbn [Py.split]. now rewrite Ec.
      * rewrite before_comment_cons, Eh.
        rewrite (split_cons_blank c (before_comment s) Ec) by (now symmetry).
        now rewrite (split_cons_blank c (before_comment "") Ec).
    + destruct (rstrip_cons_inv _ _ _ Er) as (x & ->).
      rewrite before_comment_cons, Eh. apply split_cons_congr; [|exact IH].
      now rewrite !head_before_comment.
Qed.

Lemma words_before_comment_strip (s : string) :
  Py.split (before_comment (Py.strip s)) = Py.split (before_comment s).
Proof.
  unfold Py.strip. now rewrite words_before_comment_rstrip, words_before_comment_lstrip.
Qed.

Lemma contains_hash_count (s : string) : Py.contains "#" s = false -> Py.count "#" s = 0.
Proof.
  induction s as [|c s IH]; [reflexivity|].
  rewrite contains_cons. intros H. apply orb_false_iff in H as [H1 H2].
  cbn [Py.startswith] in H1. rewrite andb_true_r in H1.
  rewrite count_cons, Ascii.eqb_sym, H1. simpl. auto.
Qed.

Lemma line_references_command (line : string) :
  FS.line_references line =
    match L1._parse_command line with
    | Some (cmd, args) => command_references cmd args
    | None => []
    end.
Proof.
  rewrite parse_command_words. unfold FS.line_references.
  destruct (Py.is_empty (Py.strip line) || Py.startswith "#" (Py.strip line)) eqn:Esk.
  - apply orb_prop in Esk as [E|E].
    + rewrite <- words_before_comment_strip.
      destruct (Py.strip line); [reflexivity|discriminate].
    + rewrite <- words_before_comment_strip.
      destruct (Py.strip line) as [|c s]; [reflexivity|].
      cbn [Py.startswith] in E. rewrite andb_true_r in E. apply Ascii.eqb_eq in E.
      subst c. reflexivity.
  - assert (Hw : Py.split (if Py.contains "#" (Py.strip line)
                           then Py.strip (hd "" (Py.split_on "#" (Py.strip line)))
                           else Py.strip line)
                 = Py.split (before_comment line)).
    { rewrite <- words_before_comment_strip.
      destruct (Py.contains "#" (Py.strip line)) eqn:Ec.
      - apply split_strip.
      - unfold before_comment. now rewrite (split_on_single _ _ (contains_hash_count _ Ec)). }
    rewrite Hw. destruct (Py.split (before_comment line)) as [|p0 args]; [reflexivity|].
    generalize (Py.lower p0). intros cmd.
    unfold command_references, FS.str_in. cbn [existsb].
    assert (L1 : (1 <? length (p0 :: args)) = negb (Nat.eqb (length args) 0)).
    { destruct args; reflexivity. }
    assert (L2 : (2 <? length (p0 :: args)) = negb (Nat.eqb (length (skipn 1 args)) 0)).
    { destruct args as [|a [|b args]]; reflexivity. }
    rewrite L1, L2. clear L1 L2.
    assert (F1 : forall l : list string, Nat.eqb (length l) 0 = true -> firstn 1 l = []).
    { intros [|x l]; [reflexivity|discriminate]. }
    destruct (String.eqb_spec cmd "read_data") as [->|N1].
    { cbn. destruct (Nat.eqb (length args) 0) eqn:E; [now rewrite F1|reflexivity]. }
    destruct (String.eqb_spec cmd "read_restart") as [->|N2].
    { cbn. destruct (Nat.eqb (length args) 0) eqn:E; [now rewrite F1|reflexivity]. }
    destruct (String.eqb_spec cmd "include") as [->|N3].
    { cbn. destruct (Nat.eqb (length args) 0) eqn:E; [now rewrite F1|reflexivity]. }
    destruct (String.eqb_spec cmd "read_dump") as [->|N4].
    { cbn. destruct (Nat.eqb (length args) 0) eqn:E; [now rewrite F1|reflexivity]. }
    destruct (String.eqb_spec cmd "molecule") as [->|N5].
    { cbn. destruct (Nat.eqb (length (skipn 1 args)) 0) eqn:E; [now rewrite F1|reflexivity]. }
    cbn [andb orb].
    destruct (String.eqb_spec cmd "pair_coeff") as [->|N6]; reflexivity.
Qed.

Lemma command_references_args (cmd : string) (args : list string) (r : string) :
  In r (command_references cmd args) -> In r args.
Proof.
  unfold command_references.
  assert (F : forall l : list string, In r (firstn 1 l) -> In r l).
  { intros [|x l]; simpl; tauto. }
  destruct (FS.str_in cmd _); [apply F|].
  destruct (String.eqb cmd "molecule").
  { intros H. apply F in H. destruct args; [destruct H|]. now right. }
  destruct (String.eqb cmd "pair_coeff").
  { intros H. apply in_flat_map in H as (a & Ha & Hr).
    unfold FS.pair_coeff_reference in Hr.
    destruct (FS.str_in a ["*"; "NULL"]); [destruct Hr|].
    destruct (PyFloat.of_string a); [destruct Hr|].
    destruct (FS.has_extension a); [destruct Hr as [<-|[]]; exact Ha|].
    destruct (Py.contains "/" a || Py.contains "." a); [|destruct Hr].
    destruct (negb (Py.startswith "-" a)); [|destruct Hr].
    destruct Hr as [<-|[]]. exact Ha. }
  destruct (FS.str_in cmd _); [|intros []].
  intros H. apply filter_In in H. tauto.
Qed.

(** X7. [parse_file_references] returns no name twice; a name is returned exactly
    when some line parses to a command that refers to it; every name is a
    word without [#]; and the first argument of [read_data], [read_restart],
    [include] and [read_dump] is always returned. *)
Theorem file_references_come_from_commands (content : string) :
  let lines := Py.split_on nl content in
  let refs := FS.parse_file_references content in
  List.NoDup refs /\
  (forall r, In r refs <->
     exists line cmd args,
       In line lines /\ L1._parse_command line = Some (cmd, args) /\
       In r (command_references cmd args)) /\
  (forall r, In r refs -> is_word r = true /\ no_hash r = true) /\
  (forall line cmd f rest,
     In line lines -> L1._parse_command line = Some (cmd, f :: rest) ->
     In cmd ["read_data"; "read_restart"; "include"; "read_dump"] -> In f refs).
Proof.
  intros lines refs. subst refs. unfold FS.parse_file_references. fold lines.
  destruct (fold_set_add (flat_map FS.line_references lines) [] (List.NoDup_nil _))
    as [Hnd Hin].
  assert (Hiff : forall r,
            In r (fold_left (fun refs r0 => FS.set_add r0 refs)
                    (flat_map FS.line_references lines) []) <->
            exists line cmd args,
              In line lines /\ L1._parse_command line = Some (cmd, args) /\
              In r (command_references cmd args)).
  { intros r. rewrite Hin, in_flat_map. split.
    - intros [(line & Hl & Hr)|[]]. rewrite line_references_command in Hr.
      destruct (L1._parse_command line) as [[cmd args]|] eqn:E; [|destruct Hr].
      exists line, cmd, args. auto.
    - intros (line & cmd & args & Hl & Hp & Hr). left. exists line. split; [exact Hl|].
      now rewrite line_references_command, Hp. }
  split; [exact Hnd|]. split; [exact Hiff|]. split.
  - intros r Hr. apply Hiff in Hr as (line & cmd & args & Hl & Hp & Hr).
    apply command_references_args in Hr.
    destruct (parsed_words line cmd args Hp) as (_ & _ & _ & Hw & Hh).
    rewrite forallb_forall in Hw, Hh. auto.
  - intros line cmd f rest Hl Hp Hc. apply Hiff. exists line, cmd, (f :: rest).
    split; [exact Hl|]. split; [exact Hp|]. unfold command_references.
    assert (E : FS.str_in cmd ["read_data"; "read_restart"; "include"; "read_dump"] = true).
    { unfold FS.str_in. apply existsb_exists. exists cmd. split; [exact Hc|].
      apply String.eqb_refl. }
    rewrite E. now left.
Qed.

(** ** Looking a file up in the context *)

Section Lookup.

Import FS.

Variable iter_paths : list Path -> list Path.

Lemma searched_by_context (st : state) (context_files s0 : list Path) (d : Path) :
  In d (fold_left (fun dirs cf => if exists_ st cf then set_add (parent cf) dirs else dirs)
          context_files s0)
  <-> (exists cf, In cf context_files /\ exists_ st cf = true /\ d = parent cf) \/ In d s0.
Proof.
  revert s0. induction context_files as [|cf l IH]; intros s0; cbn [fold_left].
  - split; [auto|]. intros [(cf & [] & _)|H]; exact H.
  - rewrite IH. destruct (exists_ st cf) eqn:E.
    + rewrite set_add_in. split.
      * intros [(c & Hin & He & Hd)|[->|H]]; [left; exists c; cbn [In]; auto| |auto].
        left. exists cf. cbn [In]. auto.
      * intros [(c & [<-|Hin] & He & Hd)|H]; [auto| |auto]. left. exists c. auto.
    + split.
      * intros [(c & Hin & He & Hd)|H]; [left; exists c; cbn [In]; auto|auto].
      * intros [(c & [<-|Hin] & He & Hd)|H]; [congruence| |auto]. left. exists c. auto.
Qed.

Lemma searched_by_update (dirs s0 : list Path) (d : Path) :
  In d (fold_left (fun acc search_dir => set_add search_dir acc) dirs s0)
  <-> In d dirs \/ In d s0.
Proof.
  revert s0. induction dirs as [|x l IH]; intros s0; cbn [fold_left].
  - split; [auto|]. intros [[]|H]; exact H.
  - rewrite IH, set_add_in. cbn [In]. split; intros H; intuition auto.
Qed.

Lemma searched_dirs (st : state) (context_files : list Path)
  (search_dirs : option (list Path)) (d : Path) :
  In d (match search_dirs with
        | Some (d0 :: ds) =>
            fold_left (fun dirs search_dir => set_add search_dir dirs) (d0 :: ds)
              (fold_left (fun dirs cf => if exists_ st cf then set_add (parent cf) dirs
                                         else dirs) context_files [])
        | _ => fold_left (fun dirs cf => if exists_ st cf then set_add (parent cf) dirs
                                         else dirs) context_files []
        end)
  <-> searched_dir st context_files search_dirs d.
Proof.
  unfold searched_dir. destruct search_dirs as [[|d0 ds]|].
  - rewrite searched_by_context. split.
    + intros [H|[]]. now left.
    + intros [H|(dirs & [= <-] & [])]. now left.
  - rewrite searched_by_update, searched_by_context. split.
    + intros [H|[H|[]]]; [right; eauto|now left].
    + intros [H|(dirs & [= <-] & H)]; [right; now left|now left].
  - rewrite searched_by_context. split.
    + intros [H|[]]. now left.
    + intros [H|(dirs & [=] & _)]. now left.
Qed.

(** X8. A path that [find_file_in_context] returns exists; when some context
    file exists whose name is the name of the file asked for, the function
    returns one of the context files. When the iteration over the set of
    directories visits exactly its elements, a path returned is a context
    file or one of the two paths tried in a searched directory (the parent of
    an existing context file, or a directory of [search_dirs]), and nothing
    is returned exactly when no context file that answers the request exists
    and no path tried in a searched directory exists. *)
Theorem find_file_in_context_sound (st : state) (filename : string)
  (context_files : list Path) (search_dirs : option (list Path)) :
  let found := find_file_in_context iter_paths st filename context_files search_dirs in
  (forall p, found = Some p -> exists_ st p = true) /\
  (forall cf, In cf context_files -> exists_ st cf = true ->
     name cf = name (path_of_string filename) ->
     exists p, found = Some p /\ In p context_files) /\
  ((forall l x, In x (iter_paths l) <-> In x l) ->
   (forall p, found = Some p ->
      In p context_files \/
      exists d, searched_dir st context_files search_dirs d /\
                In p (candidates_in filename d)) /\
   (found = None <->
    (forall cf, In cf context_files -> answers filename cf = true -> exists_ st cf = false) /\
    (forall d p, searched_dir st context_files search_dirs d ->
       In p (candidates_in filename d) -> exists_ st p = false))).
Proof.
  intros found. subst found. unfold find_file_in_context. cbv zeta.
  fold (candidates_in filename).
  set (dirs := match search_dirs with
               | Some (d0 :: ds) => _
               | _ => _
               end).
  assert (Hdirs : forall d, In d dirs <-> searched_dir st context_files search_dirs d)
    by (intros d; apply searched_dirs).
  change (fun cf : Path =>
            (String.eqb (name cf) (name (path_of_string filename))
             || Py.endswith filename (str_of_path cf)) && exists_ st cf)
    with (fun cf : Path => answers filename cf && exists_ st cf).
  split; [|split].
  - intros p.
    destruct (find _ context_files) as [cf|] eqn:E.
    + intros [= <-]. apply find_some in E as [_ E]. apply andb_prop in E. tauto.
    + intros H. apply find_some in H. tauto.
  - intros cf Hin Hex Hname.
    destruct (find (fun cf0 => answers filename cf0 && exists_ st cf0) context_files)
      as [p|] eqn:E.
    + exists p. split; [reflexivity|]. apply find_some in E. tauto.
    + exfalso. apply (find_none _ _ E) in Hin. unfold answers in Hin.
      rewrite Hex, Hname, String.eqb_refl in Hin. discriminate.
  - intros Hiter. split.
    + intros p.
      destruct (find _ context_files) as [cf|] eqn:E.
      * intros [= <-]. apply find_some in E. tauto.
      * intros H. apply find_some in H as [H _]. right.
        apply in_flat_map in H as (d & Hd & Hp). apply Hiter, Hdirs in Hd. eauto.
    + destruct (find (fun cf0 => answers filename cf0 && exists_ st cf0) context_files)
        as [cf|] eqn:E.
      * split; [discriminate|]. intros [H _]. apply find_some in E as [Hin E].
        apply andb_prop in E as [E1 E2]. rewrite (H cf Hin E1) in E2. discriminate.
      * split.
        -- intros Hnone. split.
           ++ intros cf Hin Ha. apply (find_none _ _ E) in Hin. rewrite Ha in Hin. exact Hin.
           ++ intros d p Hd Hp. apply (find_none _ _ Hnone).
              apply in_flat_map. exists d. split; [|exact Hp]. apply Hiter, Hdirs, Hd.
        -- intros [_ H].
           destruct (find (exists_ st) _) as [p|] eqn:F; [|reflexivity].
           apply find_some in F as [Hin F]. apply in_flat_map in Hin as (d & Hd & Hp).
           apply Hiter, Hdirs in Hd. rewrite (H d p Hd Hp) in F. discriminate.
Qed.

End Lookup.

(** ** The deck file of the working directory *)

Section DeckFile.

Import FS.

Lemma same_kind_refl (n : node) : same_kind n n = true.
Proof. now destruct n. Qed.

Lemma same_kind_trans (a b c : node) :
  same_kind a b = true -> same_kind b c = true -> same_kind a c = true.
Proof. destruct a, b, c; simpl; congruence. Qed.

Lemma kinds_refl (st : state) : kinds_kept st st.
Proof. split; [reflexivity|]. intros k n H. exists n. split; [exact H|apply same_kind_refl]. Qed.

Lemma kinds_trans (a b c : state) : kinds_kept a b -> kinds_kept b c -> kinds_kept a c.
Proof.
  intros [C1 H1] [C2 H2]. split; [congruence|]. intros k n H.
  destruct (H1 k n H) as (n1 & E1 & K1). destruct (H2 k n1 E1) as (n2 & E2 & K2).
  exists n2. split; [exact E2|]. eapply same_kind_trans; eassumption.
Qed.

Lemma preserved_kinds (st st' : state) :
  cwd st' = cwd st -> preserved st st' -> kinds_kept st st'.
Proof.
  intros C H. split; [exact C|]. intros k n E. exists n. split; [now apply H|apply same_kind_refl].
Qed.

Lemma os_mkdir_cwd (p : Path) (st : state) : cwd (fst (os_mkdir p st)) = cwd st.
Proof.
  unfold os_mkdir. destruct (parts p); [reflexivity|].
  destruct (resolve st p); [reflexivity|].
  destruct (lookup_node (files st) l0); reflexivity.
Qed.

Lemma mkdir_parents_cwd (n : nat) (p : Path) (st : state) :
  cwd (fst (mkdir_parents n p st)) = cwd st.
Proof.
  revert p st. induction n as [|n IH]; intros p st; simpl.
  - pose proof (os_mkdir_cwd p st) as H.
    destruct (os_mkdir p st) as [st' [e|[]]]; [|exact H].
    destruct e; try destruct (is_dir st p); reflexivity.
  - pose proof (os_mkdir_cwd p st) as H.
    destruct (os_mkdir p st) as [st' [e|[]]]; [|exact H].
    assert (Hother : cwd (fst (if is_dir st p then (st, inr tt) else (st, @inl errno unit e)))
                     = cwd st).
    { destruct (is_dir st p); reflexivity. }
    destruct e; try exact Hother. clear Hother.
    pose proof (IH (parent p) st) as H1.
    destruct (mkdir_parents n (parent p) st) as [st1 [e1|[]]]; [exact H1|].
    pose proof (os_mkdir_cwd p st1) as H2.
    destruct (os_mkdir p st1) as [st2 [e2|[]]].
    + destruct (is_dir st1 p); exact H1.
    + simpl in *. congruence.
Qed.

Lemma mkdir_kinds (p : Path) (st : state) : kinds_kept st (fst (mkdir p st)).
Proof.
  apply preserved_kinds; [apply mkdir_parents_cwd|apply mkdir_preserved].
Qed.

Lemma write_text_kinds (p : Path) (content : string) (st : state) :
  kinds_kept st (fst (write_text p content st)).
Proof.
  unfold write_text. destruct (resolve st p) as [e|k]; [apply kinds_refl|].
  destruct (lookup_node (files st) k) as [[c|]|] eqn:E; try apply kinds_refl.
  - split; [reflexivity|]. intros k' n' H. simpl.
    destruct (decide (k = k')) as [<-|Hne].
    + rewrite lookup_insert_eq. destruct k as [|k0 k1]; [discriminate|].
      simpl in E. rewrite E in H. injection H as <-. eauto.
    + rewrite lookup_insert_ne by assumption. exists n'. split; [exact H|apply same_kind_refl].
  - apply preserved_kinds; [reflexivity|]. now apply insert_absent_preserved.
Qed.

Lemma copy2_kinds (src dst : Path) (st : state) : kinds_kept st (fst (copy2 src dst st)).
Proof.
  unfold copy2. destruct (samefile st src _); [apply kinds_refl|].
  destruct (resolve st src) as [e|k]; [apply kinds_refl|].
  destruct (lookup_node (files st) k) as [[c|]|]; try apply kinds_refl.
  apply write_text_kinds.
Qed.

Lemma bind_kinds {A B} (m : M A) (k : A -> M B) (st : state) :
  kinds_kept st (fst (m st)) -> (forall a st1, kinds_kept st1 (fst (k a st1))) ->
  kinds_kept st (fst (bind m k st)).
Proof.
  intros Hm Hk. unfold bind. destruct (m st) as [st1 [e|a]]; [exact Hm|].
  eapply kinds_trans; [exact Hm|apply Hk].
Qed.

Lemma for_each_kinds {A} (body : A -> M unit) (l : list A) (st : state) :
  (forall x st1, kinds_kept st1 (fst (body x st1))) ->
  kinds_kept st (fst (for_each l body st)).
Proof.
  intros Hb. revert st. induction l as [|x l IH]; intros st; simpl; [apply kinds_refl|].
  apply bind_kinds; [apply Hb|]. intros _ st1. apply IH.
Qed.

Lemma copy_referenced_kinds (iter_paths : list Path -> list Path)
  (context_files : list Path) (working_dir : Path) (ref_file : string) (st : state) :
  kinds_kept st (fst (copy_referenced iter_paths context_files working_dir ref_file st)).
Proof.
  unfold copy_referenced. apply bind_kinds; [apply kinds_refl|].
  intros [source_path|] st1; [|apply kinds_refl].
  apply bind_kinds; [apply kinds_refl|]. intros [] st2; [|apply kinds_refl].
  apply bind_kinds; [apply mkdir_kinds|]. intros _ st3.
  destruct (bool_decide _); [apply copy2_kinds|apply kinds_refl].
Qed.

Lemma copy_context_file_kinds (working_dir cf : Path) (st : state) :
  kinds_kept st (fst (copy_context_file working_dir cf st)).
Proof.
  unfold copy_context_file. apply bind_kinds; [apply kinds_refl|].
  intros [] st1; [|apply kinds_refl].
  apply bind_kinds; [apply kinds_refl|]. intros [] st2; simpl;
    [apply kinds_refl|apply copy2_kinds].
Qed.

Lemma lookup_dir_kept (st st' : state) (k : list string) :
  kinds_kept st st' -> lookup_node (files st) k = Some Dir ->
  lookup_node (files st') k = Some Dir.
Proof.
  intros [_ H]. destruct k as [|k0 k1]; [auto|]. simpl. intros E.
  destruct (H _ _ E) as ([c|] & E' & K); [discriminate|exact E'].
Qed.

Lemma walk_kept (st st' : state) (cur comps k : list string) :
  kinds_kept st st' -> walk (files st) cur comps = inr k -> walk (files st') cur comps = inr k.
Proof.
  intros HK. revert cur. induction comps as [|c comps IH]; intros cur; simpl; [auto|].
  destruct (lookup_node (files st) cur) as [[x|]|] eqn:E; try discriminate.
  rewrite (lookup_dir_kept st st' cur HK E). apply IH.
Qed.

Lemma is_file_kept (st st' : state) (p : Path) :
  kinds_kept st st' -> is_file st p = true -> is_file st' p = true.
Proof.
  intros HK. unfold is_file, stat, resolve.
  destruct (walk (files st) _ (parts p)) as [e|k] eqn:Hw; [discriminate|].
  destruct HK as [C H]. rewrite C. rewrite (walk_kept st st' _ _ _ (conj C H) Hw).
  destruct k as [|k0 k1]; [discriminate|]. simpl.
  destruct (files st !! (k0 :: k1)) as [[c|]|] eqn:E; try discriminate.
  destruct (H _ _ E) as ([c'|] & E' & K); [|discriminate]. now rewrite E'.
Qed.

Lemma stat_preserved (st st' : state) (p : Path) (n : node) :
  kinds_kept st st' -> preserved st st' -> stat st p = Some n -> stat st' p = Some n.
Proof.
  intros HK HP. unfold stat, resolve.
  destruct (walk (files st) _ (parts p)) as [e|k] eqn:Hw; [discriminate|].
  destruct HK as [C H]. rewrite C. rewrite (walk_kept st st' _ _ _ (conj C H) Hw).
  destruct k as [|k0 k1]; [auto|]. simpl. apply HP.
Qed.

Lemma is_dir_kept (st st' : state) (p : Path) :
  kinds_kept st st' -> is_dir st p = true -> is_dir st' p = true.
Proof.
  intros HK. unfold is_dir, stat, resolve.
  destruct (walk (files st) _ (parts p)) as [e|k] eqn:Hw; [discriminate|].
  destruct HK as [C H]. rewrite C. rewrite (walk_kept st st' _ _ _ (conj C H) Hw).
  destruct (lookup_node (files st) k) as [[c|]|] eqn:E; try discriminate.
  now rewrite (lookup_dir_kept st st' k (conj C H) E).
Qed.

Lemma os_mkdir_is_dir (p : Path) (st st' : state) :
  os_mkdir p st = (st', inr tt) -> is_dir st' p = true.
Proof.
  unfold os_mkdir. destruct (parts p) as [|c0 cs] eqn:Ep; [discriminate|].
  destruct (resolve st p) as [e|k] eqn:Er; [discriminate|].
  destruct (lookup_node (files st) k) as [n|] eqn:E; [discriminate|].
  intros [= <-].
  assert (HK : kinds_kept st (mkState (<[k:=Dir]> (files st)) (cwd st))).
  { apply preserved_kinds; [reflexivity|]. now apply insert_absent_preserved. }
  unfold is_dir, stat, resolve in *.
  change (cwd {| files := <[k:=Dir]> (files st); cwd := cwd st |}) with (cwd st).
  rewrite (walk_kept st _ _ _ _ HK Er).
  destruct k as [|k0 k1]; [discriminate|]. simpl. now rewrite lookup_insert_eq.
Qed.

Lemma mkdir_parents_is_dir (n : nat) (p : Path) (st st' : state) :
  mkdir_parents n p st = (st', inr tt) -> is_dir st' p = true.
Proof.
  revert p st st'. induction n as [|n IH]; intros p st st'; simpl.
  - destruct (os_mkdir p st) as [s1 [e|[]]] eqn:Eo.
    + assert (Hother : (if is_dir st p then (st, inr tt) else (st, @inl errno unit e))
                       = (st', inr tt) -> is_dir st' p = true).
      { destruct (is_dir st p) eqn:Ed; intros [= <-]; exact Ed. }
      destruct e; try exact Hother. discriminate.
    + intros [= <-]. now apply (os_mkdir_is_dir p st).
  - destruct (os_mkdir p st) as [s1 [e|[]]] eqn:Eo.
    + assert (Hother : (if is_dir st p then (st, inr tt) else (st, @inl errno unit e))
                       = (st', inr tt) -> is_dir st' p = true).
      { destruct (is_dir st p) eqn:Ed; intros [= <-]; exact Ed. }
      destruct e; try exact Hother. clear Hother.
      destruct (mkdir_parents n (parent p) st) as [st1 [e1|[]]]; [discriminate|].
      destruct (os_mkdir p st1) as [st2 [e2|[]]] eqn:Eo2.
      * destruct (is_dir st1 p) eqn:Ed; intros [= <-]; exact Ed.
      * intros [= <-]. now apply (os_mkdir_is_dir p st1).
    + intros [= <-]. now apply (os_mkdir_is_dir p st).
Qed.

Section Setup.

Variable iter_strs : list string -> list string.

Variable iter_paths : list Path -> list Path.

(** The steps of a call that returns. *)
Lemma setup_steps (deck_content : string) (context_files : list Path)
  (working_dir : Path) (deck_filename : string) (st st' : state) (p : Path) :
  setup_working_directory iter_strs iter_paths deck_content context_files working_dir
    deck_filename st = (st', inr p) ->
  exists sa sb sc,
    mkdir working_dir st = (sa, inr tt) /\
    write_text p deck_content sa = (sb, inr tt) /\
    for_each (iter_strs (parse_file_references deck_content))
      (copy_referenced iter_paths context_files working_dir) sb = (sc, inr tt) /\
    kinds_kept sc st' /\ preserved sc st' /\
    p = joinpath working_dir (path_of_string deck_filename).
Proof.
  unfold setup_working_directory, materialize_referenced.
  set (deck_path := joinpath working_dir (path_of_string deck_filename)).
  unfold bind at 1 2 3 4.
  destruct (mkdir working_dir st) as [sa [e|[]]] eqn:Em; [discriminate|].
  destruct (write_text deck_path deck_content sa) as [sb [e|[]]] eqn:Ew; [discriminate|].
  destruct (for_each (iter_strs (parse_file_references deck_content)) _ sb)
    as [sc [e|[]]] eqn:Ef; [discriminate|].
  pose proof (copy_unreferenced_preserved context_files working_dir sc) as P2.
  pose proof (for_each_kinds (copy_context_file working_dir) context_files sc
                (copy_context_file_kinds working_dir)) as K2.
  fold (copy_unreferenced context_files working_dir) in K2.
  destruct (copy_unreferenced context_files working_dir sc) as [sd [e|[]]]; [discriminate|].
  unfold ret. intros [= <- <-]. simpl in K2, P2.
  exists sa, sb, sc. auto 7.
Qed.

(** After a call that returns, the deck file is a file and the working
    directory a directory. *)
Lemma setup_leaves_the_deck (deck_content : string) (context_files : list Path)
  (working_dir : Path) (deck_filename : string) (st st' : state) (p : Path) :
  setup_working_directory iter_strs iter_paths deck_content context_files working_dir
    deck_filename st = (st', inr p) ->
  is_file st' p = true /\ is_dir st' working_dir = true.
Proof.
  intros H. apply setup_steps in H as (sa & sb & sc & Em & Ew & Ef & K2 & _ & _).
  pose proof (for_each_kinds (copy_referenced iter_paths context_files working_dir)
                (iter_strs (parse_file_references deck_content)) sb
                (copy_referenced_kinds iter_paths context_files working_dir)) as K1.
  rewrite Ef in K1. simpl in K1.
  pose proof (write_text_then_stat _ _ _ _ Ew) as Hs.
  split.
  - apply (is_file_kept sc st' _ K2). apply (is_file_kept sb sc _ K1).
    unfold is_file. now rewrite Hs.
  - apply (is_dir_kept sc st' _ K2). apply (is_dir_kept sb sc _ K1).
    apply (is_dir_kept sa sb _).
    + pose proof (write_text_kinds p deck_content sa) as K0. now rewrite Ew in K0.
    + exact (mkdir_parents_is_dir _ _ st sa Em).
Qed.

(** X9. When [setup_working_directory] returns, the path it returns is
    [working_dir / deck_filename], it is a file, and [working_dir] is a
    directory; when the deck refers to no file, the file holds the deck. *)
Theorem setup_returns_the_deck_file (deck_content : string) (context_files : list Path)
  (working_dir : Path) (deck_filename : string) (st st' : state) (p : Path) :
  setup_working_directory iter_strs iter_paths deck_content context_files working_dir
    deck_filename st = (st', inr p) ->
  p = joinpath working_dir (path_of_string deck_filename) /\
  is_file st' p = true /\
  is_dir st' working_dir = true /\
  (iter_strs (parse_file_references deck_content) = [] ->
   stat st' p = Some (File deck_content)).
Proof.
  intros H. destruct (setup_leaves_the_deck _ _ _ _ _ _ _ H) as [Hf Hd].
  apply setup_steps in H as (sa & sb & sc & Em & Ew & Ef & K2 & P2 & Hp).
  split; [exact Hp|]. split; [exact Hf|]. split; [exact Hd|].
  intros Hnil. rewrite Hnil in Ef. simpl in Ef. injection Ef as <-.
  apply (stat_preserved sb st'); [exact K2|exact P2|].
  exact (write_text_then_stat _ _ _ _ Ew).
Qed.

End Setup.

End DeckFile.

(** ** What setting up the working directory leaves alone *)

Section Frame.

Import FS.

Variable iter_strs : list string -> list string.

Variable iter_paths : list Path -> list Path.

Lemma walk_key (f : gmap (list string) node) (cur comps k : list string) :
  walk f cur comps = inr k ->
  k = fold_left (fun cur c => if String.eqb c ".." then removelast cur else cur ++ [c])
        comps cur.
Proof.
  revert cur. induction comps as [|c comps IH]; intros cur; cbn [walk fold_left].
  - now intros [= <-].
  - destruct (lookup_node f cur) as [[x|]|]; try discriminate. apply IH.
Qed.

Lemma resolve_key (st : state) (p : Path) (k : list string) :
  resolve st p = inr k -> k = key_of (cwd st) p.
Proof. apply walk_key. Qed.

Section Confined.

Variable W : list string -> Prop.

Variable cwd0 : list string.

Abbreviation confined := (confined_to W cwd0).

Lemma unchanged_refl (st : state) : unchanged_outside W st st.
Proof. split; [reflexivity|]. intros key n H _. exact H. Qed.

Lemma unchanged_trans (a b c : state) :
  unchanged_outside W a b -> unchanged_outside W b c -> unchanged_outside W a c.
Proof.
  intros [C1 H1] [C2 H2]. split; [congruence|]. intros key n H Hw.
  apply H2; [|exact Hw]. now apply H1.
Qed.

Lemma kinds_preserved_unchanged (st st' : state) :
  kinds_kept st st' -> preserved st st' -> unchanged_outside W st st'.
Proof. intros [C _] HP. split; [exact C|]. intros key n H _. now apply HP. Qed.

Lemma confined_ret {A : Type} (a : A) : confined (ret a).
Proof. intros st _. apply unchanged_refl. Qed.

Lemma confined_bind {A B : Type} (m : M A) (k : A -> M B) :
  confined m -> (forall a, confined (k a)) -> confined (bind m k).
Proof.
  intros Hm Hk st C. unfold bind. pose proof (Hm st C) as H.
  destruct (m st) as [st1 [e|a]]; [exact H|].
  eapply unchanged_trans; [exact H|]. apply Hk. cbn [fst] in H. destruct H as [C1 _]. congruence.
Qed.

Lemma confined_get {A B : Type} (f : state -> A) (P : A -> Prop) (k : A -> M B) :
  (forall st, P (f st)) -> (forall a, P a -> confined (k a)) -> confined (bind (get f) k).
Proof. intros Hf Hk st C. unfold bind, get. apply Hk; [apply Hf|exact C]. Qed.

Lemma confined_for_each {A : Type} (body : A -> M unit) (l : list A) :
  (forall x, In x l -> confined (body x)) -> confined (for_each l body).
Proof.
  induction l as [|x l IH]; intros Hb; cbn [for_each]; [apply confined_ret|].
  apply confined_bind; [apply Hb; now left|]. intros _. apply IH.
  intros y Hy. apply Hb. now right.
Qed.

Lemma confined_mkdir (p : Path) : confined (mkdir p).
Proof.
  intros st _. apply kinds_preserved_unchanged; [apply mkdir_kinds|apply mkdir_preserved].
Qed.

Lemma confined_write_text (p : Path) (content : string) :
  W (key_of cwd0 p) -> confined (write_text p content).
Proof.
  intros Hw st C. unfold write_text.
  destruct (resolve st p) as [e|k] eqn:Er; [apply unchanged_refl|].
  apply resolve_key in Er. rewrite C in Er. subst k.
  destruct (lookup_node (files st) (key_of cwd0 p)) as [[c|]|]; try apply unchanged_refl;
    (split; [reflexivity|]; intros key n H Hn; cbn [fst files];
     rewrite lookup_insert_ne; [exact H|intros <-; now apply Hn]).
Qed.

Lemma confined_copy2 (src dst : Path) :
  W (key_of cwd0 dst) ->
  W (key_of cwd0 (joinpath dst (path_of_string (name src)))) ->
  confined (copy2 src dst).
Proof.
  intros H1 H2 st C. unfold copy2.
  destruct (samefile st src _); [apply unchanged_refl|].
  destruct (resolve st src) as [e|k]; [apply unchanged_refl|].
  destruct (lookup_node (files st) k) as [[c|]|]; try apply unchanged_refl.
  apply confined_write_text; [|exact C]. now destruct (is_dir st dst).
Qed.

End Confined.

(** Where a file found comes from. *)
Lemma found_is_candidate (st : state) (filename : string) (context_files : list Path)
  (p : Path) :
  (forall l x, In x (iter_paths l) -> In x l) ->
  find_file_in_context iter_paths st filename context_files None = Some p ->
  In p (lookup_candidates context_files filename).
Proof.
  intros Hiter. unfold find_file_in_context, lookup_candidates. cbv zeta.
  fold (candidates_in filename).
  destruct (find _ context_files) as [cf|] eqn:E.
  - intros [= <-]. apply find_some in E as [E _]. apply in_or_app. now left.
  - intros H. apply find_some in H as [H _]. apply in_or_app. right.
    apply in_flat_map in H as (d & Hd & Hp). apply Hiter in Hd.
    apply searched_by_context in Hd as [(cf & Hcf & _ & ->)|[]].
    apply in_flat_map. exists cf. auto.
Qed.

Lemma setup_confined (deck_content : string) (context_files : list Path)
  (working_dir : Path) (deck_filename : string) (st : state) :
  (forall l x, In x (iter_strs l) -> In x l) ->
  (forall l x, In x (iter_paths l) -> In x l) ->
  unchanged_outside
    (may_be_replaced (cwd st) deck_content context_files working_dir deck_filename) st
    (fst (setup_working_directory iter_strs iter_paths deck_content context_files
            working_dir deck_filename st)).
Proof.
  intros Hstrs Hpaths.
  set (W := may_be_replaced (cwd st) deck_content context_files working_dir deck_filename).
  assert (H : confined_to W (cwd st)
                (setup_working_directory iter_strs iter_paths deck_content context_files
                   working_dir deck_filename)); [|now apply H].
  unfold setup_working_directory, materialize_referenced.
  apply confined_bind; [apply confined_bind; [|intros _; apply confined_bind]|
                        intros _; apply confined_bind]; try (intros _).
  - apply confined_mkdir.
  - apply confined_write_text. now left.
  - apply confined_for_each. intros ref_file Href. apply Hstrs in Href.
    unfold copy_referenced.
    apply (confined_get W (cwd st) _
             (fun source => forall s, source = Some s ->
                In s (lookup_candidates context_files ref_file))).
    { intros st1 s Hs. exact (found_is_candidate st1 _ _ s Hpaths Hs). }
    intros [source_path|] Hsrc; [|apply confined_ret].
    apply (confined_get W (cwd st) _ (fun _ => True)); [auto|].
    intros [] _; [|apply confined_ret].
    apply confined_bind; [apply confined_mkdir|]. intros _.
    destruct (bool_decide _); [|apply confined_ret].
    apply confined_copy2.
    + right. exists ref_file. split; [exact Href|]. now left.
    + right. exists ref_file. split; [exact Href|]. right.
      exists source_path. split; [now apply Hsrc|reflexivity].
  - intros st1 _. apply kinds_preserved_unchanged.
    + apply (for_each_kinds (copy_context_file working_dir)), copy_context_file_kinds.
    + apply copy_unreferenced_preserved.
  - apply confined_ret.
Qed.

Lemma setup_kinds (deck_content : string) (context_files : list Path)
  (working_dir : Path) (deck_filename : string) (st : state) :
  kinds_kept st
    (fst (setup_working_directory iter_strs iter_paths deck_content context_files
            working_dir deck_filename st)).
Proof.
  unfold setup_working_directory, materialize_referenced.
  apply bind_kinds; [apply bind_kinds; [|intros _ ?; apply bind_kinds]|
                     intros _ ?; apply bind_kinds]; try (intros _ ?).
  - apply mkdir_kinds.
  - apply write_text_kinds.
  - apply for_each_kinds. intros x s. apply copy_referenced_kinds.
  - apply (for_each_kinds (copy_context_file working_dir)), copy_context_file_kinds.
  - apply kinds_refl.
Qed.

(** C8, amended. Over the whole call of [setup_working_directory] every
    entry of the file system stays what it was, a file or a directory, with
    the same current directory; when the iterations over the set of
    references and over the set of directories visit elements of these
    sets, every entry is unchanged except the deck file, the destination of
    a referenced file and, when that destination is a directory, the entry
    in it with the name of the file copied. Every entry that exists when the
    loop over the context files starts is unchanged when the call ends: that
    loop copies only to destinations that do not exist. Creating the working
    directory changes no existing entry either. The deck write replaces:
    once it succeeds, the deck path holds the deck content. *)
Theorem context_copy_never_overwrites (deck_content : string) (context_files : list Path)
  (working_dir : Path) (deck_filename : string) (st : state) :
  let deck_path := joinpath working_dir (path_of_string deck_filename) in
  let st1 := fst (materialize_referenced iter_strs iter_paths deck_content context_files
                    working_dir deck_filename st) in
  let st2 := fst (setup_working_directory iter_strs iter_paths deck_content context_files
                    working_dir deck_filename st) in
  preserved st1 st2 /\
  preserved st (fst (mkdir working_dir st)) /\
  (forall st_w,
     bind (mkdir working_dir) (fun _ => write_text deck_path deck_content) st = (st_w, inr tt) ->
     stat st_w deck_path = Some (File deck_content)) /\
  cwd st2 = cwd st /\
  (forall key n, files st !! key = Some n ->
     exists n', files st2 !! key = Some n' /\ same_kind n n' = true) /\
  ((forall l x, In x (iter_strs l) -> In x l) ->
   (forall l x, In x (iter_paths l) -> In x l) ->
   forall key n,
     files st !! key = Some n ->
     ~ may_be_replaced (cwd st) deck_content context_files working_dir deck_filename key ->
     files st2 !! key = Some n).
Proof.
  intros deck_path st1 st2. split; [|split; [|split; [|split; [|split]]]].
  - subst st1 st2. unfold setup_working_directory, bind.
    destruct (materialize_referenced _ _ _ _ _ _ st) as [st1 [e|[]]]; [apply preserved_refl|].
    pose proof (copy_unreferenced_preserved context_files working_dir st1) as H.
    destruct (copy_unreferenced context_files working_dir st1) as [st2 [e|[]]]; exact H.
  - apply mkdir_preserved.
  - intros st_w. unfold bind.
    destruct (mkdir working_dir st) as [st' [e|[]]]; [discriminate|].
    apply write_text_then_stat.
  - apply setup_kinds.
  - apply setup_kinds.
  - intros Hstrs Hpaths. apply setup_confined; assumption.
Qed.

End Frame.

(** In the working directory that already holds three files, the file that
    is neither the deck nor referenced is kept, and so are the context
    files. *)
Lemma context_copy_never_overwrites_witness :
  let st' :=
    fst (FS.setup_working_directory (fun l => l) (fun l => l) deck_reading_data
           [FS.path_of_string "/ctx/system.data"; FS.path_of_string "/ctx/notes.txt"]
           (FS.path_of_string "/work") "input.lammps" disk_with_old_files) in
  FS.files st' !! ["work"; "notes.txt"] = Some (FS.File "old notes") /\
  FS.files st' !! ["ctx"; "system.data"] = Some (FS.File "new data").
Proof.
  cbv zeta.
  pose proof (context_copy_never_overwrites (fun l => l) (fun l => l) deck_reading_data
                [FS.path_of_string "/ctx/system.data"; FS.path_of_string "/ctx/notes.txt"]
                (FS.path_of_string "/work") "input.lammps" disk_with_old_files) as H.
  cbv zeta in H. destruct H as (_ & _ & _ & _ & _ & H).
  assert (Hout : forall key,
            key = ["work"; "notes.txt"] \/ key = ["ctx"; "system.data"] ->
            ~ may_be_replaced (FS.cwd disk_with_old_files) deck_reading_data
                [FS.path_of_string "/ctx/system.data"; FS.path_of_string "/ctx/notes.txt"]
                (FS.path_of_string "/work") "input.lammps" key).
  { intros key Hkey [Hd|(ref_file & Href & [Hd|(source & Hs & Hd)])].
    - vm_compute in Hd. destruct Hkey as [->| ->]; discriminate Hd.
    - vm_compute in Href. destruct Href as [<-|[]].
      vm_compute in Hd. destruct Hkey as [->| ->]; discriminate Hd.
    - vm_compute in Href. destruct Href as [<-|[]].
      vm_compute in Hs.
      repeat (destruct Hs as [<-|Hs];
              [vm_compute in Hd; destruct Hkey as [->| ->]; discriminate Hd|]).
      destruct Hs. }
  split; apply H; auto; try (vm_compute; reflexivity).
Defined.

(** A deck without file references, set up in a directory that holds an old
    deck. *)
Lemma setup_returns_the_deck_file_witness :
  let r := FS.setup_working_directory (fun l => l) (fun l => l) "units lj" []
             (FS.path_of_string "work") "input.lammps" disk_with_old_files in
  FS.stat (fst r) (FS.path_of_string "work/input.lammps") = Some (FS.File "units lj").
Proof.
  cbv zeta.
  destruct (setup_returns_the_deck_file (fun l => l) (fun l => l) "units lj" []
              (FS.path_of_string "work") "input.lammps" disk_with_old_files
              (fst (FS.setup_working_directory (fun l => l) (fun l => l) "units lj" []
                      (FS.path_of_string "work") "input.lammps" disk_with_old_files))
              (FS.path_of_string "work/input.lammps"))
    as (_ & _ & _ & H).
  - vm_compute. reflexivity.
  - apply H. reflexivity.
Defined.

(** ** The record of attempts *)

Section Orchestrated.

Variable fmt : string -> PyFloat.float -> string.

Lemma failed_deck_has_issues (w : world) (content : string) (lammps_binary : option string)
  (context_files : list string) :
  let v := Validation.validate_deck fmt w content lammps_binary context_files in
  ValidationResult.overall_passed v = false -> ValidationResult.issues v <> [].
Proof.
  unfold Validation.validate_deck.
  cbn [ValidationResult.overall_passed ValidationResult.issues].
  destruct (L0Result.passed _); [|discriminate].
  destruct (L1Result.passed _); [|discriminate].
  destruct (L2Result.passed _); [|discriminate].
  destruct (L3Result.passed _); [discriminate|]. discriminate.
Qed.

End Orchestrated.

Section Attempts.

Import Generator.

Variable fmt : string -> PyFloat.float -> string.

Variable build_file_context : list string -> string.

Variable provider_error : option string.

Variable create_message : nat -> string -> llm_reply.

Variable parse_llm_response : string -> string * list Assumption.

Variable validation_importable : bool.

Variable world_at : nat -> world.

Abbreviation attempt2 := (attempt fmt create_message parse_llm_response validation_importable world_at).

Abbreviation loop2 := (loop fmt create_message parse_llm_response validation_importable world_at).

Abbreviation run_loop2 := (run_loop fmt build_file_context create_message parse_llm_response validation_importable world_at).

Abbreviation run_validation2 := (run_validation fmt validation_importable world_at).

Abbreviation generate2 := (generate_deck fmt build_file_context provider_error create_message parse_llm_response validation_importable world_at).

Lemma failed_validation_has_issues (inp : ReaperInput) (n : nat) (deck : string) :
  ValidationResult.overall_passed (run_validation2 inp n deck) = false ->
  ValidationResult.issues (run_validation2 inp n deck) <> [].
Proof.
  unfold run_validation. destruct validation_importable; [|discriminate].
  apply failed_deck_has_issues.
Qed.

Lemma sorted_snoc (l : list nat) (n : nat) :
  StronglySorted lt l -> Forall (fun x => x < n) l -> StronglySorted lt (l ++ [n]).
Proof.
  induction l as [|x l IH]; intros Hs Hf; simpl.
  - constructor; constructor.
  - inversion Hs; subst. inversion Hf; subst. constructor; [now apply IH|].
    apply Forall_app. split; [assumption|]. constructor; [assumption|constructor].
Qed.

Lemma removelast_snoc {A} (l : list A) (a : A) : removelast (l ++ [a]) = l.
Proof. apply removelast_last. Qed.

Lemma between_is_left (inp : ReaperInput) (next hi : nat) (s : loop_state) :
  next <= S hi -> between_iterations inp next s -> when_left fmt validation_importable world_at inp hi s.
Proof.
  intros Hn (Hf & Hs & Hv). unfold when_left. repeat split.
  - eapply Forall_impl; [exact Hf|]. simpl. tauto.
  - eapply Forall_impl; [exact Hf|]. simpl. intros a (_ & _ & H). lia.
  - assert (Hfr : Forall fix_requested (ls_attempts s)).
    { eapply Forall_impl; [exact Hf|]. simpl. tauto. }
    clear -Hfr. induction (ls_attempts s) as [|a l IH]; [constructor|].
    inversion Hfr; subst. destruct l; [constructor|]. simpl.
    constructor; [assumption|]. now apply IH.
  - exact Hs.
  - intros v E Hp. rewrite (Hv v E) in Hp. discriminate.
Qed.

Lemma note_fix_snoc (note : string) (l : list GenerationAttempt.t) (a : GenerationAttempt.t) :
  note_fix note (l ++ [a]) =
    l ++ [GenerationAttempt.mk (GenerationAttempt.attempt_number a)
            (GenerationAttempt.deck_content a) (GenerationAttempt.validation_passed a)
            (GenerationAttempt.errors a) (GenerationAttempt.fixes_applied a ++ [note])].
Proof. unfold note_fix. rewrite rev_app_distr. simpl. now rewrite rev_involutive. Qed.

Lemma when_left_mono (inp : ReaperInput) (hi hi' : nat) (s : loop_state) :
  hi <= hi' -> when_left fmt validation_importable world_at inp hi s -> when_left fmt validation_importable world_at inp hi' s.
Proof.
  intros H (H1 & H2 & H3 & H4 & H5). repeat split; auto.
  eapply Forall_impl; [exact H2|]. simpl. intros; lia.
Qed.

Lemma attempt_step (inp : ReaperInput) (m : Z) (n : nat) (s : loop_state) :
  1 <= n -> between_iterations inp n s ->
  match attempt2 inp m n s with
  | (s', Continue) => between_iterations inp (S n) s'
  | (s', Break) => when_left fmt validation_importable world_at inp n s'
  end.
Proof.
  intros Hn Hb. pose proof Hb as (Hf & Hs & Hv).
  assert (Hold : Forall (fun a => fix_requested a /\ well_recorded a /\
                            1 <= GenerationAttempt.attempt_number a < S n) (ls_attempts s)).
  { eapply Forall_impl; [exact Hf|]. simpl. intros a (H1 & H2 & H3).
    split; [exact H1|split; [exact H2|lia]]. }
  assert (Hlt : Forall (fun x => x < n) (map GenerationAttempt.attempt_number (ls_attempts s))).
  { apply Forall_map. eapply Forall_impl; [exact Hf|]. simpl. intros a (_ & _ & H). lia. }
  unfold attempt. destruct (create_message n (ls_current_prompt s)) as [response|e].
  2:{ apply (between_is_left inp n n); [lia|]. exact Hb. }
  destruct (parse_llm_response response) as [deck asm].
  destruct (Py.is_empty deck) eqn:Hdeck.
  { repeat split; assumption. }
  set (v := run_validation2 inp n deck).
  pose proof (failed_validation_has_issues inp n deck) as Hiss. fold v in Hiss.
  assert (Hwl : forall a, a = GenerationAttempt.mk n deck (ValidationResult.overall_passed v)
                         (if negb (ValidationResult.overall_passed v)
                          then ValidationResult.issues v else []) [] ->
                when_left fmt validation_importable world_at inp n
                  (mkLoop (ls_errors s)
                     (if validation_importable then ls_warnings s
                      else ls_warnings s ++ ["Validation module not available"])
                     (ls_assumptions s ++ asm) (ls_attempts s ++ [a]) deck (Some v)
                     (ls_current_prompt s) (ls_prompts_sent s ++ [ls_current_prompt s]))).
  { intros a ->. unfold when_left. cbn [ls_attempts ls_validation ls_deck_content].
    rewrite removelast_snoc, map_app. cbn [map GenerationAttempt.attempt_number].
    split; [|split; [|split; [|split]]].
    - apply Forall_app. split.
      + eapply Forall_impl; [exact Hf|]. simpl. tauto.
      + constructor; [|constructor]. unfold well_recorded. simpl.
        destruct (ValidationResult.overall_passed v); simpl; repeat split; auto; try lia;
          try discriminate.
    - apply Forall_app. split.
      + eapply Forall_impl; [exact Hf|]. simpl. intros a (_ & _ & H). lia.
      + constructor; [simpl; lia|constructor].
    - eapply Forall_impl; [exact Hf|]. simpl. tauto.
    - now apply sorted_snoc.
    - intros v' [= <-] Hp. eexists. rewrite last_snoc. split; [reflexivity|].
      simpl. auto. }
  destruct (ValidationResult.overall_passed v) eqn:Hpass.
  { apply Hwl. reflexivity. }
  destruct (negb (enable_iterative_fixing inp) || (m <=? Z.of_nat n)%Z).
  { apply Hwl. reflexivity. }
  rewrite note_fix_snoc. unfold between_iterations.
  cbn [ls_attempts ls_validation GenerationAttempt.attempt_number
       GenerationAttempt.deck_content GenerationAttempt.validation_passed
       GenerationAttempt.errors GenerationAttempt.fixes_applied negb app].
  rewrite map_app. cbn [map GenerationAttempt.attempt_number].
  split; [|split].
  - apply Forall_app. split; [exact Hold|]. constructor; [|constructor].
    unfold fix_requested, well_recorded. simpl. repeat split; auto; try lia; discriminate.
  - now apply sorted_snoc.
  - intros v' [= <-]. exact Hpass.
Qed.

Lemma loop_left (inp : ReaperInput) (m : Z) (k lo : nat) (s : loop_state) :
  1 <= lo -> between_iterations inp lo s ->
  when_left fmt validation_importable world_at inp (lo + k - 1) (loop2 inp m (seq lo k) s).
Proof.
  revert lo s. induction k as [|k IH]; intros lo s Hlo Hb; simpl.
  - apply (between_is_left inp lo); [lia|exact Hb].
  - pose proof (attempt_step inp m lo s Hlo Hb) as H.
    destruct (attempt2 inp m lo s) as [s' [|]].
    + replace (lo + S k - 1) with (S lo + k - 1) by lia. apply IH; [lia|exact H].
    + apply (when_left_mono inp lo); [lia|exact H].
Qed.

Lemma run_loop_left (inp : ReaperInput) :
  when_left fmt validation_importable world_at inp (Z.to_nat (max_attempts_of inp)) (run_loop2 inp).
Proof.
  unfold run_loop.
  replace (Z.to_nat (max_attempts_of inp)) with (1 + Z.to_nat (max_attempts_of inp) - 1) at 1
    by lia.
  apply loop_left; [lia|]. repeat split; simpl; try constructor. discriminate.
Qed.

Lemma last_in {A} (l : list A) (a : A) : last l = Some a -> In a l.
Proof.
  induction l as [|x l IH]; [discriminate|]. destruct l as [|y l].
  - intros [= <-]. now left.
  - intros H. right. apply IH. exact H.
Qed.

(** X10. In the output of [generate_deck] the attempt numbers increase strictly and
    lie between 1 and [max_attempts]; every attempt has a script that is not
    empty, no error and no fix note when it passed, an error when it failed,
    and at most one fix note; every attempt but the last failed and has
    exactly one fix note; and without a provider error [total_attempts] is
    the number of attempts. *)
Theorem attempts_are_well_recorded (write_output : string -> string -> option string)
  (inp : ReaperInput) :
  let out := generate2 write_output inp in
  StronglySorted lt (map GenerationAttempt.attempt_number (attempts out)) /\
  (forall a, In a (attempts out) ->
     (1 <= GenerationAttempt.attempt_number a <= Z.to_nat (max_attempts_of inp)) /\
     well_recorded a) /\
  (forall a, In a (removelast (attempts out)) -> fix_requested a) /\
  (provider_error = None -> total_attempts out = length (attempts out)).
Proof.
  intros out. subst out. unfold generate_deck.
  destruct provider_error as [e|].
  { cbn [attempts map removelast]. split; [constructor|]. split; [intros a []|].
    split; [intros a []|discriminate]. }
  cbn [attempts total_attempts].
  destruct (run_loop_left inp) as (H1 & H2 & H3 & H4 & _).
  rewrite Forall_forall in H1, H2, H3.
  split; [exact H4|]. split; [|split; [|reflexivity]].
  - intros a Ha. apply list_elem_of_In in Ha. split; [now apply H2|now apply H1].
  - intros a Ha. apply list_elem_of_In in Ha. now apply H3.
Qed.

(** X11. When [generate_deck] reports success, the last attempt passed, the script
    returned is the script of that attempt and is not empty, the validation
    returned is the validation of that script, and every earlier attempt
    failed. *)
Theorem success_returns_the_validated_deck (write_output : string -> string -> option string)
  (inp : ReaperInput) :
  let out := generate2 write_output inp in
  success out = true ->
  exists a,
    last (attempts out) = Some a /\
    GenerationAttempt.validation_passed a = true /\
    deck_content out = GenerationAttempt.deck_content a /\
    Py.is_empty (deck_content out) = false /\
    validation out
      = Some (run_validation2 inp (GenerationAttempt.attempt_number a) (deck_content out)) /\
    forall a', In a' (removelast (attempts out)) ->
               GenerationAttempt.validation_passed a' = false.
Proof.
  intros out. subst out. unfold generate_deck.
  destruct provider_error as [e|]; [discriminate|].
  cbn [success attempts deck_content validation].
  destruct (run_loop_left inp) as (H1 & _ & H3 & _ & H5).
  rewrite Forall_forall in H1, H3.
  set (s := run_loop2 inp) in *.
  intros Hs.
  assert (Hv : exists v, ls_validation s = Some v /\ ValidationResult.overall_passed v = true).
  { destruct (ls_validation s) as [v|].
    - exists v. split; [reflexivity|].
      destruct (match _ with Some (_, Some e) => _ | _ => ls_errors s end) in Hs; [exact Hs|].
      destruct (Py.is_empty (ls_deck_content s)); [discriminate|exact Hs].
    - destruct (match _ with Some (_, Some e) => _ | _ => ls_errors s end) in Hs; [discriminate|].
      destruct (Py.is_empty (ls_deck_content s)); discriminate. }
  destruct Hv as (v & Ev & Hp).
  destruct (H5 v Ev Hp) as (a & Hl & Hd & Hpa & Hva).
  exists a. split; [exact Hl|]. split; [exact Hpa|]. split; [now symmetry|].
  split; [|split].
  - rewrite <- Hd. apply H1. apply list_elem_of_In. now apply last_in.
  - now rewrite Ev, Hva.
  - intros a' Ha'. apply list_elem_of_In in Ha'. now apply H3.
Qed.

End Attempts.

(** A run whose first script passes. *)
Lemma success_returns_the_validated_deck_witness :
  let out :=
    Generator.generate_deck fmt_demo no_context None (llm_answering deck_valid) parse_whole
      true (fun _ => empty_world) disk_full input_default in
  exists a, last (Generator.attempts out) = Some a /\
            Generator.deck_content out = GenerationAttempt.deck_content a.
Proof.
  destruct (success_returns_the_validated_deck fmt_demo no_context None
              (llm_answering deck_valid) parse_whole true (fun _ => empty_world)
              disk_full input_default) as (a & Hl & _ & Hd & _).
  - vm_compute. reflexivity.
  - exists a. split; [exact Hl|exact Hd].
Defined.

(** ** What success means *)

Section Success.

Import Generator.

Variable fmt : string -> PyFloat.float -> string.

Variable build_file_context : list string -> string.

Variable provider_error : option string.

Variable create_message : nat -> string -> llm_reply.

Variable parse_llm_response : string -> string * list Assumption.

Variable validation_importable : bool.

Variable world_at : nat -> world.

Abbreviation attempt4 := (attempt fmt create_message parse_llm_response validation_importable world_at).

Abbreviation loop4 := (loop fmt create_message parse_llm_response validation_importable world_at).

Abbreviation run_loop4 := (run_loop fmt build_file_context create_message parse_llm_response validation_importable world_at).

Abbreviation run_validation4 := (run_validation fmt validation_importable world_at).

Abbreviation generate4 := (generate_deck fmt build_file_context provider_error create_message parse_llm_response validation_importable world_at).

Abbreviation validation_of_last4 := (validation_of_last fmt validation_importable world_at).

Lemma attempt_validation_of_last (inp : ReaperInput) (m : Z) (n : nat) (s : loop_state) :
  validation_of_last4 inp s -> validation_of_last4 inp (fst (attempt4 inp m n s)).
Proof.
  intros H. unfold attempt.
  destruct (create_message n (ls_current_prompt s)) as [response|e]; [|exact H].
  destruct (parse_llm_response response) as [deck asm].
  destruct (Py.is_empty deck) eqn:Hdeck.
  { intros v Hv. cbn [fst ls_validation ls_attempts ls_deck_content] in *.
    destruct (H v Hv) as (a & H1 & H2 & H3 & H4 & _).
    exists a. repeat split; auto. }
  set (v := run_validation4 inp n deck).
  assert (Hstop : forall w c p, validation_of_last4 inp
            (mkLoop (ls_errors s) w c
               (ls_attempts s
                ++ [GenerationAttempt.mk n deck (ValidationResult.overall_passed v)
                      (if negb (ValidationResult.overall_passed v)
                       then ValidationResult.issues v else []) []])
               deck (Some v) p (ls_prompts_sent s ++ [ls_current_prompt s]))).
  { intros w c p v' [= <-]. cbn [ls_attempts ls_deck_content].
    eexists. rewrite last_snoc. split; [reflexivity|].
    cbn [GenerationAttempt.attempt_number GenerationAttempt.deck_content
         GenerationAttempt.validation_passed]. repeat split; auto. }
  destruct (ValidationResult.overall_passed v) eqn:Hpass.
  { cbn [fst]. apply Hstop. }
  destruct (negb (enable_iterative_fixing inp) || (m <=? Z.of_nat n)%Z).
  { cbn [fst]. apply Hstop. }
  cbn [fst]. rewrite note_fix_snoc.
  intros v' [= <-]. cbn [ls_attempts ls_deck_content].
  eexists. rewrite last_snoc. split; [reflexivity|].
  cbn [GenerationAttempt.attempt_number GenerationAttempt.deck_content
       GenerationAttempt.validation_passed]. repeat split; auto.
Qed.

Lemma loop_validation_of_last (inp : ReaperInput) (m : Z) (nums : list nat) (s : loop_state) :
  validation_of_last4 inp s -> validation_of_last4 inp (loop4 inp m nums s).
Proof.
  revert s. induction nums as [|n nums IH]; intros s H; cbn [loop]; [exact H|].
  pose proof (attempt_validation_of_last inp m n s H) as H'.
  destruct (attempt4 inp m n s) as [s' [|]]; [apply IH|]; exact H'.
Qed.

Lemma run_loop_validation_of_last (inp : ReaperInput) :
  validation_of_last4 inp (run_loop4 inp).
Proof. unfold run_loop. apply loop_validation_of_last. intros v. discriminate. Qed.

(** A validation that passed is the validation of the script carried. *)
Lemma run_loop_passed (inp : ReaperInput) (v : ValidationResult.t) :
  ls_validation (run_loop4 inp) = Some v -> ValidationResult.overall_passed v = true ->
  exists a, last (ls_attempts (run_loop4 inp)) = Some a /\
            GenerationAttempt.validation_passed a = true /\
            ls_deck_content (run_loop4 inp) = GenerationAttempt.deck_content a /\
            Py.is_empty (ls_deck_content (run_loop4 inp)) = false /\
            v = run_validation4 inp (GenerationAttempt.attempt_number a)
                  (ls_deck_content (run_loop4 inp)).
Proof.
  intros Ev Hp.
  destruct (run_loop_left fmt build_file_context create_message parse_llm_response
              validation_importable world_at inp) as (H1 & _ & _ & _ & H5).
  rewrite Forall_forall in H1.
  destruct (H5 v Ev Hp) as (a & Hl & Hd & Hpa & Hva).
  exists a. split; [exact Hl|]. split; [exact Hpa|]. split; [now symmetry|].
  split; [|exact Hva].
  rewrite <- Hd. apply H1. apply list_elem_of_In. now apply last_in.
Qed.

(** The flag as [generate_deck] computes it from the state the loop leaves. *)
Lemma success_is_the_verdict (inp : ReaperInput) (errors : list string) :
  match errors with
  | _ :: _ =>
      if Py.is_empty (ls_deck_content (run_loop4 inp)) then false
      else match ls_validation (run_loop4 inp) with
           | Some validation => ValidationResult.overall_passed validation
           | None => false
           end
  | [] => match ls_validation (run_loop4 inp) with
          | Some validation => ValidationResult.overall_passed validation
          | None => false
          end
  end
  = match ls_validation (run_loop4 inp) with
    | Some validation => ValidationResult.overall_passed validation
    | None => false
    end.
Proof.
  destruct errors as [|e errors]; [reflexivity|].
  destruct (Py.is_empty (ls_deck_content (run_loop4 inp))) eqn:Hd; [|reflexivity].
  destruct (ls_validation (run_loop4 inp)) as [v|] eqn:Ev; [|reflexivity].
  destruct (ValidationResult.overall_passed v) eqn:Hp; [|reflexivity].
  destruct (run_loop_passed inp v Ev Hp) as (a & _ & _ & _ & Hne & _). congruence.
Qed.

(** C2. [success] is the verdict of the validation returned, and false when
    there is none. When [success] is true, the last recorded attempt passed,
    the script returned is the script of that attempt and is not empty, and
    the validation returned is the validation of that script, which passed.
    A validation returned is always the validation of the script of the last
    attempt recorded, which is the script returned unless the script
    returned is empty; without a validation no attempt was recorded. With an
    empty script [success] is false. [success] is the same whether or not
    writing the output file fails; a failed write of a non-empty script only
    appends its error and leaves the output path unset. *)
Theorem success_governed_by_final_validation
  (write_output : string -> string -> option string) (inp : ReaperInput) :
  let out := generate4 write_output inp in
  let out_written := generate4 (fun _ _ => None) inp in
  success out
  = match validation out with
    | Some v => ValidationResult.overall_passed v
    | None => false
    end /\
  (success out = true ->
   exists a,
     last (attempts out) = Some a /\
     GenerationAttempt.validation_passed a = true /\
     deck_content out = GenerationAttempt.deck_content a /\
     Py.is_empty (deck_content out) = false /\
     validation out
       = Some (run_validation4 inp (GenerationAttempt.attempt_number a) (deck_content out)) /\
     ValidationResult.overall_passed
       (run_validation4 inp (GenerationAttempt.attempt_number a) (deck_content out)) = true) /\
  (forall v, validation out = Some v ->
     exists a,
       last (attempts out) = Some a /\
       v = run_validation4 inp (GenerationAttempt.attempt_number a)
             (GenerationAttempt.deck_content a) /\
       GenerationAttempt.validation_passed a = ValidationResult.overall_passed v /\
       Py.is_empty (GenerationAttempt.deck_content a) = false /\
       (deck_content out = GenerationAttempt.deck_content a \/
        Py.is_empty (deck_content out) = true)) /\
  (validation out = None -> attempts out = [] /\ success out = false) /\
  (Py.is_empty (deck_content out) = true -> success out = false) /\
  success out = success out_written /\
  validation out = validation out_written /\
  deck_content out = deck_content out_written /\
  (forall p e,
     provider_error = None -> output_path inp = Some p ->
     Py.is_empty (deck_content out) = false ->
     write_output p (deck_content out) = Some e ->
     errors out = errors out_written ++ ["Failed to write output file: " +:+ e] /\
     out_path out = None /\ out_path out_written = Some p).
Proof.
  intros out out_written. subst out out_written. unfold generate_deck.
  destruct provider_error as [pe|].
  { cbn [success validation attempts deck_content errors out_path Py.is_empty].
    repeat split; try discriminate. }
  pose proof (run_loop_agrees fmt build_file_context create_message parse_llm_response
                validation_importable world_at inp) as Hagree.
  pose proof (run_loop_validation_of_last inp) as Hlast.
  pose proof (run_loop_passed inp) as Hpassed.
  pose proof (success_is_the_verdict inp) as Hflag.
  set (s := run_loop4 inp) in *.
  unfold last_attempt_agrees in Hagree.
  cbn [success validation attempts deck_content errors out_path].
  rewrite !Hflag.
  split; [reflexivity|]. split; [|split; [|split; [|split; [|split; [|split; [|split]]]]]].
  - intros Hs. destruct (ls_validation s) as [v|] eqn:Ev; [|discriminate].
    destruct (Hpassed v eq_refl Hs) as (a & Hl & Hpa & Hd & Hne & Hv).
    exists a. rewrite <- Hv. repeat split; auto.
  - exact Hlast.
  - intros Ev. rewrite Ev in *. split; [exact Hagree|reflexivity].
  - intros Hd. destruct (ls_validation s) as [v|] eqn:Ev; [|reflexivity].
    destruct (ValidationResult.overall_passed v) eqn:Hp; [|reflexivity].
    destruct (Hpassed v eq_refl Hp) as (a & _ & _ & _ & Hne & _). congruence.
  - reflexivity.
  - reflexivity.
  - reflexivity.
  - intros p e _ Hp Hd Hw. rewrite Hp, Hd. cbn [negb]. rewrite Hw. repeat split.
Qed.

End Success.

(** A run whose first script passes while the output file cannot be written:
    it succeeds with the validated script, the error of the write is added
    and no output path is returned. A model that answers without a script
    gives no success. *)
Lemma success_governed_by_final_validation_witness :
  let out :=
    Generator.generate_deck fmt_demo no_context None (llm_answering deck_valid) parse_whole
      true (fun _ => empty_world) disk_full input_default in
  let out_empty :=
    Generator.generate_deck fmt_demo no_context None (llm_answering "") parse_whole
      true (fun _ => empty_world) disk_full input_default in
  (exists a,
     last (Generator.attempts out) = Some a /\
     Generator.deck_content out = deck_valid /\
     GenerationAttempt.deck_content a = deck_valid /\
     Generator.validation out
       = Some (Generator.run_validation fmt_demo true (fun _ => empty_world) input_default
                 (GenerationAttempt.attempt_number a) deck_valid)) /\
  Generator.errors out = ["Failed to write output file: disk full"] /\
  Generator.out_path out = None /\
  Generator.success out_empty = false.
Proof.
  cbv zeta.
  pose proof (success_governed_by_final_validation fmt_demo no_context None
                (llm_answering deck_valid) parse_whole true (fun _ => empty_world)
                disk_full input_default) as H.
  cbv zeta in H. destruct H as (_ & Hs & _ & _ & _ & _ & _ & _ & Hw).
  destruct (Hw "out.in" "disk full") as (He & Ho & _);
    [reflexivity|reflexivity|vm_compute; reflexivity|reflexivity|].
  split; [|split; [|split]].
  - destruct Hs as (a & Hl & _ & Hd & _ & Hv & _); [vm_compute; reflexivity|].
    exists a. split; [exact Hl|].
    assert (Hdeck : Generator.deck_content
              (Generator.generate_deck fmt_demo no_context None (llm_answering deck_valid)
                 parse_whole true (fun _ => empty_world) disk_full input_default)
              = deck_valid) by (vm_compute; reflexivity).
    rewrite Hdeck in *. split; [reflexivity|]. split; [now symmetry|exact Hv].
  - rewrite He. vm_compute. reflexivity.
  - exact Ho.
  - pose proof (success_governed_by_final_validation fmt_demo no_context None
                  (llm_answering "") parse_whole true (fun _ => empty_world)
                  disk_full input_default) as H.
    cbv zeta in H. destruct H as (_ & _ & _ & _ & Hempty & _).
    apply Hempty. vm_compute. reflexivity.
Defined.

(** ** Every call to the model is accounted for *)

Section Accounting.

Import Generator.

Variable fmt : string -> PyFloat.float -> string.

Variable build_file_context : list string -> string.

Variable create_message : nat -> string -> llm_reply.

Variable parse_llm_response : string -> string * list Assumption.

Variable validation_importable : bool.

Variable world_at : nat -> world.

Abbreviation attempt3 := (attempt fmt create_message parse_llm_response validation_importable world_at).

Abbreviation loop3 := (loop fmt create_message parse_llm_response validation_importable world_at).

Abbreviation run_loop3 := (run_loop fmt build_file_context create_message parse_llm_response validation_importable world_at).

Lemma note_fix_length (note : string) (l : list GenerationAttempt.t) :
  length (note_fix note l) = length l.
Proof.
  unfold note_fix. destruct (rev l) as [|a before] eqn:E.
  - apply (f_equal (@rev _)) in E. rewrite rev_involutive in E. now subst.
  - apply (f_equal (@rev _)) in E. rewrite rev_involutive in E. subst.
    simpl. rewrite !length_app, !length_rev. reflexivity.
Qed.

Lemma attempt_accounted (inp : ReaperInput) (m : Z) (n : nat) (s : loop_state) :
  accounted s -> accounted (fst (attempt3 inp m n s)).
Proof.
  unfold accounted, attempt. intros H.
  destruct (create_message n (ls_current_prompt s)) as [response|e].
  2:{ simpl. rewrite !length_app, H. simpl. lia. }
  destruct (parse_llm_response response) as [deck asm].
  destruct (Py.is_empty deck).
  { simpl. rewrite !length_app, H. simpl. lia. }
  destruct (ValidationResult.overall_passed _).
  { simpl. rewrite !length_app, H. simpl. lia. }
  destruct (negb (enable_iterative_fixing inp) || (m <=? Z.of_nat n)%Z).
  { simpl. rewrite !length_app, H. simpl. lia. }
  simpl. rewrite note_fix_length, !length_app, H. simpl. lia.
Qed.

Lemma loop_accounted (inp : ReaperInput) (m : Z) (nums : list nat) (s : loop_state) :
  accounted s -> accounted (loop3 inp m nums s).
Proof.
  revert s. induction nums as [|n nums IH]; intros s H; simpl; [exact H|].
  pose proof (attempt_accounted inp m n s H) as H'.
  destruct (attempt3 inp m n s) as [s' [|]]; [now apply IH|exact H'].
Qed.

Lemma loop_always_empty (inp : ReaperInput) (m : Z) (k lo : nat) (s : loop_state) :
  always_empty create_message parse_llm_response ->
  let s' := loop3 inp m (seq lo k) s in
  ls_errors s' =
    ls_errors s ++ map (fun n => "Attempt " +:+ Py.str_of_nat n +:+ ": LLM returned empty response")
                       (seq lo k) /\
  ls_attempts s' = ls_attempts s /\
  ls_validation s' = ls_validation s /\
  length (ls_prompts_sent s') = length (ls_prompts_sent s) + k /\
  (1 <= k -> Py.is_empty (ls_deck_content s') = true).
Proof.
  intros He. revert lo s. induction k as [|k IH]; intros lo s; simpl.
  - rewrite app_nil_r. repeat split; auto. lia.
  - unfold attempt at 1 2 3 4 5.
    destruct (He lo (ls_current_prompt s)) as (response & -> & Hp).
    destruct (parse_llm_response response) as [deck asm]. simpl in Hp. rewrite Hp.
    destruct (IH (S lo) (mkLoop (ls_errors s ++ ["Attempt " +:+ Py.str_of_nat lo
                                                    +:+ ": LLM returned empty response"])
                           (ls_warnings s) (ls_assumptions s ++ asm) (ls_attempts s) deck
                           (ls_validation s) (ls_current_prompt s)
                           (ls_prompts_sent s ++ [ls_current_prompt s])))
      as (I1 & I2 & I3 & I4 & I5).
    cbn [ls_errors ls_attempts ls_validation ls_prompts_sent ls_deck_content] in *.
    rewrite I1, I2, I3, I4, <- app_assoc, length_app. simpl.
    repeat split; auto; try lia.
    intros _. destruct k as [|k]; [exact Hp|]. apply I5. lia.
Qed.

Lemma loop_sent_grows (inp : ReaperInput) (m : Z) (nums : list nat) (s : loop_state) :
  length (ls_prompts_sent s) <= length (ls_prompts_sent (loop3 inp m nums s)).
Proof.
  revert s. induction nums as [|n nums IH]; intros s; simpl; [lia|].
  pose proof (attempt_cases fmt create_message parse_llm_response validation_importable
                world_at inp m n s) as H.
  destruct (attempt3 inp m n s) as [s' c]. destruct H as (Hp & _).
  destruct c.
  - specialize (IH s'). rewrite Hp, length_app in IH. simpl in IH. lia.
  - rewrite Hp, length_app. simpl. lia.
Qed.

(** X12. Every prompt sent by the loop of [generate_deck] leaves an attempt or an
    error; with a budget of at least one call, at least one prompt is sent;
    and when every answer parses to an empty script the budget is used up, no
    attempt and no validation is recorded, and the errors are the messages
    [Attempt k: LLM returned empty response] for k from 1 to the budget. *)
Theorem every_call_is_accounted_for (inp : ReaperInput) :
  let s := run_loop3 inp in
  let budget := Z.to_nat (max_attempts_of inp) in
  length (ls_prompts_sent s) = length (ls_attempts s) + length (ls_errors s) /\
  (1 <= budget -> 1 <= length (ls_prompts_sent s)) /\
  (always_empty create_message parse_llm_response ->
   length (ls_prompts_sent s) = budget /\
   ls_attempts s = [] /\
   ls_validation s = None /\
   ls_errors s = map (fun n => "Attempt " +:+ Py.str_of_nat n +:+ ": LLM returned empty response")
                     (seq 1 budget)).
Proof.
  intros s budget. subst s budget. unfold run_loop. split; [|split].
  - apply loop_accounted. reflexivity.
  - destruct (Z.to_nat (max_attempts_of inp)) as [|k]; [lia|]. intros _.
    simpl. pose proof (attempt_cases fmt create_message parse_llm_response
                         validation_importable world_at inp (max_attempts_of inp) 1
                         (initial_state build_file_context inp)) as H.
    destruct (attempt3 inp (max_attempts_of inp) 1 (initial_state build_file_context inp))
      as [s' c].
    destruct H as (Hp & _).
    destruct c.
    + pose proof (loop_sent_grows inp (max_attempts_of inp) (seq 2 k) s') as H2.
      rewrite Hp, length_app in H2. simpl in H2. lia.
    + rewrite Hp, length_app. simpl. lia.
  - intros He.
    destruct (loop_always_empty inp (max_attempts_of inp) (Z.to_nat (max_attempts_of inp)) 1
                (initial_state build_file_context inp) He) as (I1 & I2 & I3 & I4 & _).
    rewrite I1, I2, I3, I4. repeat split.
Qed.

End Accounting.

(** ** The error text of the fix prompt *)

Lemma contains_join (sub sep x : string) (l : list string) :
  In x l -> Py.contains sub x = true -> Py.contains sub (Py.join sep l) = true.
Proof.
  intros Hin Hx. induction l as [|y l IH]; [destruct Hin|].
  destruct l as [|z l].
  - destruct Hin as [->|[]]. exact Hx.
  - change (Py.join sep (y :: z :: l)) with (y +:+ sep +:+ Py.join sep (z :: l)).
    destruct Hin as [->|Hin].
    + now apply contains_app_r.
    + apply contains_app_l, contains_app_l. now apply IH.
Qed.

Lemma join_nonempty (sep : string) (c : ascii) (x : string) (l : list string) :
  Py.is_empty (Py.join sep (String c x :: l)) = false.
Proof. destruct l; reflexivity. Qed.

Section FixPrompt.

Variable fmt : string -> PyFloat.float -> string.

Lemma l1_failure_is_explained (content : string) :
  let r := L1.validate_l1 fmt content in
  L1Result.passed r = false ->
  L1Result.syntax_errors r <> [] \/ L1Result.physics_warnings r <> [].
Proof.
  intros r Hp.
  destruct (L1Result.syntax_errors r) eqn:Es; [|left; discriminate].
  destruct (L1Result.physics_warnings r) eqn:Ew; [|right; discriminate].
  exfalso. assert (L1Result.passed r = true); [|congruence].
  apply passed_iff. fold r. rewrite Es, Ew. split; [reflexivity|]. intros w' [].
Qed.

(** X13. The text that [_format_validation_errors] makes of the result of
    [validate_deck] is empty when the deck passed and not empty when it
    failed, and it holds the tag of every level that failed. *)
Theorem fix_prompt_names_each_failed_level (w : world) (content : string)
  (lammps_binary : option string) (context_files : list string) :
  let v := Validation.validate_deck fmt w content lammps_binary context_files in
  let text := Generator._format_validation_errors v in
  (ValidationResult.overall_passed v = true -> text = "") /\
  (ValidationResult.overall_passed v = false -> Py.is_empty text = false) /\
  (L0Result.passed (ValidationResult.l0 v) = false ->
   Py.contains "L0 (Placeholders): " text = true) /\
  (L1Result.passed (ValidationResult.l1 v) = false ->
   Py.contains "L1 (Syntax): " text = true \/ Py.contains "L1 (Physics): " text = true) /\
  (L2Result.passed (ValidationResult.l2 v) = false ->
   Py.contains "L2 (Engine): " text = true) /\
  (L3Result.passed (ValidationResult.l3 v) = false ->
   Py.contains "L3 (Execution): " text = true).
Proof.
  intros v text. subst text.
  assert (Hl1 : ValidationResult.l1 v = L1.validate_l1 fmt content) by reflexivity.
  assert (Hov : ValidationResult.overall_passed v =
                L0Result.passed (ValidationResult.l0 v) && L1Result.passed (ValidationResult.l1 v)
                && L2Result.passed (ValidationResult.l2 v)
                && L3Result.passed (ValidationResult.l3 v)) by reflexivity.
  pose proof (l1_failure_is_explained content) as Hex. cbv zeta in Hex. rewrite <- Hl1 in Hex.
  clearbody v. unfold Generator._format_validation_errors. cbv zeta.
  set (e0 := if negb (L0Result.passed (ValidationResult.l0 v))
             then ["L0 (Placeholders): "
                   +:+ Py.join ", " (L0Result.details (ValidationResult.l0 v))] else []).
  set (e1 := if negb (L1Result.passed (ValidationResult.l1 v))
             then match L1Result.syntax_errors (ValidationResult.l1 v) with
                  | [] => []
                  | s :: l => ["L1 (Syntax): " +:+ Py.join ", " (s :: l)]
                  end
                  ++ match L1Result.physics_warnings (ValidationResult.l1 v) with
                     | [] => []
                     | s :: l => ["L1 (Physics): " +:+ Py.join ", " (s :: l)]
                     end
             else []).
  set (e2 := if negb (L2Result.passed (ValidationResult.l2 v))
             then ["L2 (Engine): "
                   +:+ Py.join ", " (L2Result.details (ValidationResult.l2 v))] else []).
  set (e3 := if negb (L3Result.passed (ValidationResult.l3 v))
             then ["L3 (Execution): "
                   +:+ Py.join ", " (L3Result.details (ValidationResult.l3 v))] else []).
  assert (H0 : L0Result.passed (ValidationResult.l0 v) = false ->
               Py.contains "L0 (Placeholders): " (Py.join Generator.nls (e0 ++ e1 ++ e2 ++ e3))
               = true).
  { intros H. apply (contains_join _ _ ("L0 (Placeholders): "
                       +:+ Py.join ", " (L0Result.details (ValidationResult.l0 v)))).
    - subst e0. rewrite H. now left.
    - now apply contains_app_r. }
  assert (H1 : L1Result.passed (ValidationResult.l1 v) = false ->
               Py.contains "L1 (Syntax): " (Py.join Generator.nls (e0 ++ e1 ++ e2 ++ e3)) = true
               \/ Py.contains "L1 (Physics): " (Py.join Generator.nls (e0 ++ e1 ++ e2 ++ e3))
                  = true).
  { intros H. destruct (Hex H) as [Hs|Hw].
    - left. apply (contains_join _ _ ("L1 (Syntax): "
                     +:+ Py.join ", " (L1Result.syntax_errors (ValidationResult.l1 v)))).
      + subst e1. rewrite H. apply in_or_app. right. apply in_or_app. left.
        destruct (L1Result.syntax_errors (ValidationResult.l1 v)); [contradiction|].
        apply in_or_app. left. now left.
      + now apply contains_app_r.
    - right. apply (contains_join _ _ ("L1 (Physics): "
                      +:+ Py.join ", " (L1Result.physics_warnings (ValidationResult.l1 v)))).
      + subst e1. rewrite H. apply in_or_app. right. apply in_or_app. left.
        destruct (L1Result.physics_warnings (ValidationResult.l1 v)); [contradiction|].
        apply in_or_app. right. now left.
      + now apply contains_app_r. }
  assert (H2 : L2Result.passed (ValidationResult.l2 v) = false ->
               Py.contains "L2 (Engine): " (Py.join Generator.nls (e0 ++ e1 ++ e2 ++ e3)) = true).
  { intros H. apply (contains_join _ _ ("L2 (Engine): "
                       +:+ Py.join ", " (L2Result.details (ValidationResult.l2 v)))).
    - subst e2. rewrite H. apply in_or_app. right. apply in_or_app. right.
      apply in_or_app. left. now left.
    - now apply contains_app_r. }
  assert (H3 : L3Result.passed (ValidationResult.l3 v) = false ->
               Py.contains "L3 (Execution): " (Py.join Generator.nls (e0 ++ e1 ++ e2 ++ e3))
               = true).
  { intros H. apply (contains_join _ _ ("L3 (Execution): "
                       +:+ Py.join ", " (L3Result.details (ValidationResult.l3 v)))).
    - subst e3. rewrite H. apply in_or_app. right. apply in_or_app. right.
      apply in_or_app. right. now left.
    - now apply contains_app_r. }
  assert (Hne : forall sub s, Py.contains (String "L" sub) s = true -> Py.is_empty s = false).
  { intros sub [|c s]; [discriminate|reflexivity]. }
  split; [|split; [|split; [exact H0|split; [exact H1|split; [exact H2|exact H3]]]]].
  - rewrite Hov. intros H. apply andb_prop in H as [H P3]. apply andb_prop in H as [H P2].
    apply andb_prop in H as [P0 P1]. subst e0 e1 e2 e3. rewrite P0, P1, P2, P3. reflexivity.
  - rewrite Hov. intros H.
    destruct (L0Result.passed (ValidationResult.l0 v)); [|eapply Hne; now apply H0].
    destruct (L1Result.passed (ValidationResult.l1 v));
      [|destruct (H1 eq_refl) as [E|E]; eapply Hne; exact E].
    destruct (L2Result.passed (ValidationResult.l2 v)); [|eapply Hne; now apply H2].
    destruct (L3Result.passed (ValidationResult.l3 v)); [discriminate|eapply Hne; now apply H3].
Qed.

End FixPrompt.

(** ** The window of the thermo parser *)

Lemma parse_without_header (lines : list string) (columns : list string)
  (thermo_data : list ThermoData.t) :
  (forall line, In line lines -> is_thermo_header line = false) ->
  L3.parse_thermo_lines lines false columns thermo_data = Some thermo_data.
Proof.
  induction lines as [|line lines IH]; intros H; [reflexivity|].
  cbn [L3.parse_thermo_lines].
  pose proof (H line (or_introl eq_refl)) as Hl. unfold is_thermo_header in Hl.
  destruct (Re.re_match true L3.header_pattern (Py.strip line)); [discriminate|].
  destruct (Py.contains "Loop time" (Py.strip line)); [reflexivity|].
  apply IH. intros l Hin. apply H. now right.
Qed.

(** X14. When no line of the output is a thermo header, [_parse_thermo_output]
    returns no sample (and raises nothing). *)
Theorem thermo_data_needs_a_header (output : string) :
  (forall line, In line (Py.split_on nl output) -> is_thermo_header line = false) ->
  L3._parse_thermo_output output = Some [].
Proof. apply parse_without_header. Qed.

(** An engine that stops before it prints a thermo table. *)
Lemma thermo_data_needs_a_header_witness :
  L3._parse_thermo_output (deck_of ["LAMMPS (2 Aug 2023)"; "ERROR: Unknown command"])
  = Some [].
Proof.
  apply thermo_data_needs_a_header.
  intros line H. vm_compute in H. destruct H as [<-|[<-|[]]]; reflexivity.
Defined.

Lemma startswith_prefix (p s : string) :
  Py.startswith p s = true -> exists r, s = p +:+ r.
Proof.
  revert s. induction p as [|a p IH]; intros s; simpl; [eauto|].
  destruct s as [|b s]; [discriminate|]. intros H. apply andb_prop in H as [H1 H2].
  apply Ascii.eqb_eq in H1. subst b. destruct (IH s H2) as (r & ->). eauto.
Qed.

Lemma loop_time_line_stops (line : string) (rest : list string) (header_found : bool)
  (columns : list string) (thermo_data : list ThermoData.t) :
  Py.startswith "Loop time" (Py.strip line) = true ->
  L3.parse_thermo_lines (line :: rest) header_found columns thermo_data = Some thermo_data.
Proof.
  intros H. cbn [L3.parse_thermo_lines].
  destruct (startswith_prefix _ _ H) as (r & E). rewrite E.
  replace (Re.re_match true L3.header_pattern ("Loop time" +:+ r)) with (@None Re.mobj)
    by reflexivity.
  replace (Re.re_match false L3.data_pattern ("Loop time" +:+ r)) with (@None Re.mobj)
    by reflexivity.
  replace (Py.contains "Loop time" ("Loop time" +:+ r)) with true by reflexivity.
  now destruct header_found.
Qed.

Lemma parse_stops_at_loop_time (before : list string) (line : string) (after : list string)
  (header_found : bool) (columns : list string) (thermo_data : list ThermoData.t) :
  Py.startswith "Loop time" (Py.strip line) = true ->
  L3.parse_thermo_lines (before ++ line :: after) header_found columns thermo_data
  = L3.parse_thermo_lines (before ++ [line]) header_found columns thermo_data.
Proof.
  intros H. revert header_found columns thermo_data.
  induction before as [|l before IH]; intros header_found columns thermo_data.
  - simpl app. now rewrite !loop_time_line_stops.
  - simpl app. cbn [L3.parse_thermo_lines].
    destruct (Re.re_match true L3.header_pattern (Py.strip l)); [apply IH|].
    destruct (if header_found then Re.re_match false L3.data_pattern (Py.strip l) else None).
    + destruct (2 <=? length (Py.split (Py.strip l))).
      * destruct (L3.fill_row columns (Py.split (Py.strip l)) ThermoData.default);
          [|apply IH|reflexivity].
        destruct (Py.contains "Loop time" (Py.strip l)); [reflexivity|apply IH].
      * destruct (Py.contains "Loop time" (Py.strip l)); [reflexivity|apply IH].
    + destruct (Py.contains "Loop time" (Py.strip l)); [reflexivity|apply IH].
Qed.

Lemma split_on_app_any (sep : ascii) (a b : string) :
  Py.split_on sep (a +:+ String sep b) = Py.split_on sep a ++ Py.split_on sep b.
Proof.
  induction a as [|c a IH]; simpl.
  - now rewrite Ascii.eqb_refl.
  - destruct (Ascii.eqb c sep); simpl; rewrite IH; [reflexivity|].
    pose proof (split_on_nonempty sep a).
    destruct (Py.split_on sep a); [contradiction|reflexivity].
Qed.

(** X15. [_parse_thermo_output] reads nothing after a line that starts, once
    stripped, with [Loop time]: what follows that line does not change the
    result. *)
Theorem thermo_parse_stops_at_loop_time (before line after : string) :
  Py.count nl line = 0 ->
  Py.startswith "Loop time" (Py.strip line) = true ->
  L3._parse_thermo_output (before +:+ String nl line +:+ String nl after)
  = L3._parse_thermo_output (before +:+ String nl line).
Proof.
  intros Hnl Hl. unfold L3._parse_thermo_output.
  change (String nl line +:+ String nl after) with (String nl (line +:+ String nl after)).
  rewrite !split_on_app_any, (split_on_single nl line Hnl). cbn [app].
  now apply parse_stops_at_loop_time.
Qed.

(** A second table after the loop-time line is not read. *)
Lemma thermo_parse_stops_at_loop_time_witness :
  L3._parse_thermo_output
    (deck_of ["Step Temp"; "0 1.0"] +:+ String nl "Loop time of 0.1 on 1 procs"
       +:+ String nl (deck_of ["Step Temp"; "5 -3.0"]))
  = L3._parse_thermo_output
      (deck_of ["Step Temp"; "0 1.0"] +:+ String nl "Loop time of 0.1 on 1 procs").
Proof.
  apply thermo_parse_stops_at_loop_time; reflexivity.
Defined.

(** ** The retry loop of the provider *)

Section ProviderFacts.

Variable api : string -> string -> Z -> nat -> Provider.api_outcome.

(** X16. [create_message] calls the API between one and three times, numbered from
    0; it sleeps 1.0 and then 2.0 seconds between calls and never after the
    last one; every call but the last raised a rate-limit or API status
    error; it returns the text of the last call, or raises its exception; it
    raises a rate-limit or API status error only after three calls. *)
Theorem create_message_retries (system_prompt user_message : string) (max_tokens : Z) :
  let '(trace, result) := Provider.create_message api system_prompt user_message max_tokens in
  let n := length (calls_of trace) in
  (1 <= n <= 3) /\
  calls_of trace = seq 0 n /\
  sleeps_of trace = firstn (n - 1) [PyFloat.lit "1.0"; PyFloat.lit "2.0"] /\
  (forall k, k < n - 1 -> retried (api system_prompt user_message max_tokens k) = true) /\
  match api system_prompt user_message max_tokens (n - 1) with
  | Provider.Text text => result = inr text
  | Provider.OtherException e => result = inl e
  | Provider.RateLimitError e | Provider.APIStatusError e => n = 3 /\ result = inl e
  end /\
  (exists before, trace = before ++ [Provider.Called (n - 1)]).
Proof.
  unfold Provider.create_message. cbn [seq Provider.MAX_RETRIES Provider.retry app].
  assert (K : forall k, k < 1 -> k = 0) by (intros; lia).
  assert (K2 : forall k, k < 2 -> k = 0 \/ k = 1) by (intros; lia).
  destruct (api system_prompt user_message max_tokens 0) eqn:E0;
    cbn [calls_of sleeps_of flat_map app length seq firstn Nat.sub];
    try (rewrite E0; repeat split; try lia; try (intros k Hk; lia); now exists []).
  all: unfold Provider.after_failure; cbn [Nat.ltb Nat.leb Provider.MAX_RETRIES Nat.sub app].
  all: destruct (api system_prompt user_message max_tokens 1) eqn:E1;
    cbn [calls_of sleeps_of flat_map app length seq firstn Nat.sub];
    try (rewrite E1; repeat split; try lia;
         try (intros k Hk; rewrite (K k Hk), E0; reflexivity);
         now eexists [_; _]).
  all: destruct (api system_prompt user_message max_tokens 2) eqn:E2;
    cbn [calls_of sleeps_of flat_map app length seq firstn Nat.sub];
    rewrite E2; repeat split; try lia;
    try (intros k Hk; destruct (K2 k Hk) as [-> | ->]; [rewrite E0|rewrite E1]; reflexivity);
    now eexists [_; _; _; _].
Qed.

End ProviderFacts.

(** ** Classifying a file by its name *)

Lemma rfind_none (c : ascii) (s : string) : Py.count c s = 0 -> Discovery.rfind c s = None.
Proof.
  induction s as [|d s IH]; [reflexivity|]. simpl.
  destruct (Ascii.eqb d c); [discriminate|]. simpl. intros H. now rewrite IH.
Qed.

Lemma rfind_last (c : ascii) (a b : string) :
  Py.count c b = 0 -> Discovery.rfind c (a +:+ String c b) = Some (Py.len a).
Proof.
  intros Hb. induction a as [|d a IH]; simpl.
  - now rewrite (rfind_none c b Hb), Ascii.eqb_refl.
  - now rewrite IH.
Qed.

Lemma drop_append (a b : string) : Py.drop (Py.len a) (a +:+ b) = b.
Proof. induction a as [|d a IH]; simpl; [now destruct b|exact IH]. Qed.

(** The suffix of [stem.body] is [.body], for a stem that is not empty and a
    body that is not empty and has no dot. *)
Lemma suffix_of_name (p : FS.Path) (stem body : string) :
  named p stem (String "." body) ->
  Py.is_empty stem = false -> Py.is_empty body = false -> Py.count "." body = 0 ->
  Discovery.suffix p = String "." body.
Proof.
  unfold named, Discovery.suffix. intros -> Hs Hb Hc.
  rewrite (rfind_last "." stem body Hc), len_append.
  destruct stem as [|s0 stem]; [discriminate|]. destruct body as [|b0 body]; [discriminate|].
  replace ((0 <? Py.len (String s0 stem))
           && (Py.len (String s0 stem) <? Py.len (String s0 stem)
                                          + Py.len (String "." (String b0 body)) - 1))
    with true.
  - apply drop_append.
  - symmetry. apply andb_true_intro. split; [reflexivity|].
    apply Nat.ltb_lt. unfold Py.len. simpl. lia.
Qed.

Lemma lower_chr_dot (c : ascii) : Ascii.eqb (Py.lower_chr c) "." = Ascii.eqb c ".".
Proof.
  revert c. apply all_ascii.
  intros [] [] [] [] [] [] [] []; vm_compute; reflexivity.
Qed.

Lemma lower_len (s : string) : Py.len (Py.lower s) = Py.len s.
Proof. unfold Py.len, Py.lower. induction s; simpl; congruence. Qed.

Lemma rfind_lower (s : string) : Discovery.rfind "." (Py.lower s) = Discovery.rfind "." s.
Proof.
  unfold Py.lower. induction s as [|c s IH]; [reflexivity|]. simpl.
  now rewrite IH, lower_chr_dot.
Qed.

Lemma lower_drop (n : nat) (s : string) : Py.lower (Py.drop n s) = Py.drop n (Py.lower s).
Proof.
  revert s. induction n as [|n IH]; intros s; destruct s as [|c s]; try reflexivity.
  simpl. apply IH.
Qed.

(** X17. [classify_file] depends only on the lower-cased name of the path; a name
    made of a stem that is not empty and one of the known extensions has
    that extension as suffix and is not classified [other]; a name that is
    one of these extensions alone has no suffix and is classified [other];
    and a name that holds [.eam.] is a potential. *)
Theorem classify_file_by_name (p : FS.Path) :
  (forall q, Py.lower (FS.name q) = Py.lower (FS.name p) ->
     Discovery.classify_file q = Discovery.classify_file p) /\
  (forall stem ext,
     named p stem ext -> Py.is_empty stem = false -> In ext FS.LAMMPS_FILE_EXTENSIONS ->
     Discovery.suffix p = ext /\ Discovery.classify_file p <> "other") /\
  (forall ext, In ext FS.LAMMPS_FILE_EXTENSIONS -> named p "" ext ->
     Discovery.suffix p = "" /\ Discovery.classify_file p = "other") /\
  (Py.contains ".eam." (Py.lower (FS.name p)) = true ->
     Discovery.classify_file p = "potential").
Proof.
  assert (Hlow : forall q, Py.lower (Discovery.suffix q) =
                   match Discovery.rfind "." (Py.lower (FS.name q)) with
                   | Some i => if (0 <? i) && (i <? Py.len (Py.lower (FS.name q)) - 1)
                               then Py.drop i (Py.lower (FS.name q)) else ""
                   | None => ""
                   end).
  { intros q. unfold Discovery.suffix. rewrite rfind_lower, lower_len.
    destruct (Discovery.rfind "." (FS.name q)) as [i|]; [|reflexivity].
    destruct ((0 <? i) && (i <? Py.len (FS.name q) - 1)); [apply lower_drop|reflexivity]. }
  split; [|split; [|split]].
  - intros q Hq. unfold Discovery.classify_file. now rewrite !Hlow, Hq.
  - intros stem ext Hn Hs Hext.
    assert (Hsuf : Discovery.suffix p = ext).
    { simpl in Hext.
      repeat (destruct Hext as [<-|Hext];
              [now apply (suffix_of_name p stem _ Hn Hs)|]). destruct Hext. }
    split; [exact Hsuf|]. unfold Discovery.classify_file. rewrite Hsuf.
    destruct (Py.contains ".eam." (Py.lower (FS.name p))); [discriminate|].
    simpl in Hext.
    repeat (destruct Hext as [<-|Hext]; [vm_compute; discriminate|]). destruct Hext.
  - intros ext Hext Hn. unfold named in Hn. simpl in Hn.
    assert (Hsuf : Discovery.suffix p = "").
    { unfold Discovery.suffix. rewrite Hn. simpl in Hext.
      repeat (destruct Hext as [<-|Hext]; [reflexivity|]). destruct Hext. }
    split; [exact Hsuf|]. unfold Discovery.classify_file. rewrite Hsuf, Hn.
    simpl in Hext.
    repeat (destruct Hext as [<-|Hext]; [reflexivity|]). destruct Hext.
  - intros H. unfold Discovery.classify_file. now rewrite H.
Qed.

(** ** The output file name *)

Section OutputNameFacts.

Import FS.

Lemma candidate_name_tail (prefix : string) (n : nat) :
  candidate_name prefix n = prefix +:+ tail_of n.
Proof. destruct n; reflexivity. Qed.

Lemma append_inj_r (a b c : string) : a +:+ c = b +:+ c -> a = b.
Proof.
  revert b. induction a as [|x a IH]; intros b H.
  - destruct b as [|y b]; [reflexivity|]. exfalso.
    apply (f_equal Py.len) in H. rewrite !len_append in H.
    unfold Py.len in H. simpl in H. lia.
  - destruct b as [|y b].
    + exfalso. apply (f_equal Py.len) in H. rewrite !len_append in H.
      unfold Py.len in H. simpl in H. lia.
    + simpl in H. injection H as -> H. f_equal. now apply IH.
Qed.

Lemma str_of_nat_inj (a b : nat) : Py.str_of_nat a = Py.str_of_nat b -> a = b.
Proof.
  unfold Py.str_of_nat. intros H.
  assert (E : Nat.to_uint a = Nat.to_uint b).
  { apply (f_equal NilEmpty.uint_of_string) in H. rewrite !NilEmpty.usu in H. congruence. }
  apply (f_equal Nat.of_uint) in E. now rewrite !Unsigned.of_to in E.
Qed.

Lemma tail_of_inj (a b : nat) : tail_of a = tail_of b -> a = b.
Proof.
  destruct a as [|a], b as [|b]; try reflexivity; try discriminate.
  unfold tail_of. intros H. injection H as H. apply append_inj_r in H.
  now apply str_of_nat_inj.
Qed.

Lemma tail_of_no_slash (n : nat) : Py.count "/" (tail_of n) = 0.
Proof.
  destruct n; [reflexivity|]. unfold tail_of. rewrite !count_app.
  unfold Py.str_of_nat. rewrite count_uint by reflexivity. reflexivity.
Qed.

Lemma tail_of_long (n : nat) : 3 <= Py.len (tail_of n).
Proof.
  destruct n; [unfold Py.len; simpl; lia|]. unfold tail_of.
  rewrite !len_append. unfold Py.len. simpl. lia.
Qed.

Lemma tail_of_head (n : nat) : exists c r, tail_of n = String c r /\ Ascii.eqb c "/" = false.
Proof.
  destruct n; [exists "."%char, "in"|exists "_"%char, (Py.str_of_nat (S n) +:+ ".in")]; auto.
Qed.

Lemma split_on_append_tail (sep : ascii) (a t : string) :
  Py.count sep t = 0 ->
  Py.split_on sep (a +:+ t)
  = removelast (Py.split_on sep a) ++ [List.last (Py.split_on sep a) "" +:+ t].
Proof.
  intros Ht. induction a as [|c a IH].
  - simpl. now rewrite split_on_single.
  - change (String c a +:+ t) with (String c (a +:+ t)). cbn [Py.split_on].
    pose proof (split_on_nonempty sep a) as Hne.
    destruct (Py.split_on sep a) as [|h0 tl0] eqn:E; [contradiction|].
    rewrite IH. destruct (Ascii.eqb c sep).
    + reflexivity.
    + destruct tl0 as [|h1 tl1]; reflexivity.
Qed.

Lemma keep_tail (l0 : string) (n : nat) : keep_part (l0 +:+ tail_of n) = true.
Proof.
  pose proof (tail_of_long n) as H.
  assert (L : 3 <= Py.len (l0 +:+ tail_of n)) by (rewrite len_append; lia).
  unfold keep_part. destruct (String.eqb_spec (l0 +:+ tail_of n) ".") as [E|_].
  { rewrite E in L. unfold Py.len in L. simpl in L. lia. }
  destruct (l0 +:+ tail_of n); [unfold Py.len in L; simpl in L; lia|reflexivity].
Qed.

Lemma tail_not_dotdot (l0 : string) (n : nat) : String.eqb (l0 +:+ tail_of n) ".." = false.
Proof.
  pose proof (tail_of_long n) as H.
  assert (L : 3 <= Py.len (l0 +:+ tail_of n)) by (rewrite len_append; lia).
  destruct (String.eqb_spec (l0 +:+ tail_of n) "..") as [E|]; [|reflexivity].
  rewrite E in L. unfold Py.len in L. simpl in L. lia.
Qed.

Lemma root_uniform (prefix : string) (n : nat) :
  root (path_of_string (prefix +:+ tail_of n)) = root (path_of_string (prefix +:+ ".in")).
Proof.
  destruct (tail_of_head n) as (c & r & -> & Hc).
  unfold path_of_string. cbn [root].
  destruct prefix as [|x [|y [|z prefix]]].
  - cbn [String.append Py.startswith]. rewrite (Ascii.eqb_sym "/" c), Hc. reflexivity.
  - cbn [String.append Py.startswith]. rewrite (Ascii.eqb_sym "/" c), Hc.
    now destruct (Ascii.eqb "/" x).
  - cbn [String.append Py.startswith]. rewrite (Ascii.eqb_sym "/" c), Hc.
    now destruct (Ascii.eqb "/" x), (Ascii.eqb "/" y).
  - reflexivity.
Qed.

Lemma parts_uniform (prefix : string) (n : nat) :
  parts (path_of_string (prefix +:+ tail_of n))
  = List.filter keep_part (removelast (Py.split_on "/" prefix))
    ++ [List.last (Py.split_on "/" prefix) "" +:+ tail_of n].
Proof.
  unfold path_of_string. cbn [parts].
  rewrite (split_on_append_tail "/" prefix _ (tail_of_no_slash n)).
  fold keep_part. rewrite filter_app'. cbn [List.filter]. now rewrite keep_tail.
Qed.

(** Every candidate is the same path up to its last component. *)
Lemma candidate_shape (directory : Path) (prefix : string) :
  exists rt ps l0, forall n, candidate directory prefix n = mkPath rt (ps ++ [l0 +:+ tail_of n]).
Proof.
  set (r0 := root (path_of_string (prefix +:+ ".in"))).
  set (ps0 := List.filter keep_part (removelast (Py.split_on "/" prefix))).
  set (l0 := List.last (Py.split_on "/" prefix) "").
  assert (H : forall n, path_of_string (candidate_name prefix n)
                        = mkPath r0 (ps0 ++ [l0 +:+ tail_of n])).
  { intros n. rewrite candidate_name_tail.
    pose proof (root_uniform prefix n) as Hr. pose proof (parts_uniform prefix n) as Hp.
    destruct (path_of_string (prefix +:+ tail_of n)) as [r ps]. simpl in Hr, Hp.
    now subst. }
  destruct (Py.is_empty r0) eqn:E.
  - exists (root directory), (parts directory ++ ps0), l0. intros n.
    unfold candidate, joinpath, is_absolute. rewrite H. cbn [root parts]. rewrite E.
    cbn [negb]. now rewrite <- app_assoc.
  - exists r0, ps0, l0. intros n.
    unfold candidate, joinpath, is_absolute. rewrite H. cbn [root]. now rewrite E.
Qed.

Lemma walk_app (f : gmap (list string) node) (cur a b : list string) :
  walk f cur (a ++ b) = match walk f cur a with
                        | inr c => walk f c b
                        | inl e => inl e
                        end.
Proof.
  revert cur. induction a as [|x a IH]; intros cur; simpl; [reflexivity|].
  destruct (lookup_node f cur) as [[c|]|]; auto.
Qed.

Lemma exists_in_holder (st : state) (rt : string) (ps : list string) (l : string) :
  String.eqb l ".." = false ->
  exists_ st (mkPath rt (ps ++ [l]))
  = match holder st (mkPath rt (ps ++ [l])) with
    | Some cur => match files st !! (cur ++ [l]) with Some _ => true | None => false end
    | None => false
    end.
Proof.
  intros Hl. unfold exists_, stat, resolve, holder. cbn [parts].
  rewrite removelast_last, walk_app.
  destruct (walk (files st) _ ps) as [e|cur]; [reflexivity|].
  cbn [walk]. destruct (lookup_node (files st) cur) as [[c|]|]; try reflexivity.
  rewrite Hl. unfold lookup_node. destruct (cur ++ [l]) eqn:E; [|reflexivity].
  destruct cur; discriminate.
Qed.

Lemma holder_uniform (st : state) (rt : string) (ps : list string) (l l' : string) :
  holder st (mkPath rt (ps ++ [l])) = holder st (mkPath rt (ps ++ [l'])).
Proof. unfold holder, is_absolute. cbn [parts root]. now rewrite !removelast_last. Qed.

(** Distinct keys that are all present are no more than the entries. *)
Lemma present_keys_bound (f : gmap (list string) node) (keys : list (list string)) :
  List.NoDup keys -> (forall k, In k keys -> f !! k <> None) -> length keys <= size f.
Proof.
  intros Hnd Hin.
  assert (Hsub : (list_to_set keys : gset (list string)) ⊆ dom f).
  { intros k Hk. apply elem_of_list_to_set in Hk. apply list_elem_of_In in Hk.
    apply elem_of_dom. specialize (Hin k Hk). destruct (f !! k); [eauto|contradiction]. }
  apply subseteq_size in Hsub. rewrite size_dom in Hsub.
  rewrite size_list_to_set in Hsub; [exact Hsub|]. now apply NoDup_ListNoDup.
Qed.

Lemma nodup_map_inj {A B} (g : A -> B) (l : list A) :
  (forall a b, g a = g b -> a = b) -> List.NoDup l -> List.NoDup (map g l).
Proof.
  intros Hg Hl. induction Hl as [|x l Hx Hl IH]; simpl; constructor; [|exact IH].
  intros H. apply in_map_iff in H as (y & E & Hy). apply Hg in E. now subst.
Qed.

Lemma append_inj_l (a b c : string) : a +:+ b = a +:+ c -> b = c.
Proof. induction a as [|x a IH]; simpl; [auto|]. intros [= H]. auto. Qed.

Lemma forallb_false_exists {A} (p : A -> bool) (l : list A) :
  forallb p l = false -> exists x, In x l /\ p x = false.
Proof.
  induction l as [|x l IH]; [discriminate|]. simpl.
  destruct (p x) eqn:E; [|eauto]. intros H. destruct (IH H) as (y & Hy & Hp). eauto.
Qed.

Lemma some_candidate_is_free (st : state) (directory : Path) (prefix : string) :
  exists n, n <= size (files st) /\ exists_ st (candidate directory prefix n) = false.
Proof.
  destruct (candidate_shape directory prefix) as (rt & ps & l0 & Hc).
  destruct (holder st (mkPath rt (ps ++ [l0 +:+ tail_of 0]))) as [cur|] eqn:Eh.
  2:{ exists 0. split; [lia|]. rewrite Hc, exists_in_holder by apply tail_not_dotdot.
      now rewrite Eh. }
  assert (Hex : forall n, exists_ st (candidate directory prefix n)
                  = match files st !! (cur ++ [l0 +:+ tail_of n]) with
                    | Some _ => true | None => false end).
  { intros n. rewrite Hc, exists_in_holder by apply tail_not_dotdot.
    now rewrite (holder_uniform st rt ps _ (l0 +:+ tail_of 0)), Eh. }
  destruct (forallb (fun n => exists_ st (candidate directory prefix n))
              (seq 0 (S (size (files st))))) eqn:Eall.
  - exfalso. rewrite forallb_forall in Eall.
    pose proof (present_keys_bound (files st)
                  (map (fun n => cur ++ [l0 +:+ tail_of n]) (seq 0 (S (size (files st)))))) as B.
    rewrite length_map, length_seq in B.
    enough (S (size (files st)) <= size (files st)) by lia. apply B.
    + apply nodup_map_inj; [|apply List.seq_NoDup].
      intros a b E. apply app_inj_tail in E as [_ E]. apply append_inj_l in E.
      now apply tail_of_inj.
    + intros k Hk. apply in_map_iff in Hk as (n & <- & Hn).
      specialize (Eall n Hn). rewrite Hex in Eall.
      destruct (files st !! (cur ++ [l0 +:+ tail_of n])); [discriminate|discriminate].
  - apply forallb_false_exists in Eall as (n & Hn & Hfree).
    exists n. split; [|exact Hfree]. apply in_seq in Hn. lia.
Qed.

(** The loop from [candidate c] on. *)
Lemma search_finds (st : state) (directory : Path) (prefix : string) (fuel c n : nat) :
  c <= n -> n <= c + fuel -> exists_ st (candidate directory prefix n) = false ->
  exists m, c <= m <= n /\
    OutputName.search fuel st directory prefix (S c) (candidate directory prefix c)
    = Some (candidate directory prefix m) /\
    exists_ st (candidate directory prefix m) = false /\
    forall j, c <= j < m -> exists_ st (candidate directory prefix j) = true.
Proof.
  revert c. induction fuel as [|fuel IH]; intros c Hc Hn Hfree.
  - assert (n = c) by lia. subst n. exists c.
    split; [lia|]. split; [simpl; now rewrite Hfree|]. split; [exact Hfree|].
    intros j Hj. lia.
  - cbn [OutputName.search].
    destruct (exists_ st (candidate directory prefix c)) eqn:Ec.
    + assert (Hne : n <> c) by (intros ->; congruence).
      destruct (IH (S c)) as (m & Hm & Hs & Hf & Hall); [lia|lia|exact Hfree|].
      exists m. split; [lia|]. split; [exact Hs|]. split; [exact Hf|].
      intros j Hj. destruct (Nat.eq_dec j c) as [->|]; [exact Ec|]. apply Hall. lia.
    + exists c. split; [lia|]. split; [reflexivity|]. split; [exact Ec|]. intros j Hj. lia.
Qed.

(** X18. [generate_output_filename] returns: the path it returns is the first of
    [prefix.in], [prefix_1.in], [prefix_2.in], ... in the directory that does
    not exist, and it is found within as many steps as the file system has
    entries. *)
Theorem output_filename_is_first_free (st : state) (directory : Path) (prefix : string) :
  exists n,
    OutputName.generate_output_filename st directory prefix
    = Some (candidate directory prefix n) /\
    exists_ st (candidate directory prefix n) = false /\
    (forall j, j < n -> exists_ st (candidate directory prefix j) = true) /\
    n <= size (files st).
Proof.
  destruct (some_candidate_is_free st directory prefix) as (n & Hn & Hfree).
  destruct (search_finds st directory prefix (S (size (files st))) 0 n) as (m & Hm & Hs & Hf & Hall);
    [lia|lia|exact Hfree|].
  exists m. split; [exact Hs|]. split; [exact Hf|]. split; [|lia].
  intros j Hj. apply Hall. lia.
Qed.

End OutputNameFacts.

(** ** Cleaning up the working directory *)

Section CleanupFacts.

Import FS.

Variable scandir_order : list string -> list string.

Variable islink : state -> Path -> bool.

Lemma below_app (k x : list string) : Cleanup.below k (k ++ x) = true.
Proof. induction k as [|d k IH]; simpl; [reflexivity|]. now rewrite String.eqb_refl. Qed.

Lemma below_inv (k key : list string) :
  Cleanup.below k key = true -> exists x, key = k ++ x.
Proof.
  revert key. induction k as [|d k IH]; intros key; simpl.
  - intros _. now exists key.
  - destruct key as [|c key]; [discriminate|].
    destruct (String.eqb_spec d c) as [->|_]; [|discriminate]. simpl.
    intros H. destruct (IH key H) as (x & ->). now exists x.
Qed.

Lemma strictly_below_self (k : list string) : Cleanup.strictly_below k k = false.
Proof.
  unfold Cleanup.strictly_below. rewrite bool_decide_eq_true_2 by reflexivity.
  apply andb_false_r.
Qed.

Lemma strictly_below_other (k key : list string) :
  key <> k -> Cleanup.strictly_below k key = Cleanup.below k key.
Proof.
  intros H. unfold Cleanup.strictly_below. rewrite bool_decide_eq_false_2 by exact H.
  apply andb_true_r.
Qed.

Lemma strictly_below_snoc (k : list string) (name : string) :
  Cleanup.strictly_below k (k ++ [name]) = true.
Proof.
  rewrite strictly_below_other, below_app; [reflexivity|].
  intros H. apply (f_equal (@length string)) in H. rewrite length_app in H. simpl in H. lia.
Qed.

(** A prefix of [k] is not inside the directory at [k]. *)
Lemma strictly_below_prefix (cur rest : list string) :
  Cleanup.strictly_below (cur ++ rest) cur = false.
Proof.
  destruct rest as [|c rest].
  - rewrite app_nil_r. apply strictly_below_self.
  - unfold Cleanup.strictly_below.
    destruct (Cleanup.below (cur ++ c :: rest) cur) eqn:E; [|reflexivity].
    apply below_inv in E as (x & E). apply (f_equal (@length string)) in E.
    rewrite !length_app in E. simpl in E. lia.
Qed.

Lemma emptied_lookup (f : gmap (list string) node) (k key : list string) :
  filter (fun kv => Cleanup.strictly_below k (fst kv) = false) f !! key
  = if Cleanup.strictly_below k key then None else f !! key.
Proof.
  destruct (Cleanup.strictly_below k key) eqn:E.
  - apply map_lookup_filter_None. right. intros x _. simpl. congruence.
  - destruct (f !! key) as [x|] eqn:Ef.
    + apply map_lookup_filter_Some. split; [exact Ef|exact E].
    + apply map_lookup_filter_None. now left.
Qed.

(** A path without [..] resolves to the components it adds, and no step of
    it enters the directory it names. *)
Lemma walk_plain (f : gmap (list string) node) (cur comps k : list string) :
  ~ In ".." comps -> walk f cur comps = inr k -> k = cur ++ comps.
Proof.
  revert cur. induction comps as [|c comps IH]; intros cur Hn; cbn [walk].
  - intros [= <-]. now rewrite app_nil_r.
  - destruct (lookup_node f cur) as [[x|]|]; try discriminate.
    destruct (String.eqb_spec c "..") as [->|_]; [exfalso; apply Hn; now left|].
    intros H. apply IH in H; [|intros Hin; apply Hn; now right].
    now rewrite <- app_assoc in H.
Qed.

Lemma enters_plain (cur comps : list string) :
  ~ In ".." comps -> Cleanup.enters (cur ++ comps) cur comps = false.
Proof.
  revert cur. induction comps as [|c comps IH]; intros cur Hn; cbn [Cleanup.enters].
  - reflexivity.
  - destruct (String.eqb_spec c "..") as [->|_]; [exfalso; apply Hn; now left|].
    replace (cur ++ c :: comps) with ((cur ++ [c]) ++ comps) by now rewrite <- app_assoc.
    rewrite strictly_below_prefix, IH; [reflexivity|]. intros Hin; apply Hn; now right.
Qed.

Lemma cleanup_tree_state (working_dir : Path) (st : state) (k : list string) :
  is_dir st working_dir = true -> islink st working_dir = false ->
  resolve st working_dir = inr k ->
  let emptied := filter (fun kv => Cleanup.strictly_below k (fst kv) = false) (files st) in
  Cleanup.cleanup_working_directory scandir_order islink working_dir false st
  = (mkState (if rmdir_refused st working_dir k then emptied else delete k emptied) (cwd st),
     inr tt).
Proof.
  intros Hd Hl Hr emptied.
  unfold Cleanup.cleanup_working_directory, bind, get, Cleanup.attempt, Cleanup.rmtree.
  unfold exists_, is_dir, stat in *. rewrite Hr in *.
  destruct (lookup_node (files st) k) as [[c|]|] eqn:El; try discriminate.
  cbn [negb fst snd]. rewrite Hr, El, Hl. unfold rmdir_refused, name.
  destruct (parts working_dir) as [|c0 ps] eqn:Ep; [reflexivity|].
  fold emptied.
  destruct (String.eqb (List.last (c0 :: ps) EmptyString) ".."
            || Cleanup.enters k (if is_absolute working_dir then [] else cwd st) (c0 :: ps));
    reflexivity.
Qed.

Lemma cleanup_tree_lookup (working_dir : Path) (st : state) (k key : list string) :
  is_dir st working_dir = true -> islink st working_dir = false ->
  resolve st working_dir = inr k ->
  files (fst (Cleanup.cleanup_working_directory scandir_order islink working_dir false st))
    !! key
  = if Cleanup.strictly_below k key then None
    else if bool_decide (key = k)
         then (if rmdir_refused st working_dir k then files st !! k else None)
         else files st !! key.
Proof.
  intros Hd Hl Hr. rewrite (cleanup_tree_state working_dir st k Hd Hl Hr). cbn [fst files].
  destruct (bool_decide_reflect (key = k)) as [->|Hne].
  - rewrite strictly_below_self.
    destruct (rmdir_refused st working_dir k).
    + now rewrite emptied_lookup, strictly_below_self.
    + apply lookup_delete_eq.
  - destruct (rmdir_refused st working_dir k).
    + apply emptied_lookup.
    + rewrite lookup_delete_ne by congruence. apply emptied_lookup.
Qed.

(** X19. [cleanup_working_directory] without [keep_outputs] raises nothing and
    keeps the current directory. It changes nothing when the working
    directory is not a directory, and nothing when it is a symbolic link.
    Otherwise all that lies inside the working directory is removed and every
    entry outside it is kept. The directory itself stays, empty, when
    [os.rmdir] is refused at the end: for a path without components ([.]),
    for a path that ends with [..], and for a path that steps by name
    through the content just removed; otherwise it is removed, as it is for
    every path with components and without [..]. *)
Theorem cleanup_removes_the_tree (working_dir : Path) (st : state) :
  let r := Cleanup.cleanup_working_directory scandir_order islink working_dir false st in
  snd r = inr tt /\
  cwd (fst r) = cwd st /\
  (is_dir st working_dir = false -> fst r = st) /\
  (islink st working_dir = true -> fst r = st) /\
  (forall k, is_dir st working_dir = true -> islink st working_dir = false ->
     resolve st working_dir = inr k ->
     (forall key, key <> k ->
        files (fst r) !! key = if Cleanup.below k key then None else files st !! key) /\
     (parts working_dir = [] \/ name working_dir = ".." ->
        files (fst r) !! k = files st !! k) /\
     (parts working_dir <> [] -> name working_dir <> ".." ->
        files (fst r) !! k
        = if Cleanup.enters k (if is_absolute working_dir then [] else cwd st)
               (parts working_dir)
          then files st !! k else None) /\
     (parts working_dir <> [] -> ~ In ".." (parts working_dir) ->
        files (fst r) !! k = None)).
Proof.
  cbv zeta.
  assert (Hfirst :
    snd (Cleanup.cleanup_working_directory scandir_order islink working_dir false st) = inr tt /\
    cwd (fst (Cleanup.cleanup_working_directory scandir_order islink working_dir false st))
    = cwd st /\
    (is_dir st working_dir = false ->
     fst (Cleanup.cleanup_working_directory scandir_order islink working_dir false st) = st) /\
    (islink st working_dir = true ->
     fst (Cleanup.cleanup_working_directory scandir_order islink working_dir false st) = st)).
  { unfold Cleanup.cleanup_working_directory, bind, get, Cleanup.attempt, Cleanup.rmtree.
    unfold exists_, is_dir, stat.
    destruct (resolve st working_dir) as [e|k] eqn:Er; cbn [negb fst snd ret].
    { repeat split; reflexivity. }
    destruct (lookup_node (files st) k) as [[c|]|] eqn:El; cbn [negb fst snd ret];
      rewrite ?Er, ?El; cbn [fst snd].
    - repeat split; reflexivity.
    - destruct (islink st working_dir) eqn:Hl; cbn [fst snd].
      + repeat split; try reflexivity; try discriminate.
      + destruct (parts working_dir) as [|c0 ps]; cbn [fst snd cwd].
        * repeat split; try reflexivity; try discriminate.
        * destruct (_ || _); cbn [fst snd cwd]; repeat split; try reflexivity; try discriminate.
    - repeat split; reflexivity. }
  destruct Hfirst as (H1 & H2 & H3 & H4).
  split; [exact H1|]. split; [exact H2|]. split; [exact H3|]. split; [exact H4|].
  intros k Hd Hl Hr.
  pose proof (cleanup_tree_lookup working_dir st k) as L.
  assert (Hself : forall b : bool, rmdir_refused st working_dir k = b ->
            files (fst (Cleanup.cleanup_working_directory scandir_order islink working_dir
                          false st)) !! k
            = if b then files st !! k else None).
  { intros b <-. rewrite (L k Hd Hl Hr), strictly_below_self.
    now rewrite bool_decide_eq_true_2 by reflexivity. }
  split; [|split; [|split]].
  - intros key Hne. rewrite (L key Hd Hl Hr), (strictly_below_other k key Hne).
    now rewrite bool_decide_eq_false_2 by exact Hne.
  - intros Hp. apply (Hself true). unfold rmdir_refused.
    destruct (parts working_dir) as [|c0 ps] eqn:Ep; [reflexivity|].
    destruct Hp as [Hp|Hp]; [discriminate|]. now rewrite Hp.
  - intros Hp Hn. apply Hself. unfold rmdir_refused.
    destruct (parts working_dir) as [|c0 ps] eqn:Ep; [contradiction|].
    destruct (String.eqb_spec (name working_dir) "..") as [E|_]; [contradiction|reflexivity].
  - intros Hp Hn. apply (Hself false). unfold rmdir_refused.
    destruct (parts working_dir) as [|c0 ps] eqn:Ep; [contradiction|]. rewrite <- Ep in *.
    destruct (String.eqb_spec (name working_dir) "..") as [E|_].
    { exfalso. apply Hn. unfold name in E. rewrite <- E.
      destruct (exists_last Hp) as (l & a & ->). rewrite last_last.
      apply in_or_app. right. now left. }
    cbn [orb]. unfold resolve in Hr.
    rewrite (walk_plain _ _ _ _ Hn Hr). now apply enters_plain.
Qed.

Lemma child_of_spec (k key : list string) (name : string) :
  Cleanup.child_of k key = Some name <-> key = k ++ [name].
Proof.
  revert key. induction k as [|d k IH]; intros key; simpl.
  - destruct key as [|c [|c' key]]; split; try discriminate; congruence.
  - destruct key as [|c key]; [split; discriminate|].
    destruct (String.eqb_spec d c) as [->|Hne].
    + rewrite IH. split; congruence.
    + split; [discriminate|]. intros [= E _]. congruence.
Qed.

Hypothesis scandir_lists : forall l x, In x (scandir_order l) <-> In x l.

Lemma listdir_spec (st : state) (k : list string) (name : string) :
  In name (Cleanup.listdir scandir_order st k) <->
  files st !! (k ++ [name]) <> None /\ real_name name = true.
Proof.
  unfold Cleanup.listdir. rewrite scandir_lists, filter_In. fold (real_name name).
  rewrite <- list_elem_of_In, list_elem_of_omap. split.
  - intros [([key n] & Hin & Hc) Hr]. split; [|exact Hr].
    apply elem_of_map_to_list in Hin. simpl in Hc. apply child_of_spec in Hc. subst key.
    congruence.
  - intros [Hf Hr]. split; [|exact Hr].
    destruct (files st !! (k ++ [name])) as [n|] eqn:E; [|contradiction].
    exists (k ++ [name], n). split; [now apply elem_of_map_to_list|].
    simpl. now apply child_of_spec.
Qed.

Lemma walk_dirs_kept (st st' : state) (cur comps k : list string) :
  dirs_kept st st' -> walk (files st) cur comps = inr k -> walk (files st') cur comps = inr k.
Proof.
  intros [_ HK]. revert cur. induction comps as [|c comps IH]; intros cur; simpl; [auto|].
  destruct (lookup_node (files st) cur) as [[x|]|] eqn:E; try discriminate.
  assert (E' : lookup_node (files st') cur = Some Dir).
  { destruct cur; [reflexivity|]. simpl in *. auto. }
  rewrite E'. apply IH.
Qed.

Lemma remove_files_lookup (k : list string) (names : list string)
  (f : gmap (list string) node) (key : list string) :
  remove_files k names f !! key
  = if existsb (fun name => bool_decide (key = k ++ [name])) names && is_file_node (f !! key)
    then None else f !! key.
Proof.
  revert f. induction names as [|name names IH]; intros f; [reflexivity|].
  unfold remove_files in *. cbn [fold_left existsb]. rewrite IH.
  destruct (bool_decide (key = k ++ [name])) eqn:Ek.
  - apply bool_decide_eq_true in Ek. subst key.
    destruct (is_file_node (f !! (k ++ [name]))) eqn:Ef.
    + rewrite lookup_delete_eq. cbn [is_file_node orb andb]. now rewrite andb_false_r.
    + rewrite Ef, andb_false_r. reflexivity.
  - apply bool_decide_eq_false in Ek. cbn [orb].
    destruct (is_file_node (f !! (k ++ [name]))); [|reflexivity].
    rewrite lookup_delete_ne by congruence. reflexivity.
Qed.

Lemma remove_files_dirs (k : list string) (names : list string) (st : state) :
  dirs_kept st (mkState (remove_files k names (files st)) (cwd st)).
Proof.
  split; [reflexivity|]. intros key E. cbn [files]. rewrite remove_files_lookup, E.
  cbn [is_file_node]. now rewrite andb_false_r.
Qed.

Lemma dirs_kept_trans (a b c : state) : dirs_kept a b -> dirs_kept b c -> dirs_kept a c.
Proof. intros [C1 H1] [C2 H2]. split; [congruence|auto]. Qed.

Lemma unlink_child (p : Path) (k : list string) (name : string) (st : state) :
  walk (files st) (if is_absolute p then [] else cwd st) (parts p) = inr k ->
  lookup_node (files st) k = Some Dir ->
  String.eqb name ".." = false ->
  fst (Cleanup.unlink (mkPath (root p) (parts p ++ [name])) st)
  = mkState (remove_files k [name] (files st)) (cwd st).
Proof.
  intros Hw Hd Hn. unfold Cleanup.unlink, resolve, is_absolute. cbn [root parts].
  fold (is_absolute p). rewrite walk_app, Hw. cbn [walk]. rewrite Hd, Hn.
  unfold remove_files. cbn [fold_left].
  assert (El : lookup_node (files st) (k ++ [name]) = files st !! (k ++ [name])).
  { destruct (k ++ [name]) eqn:E; [destruct k; discriminate|reflexivity]. }
  rewrite El. destruct (files st !! (k ++ [name])) as [[c|]|]; cbn [is_file_node fst];
    try reflexivity; now destruct st.
Qed.

Lemma remove_files_app (k : list string) (a b : list string) (f : gmap (list string) node) :
  remove_files k (a ++ b) f = remove_files k b (remove_files k a f).
Proof. unfold remove_files. apply fold_left_app. Qed.

Lemma unlink_all (p : Path) (k : list string) (names : list string) (st : state) :
  walk (files st) (if is_absolute p then [] else cwd st) (parts p) = inr k ->
  lookup_node (files st) k = Some Dir ->
  (forall name, In name names -> String.eqb name ".." = false) ->
  for_each (map (fun name => mkPath (root p) (parts p ++ [name])) names)
    (fun f => Cleanup.attempt (Cleanup.unlink f)) st
  = (mkState (remove_files k names (files st)) (cwd st), inr tt).
Proof.
  revert st. induction names as [|name names IH]; intros st Hw Hd Hn.
  - simpl. unfold ret. now destruct st.
  - cbn [map for_each]. unfold bind, Cleanup.attempt at 1.
    rewrite (unlink_child p k name st Hw Hd) by (apply Hn; now left).
    pose proof (remove_files_dirs k [name] st) as HK.
    rewrite IH.
    + cbn [files cwd]. now rewrite (remove_files_app k [name] names).
    + cbn [cwd]. now apply (walk_dirs_kept st _ _ _ _ HK).
    + destruct k as [|k0 k1]; [reflexivity|]. simpl in Hd |- *.
      destruct HK as [_ HK]. now apply HK.
    + intros n Hin. apply Hn. now right.
Qed.

Lemma listed_matching (st : state) (k : list string) (matches : string -> bool)
  (name : string) :
  existsb (fun n => bool_decide (k ++ [name] = k ++ [n]))
    (List.filter matches (Cleanup.listdir scandir_order st k))
  = matches name && real_name name && present (files st !! (k ++ [name])).
Proof.
  apply eq_true_iff_eq. rewrite existsb_exists, !andb_true_iff. split.
  - intros (n & Hin & Hb). apply bool_decide_eq_true in Hb. apply app_inj_tail in Hb as [_ <-].
    apply filter_In in Hin as [Hin Hm]. apply listdir_spec in Hin as [Hp Hr].
    repeat split; auto. now destruct (files st !! (k ++ [name])).
  - intros [[Hm Hr] Hp]. exists name. split; [|now apply bool_decide_eq_true].
    apply filter_In. split; [|exact Hm]. apply listdir_spec. split; [|exact Hr].
    now destruct (files st !! (k ++ [name])).
Qed.

Lemma not_listed (k key : list string) (names : list string) :
  Cleanup.child_of k key = None ->
  existsb (fun n => bool_decide (key = k ++ [n])) names = false.
Proof.
  intros H. induction names as [|n names IH]; [reflexivity|]. simpl. rewrite IH, orb_false_r.
  apply bool_decide_eq_false. intros E. apply child_of_spec in E. congruence.
Qed.

Lemma remove_matching_result (working_dir : Path) (matches : string -> bool)
  (k : list string) (st : state) :
  is_dir st working_dir = true -> resolve st working_dir = inr k ->
  Cleanup.remove_matching scandir_order working_dir matches st
  = (mkState (remove_files k (List.filter matches (Cleanup.listdir scandir_order st k))
                (files st)) (cwd st), inr tt).
Proof.
  intros Hd Hr. unfold Cleanup.remove_matching, bind, get, Cleanup.glob. rewrite Hd, Hr.
  unfold is_dir, stat in Hd. rewrite Hr in Hd.
  apply unlink_all.
  - exact Hr.
  - now destruct (lookup_node (files st) k) as [[c|]|].
  - intros name Hin. apply filter_In in Hin as [Hin _]. apply listdir_spec in Hin as [_ Hn].
    unfold real_name in Hn. apply andb_prop in Hn as [_ Hn]. now apply negb_true_iff.
Qed.

Lemma cleanup_keep_state (working_dir : Path) (st : state) (k : list string) :
  is_dir st working_dir = true -> resolve st working_dir = inr k ->
  Cleanup.cleanup_working_directory scandir_order islink working_dir true st
  = (mkState (files_after_keeping scandir_order st k) (cwd st), inr tt).
Proof.
  intros Hd Hr. unfold files_after_keeping.
  set (names1 := List.filter Cleanup.matches_lammps (Cleanup.listdir scandir_order st k)).
  set (st1 := mkState (remove_files k names1 (files st)) (cwd st)).
  pose proof (remove_files_dirs k names1 st) as HK. fold st1 in HK.
  assert (Hr1 : resolve st1 working_dir = inr k).
  { unfold resolve in *. cbn [cwd]. now apply (walk_dirs_kept st st1). }
  assert (Hd1 : is_dir st1 working_dir = true).
  { unfold is_dir, stat in *. rewrite Hr in Hd. rewrite Hr1.
    destruct (lookup_node (files st) k) as [[c|]|] eqn:E; try discriminate.
    destruct k as [|k0 k1]; [reflexivity|]. simpl in E.
    pose proof (proj2 HK _ E) as E1. unfold lookup_node. now rewrite E1. }
  unfold Cleanup.cleanup_working_directory, bind at 1, get.
  assert (He : exists_ st working_dir = true).
  { unfold exists_, is_dir in *. now destruct (stat st working_dir). }
  rewrite He. cbn [negb]. unfold bind.
  rewrite (remove_matching_result working_dir _ k st Hd Hr). fold names1 st1.
  now rewrite (remove_matching_result working_dir _ k st1 Hd1 Hr1).
Qed.

Lemma keeping_lookup (st : state) (k key : list string) :
  files_after_keeping scandir_order st k !! key
  = if removed_when_keeping k (files st) key then None else files st !! key.
Proof.
  unfold files_after_keeping.
  set (names1 := List.filter Cleanup.matches_lammps (Cleanup.listdir scandir_order st k)).
  set (st1 := mkState (remove_files k names1 (files st)) (cwd st)).
  rewrite !remove_files_lookup. unfold removed_when_keeping.
  destruct (Cleanup.child_of k key) as [name|] eqn:Ec.
  - apply child_of_spec in Ec. subst key.
    rewrite (listed_matching st1 k Cleanup.matches_input name).
    unfold st1. cbn [files]. rewrite !remove_files_lookup.
    unfold names1. rewrite !(listed_matching st k Cleanup.matches_lammps name).
    destruct (files st !! (k ++ [name])) as [[c|]|], (Cleanup.matches_lammps name),
      (Cleanup.matches_input name), (real_name name); reflexivity.
  - rewrite (not_listed k key _ Ec). cbn [andb]. unfold st1. cbn [files].
    now rewrite remove_files_lookup, (not_listed k key _ Ec).
Qed.

(** X20. [cleanup_working_directory] with [keep_outputs], on a directory, raises
    nothing, keeps the current directory, and removes exactly the files of
    the directory itself whose name ends with [.lammps] or starts with
    [input.]; every other entry is unchanged. *)
Theorem cleanup_keeping_outputs (working_dir : Path) (st : state) (k : list string) :
  is_dir st working_dir = true -> resolve st working_dir = inr k ->
  let r := Cleanup.cleanup_working_directory scandir_order islink working_dir true st in
  snd r = inr tt /\
  cwd (fst r) = cwd st /\
  forall key, files (fst r) !! key
              = if removed_when_keeping k (files st) key then None else files st !! key.
Proof.
  intros Hd Hr r. subst r. rewrite (cleanup_keep_state working_dir st k Hd Hr).
  cbn [fst snd cwd files]. split; [reflexivity|]. split; [reflexivity|].
  intros key. apply keeping_lookup.
Qed.

End CleanupFacts.

(** The old deck goes, the notes stay. *)
Lemma cleanup_keeping_outputs_witness :
  let r := Cleanup.cleanup_working_directory (fun l => l) (fun _ _ => false)
             (FS.path_of_string "work") true disk_with_old_files in
  FS.files (fst r) !! ["work"; "input.lammps"] = None /\
  FS.files (fst r) !! ["work"; "notes.txt"] = Some (FS.File "old notes").
Proof.
  cbv zeta.
  destruct (cleanup_keeping_outputs (fun l => l) (fun _ _ => false) (fun l x => iff_refl _)
              (FS.path_of_string "work") disk_with_old_files ["work"])
    as (_ & _ & H).
  - vm_compute. reflexivity.
  - vm_compute. reflexivity.
  - rewrite !H. split; vm_compute; reflexivity.
Defined.

(** From inside the working directory, [.] is emptied and stays; named from
    its parent, the working directory goes. *)
Lemma cleanup_removes_the_tree_witness :
  let inside := Cleanup.cleanup_working_directory (fun l => l) (fun _ _ => false)
                  (FS.path_of_string ".") false disk_inside_work in
  let outside := Cleanup.cleanup_working_directory (fun l => l) (fun _ _ => false)
                   (FS.path_of_string "work") false disk_with_old_files in
  (FS.files (fst inside) !! ["work"] = Some FS.Dir /\
   FS.files (fst inside) !! ["work"; "notes.txt"] = None /\
   FS.files (fst inside) !! ["ctx"; "notes.txt"] = Some (FS.File "new notes")) /\
  (FS.files (fst outside) !! ["work"] = None /\
   FS.files (fst outside) !! ["work"; "notes.txt"] = None /\
   FS.files (fst outside) !! ["ctx"; "notes.txt"] = Some (FS.File "new notes")).
Proof.
  cbv zeta. split.
  - destruct (cleanup_removes_the_tree (fun l => l) (fun _ _ => false)
                (FS.path_of_string ".") disk_inside_work) as (_ & _ & _ & _ & H).
    destruct (H ["work"]) as (Hout & Hstay & _ & _); try (vm_compute; reflexivity).
    rewrite Hstay by (left; reflexivity). rewrite !Hout by discriminate.
    repeat split; vm_compute; reflexivity.
  - destruct (cleanup_removes_the_tree (fun l => l) (fun _ _ => false)
                (FS.path_of_string "work") disk_with_old_files) as (_ & _ & _ & _ & H).
    destruct (H ["work"]) as (Hout & _ & _ & Hgone); try (vm_compute; reflexivity).
    rewrite Hgone; [|discriminate|vm_compute; intros [E|[]]; discriminate E].
    rewrite !Hout by discriminate.
    repeat split; vm_compute; reflexivity.
Defined.

(** ** Setting up, then cleaning up *)

Section SetupThenCleanup.

Import FS.

Variable iter_strs : list string -> list string.

Variable iter_paths : list Path -> list Path.

Variable scandir_order : list string -> list string.

Variable islink : state -> Path -> bool.

Hypothesis scandir_lists : forall l x, In x (scandir_order l) <-> In x l.

Lemma walk_same (f f' : gmap (list string) node) (cur comps a b : list string) :
  walk f cur comps = inr a -> walk f' cur comps = inr b -> a = b.
Proof.
  revert cur. induction comps as [|c comps IH]; intros cur; simpl.
  - congruence.
  - destruct (lookup_node f cur) as [[x|]|]; try discriminate.
    destruct (lookup_node f' cur) as [[x|]|]; try discriminate.
    apply IH.
Qed.

Lemma lookup_node_snoc (f : gmap (list string) node) (k : list string) (name : string) :
  lookup_node f (k ++ [name]) = f !! (k ++ [name]).
Proof. destruct k; reflexivity. Qed.

Lemma is_dir_resolves (st : state) (p : Path) :
  is_dir st p = true ->
  exists k, resolve st p = inr k /\ lookup_node (files st) k = Some Dir.
Proof.
  unfold is_dir, stat. destruct (resolve st p) as [e|k]; [discriminate|].
  destruct (lookup_node (files st) k) as [[c|]|] eqn:E; intros H; try discriminate H.
  exists k. auto.
Qed.

Lemma entry_resolves (st : state) (working_dir : Path) (name : string) (k : list string) :
  plain_name name ->
  resolve st working_dir = inr k -> lookup_node (files st) k = Some Dir ->
  resolve st (joinpath working_dir (path_of_string name)) = inr (k ++ [name]).
Proof.
  intros [Hp Hn] Hr Hd. rewrite Hp. unfold joinpath, resolve in *. cbn [is_absolute root parts negb Py.is_empty].
  change (is_absolute {| root := root working_dir; parts := parts working_dir ++ [name] |})
    with (is_absolute working_dir).
  rewrite walk_app, Hr. cbn [walk]. rewrite Hd.
  destruct (String.eqb_spec name "..") as [E|_]; [contradiction|reflexivity].
Qed.

Lemma plain_name_is_real (name : string) : plain_name name -> real_name name = true.
Proof.
  intros [Hp Hn]. unfold real_name.
  destruct (String.eqb_spec name ".") as [->|_]; [discriminate|].
  destruct (String.eqb_spec name "..") as [E|_]; [contradiction|reflexivity].
Qed.

Lemma gone_after (st st' : state) (working_dir : Path) (name : string) (k : list string) :
  plain_name name ->
  resolve st working_dir = inr k -> lookup_node (files st) k = Some Dir ->
  cwd st' = cwd st -> files st' !! (k ++ [name]) = None ->
  exists_ st' (joinpath working_dir (path_of_string name)) = false.
Proof.
  intros Hpl Hr Hd Hc Hnone.
  pose proof (entry_resolves st working_dir name k Hpl Hr Hd) as He.
  unfold exists_, stat, resolve in *. rewrite Hc.
  destruct (walk (files st') _ _) as [e|k'] eqn:W; [reflexivity|].
  rewrite <- (walk_same _ _ _ _ _ _ He W). now rewrite lookup_node_snoc, Hnone.
Qed.

(** X26. After [setup_working_directory] has returned for a deck file name that is
    one path component, the deck file is there, and
    [cleanup_working_directory] on the same working directory raises nothing
    and keeps the current directory. With [keep_outputs] the deck file is
    gone afterwards when its name ends with [.lammps] or starts with
    [input.], as the default name does. Without [keep_outputs] it is gone
    when the working directory is not a symbolic link, also when the
    directory itself cannot be removed; when the working directory is a
    symbolic link nothing is removed and the deck file stays. *)
Theorem cleanup_removes_the_deck_file (deck_content : string) (context_files : list Path)
  (working_dir : Path) (deck_filename : string) (keep_outputs : bool)
  (st st1 : state) (p : Path) :
  plain_name deck_filename ->
  (keep_outputs = true ->
   Cleanup.matches_lammps deck_filename || Cleanup.matches_input deck_filename = true) ->
  setup_working_directory iter_strs iter_paths deck_content context_files working_dir
    deck_filename st = (st1, inr p) ->
  let r := Cleanup.cleanup_working_directory scandir_order islink working_dir keep_outputs
             st1 in
  is_file st1 p = true /\
  snd r = inr tt /\
  cwd (fst r) = cwd st1 /\
  (keep_outputs = true \/ islink st1 working_dir = false -> exists_ (fst r) p = false) /\
  (keep_outputs = false -> islink st1 working_dir = true ->
   fst r = st1 /\ is_file (fst r) p = true).
Proof.
  intros Hpl Hkeep Hs r.
  destruct (setup_leaves_the_deck _ _ _ _ _ _ _ _ _ Hs) as [Hf Hd].
  apply setup_steps in Hs as (_ & _ & _ & _ & _ & _ & _ & _ & Hp).
  destruct (is_dir_resolves st1 working_dir Hd) as (k & Hr & Hk).
  split; [exact Hf|].
  assert (Hfile : exists c, files st1 !! (k ++ [deck_filename]) = Some (File c)).
  { unfold is_file, stat in Hf. rewrite Hp, (entry_resolves st1 working_dir _ k Hpl Hr Hk) in Hf.
    rewrite lookup_node_snoc in Hf.
    destruct (files st1 !! (k ++ [deck_filename])) as [[c|]|]; try discriminate. eauto. }
  destruct Hfile as (c & Hfile).
  subst r. destruct keep_outputs.
  - rewrite (cleanup_keep_state scandir_order islink scandir_lists working_dir st1 k Hd Hr).
    cbn [fst snd cwd]. split; [reflexivity|]. split; [reflexivity|].
    split; [|discriminate]. intros _.
    rewrite Hp. apply (gone_after st1 _ working_dir deck_filename k Hpl Hr Hk); [reflexivity|].
    cbn [files]. rewrite keeping_lookup by exact scandir_lists.
    unfold removed_when_keeping.
    rewrite (proj2 (child_of_spec k (k ++ [deck_filename]) deck_filename) eq_refl).
    rewrite (plain_name_is_real _ Hpl), (Hkeep eq_refl), Hfile. reflexivity.
  - destruct (islink st1 working_dir) eqn:Hl.
    + assert (Hsame : Cleanup.cleanup_working_directory scandir_order islink working_dir
                        false st1 = (st1, inr tt)).
      { unfold Cleanup.cleanup_working_directory, bind, get, Cleanup.attempt, Cleanup.rmtree.
        unfold exists_, is_dir, stat in *. rewrite Hr in *. rewrite Hk.
        cbn [negb fst snd]. now rewrite Hr, Hk, Hl. }
      rewrite Hsame. cbn [fst snd]. split; [reflexivity|]. split; [reflexivity|].
      split; [intros [H|H]; discriminate H|]. intros _ _. split; [reflexivity|exact Hf].
    + pose proof (cleanup_tree_state scandir_order islink working_dir st1 k Hd Hl Hr) as Hst.
      cbv zeta in Hst.
      pose proof (cleanup_tree_lookup scandir_order islink working_dir st1 k
                    (k ++ [deck_filename]) Hd Hl Hr) as Hgone.
      rewrite strictly_below_snoc in Hgone.
      rewrite Hst in *. cbn [fst snd cwd] in *.
      split; [reflexivity|]. split; [reflexivity|].
      split; [|discriminate]. intros _.
      rewrite Hp. apply (gone_after st1 _ working_dir deck_filename k Hpl Hr Hk);
        [reflexivity|exact Hgone].
Qed.

End SetupThenCleanup.

(** The default deck name, in a directory that holds an old deck, with and
    without [keep_outputs]. *)
Lemma cleanup_removes_the_deck_file_witness :
  let st1 := fst (FS.setup_working_directory (fun l => l) (fun l => l) "units lj" []
                    (FS.path_of_string "work") "input.lammps" disk_with_old_files) in
  let kept := Cleanup.cleanup_working_directory (fun l => l) (fun _ _ => false)
                (FS.path_of_string "work") true st1 in
  let removed := Cleanup.cleanup_working_directory (fun l => l) (fun _ _ => false)
                   (FS.path_of_string "work") false st1 in
  FS.exists_ (fst kept) (FS.path_of_string "work/input.lammps") = false /\
  FS.exists_ (fst removed) (FS.path_of_string "work/input.lammps") = false.
Proof.
  cbv zeta. split.
  - destruct (cleanup_removes_the_deck_file (fun l => l) (fun l => l) (fun l => l)
                (fun _ _ => false) (fun l x => iff_refl _) "units lj" []
                (FS.path_of_string "work") "input.lammps" true disk_with_old_files
                (fst (FS.setup_working_directory (fun l => l) (fun l => l) "units lj" []
                        (FS.path_of_string "work") "input.lammps" disk_with_old_files))
                (FS.path_of_string "work/input.lammps"))
      as (_ & _ & _ & H & _).
    + split; [reflexivity|discriminate].
    + intros _. reflexivity.
    + vm_compute. reflexivity.
    + apply H. now left.
  - destruct (cleanup_removes_the_deck_file (fun l => l) (fun l => l) (fun l => l)
                (fun _ _ => false) (fun l x => iff_refl _) "units lj" []
                (FS.path_of_string "work") "input.lammps" false disk_with_old_files
                (fst (FS.setup_working_directory (fun l => l) (fun l => l) "units lj" []
                        (FS.path_of_string "work") "input.lammps" disk_with_old_files))
                (FS.path_of_string "work/input.lammps"))
      as (_ & _ & _ & H & _).
    + split; [reflexivity|discriminate].
    + discriminate.
    + vm_compute. reflexivity.
    + apply H. now right.
Defined.

(** ** The answer of the model *)

(** *** Stripping *)

Lemma rstrip_idem (s : string) : Py.rstrip (Py.rstrip s) = Py.rstrip s.
Proof.
  induction s as [|c s IH]; [reflexivity|].
  cbn [Py.rstrip]. destruct (Py.rstrip s) as [|d r] eqn:E.
  - destruct (Py.isspace c) eqn:Hc; [reflexivity|]. cbn [Py.rstrip]. now rewrite Hc.
  - cbn [Py.rstrip]. cbn [Py.rstrip] in IH. rewrite IH. reflexivity.
Qed.

Lemma lstrip_fixed (s : string) :
  Py.lstrip s = s <-> s = "" \/ exists c r, s = String c r /\ Py.isspace c = false.
Proof.
  destruct s as [|c r]; [split; auto|]. cbn [Py.lstrip]. split.
  - destruct (Py.isspace c) eqn:Hc; [|right; eauto].
    intros H. exfalso.
    assert (Hlen : forall x, String.length (Py.lstrip x) <= String.length x).
    { induction x as [|a x IHx]; [reflexivity|]. cbn [Py.lstrip].
      destruct (Py.isspace a); simpl; lia. }
    specialize (Hlen r). rewrite H in Hlen. simpl in Hlen. lia.
  - intros [H|(c' & r' & [= -> ->] & Hc)]; [discriminate|]. now rewrite Hc.
Qed.

Lemma lstrip_lstrip (s : string) : Py.lstrip (Py.lstrip s) = Py.lstrip s.
Proof.
  induction s as [|c s IH]; [reflexivity|]. cbn [Py.lstrip].
  destruct (Py.isspace c) eqn:Hc; [exact IH|]. cbn [Py.lstrip]. now rewrite Hc.
Qed.

Lemma lstrip_rstrip_lstrip (s : string) :
  Py.lstrip (Py.rstrip (Py.lstrip s)) = Py.rstrip (Py.lstrip s).
Proof.
  pose proof (proj1 (lstrip_fixed (Py.lstrip s)) (lstrip_lstrip s)) as [->|(c & r & -> & Hc)];
    [reflexivity|].
  destruct (rstrip_head c r Hc) as (r' & ->). cbn [Py.lstrip]. now rewrite Hc.
Qed.

Lemma strip_idem (s : string) : Py.strip (Py.strip s) = Py.strip s.
Proof. unfold Py.strip. now rewrite lstrip_rstrip_lstrip, rstrip_idem. Qed.

Lemma rstrip_nonempty (s : string) : s <> "" -> Py.rstrip s = s -> Py.rstrip s <> "".
Proof. intros H ->. exact H. Qed.

Lemma rstrip_app_fixed (x t : string) :
  t <> "" -> Py.rstrip t = t -> Py.rstrip (x +:+ t) = x +:+ t.
Proof.
  intros Ht Hr. induction x as [|c x IH]; [exact Hr|].
  change (String c x +:+ t) with (String c (x +:+ t)). cbn [Py.rstrip]. rewrite IH.
  destruct (x +:+ t) eqn:E; [|reflexivity].
  destruct x; [|discriminate]. now destruct t.
Qed.

Lemma rstrip_fixed_tail (c : ascii) (p : string) :
  p <> "" -> Py.rstrip (String c p) = String c p -> Py.rstrip p = p.
Proof.
  intros Hp. cbn [Py.rstrip]. destruct (Py.rstrip p) as [|d r] eqn:E.
  - destruct (Py.isspace c); [discriminate|]. intros [= <-]. contradiction.
  - now intros [= <-].
Qed.

Lemma rstrip_prefix (p rest : string) :
  p <> "" -> Py.rstrip p = p -> exists r', Py.rstrip (p +:+ rest) = p +:+ r'.
Proof.
  induction p as [|c p IH]; [contradiction|]. intros _ Hr.
  change (String c p +:+ rest) with (String c (p +:+ rest)).
  destruct p as [|d p].
  - change ("" +:+ rest) with rest. cbn [Py.rstrip] in Hr |- *.
    destruct (Py.isspace c) eqn:Hc; [discriminate|].
    destruct (Py.rstrip rest) as [|e r]; [exists ""|exists (String e r)]; reflexivity.
  - assert (Hp : Py.rstrip (String d p) = String d p)
      by (apply (rstrip_fixed_tail c); [discriminate|exact Hr]).
    destruct (IH ltac:(discriminate) Hp) as (r' & Hr').
    exists r'. cbn [Py.rstrip]. cbn [Py.rstrip] in Hr'. rewrite Hr'. reflexivity.
Qed.

Lemma strip_fixed_parts (s : string) :
  Py.strip s = s -> Py.lstrip s = s /\ Py.rstrip s = s.
Proof.
  intros H. assert (Hl : Py.lstrip s = s).
  { rewrite <- H. unfold Py.strip. apply lstrip_rstrip_lstrip. }
  split; [exact Hl|]. unfold Py.strip in H. now rewrite Hl in H.
Qed.

Lemma strip_prefix (p rest : string) :
  p <> "" -> Py.strip p = p -> exists r', Py.strip (p +:+ rest) = p +:+ r'.
Proof.
  intros Hp Hs. destruct (strip_fixed_parts p Hs) as [Hl Hr].
  apply lstrip_fixed in Hl as [->|(c & r & -> & Hc)]; [contradiction|].
  unfold Py.strip. change (String c r +:+ rest) with (String c (r +:+ rest)).
  cbn [Py.lstrip]. rewrite Hc.
  apply (rstrip_prefix (String c r) rest); [discriminate|exact Hr].
Qed.

Lemma count_lstrip (c : ascii) (s : string) : Py.count c s = 0 -> Py.count c (Py.lstrip s) = 0.
Proof.
  induction s as [|d s IH]; [reflexivity|]. cbn [Py.lstrip].
  destruct (Py.isspace d); [|trivial]. rewrite count_cons. intros H. apply IH. lia.
Qed.

Lemma count_rstrip (c : ascii) (s : string) : Py.count c s = 0 -> Py.count c (Py.rstrip s) = 0.
Proof.
  induction s as [|d s IH]; [reflexivity|]. rewrite count_cons. intros H.
  cbn [Py.rstrip]. destruct (Py.rstrip s) as [|e r] eqn:E.
  - destruct (Py.isspace d); [reflexivity|]. rewrite count_cons. cbn [Py.count]. lia.
  - rewrite count_cons. rewrite IH by lia. lia.
Qed.

Lemma count_strip (c : ascii) (s : string) : Py.count c s = 0 -> Py.count c (Py.strip s) = 0.
Proof. intros H. unfold Py.strip. now apply count_rstrip, count_lstrip. Qed.

(** *** Line endings *)

Lemma replace_crlf_plain (s : string) :
  Py.count Response.cr s = 0 -> Response.replace_crlf s = s.
Proof.
  induction s as [|c s IH]; [reflexivity|]. rewrite count_cons. intros H.
  destruct (Ascii.eqb c Response.cr) eqn:Hc; [lia|].
  cbn [Response.replace_crlf]. rewrite Hc. cbn [andb].
  destruct s; [reflexivity|]. now rewrite IH by lia.
Qed.

Lemma replace_cr_plain (b s : string) :
  Py.count Response.cr s = 0 -> Py.replace_chr Response.cr b s = s.
Proof.
  induction s as [|c s IH]; [reflexivity|]. rewrite count_cons. intros H.
  destruct (Ascii.eqb c Response.cr) eqn:Hc; [lia|].
  cbn [Py.replace_chr]. rewrite Hc. now rewrite IH by lia.
Qed.

Lemma unix_newlines_plain (s : string) :
  Py.count Response.cr s = 0 -> unix_newlines s = s.
Proof.
  intros H. unfold unix_newlines. rewrite replace_crlf_plain by exact H.
  now apply replace_cr_plain.
Qed.

Lemma unix_newlines_no_cr (s : string) : Py.count Response.cr (unix_newlines s) = 0.
Proof.
  unfold unix_newlines, nls. generalize (Response.replace_crlf s). intros t.
  induction t as [|c t IH]; [reflexivity|]. cbn [Py.replace_chr].
  destruct (Ascii.eqb c Response.cr) eqn:Hc.
  - cbn [String.append]. rewrite count_cons. now rewrite IH.
  - rewrite count_cons, Hc. now rewrite IH.
Qed.

Lemma replace_crlf_count (c : ascii) (s : string) :
  Py.count c s = 0 -> Py.count c (Response.replace_crlf s) = 0.
Proof.
  remember (Py.len s) as n eqn:Hn. revert s Hn.
  induction n as [n IH] using lt_wf_ind. intros s Hn.
  destruct s as [|a s]; [reflexivity|]. rewrite count_cons. intros H.
  cbn [Response.replace_crlf]. destruct s as [|b s].
  - rewrite count_cons. cbn [Py.count]. lia.
  - rewrite count_cons in H.
    destruct (Ascii.eqb a Response.cr && Ascii.eqb b nl) eqn:E.
    + apply andb_prop in E as [_ E]. apply Ascii.eqb_eq in E. subst b.
      rewrite count_cons.
      rewrite (IH (Py.len s)); [lia| |reflexivity|lia].
      subst n. cbn [Py.len String.length]. unfold Py.len. lia.
    + rewrite count_cons.
      rewrite (IH (Py.len (String b s))); [lia| |reflexivity|rewrite count_cons; lia].
      subst n. cbn [Py.len String.length]. lia.
Qed.

Lemma unix_newlines_count (c : ascii) (s : string) :
  c <> nl -> Py.count c s = 0 -> Py.count c (unix_newlines s) = 0.
Proof.
  intros Hc H. unfold unix_newlines, nls.
  pose proof (replace_crlf_count c s H) as H'. revert H'.
  generalize (Response.replace_crlf s). intros t.
  induction t as [|a t IH]; [reflexivity|]. rewrite count_cons. intros H'.
  cbn [Py.replace_chr]. destruct (Ascii.eqb a Response.cr).
  - cbn [String.append]. rewrite count_cons.
    destruct (Ascii.eqb_spec nl c) as [E|E]; [congruence|]. rewrite IH by lia. reflexivity.
  - rewrite count_cons. rewrite IH by lia. lia.
Qed.

Lemma unix_newlines_prefix (p t : string) :
  Py.count Response.cr p = 0 -> exists t', unix_newlines (p +:+ t) = p +:+ t'.
Proof.
  intros H. induction p as [|c p IH].
  - exists (unix_newlines t). reflexivity.
  - rewrite count_cons in H. destruct (Ascii.eqb c Response.cr) eqn:Hc; [lia|].
    destruct IH as (t' & IH); [lia|].
    change (String c p +:+ t) with (String c (p +:+ t)).
    unfold unix_newlines in *. cbn [Response.replace_crlf]. rewrite Hc. cbn [andb].
    destruct (p +:+ t) eqn:E.
    + cbn [Py.replace_chr]. rewrite Hc. destruct p; [|discriminate]. now exists "".
    + cbn [Py.replace_chr]. rewrite Hc. rewrite IH. now exists t'.
Qed.

(** *** The fences *)

Lemma fence_needs_backquote (pv : option ascii) (s : string) :
  head_is bq s = false -> Re.match_lit false "```" pv s = None.
Proof.
  destruct s as [|c s]; [reflexivity|]. cbn [head_is]. intros H.
  cbn [Re.match_lit]. unfold Re.chr_eq. rewrite Ascii.eqb_sym. unfold bq in H. now rewrite H.
Qed.

Lemma head_is_count (c : ascii) (s : string) : Py.count c s = 0 -> head_is c s = false.
Proof.
  destruct s as [|d s]; [reflexivity|]. rewrite count_cons. cbn [head_is].
  destruct (Ascii.eqb d c); [lia|reflexivity].
Qed.

Lemma open_fence_absent (s : string) :
  head_is bq s = false -> Response.sub_at_start Response.re_open_fence s = s.
Proof.
  intros H. unfold Response.sub_at_start, Re.re_match, Re.match_here, Response.re_open_fence.
  cbn [Re.rmatch]. now rewrite fence_needs_backquote.
Qed.

Lemma close_fence_none (prev : option ascii) (c : ascii) (s : string) :
  Ascii.eqb c bq = false -> (Ascii.eqb c nl = true -> head_is bq s = false) ->
  Re.match_here false Response.re_close_fence prev (String c s) = None.
Proof.
  intros Hc Hn. unfold Re.match_here, Response.re_close_fence, Response.opt.
  cbn [Re.rmatch].
  assert (H2 : Re.match_lit false "```" prev (String c s) = None)
    by (apply fence_needs_backquote; exact Hc).
  cbn [Re.match_lit] in H2 |- *. unfold Re.chr_eq in H2 |- *.
  rewrite (Ascii.eqb_sym nl c).
  destruct (Ascii.eqb c nl) eqn:E.
  - pose proof (fence_needs_backquote (Some c) s (Hn eq_refl)) as H1.
    destruct s as [|d s]; cbn [Re.match_lit] in H1 |- *; unfold Re.chr_eq in H1 |- *.
    + now rewrite H2.
    + rewrite H1. now rewrite H2.
  - now rewrite H2.
Qed.

Lemma close_fence_prefix (p t : string) (prev : option ascii) :
  Py.count bq p = 0 -> (Py.count nl p = 0 \/ head_is bq t = false) ->
  exists pv, Response.sub_from Response.re_close_fence prev 0 (p +:+ t)
             = p +:+ Response.sub_from Response.re_close_fence pv 0 t.
Proof.
  revert prev. induction p as [|c p IH]; intros prev Hb Hn.
  - exists prev. reflexivity.
  - rewrite count_cons in Hb. destruct (Ascii.eqb c bq) eqn:Hc; [lia|].
    change (String c p +:+ t) with (String c (p +:+ t)).
    cbn [Response.sub_from]. rewrite close_fence_none.
    + destruct (IH (Some c)) as (pv & ->); [lia| |now exists pv].
      destruct Hn as [Hn|Hn]; [left|now right].
      rewrite count_cons in Hn. lia.
    + exact Hc.
    + intros E. destruct Hn as [Hn|Hn].
      * rewrite count_cons, E in Hn. lia.
      * destruct p as [|d p]; [exact Hn|].
        cbn [String.append head_is]. rewrite count_cons in Hb.
        destruct (Ascii.eqb d bq); [lia|reflexivity].
Qed.

Lemma close_fence_absent (s : string) (prev : option ascii) :
  Py.count bq s = 0 -> Response.sub_from Response.re_close_fence prev 0 s = s.
Proof.
  intros H. destruct (close_fence_prefix s "" prev H) as (pv & E); [now right|].
  rewrite append_nil_r in E. rewrite E. cbn [Response.sub_from]. apply append_nil_r.
Qed.

Lemma close_fence_removed (prev : option ascii) :
  Response.sub_from Response.re_close_fence prev 0 (nls +:+ "```") = "".
Proof. reflexivity. Qed.

(** *** Cleaning *)

Lemma clean_steps (s : string) :
  Response.clean_llm_output s
  = Py.strip (unix_newlines
               (Response.sub_all Response.re_close_fence
                  (Response.sub_at_start Response.re_open_fence (Py.strip s)))).
Proof. reflexivity. Qed.

Lemma clean_plain (s : string) :
  Py.count bq s = 0 ->
  Response.clean_llm_output s = Py.strip (unix_newlines (Py.strip s)).
Proof.
  intros H. unfold Response.clean_llm_output. cbv zeta.
  assert (Hs : Py.count bq (Py.strip s) = 0) by now apply count_strip.
  rewrite open_fence_absent by now apply head_is_count.
  unfold Response.sub_all. rewrite close_fence_absent by exact Hs. reflexivity.
Qed.

Lemma clean_stripped (s : string) :
  Py.strip (Response.clean_llm_output s) = Response.clean_llm_output s.
Proof. unfold Response.clean_llm_output. cbv zeta. apply strip_idem. Qed.

Lemma clean_no_cr (s : string) : Py.count Response.cr (Response.clean_llm_output s) = 0.
Proof.
  unfold Response.clean_llm_output. cbv zeta. apply count_strip.
  apply (unix_newlines_no_cr _).
Qed.

Lemma clean_fixed (s : string) :
  Py.count bq s = 0 -> Py.count Response.cr s = 0 -> Py.strip s = s ->
  Response.clean_llm_output s = s.
Proof.
  intros Hb Hc Hs. rewrite clean_plain by exact Hb.
  rewrite Hs, unix_newlines_plain by exact Hc. exact Hs.
Qed.

(** X21. The result of [clean_llm_output] holds no carriage return and has no
    white space at either end. For a response without a backquote it is the
    stripped response with its line endings rewritten, it has no backquote,
    and cleaning it again changes nothing; without carriage returns either,
    it is the stripped response. *)
Theorem clean_llm_output_normalises (response : string) :
  let r := Response.clean_llm_output response in
  Py.count Response.cr r = 0 /\
  Py.strip r = r /\
  (Py.count bq response = 0 ->
   r = Py.strip (unix_newlines (Py.strip response)) /\
   Py.count bq r = 0 /\
   Response.clean_llm_output r = r) /\
  (Py.count bq response = 0 -> Py.count Response.cr response = 0 ->
   r = Py.strip response).
Proof.
  intros r. subst r. split; [apply clean_no_cr|]. split; [apply clean_stripped|].
  assert (Hq : Py.count bq response = 0 -> Py.count bq (Response.clean_llm_output response) = 0).
  { intros H. rewrite clean_plain by exact H.
    apply count_strip, unix_newlines_count; [discriminate|]. now apply count_strip. }
  split.
  - intros H. split; [now apply clean_plain|]. split; [now apply Hq|].
    apply clean_fixed; [now apply Hq|apply clean_no_cr|apply clean_stripped].
  - intros Hb Hc. rewrite clean_plain by exact Hb.
    rewrite unix_newlines_plain by now apply count_strip.
    apply strip_idem.
Qed.

(** *** A fenced script *)

Lemma startswith_self (p r : string) : Py.startswith p (p +:+ r) = true.
Proof.
  induction p as [|c p IH]; [reflexivity|].
  change (String c p +:+ r) with (String c (p +:+ r)). cbn [Py.startswith].
  now rewrite Ascii.eqb_refl, IH.
Qed.

Lemma match_lit_prefix (l : string) (prev : option ascii) (s : string) :
  Re.match_lit false l prev (l +:+ s) = Some (end_chr prev l, s).
Proof.
  revert prev. induction l as [|c l IH]; intros prev.
  - change ("" +:+ s) with s. now destruct s.
  - change (String c l +:+ s) with (String c (l +:+ s)). cbn [Re.match_lit end_chr].
    unfold Re.chr_eq. rewrite Ascii.eqb_refl. apply IH.
Qed.

Lemma match_lit_none (l : string) (prev : option ascii) (s : string) :
  Py.startswith l s = false -> Re.match_lit false l prev s = None.
Proof.
  revert prev s. induction l as [|c l IH]; intros prev s; [discriminate|].
  destruct s as [|d s]; [reflexivity|]. cbn [Py.startswith Re.match_lit]. unfold Re.chr_eq.
  destruct (Ascii.eqb c d); [|reflexivity]. cbn [andb]. apply IH.
Qed.

Lemma space_then_script {R} (K : option ascii -> string -> list string -> option R)
  (pv : option ascii) (c : ascii) (r : string) (gs : list string) (x : R) :
  Py.isspace c = false -> (forall pv', K pv' (String c r) gs = Some x) ->
  Re.rmatch false (Re.Seq (Re.Rep Re.space 0 true) (Response.opt (Re.Lit nls))) pv
    (String nl (String c r)) gs K = Some x.
Proof.
  intros Hc HK. unfold Response.opt. cbn [Re.rmatch Re.rep_greedy].
  change (Re.space nl) with true. cbv iota. unfold Re.space at 1. rewrite Hc.
  cbn [Nat.pred Nat.eqb]. cbv iota.
  rewrite (match_lit_none nls (Some nl) (String c r)).
  - cbn [Re.match_lit]. now rewrite HK.
  - unfold nls. cbn [Py.startswith].
    destruct (Ascii.eqb_spec nl c) as [<-|N]; [discriminate|reflexivity].
Qed.

Lemma script_at_once {R} (K : option ascii -> string -> list string -> option R)
  (pv : option ascii) (c : ascii) (r : string) (gs : list string) (x : R) :
  Py.isspace c = false -> (forall pv', K pv' (String c r) gs = Some x) ->
  Re.rmatch false (Re.Seq (Re.Rep Re.space 0 true) (Response.opt (Re.Lit nls))) pv
    (String c r) gs K = Some x.
Proof.
  intros Hc HK. unfold Response.opt. cbn [Re.rmatch Re.rep_greedy].
  unfold Re.space at 1. rewrite Hc. cbn [Nat.eqb]. cbv iota.
  rewrite (match_lit_none nls pv (String c r)).
  - cbn [Re.match_lit]. now rewrite HK.
  - unfold nls. cbn [Py.startswith].
    destruct (Ascii.eqb_spec nl c) as [<-|N]; [discriminate|reflexivity].
Qed.

Ltac try_literals :=
  repeat (first [rewrite match_lit_prefix | rewrite match_lit_none by reflexivity];
          cbv beta iota).

Lemma open_fence_listed (tag : string) (c : ascii) (r : string) :
  In tag ("" :: fence_tags) -> Py.isspace c = false ->
  Response.sub_at_start Response.re_open_fence ("```" +:+ tag +:+ nls +:+ String c r)
  = String c r.
Proof.
  intros Htag Hc.
  unfold Response.sub_at_start, Re.re_match, Re.match_here, Response.re_open_fence.
  remember (Re.Seq (Re.Rep Re.space 0 true) (Response.opt (Re.Lit (String nl ""))))
    as tail eqn:Et.
  unfold Response.opt at 1.
  cbn [Re.rmatch]. rewrite match_lit_prefix. cbv beta iota.
  unfold fence_tags in Htag. cbn [In] in Htag.
  assert (Hk : forall pv,
    Re.rmatch false tail pv (nls +:+ String c r) []
      (fun _ s' gs =>
         Some {| Re.group0 :=
                   Py.take (Py.len ("```" +:+ tag +:+ nls +:+ String c r) - Py.len s')
                     ("```" +:+ tag +:+ nls +:+ String c r);
                 Re.groups := gs; Re.after := s' |})
    = Some {| Re.group0 :=
                Py.take (Py.len ("```" +:+ tag +:+ nls +:+ String c r) - Py.len (String c r))
                  ("```" +:+ tag +:+ nls +:+ String c r);
              Re.groups := []; Re.after := String c r |}).
  { intros pv. subst tail. change (nls +:+ String c r) with (String nl (String c r)).
    apply space_then_script; [exact Hc|reflexivity]. }
  destruct Htag as [<-|[<-|[<-|[<-|[<-|[<-|[<-|[]]]]]]]];
    try_literals; rewrite ?Hk; reflexivity.
Qed.

Lemma open_fence_unlisted (c : ascii) (t rest : string) :
  Py.isspace c = false ->
  (forall a, In a fence_tags -> Py.startswith a (String c t +:+ rest) = false) ->
  Response.sub_at_start Response.re_open_fence ("```" +:+ String c t +:+ rest)
  = String c t +:+ rest.
Proof.
  intros Hc Htag.
  unfold Response.sub_at_start, Re.re_match, Re.match_here, Response.re_open_fence.
  remember (Re.Seq (Re.Rep Re.space 0 true) (Response.opt (Re.Lit (String nl ""))))
    as tail eqn:Et.
  unfold Response.opt at 1.
  cbn [Re.rmatch]. rewrite match_lit_prefix. cbv beta iota.
  rewrite !match_lit_none by (apply Htag; unfold fence_tags; cbn [In]; auto 10).
  cbn [Re.match_lit]. subst tail.
  change (String c t +:+ rest) with (String c (t +:+ rest)).
  erewrite script_at_once; [|exact Hc|intros pv'; reflexivity].
  reflexivity.
Qed.

Lemma fenced_is_stripped (tag body : string) :
  Py.strip (fenced tag body) = fenced tag body.
Proof.
  unfold Py.strip, fenced. change (Py.lstrip ("```" +:+ ?x)) with ("```" +:+ x).
  rewrite <- !append_assoc. apply rstrip_app_fixed; [discriminate|reflexivity].
Qed.

Lemma close_fence_of_block (p : string) :
  Py.count bq p = 0 ->
  Response.sub_all Response.re_close_fence (p +:+ nls +:+ "```") = p.
Proof.
  intros Hp. unfold Response.sub_all.
  destruct (close_fence_prefix p (nls +:+ "```") None Hp) as (pv & ->); [now right|].
  rewrite close_fence_removed. apply append_nil_r.
Qed.

Lemma stripped_head (s : string) :
  s <> "" -> Py.strip s = s -> exists c r, s = String c r /\ Py.isspace c = false.
Proof.
  intros Hs H. apply strip_fixed_parts in H as [Hl _].
  apply lstrip_fixed in Hl as [->|H]; [contradiction|exact H].
Qed.

Lemma fenced_open_listed (tag body : string) :
  In tag ("" :: fence_tags) -> body <> "" -> Py.lstrip body = body ->
  Response.sub_at_start Response.re_open_fence (fenced tag body) = body +:+ nls +:+ "```".
Proof.
  intros Htag Hne Hl.
  apply lstrip_fixed in Hl as [->|(c & r & -> & Hsp)]; [contradiction|].
  unfold fenced. change (String c r +:+ nls +:+ "```") with (String c (r +:+ nls +:+ "```")).
  apply open_fence_listed; assumption.
Qed.

Lemma startswith_before_newline (a x y : string) :
  Py.count nl a = 0 -> Py.startswith a (x +:+ nls) = false ->
  Py.startswith a (x +:+ nls +:+ y) = false.
Proof.
  revert x. induction a as [|d a IH]; intros x Hn H; [discriminate|].
  rewrite count_cons in Hn. destruct (Ascii.eqb d nl) eqn:Hd; [lia|].
  destruct x as [|e x].
  - unfold nls in *. cbn [String.append Py.startswith] in *.
    now rewrite Hd.
  - change (String e x +:+ nls +:+ y) with (String e (x +:+ nls +:+ y)).
    change (String e x +:+ nls) with (String e (x +:+ nls)) in H.
    cbn [Py.startswith] in *. destruct (Ascii.eqb d e); [|reflexivity].
    cbn [andb] in *. apply IH; [lia|exact H].
Qed.

Lemma fenced_open_unlisted (tag body : string) :
  tag <> "" -> Py.lstrip tag = tag ->
  (forall a, In a fence_tags -> Py.startswith a (tag +:+ nls) = false) ->
  Response.sub_at_start Response.re_open_fence (fenced tag body)
  = tag +:+ nls +:+ body +:+ nls +:+ "```".
Proof.
  intros Hne Hl Htag.
  apply lstrip_fixed in Hl as [->|(c & t & -> & Hsp)]; [contradiction|].
  unfold fenced. apply open_fence_unlisted; [exact Hsp|].
  intros a Ha. apply startswith_before_newline; [|now apply Htag].
  unfold fence_tags in Ha. cbn [In] in Ha.
  destruct Ha as [<-|[<-|[<-|[<-|[<-|[<-|[]]]]]]]; reflexivity.
Qed.

(** X22. [clean_llm_output] returns the body of a fenced block whose opening fence
    has no tag or one of the tags lammps, LAMMPS, lmp, LMP, in, sh, when the
    body is not empty, is stripped and has no backquote and no carriage
    return. *)
Theorem fenced_script_is_unwrapped (tag body : string) :
  In tag ("" :: fence_tags) ->
  body <> "" -> Py.strip body = body ->
  Py.count bq body = 0 -> Py.count Response.cr body = 0 ->
  Response.clean_llm_output (fenced tag body) = body.
Proof.
  intros Htag Hne Hs Hb Hc.
  rewrite clean_steps, fenced_is_stripped.
  rewrite fenced_open_listed by (try assumption; now apply strip_fixed_parts).
  rewrite close_fence_of_block by exact Hb.
  rewrite unix_newlines_plain by exact Hc. exact Hs.
Qed.

(** A script in a fence tagged lammps. *)
Lemma fenced_script_is_unwrapped_witness :
  Response.clean_llm_output (fenced "lammps" (deck_of ["units lj"; "run 0"]))
  = deck_of ["units lj"; "run 0"].
Proof.
  apply fenced_script_is_unwrapped.
  - right. left. reflexivity.
  - discriminate.
  - reflexivity.
  - reflexivity.
  - reflexivity.
Defined.

(** X23. When the line of the opening fence starts with none of the known tags,
    [clean_llm_output] removes the fences only: the tag stays as the first
    line of the script. *)
Theorem unknown_fence_tag_stays (tag body : string) :
  tag <> "" -> Py.lstrip tag = tag ->
  (forall a, In a fence_tags -> Py.startswith a (tag +:+ nls) = false) ->
  body <> "" -> Py.rstrip body = body ->
  Py.count bq (tag +:+ body) = 0 -> Py.count Response.cr (tag +:+ body) = 0 ->
  Response.clean_llm_output (fenced tag body) = tag +:+ nls +:+ body.
Proof.
  intros Hne Hl Htag Hbne Hr Hb Hc.
  rewrite count_app in Hb, Hc.
  rewrite clean_steps, fenced_is_stripped.
  rewrite fenced_open_unlisted by assumption.
  assert (Hq : forall c, c <> nl -> Py.count c tag + Py.count c body = 0 ->
                         Py.count c (tag +:+ nls +:+ body) = 0).
  { intros c Hn H. rewrite !count_app. unfold nls. rewrite count_cons.
    destruct (Ascii.eqb_spec nl c) as [E|E]; [congruence|]. cbn [Py.count]. lia. }
  replace (tag +:+ nls +:+ body +:+ nls +:+ "```")
    with ((tag +:+ nls +:+ body) +:+ nls +:+ "```") by (now rewrite !append_assoc).
  rewrite close_fence_of_block by (apply Hq; [discriminate|exact Hb]).
  rewrite unix_newlines_plain by (apply Hq; [discriminate|exact Hc]).
  apply lstrip_fixed in Hl as [->|(c & t & -> & Hsp)]; [contradiction|].
  unfold Py.strip.
  change (String c t +:+ nls +:+ body) with (String c (t +:+ nls +:+ body)).
  cbn [Py.lstrip]. rewrite Hsp.
  change (String c (t +:+ nls +:+ body)) with (String c t +:+ nls +:+ body).
  rewrite <- append_assoc. apply rstrip_app_fixed; assumption.
Qed.

(** A script in a fence tagged python. *)
Lemma unknown_fence_tag_stays_witness :
  Response.clean_llm_output (fenced "python" "units lj") = deck_of ["python"; "units lj"].
Proof.
  apply (unknown_fence_tag_stays "python" "units lj").
  - discriminate.
  - reflexivity.
  - intros a H. cbn [fence_tags In] in H.
    destruct H as [<-|[<-|[<-|[<-|[<-|[<-|[]]]]]]]; reflexivity.
  - discriminate.
  - reflexivity.
  - reflexivity.
  - reflexivity.
Defined.

(** *** Reading the answer *)

Lemma from_first_spec (sub s : string) :
  match Response.from_first sub s with
  | Some tail => Py.startswith sub tail = true /\ exists pre, s = pre +:+ tail
  | None => Py.contains sub s = false
  end.
Proof.
  induction s as [|c s IH].
  - cbn [Response.from_first Py.contains]. destruct (Py.startswith sub "") eqn:E.
    + split; [exact E|now exists ""].
    + reflexivity.
  - cbn [Response.from_first]. rewrite contains_cons.
    destruct (Py.startswith sub (String c s)) eqn:E.
    + split; [exact E|now exists ""].
    + cbn [orb]. destruct (Response.from_first sub s) as [tail|].
      * destruct IH as [H (pre & ->)]. split; [exact H|now exists (String c pre)].
      * exact IH.
Qed.

Lemma literal_needs_head (c : ascii) (l : string) (pv : option ascii) (s : string) :
  head_is c s = false -> Re.match_lit false (String c l) pv s = None.
Proof.
  destruct s as [|d s]; [reflexivity|]. cbn [head_is Re.match_lit]. unfold Re.chr_eq.
  rewrite Ascii.eqb_sym. now intros ->.
Qed.

Lemma no_json_block (s : string) (prev : option ascii) :
  Py.count bq s = 0 -> Re.search_from false Response.re_json_block prev s = None.
Proof.
  revert prev. induction s as [|c s IH]; intros prev H.
  - reflexivity.
  - rewrite count_cons in H. cbn [Re.search_from].
    replace (Re.match_here false Response.re_json_block prev (String c s)) with (@None Re.mobj).
    + apply IH. lia.
    + unfold Re.match_here, Response.re_json_block. cbn [Re.rmatch].
      rewrite (literal_needs_head "`"); [reflexivity|].
      cbn [head_is]. fold bq. destruct (Ascii.eqb c bq); [lia|reflexivity].
Qed.

Lemma clean_keeps_prefix (p rest : string) :
  p <> "" -> Py.strip p = p ->
  Py.count bq p = 0 -> Py.count nl p = 0 -> Py.count Response.cr p = 0 ->
  exists r', Response.clean_llm_output (p +:+ rest) = p +:+ r'.
Proof.
  intros Hne Hs Hb Hn Hc. rewrite clean_steps.
  destruct (strip_prefix p rest Hne Hs) as (r1 & ->).
  rewrite open_fence_absent.
  2:{ destruct p as [|c p]; [contradiction|]. rewrite count_cons in Hb.
      cbn [String.append head_is]. destruct (Ascii.eqb c bq); [lia|reflexivity]. }
  unfold Response.sub_all.
  destruct (close_fence_prefix p r1 None Hb) as (pv & ->); [now left|].
  destruct (unix_newlines_prefix p (Response.sub_from Response.re_close_fence pv 0 r1) Hc)
    as (r2 & ->).
  apply strip_prefix; assumption.
Qed.

Lemma clean_twice (s : string) :
  Py.count bq s = 0 ->
  Response.clean_llm_output (Response.clean_llm_output s) = Response.clean_llm_output s.
Proof.
  intros H. apply clean_fixed; [|apply clean_no_cr|apply clean_stripped].
  rewrite clean_plain by exact H.
  apply count_strip, unix_newlines_count; [discriminate|]. now apply count_strip.
Qed.

Lemma clean_of_stripped (s : string) :
  Response.clean_llm_output (Py.strip s) = Response.clean_llm_output s.
Proof. rewrite !clean_steps. now rewrite strip_idem. Qed.

Section ReadingTheAnswer.

Variable read_assumptions : string -> option (list Generator.Assumption).

(** X24. [parse_llm_response] raises exactly when the response has a json block
    whose reading raises; when the response holds the marker
    [# LAMMPS INPUT SCRIPT], the script returned starts with it and so is not
    empty; and for a response without a backquote the result is the cleaned
    text from the marker on, or the cleaned response when there is no marker,
    with no assumption. *)
Theorem parse_llm_response_script (response : string) :
  let r := Response.parse_llm_response read_assumptions response in
  (r = None <->
   exists m, Re.re_search false Response.re_json_block response = Some m /\
             read_assumptions (Re.group 1 m) = None) /\
  (Py.contains Response.script_marker response = true ->
   forall deck a, r = Some (deck, a) ->
     Py.startswith Response.script_marker deck = true /\ deck <> "") /\
  (Py.count bq response = 0 ->
   r = Some (Response.clean_llm_output (script_part response), [])).
Proof.
  intros r. subst r. unfold Response.parse_llm_response. cbv zeta.
  split; [|split].
  - destruct (Re.re_search false Response.re_json_block response) as [m|].
    + destruct (read_assumptions (Re.group 1 m)) as [a|] eqn:E.
      * split; [discriminate|]. intros (m' & [= <-] & H). congruence.
      * split; [eauto|reflexivity].
    + split; [discriminate|]. intros (m' & H & _). discriminate.
  - intros Hm deck a.
    pose proof (from_first_spec Response.script_marker response) as Hf.
    destruct (Response.from_first Response.script_marker response) as [tail|];
      [|congruence].
    destruct Hf as [Hst _]. apply startswith_prefix in Hst as (rest & ->).
    destruct (strip_prefix Response.script_marker rest) as (r1 & E);
      [discriminate|reflexivity|].
    rewrite E.
    destruct (clean_keeps_prefix Response.script_marker r1) as (r2 & E2);
      [discriminate|reflexivity|reflexivity|reflexivity|reflexivity|].
    rewrite E2.
    destruct (match Re.re_search false Response.re_json_block response with
              | Some m => read_assumptions (Re.group 1 m)
              | None => Some []
              end); [|discriminate].
    intros [= <- _]. split; [exact (startswith_self Response.script_marker r2)|discriminate].
  - intros Hb. unfold Re.re_search. rewrite no_json_block by exact Hb.
    unfold script_part.
    pose proof (from_first_spec Response.script_marker response) as Hf.
    destruct (Response.from_first Response.script_marker response) as [tail|].
    + now rewrite clean_of_stripped.
    + now rewrite clean_twice.
Qed.

End ReadingTheAnswer.

(** ** The kind of a context file *)

Lemma lower_suffix (q : FS.Path) :
  Py.lower (Discovery.suffix q) =
  match Discovery.rfind "." (Py.lower (FS.name q)) with
  | Some i => if (0 <? i) && (i <? Py.len (Py.lower (FS.name q)) - 1)
              then Py.drop i (Py.lower (FS.name q)) else ""
  | None => ""
  end.
Proof.
  unfold Discovery.suffix. rewrite rfind_lower, lower_len.
  destruct (Discovery.rfind "." (FS.name q)) as [i|]; [|reflexivity].
  destruct ((0 <? i) && (i <? Py.len (FS.name q) - 1)); [apply lower_drop|reflexivity].
Qed.

Lemma lower_suffix_of (q : FS.Path) (stem mid body : string) :
  Py.lower (FS.name q) = stem +:+ mid +:+ String "." body ->
  Py.is_empty (stem +:+ mid) = false -> Py.is_empty body = false -> Py.count "." body = 0 ->
  Py.lower (Discovery.suffix q) = String "." body.
Proof.
  intros Hn Hs Hb Hc. rewrite lower_suffix, Hn. rewrite <- append_assoc.
  generalize dependent (stem +:+ mid). clear Hn. intros a Hs.
  rewrite (rfind_last "." a body Hc), len_append.
  destruct a as [|s0 x]; [discriminate|].
  destruct body as [|b0 body]; [discriminate|].
  replace ((0 <? Py.len (String s0 x))
           && (Py.len (String s0 x) <? Py.len (String s0 x)
                                       + Py.len (String "." (String b0 body)) - 1))
    with true.
  - apply drop_append.
  - symmetry. apply andb_true_intro. split; [reflexivity|].
    apply Nat.ltb_lt. unfold Py.len. simpl. lia.
Qed.

(** X25. For a name made of a stem that is not empty and an extension that
    [detect_file_type] knows, the kind is read off the extension, whatever
    the content. A name that ends with [.eam.fs] or [.eam.alloy] is an EAM
    potential only when the first lines of the content hold [nrho] and
    [drho]: its suffix is [.fs] or [.alloy], so the two compound entries of
    the EAM test never apply; [classify_file] calls the same name a
    potential. *)
Theorem detect_file_type_by_extension (path : FS.Path) (content : string) :
  (forall stem ext kind,
     Py.lower (FS.name path) = stem +:+ ext -> Py.is_empty stem = false ->
     In (ext, kind) kind_of_extension ->
     FileContext.detect_file_type path content = kind) /\
  (forall stem ext,
     Py.lower (FS.name path) = stem +:+ ext -> In ext [".eam.fs"; ".eam.alloy"] ->
     FileContext.detect_file_type path content = "eam_potential" ->
     Py.contains "nrho" (FileContext.first_lines content) = true /\
     Py.contains "drho" (FileContext.first_lines content) = true) /\
  (forall stem ext,
     Py.lower (FS.name path) = stem +:+ ext -> In ext [".eam.fs"; ".eam.alloy"] ->
     Discovery.classify_file path = "potential").
Proof.
  split; [|split].
  - intros stem ext kind Hn Hs Hk.
    assert (Hsuf : forall body, ext = String "." body -> Py.is_empty body = false ->
                     Py.count "." body = 0 -> Py.lower (Discovery.suffix path) = ext).
    { intros body -> Hb Hc. apply (lower_suffix_of path stem "" body); [exact Hn| |exact Hb|exact Hc].
      now rewrite append_nil_r. }
    unfold kind_of_extension in Hk. cbn [In] in Hk.
    unfold FileContext.detect_file_type. cbv zeta.
    repeat (destruct Hk as [[= <- <-]|Hk];
            [rewrite (Hsuf _ eq_refl eq_refl eq_refl); reflexivity|]).
    destruct Hk.
  - intros stem ext Hn Hext.
    assert (Hsuf : Py.lower (Discovery.suffix path) = ".fs"
                   \/ Py.lower (Discovery.suffix path) = ".alloy").
    { cbn [In] in Hext. destruct Hext as [<-|[<-|[]]].
      - left. apply (lower_suffix_of path stem ".eam" "fs"); [exact Hn| |reflexivity|reflexivity].
        now destruct stem.
      - right. apply (lower_suffix_of path stem ".eam" "alloy");
          [exact Hn| |reflexivity|reflexivity].
        now destruct stem. }
    unfold FileContext.detect_file_type. cbv zeta.
    assert (Hgoal : forall s, (s = ".fs" \/ s = ".alloy") ->
      (if Discovery.str_in s [".data"; ".dat"] then "data_file"
       else if Discovery.str_in s [".in"; ".lmp"; ".lammps"; ".inp"] then "input_file"
       else if Discovery.str_in s [".eam"; ".eam.fs"; ".eam.alloy"] then "eam_potential"
       else if String.eqb s ".tersoff" then "tersoff_potential"
       else if String.eqb s ".sw" then "sw_potential"
       else if Discovery.str_in s [".meam"; ".library"] then "meam_potential"
       else if String.eqb s ".reax" then "reax_potential"
       else if String.eqb s ".sh" then "shell_script"
       else if Py.contains "potential" (Py.lower (FS.name path))
               || Py.contains "pot" (Py.lower (FS.name path)) then "potential_file"
       else if Py.contains "param" (Py.lower (FS.name path)) then "parameter_file"
       else if FileContext.any_in FileContext.data_keywords (FileContext.first_lines content)
       then "data_file"
       else if FileContext.any_in FileContext.input_keywords (FileContext.first_lines content)
       then "input_file"
       else if Py.contains "nrho" (FileContext.first_lines content)
               && Py.contains "drho" (FileContext.first_lines content)
       then "eam_potential"
       else "unknown") = "eam_potential" ->
      Py.contains "nrho" (FileContext.first_lines content) = true /\
      Py.contains "drho" (FileContext.first_lines content) = true).
    { intros s [-> | ->].
      - change (Discovery.str_in ".fs" [".data"; ".dat"]) with false.
        change (Discovery.str_in ".fs" [".in"; ".lmp"; ".lammps"; ".inp"]) with false.
        change (Discovery.str_in ".fs" [".eam"; ".eam.fs"; ".eam.alloy"]) with false.
        change (Discovery.str_in ".fs" [".meam"; ".library"]) with false.
        change (String.eqb ".fs" ".tersoff") with false.
        change (String.eqb ".fs" ".sw") with false.
        change (String.eqb ".fs" ".reax") with false.
        change (String.eqb ".fs" ".sh") with false. cbv iota.
        destruct (Py.contains "potential" (Py.lower (FS.name path))
                  || Py.contains "pot" (Py.lower (FS.name path))); [discriminate|].
        destruct (Py.contains "param" (Py.lower (FS.name path))); [discriminate|].
        destruct (FileContext.any_in FileContext.data_keywords _); [discriminate|].
        destruct (FileContext.any_in FileContext.input_keywords _); [discriminate|].
        destruct (Py.contains "nrho" _); [|discriminate].
        destruct (Py.contains "drho" _); [auto|discriminate].
      - change (Discovery.str_in ".alloy" [".data"; ".dat"]) with false.
        change (Discovery.str_in ".alloy" [".in"; ".lmp"; ".lammps"; ".inp"]) with false.
        change (Discovery.str_in ".alloy" [".eam"; ".eam.fs"; ".eam.alloy"]) with false.
        change (Discovery.str_in ".alloy" [".meam"; ".library"]) with false.
        change (String.eqb ".alloy" ".tersoff") with false.
        change (String.eqb ".alloy" ".sw") with false.
        change (String.eqb ".alloy" ".reax") with false.
        change (String.eqb ".alloy" ".sh") with false. cbv iota.
        destruct (Py.contains "potential" (Py.lower (FS.name path))
                  || Py.contains "pot" (Py.lower (FS.name path))); [discriminate|].
        destruct (Py.contains "param" (Py.lower (FS.name path))); [discriminate|].
        destruct (FileContext.any_in FileContext.data_keywords _); [discriminate|].
        destruct (FileContext.any_in FileContext.input_keywords _); [discriminate|].
        destruct (Py.contains "nrho" _); [|discriminate].
        destruct (Py.contains "drho" _); [auto|discriminate]. }
    exact (Hgoal _ Hsuf).
  - intros stem ext Hn Hext. unfold Discovery.classify_file. cbv zeta.
    replace (Py.contains ".eam." (Py.lower (FS.name path))) with true; [reflexivity|].
    symmetry. rewrite Hn. apply contains_app_l.
    cbn [In] in Hext. destruct Hext as [<-|[<-|[]]]; reflexivity.
Qed.
